(** * Musical Ear Test: trial sequencing, scoring and ledger

    A shallow embedding of [musical_ear.py] (and of its near-duplicate
    [musical_ear_psd.py], whose engine differs only in the ledger row
    omitting the experiment name): the stimulus catalogue
    ([load_audio_files]), the response window
    ([play_stimulus_and_display_prompt]), scoring, elapsed-time
    bookkeeping and the per-trial ledger append ([musical_ear_test]).

    Python [str] values are [string]s (ASCII), Python [int]s are [Z].
    Wall-clock readings of [time.time()] are whole clock ticks,
    [ticks_per_second] to the second; rounding of the float subtraction
    is outside the model. *)

From Stdlib Require Import ZArith QArith Lia Ascii String DecimalString Sorted.
From stdpp Require Import base option list strings gmap.

Local Open Scope string_scope.
Local Open Scope Z_scope.

(* stdpp keeps [simpl] from unfolding string append; the proofs below
   compute with string literals and want it back. *)
Local Arguments String.append !_ _ / : simpl nomatch.

(** ** Python string primitives *)

Module Py.

(** [s.startswith(p)] *)
Fixpoint startswith (s p : string) {struct p} : bool :=
  match p with
  | EmptyString => true
  | String a p' =>
      match s with
      | EmptyString => false
      | String b s' => if Ascii.eqb a b then startswith s' p' else false
      end
  end.

(** [sub in s] *)
Fixpoint contains (sub s : string) : bool :=
  startswith s sub ||
  match s with
  | EmptyString => false
  | String _ s' => contains sub s'
  end.

(** [s.split(sep)] for a non-empty separator: a left-to-right scan for
    non-overlapping occurrences.  [skip] counts the characters of a
    separator just matched that are still to be dropped, [cur] is the
    segment being collected. *)
Fixpoint split_from (sep : string) (skip : nat) (cur s : string) : list string :=
  match s with
  | EmptyString => [cur]
  | String c s' =>
      match skip with
      | S k => split_from sep k cur s'
      | O =>
          if startswith s sep
          then cur :: split_from sep (String.length sep - 1) "" s'
          else split_from sep 0 (cur ++ String c "") s'
      end
  end.

Definition split (s sep : string) : list string := split_from sep 0 "" s.

(** [\d] on ASCII text: the digits 0 to 9.  A [str] pattern also
    matches the decimal digits of other scripts, which [int] accepts as
    well; [findall_digits] and [int] are [re.findall] and [int] on text
    that has none of those, and the statements that depend on it say
    so. *)
Definition is_digit (c : ascii) : bool :=
  let n := nat_of_ascii c in (48 <=? n)%nat && (n <=? 57)%nat.

(** [re.findall(r'\d+', s)]: the maximal runs of decimal digits, left to
    right.  [cur] is the run being collected, if any. *)
Fixpoint findall_digits_from (cur : option string) (s : string) : list string :=
  match s with
  | EmptyString => match cur with Some r => [r] | None => [] end
  | String c s' =>
      if is_digit c
      then findall_digits_from (Some (default "" cur ++ String c "")) s'
      else match cur with
           | Some r => r :: findall_digits_from None s'
           | None => findall_digits_from None s'
           end
  end.

Definition findall_digits (s : string) : list string := findall_digits_from None s.

(** [int(s)] on a string of decimal digits. *)
Fixpoint int_from (acc : Z) (s : string) : Z :=
  match s with
  | EmptyString => acc
  | String c s' => int_from (10 * acc + (Z.of_nat (nat_of_ascii c) - 48)) s'
  end.

Definition int (s : string) : Z := int_from 0 s.

(** [str(n)], as an f-string renders an [int]. *)
Definition str (n : Z) : string := NilZero.string_of_int (Z.to_int n).

(** ['{:02d}'.format(n)]: sign-aware zero padding to width two. *)
Definition format_02d (n : Z) : string :=
  let s := str n in
  if (String.length s <? 2)%nat then "0" ++ s else s.

(** What [l.insert(i, x)] does to the list once the index has been
    converted: a negative index counts from the end, and an index
    beyond either end is clamped. *)
Definition insert {A} (l : list A) (i : Z) (x : A) : list A :=
  let n := Z.of_nat (length l) in
  let j := if i <? 0 then Z.max 0 (i + n) else Z.min i n in
  take (Z.to_nat j) l ++ x :: drop (Z.to_nat j) l.

(** [os.path.join(a, b)] (POSIX). *)
Definition path_join (a b : string) : string :=
  if startswith b "/" then b
  else if (String.length a =? 0)%nat then b
  else if startswith (substring (String.length a - 1) 1 a) "/" then a ++ b
  else a ++ "/" ++ b.

End Py.

(** ** Exceptions *)

Inductive exn : Type :=
| KeyError (key : string)
| IndexError
| OverflowError.

Inductive res (A : Type) : Type :=
| Ok (a : A)
| Exn (e : exn).
Arguments Ok {A} a.
Arguments Exn {A} e.

(** [l[i]] for a non-negative literal index. *)
Definition index {A} (l : list A) (i : nat) : res A :=
  match l !! i with
  | Some x => Ok x
  | None => Exn IndexError
  end.

(** ** Scoring *)

(** [split('_')[-1]]: [split] never returns an empty list, so the default
    is never used. *)
Definition last_segment (identifier : string) : string :=
  List.last (Py.split identifier "_") "".

(** ['yes' if file.split('_')[-1].startswith('ident') else 'no'] *)
Definition correct_answer (file : string) : string :=
  if Py.startswith (last_segment file) "ident" then "yes" else "no".

(** [1 if response == correct_answer else (99 if response == "NA" else 0)] *)
Definition accuracy (response correct : string) : Z :=
  if String.eqb response correct then 1
  else if String.eqb response "NA" then 99
  else 0.

(** The identifier carries the "identical" marker: what follows its last
    underscore, or the whole identifier when it has none, begins with
    [ident]. *)
Definition carries_identical_marker (identifier : string) : Prop :=
  exists rest, Py.contains "_" rest = false /\
    (identifier = "ident" ++ rest \/ exists pre, identifier = pre ++ "_ident" ++ rest).

(** ** Stimulus catalogue *)

(** [sys.maxsize]: the largest C [ssize_t], on the 64-bit builds of
    CPython that PsychoPy runs on. *)
Definition maxsize : Z := 2 ^ 63 - 1.

(** [l.insert(i, x)]: the index is converted to a C [ssize_t] first,
    which raises [OverflowError] when it does not fit. *)
Definition list_insert {A} (l : list A) (i : Z) (x : A) : res (list A) :=
  if (- maxsize - 1 <=? i) && (i <=? maxsize)
  then Ok (Py.insert l i x)
  else Exn OverflowError.

(** [int(re.findall(r'\d+', filename.split("_test")[1])[0])] *)
Definition trial_number_of (filename : string) : res Z :=
  match index (Py.split filename "_test") 1 with
  | Exn e => Exn e
  | Ok seg =>
      match index (Py.findall_digits seg) 0 with
      | Exn e => Exn e
      | Ok d => Ok (Py.int d)
      end
  end.

(** The loop of [load_audio_files] over the directory listing, carrying
    the two lists built so far. *)
Fixpoint load_loop (folder_path test_type : string) (listing : list string)
    (example_files test_files : list string) : res (list string * list string) :=
  match listing with
  | [] => Ok (example_files, test_files)
  | filename :: rest =>
      if Py.startswith filename test_type then
        let file_path := Py.path_join folder_path filename in
        if Py.contains "_example" filename then
          load_loop folder_path test_type rest (example_files ++ [file_path]) test_files
        else if Py.contains "_test" filename then
          match trial_number_of filename with
          | Exn e => Exn e
          | Ok trial_number =>
              match list_insert test_files (trial_number - 1) file_path with
              | Exn e => Exn e
              | Ok test_files =>
                  load_loop folder_path test_type rest example_files test_files
              end
          end
        else load_loop folder_path test_type rest example_files test_files
      else load_loop folder_path test_type rest example_files test_files
  end.

(** [load_audio_files(base_audio_path, test_type)] once [os.listdir]
    has returned; [listing] is what it returns, in the order it returns
    it. *)
Definition load_audio_files (base_audio_path test_type : string)
    (listing : list string) : res (list string * list string) :=
  load_loop base_audio_path test_type listing [] [].

(** A scored item of the catalogue of [test_type] with the given
    ordinal in its file name. *)
Definition test_file_of (test_type filename : string) (ordinal : Z) : Prop :=
  Py.startswith filename test_type = true /\
  Py.contains "_example" filename = false /\
  Py.contains "_test" filename = true /\
  trial_number_of filename = Ok ordinal.

(** ** The environment: clock, keyboard, screen and files *)

(** PsychoPy, the sound device, the keyboard and the file system are
    played by a [world]: a clock, the participant's behaviour written
    down in advance (what each pass of each response loop finds in the
    keyboard buffer and how long that pass takes, how long each
    [event.waitKeys()] blocks), the files, and a time-stamped trace of
    what the program did.  Time passes only where the program waits
    ([core.wait], [event.waitKeys()]) or goes round the response loop;
    building and drawing stimuli elsewhere takes no time, and
    [core.wait] returns exactly on time.  The local time zone does not
    change during a run.

    The world plays the runs in which the devices do their part: the
    sounds and images can be loaded and the files can be opened and
    written.  That [sound.Sound] or [visual.ImageStim] fails on a
    file, or [open] or [write] on a path, is not part of the world, and
    what is proved of a run is proved of these runs. *)

Definition ticks_per_second : Z := 1000000.

(** What the program does to the outside world, in the order it does it. *)
Inductive event : Type :=
| EvPlay (file : string)
| EvTrialScreen (trial_number : Z) (test_type_text prompt image : string)
                (progress : option (Z * Z))
| EvWindowOpen
| EvWindowClose (response : string)
| EvInstructions (text : string)
| EvFeedback (text : string)
| EvOpen (path : string)
| EvWrite (path text : string)
| EvClose (path : string).

(** One iteration of the response loop as the environment plays it: the
    time drawing and [win.flip()] take, then the keys [event.getKeys]
    finds in the keyboard buffer. *)
Definition poll : Type := (Z * list string)%type.

Record world : Type := World {
  now : Z;                          (* wall clock, in ticks *)
  utc_offset : Z;                   (* local time zone, seconds east of UTC *)
  durations : string -> Z;          (* [getDuration()] of each sound file, ticks *)
  scripts : list (list poll);       (* one poll script per response window *)
  keywaits : list Z;                (* how long each [event.waitKeys()] blocks *)
  files : gmap string string;       (* file contents *)
  handles : list string;            (* paths currently open *)
  trace : list (Z * event)          (* time-stamped effects, oldest first *)
}.

(** ** A state monad with exceptions and blocking *)

Inductive outcome (A : Type) : Type :=
| Ret (a : A)          (* normal return *)
| Raise (e : exn)      (* a Python exception propagates *)
| Stuck.               (* still waiting when the environment's script ends *)
Arguments Ret {A} a.
Arguments Raise {A} e.
Arguments Stuck {A}.

Definition M (A : Type) : Type := world -> outcome A * world.

Definition ret {A} (a : A) : M A := fun w => (Ret a, w).

Definition bind {A B} (m : M A) (f : A -> M B) : M B :=
  fun w =>
    match m w with
    | (Ret a, w') => f a w'
    | (Raise e, w') => (Raise e, w')
    | (Stuck, w') => (Stuck, w')
    end.

Definition raise {A} (e : exn) : M A := fun w => (Raise e, w).

Declare Scope m_scope.
Delimit Scope m_scope with M.
Notation "x <- m ;; k" := (bind m (fun x => k))
  (at level 100, m at next level, right associativity) : m_scope.
Notation "m ;;; k" := (bind m (fun _ => k))
  (at level 100, right associativity) : m_scope.
Local Open Scope m_scope.

(** [d[key]] on a dict with string keys. *)
Definition getitem (d : gmap string string) (key : string) : M string :=
  match d !! key with
  | Some v => ret v
  | None => raise (KeyError key)
  end.

(** [time.time()] *)
Definition time_time : M Z := fun w => (Ret (now w), w).

Definition set_now (t : Z) (w : world) : world :=
  World t (utc_offset w) (durations w) (scripts w) (keywaits w)
        (files w) (handles w) (trace w).

Definition set_scripts (s : list (list poll)) (w : world) : world :=
  World (now w) (utc_offset w) (durations w) s (keywaits w)
        (files w) (handles w) (trace w).

Definition set_keywaits (k : list Z) (w : world) : world :=
  World (now w) (utc_offset w) (durations w) (scripts w) k
        (files w) (handles w) (trace w).

Definition set_files (f : gmap string string) (w : world) : world :=
  World (now w) (utc_offset w) (durations w) (scripts w) (keywaits w)
        f (handles w) (trace w).

Definition set_handles (h : list string) (w : world) : world :=
  World (now w) (utc_offset w) (durations w) (scripts w) (keywaits w)
        (files w) h (trace w).

Definition set_trace (t : list (Z * event)) (w : world) : world :=
  World (now w) (utc_offset w) (durations w) (scripts w) (keywaits w)
        (files w) (handles w) t.

(** Time passes. *)
Definition advance (dt : Z) : M unit :=
  fun w => (Ret tt, set_now (now w + dt) w).

(** [core.wait(secs)], [ticks] being [secs] in clock ticks: a negative
    wait returns at once. *)
Definition core_wait (ticks : Z) : M unit := advance (Z.max 0 ticks).

Definition emit (ev : event) : M unit :=
  fun w => (Ret tt, set_trace (trace w ++ [(now w, ev)]) w).

(** [event.waitKeys()]: blocks until the participant presses a key. *)
Definition waitKeys : M unit :=
  fun w =>
    match keywaits w with
    | [] => (Stuck, w)
    | dt :: rest => (Ret tt, set_now (now w + dt) (set_keywaits rest w))
    end.

(** The poll script of the response window that opens now. *)
Definition next_script : M (list poll) :=
  fun w =>
    match scripts w with
    | [] => (Ret [], w)
    | s :: rest => (Ret s, set_scripts rest w)
    end.

Definition getDuration (file : string) : M Z :=
  fun w => (Ret (durations w file), w).

(** [datetime.datetime.fromtimestamp(t).strftime('%H:%M:%S')]: the
    local time of day, [secs] being seconds since local midnight. *)
Definition hms_of_seconds (secs : Z) : string :=
  Py.format_02d (secs / 3600) ++ ":" ++
  Py.format_02d (secs mod 3600 / 60) ++ ":" ++
  Py.format_02d (secs mod 60).

(** Local time of day of the instant [t], [offset] seconds east of UTC. *)
Definition hms_local (offset t : Z) : string :=
  hms_of_seconds ((t / ticks_per_second + offset) mod 86400).

Definition strftime_HMS (t : Z) : M string :=
  fun w => (Ret (hms_local (utc_offset w) t), w).

(** ** Response collection *)

(** [event.getKeys(keyList=['y', 'n'])] applied to the keyboard buffer. *)
Definition getKeys_yn (buffer : list string) : list string :=
  filter (fun k => k = "y" \/ k = "n") buffer.

(** The [while] loop of [play_stimulus_and_display_prompt].  [timer] is
    the instant at which the countdown reaches zero, if there is one. *)
Fixpoint response_loop (timer : option Z) (polls : list poll) : M (option string) :=
  fun w =>
    let running :=
      match timer with
      | None => true
      | Some deadline => 0 <? deadline - now w
      end in
    if running then
      match polls with
      | [] => (Stuck, w)
      | (dt, buffer) :: rest =>
          (advance dt ;;;
           match getKeys_yn buffer with
           | key :: _ => ret (Some key)
           | [] => response_loop timer rest
           end) w
      end
    else (Ret None, w).

(** [if response == 'y': ... elif response == 'n': ... else: 'NA'] *)
Definition translate (response : option string) : string :=
  match response with
  | None => "NA"
  | Some key =>
      if String.eqb key "y" then "yes"
      else if String.eqb key "n" then "no"
      else "NA"
  end.

(** Lines 228-253: set up the countdown, loop, translate the key. *)
Definition collect_response (time_limit : option Z) (polls : list poll) : M string :=
  timer <- (match time_limit with
            | Some secs => t <- time_time ;; ret (Some (t + secs * ticks_per_second))
            | None => ret None
            end) ;;
  response <- response_loop timer polls ;;
  ret (translate response).

(** ** Trial records *)

Module Result.

(** The dict appended to [results], with the source's keys. *)
Record t : Type := mk {
  trial : Z;
  type : string;
  phase : string;
  stimulus : string;
  response : string;
  correct : string;
  accuracy : Z;
  start_time : string;
  end_time : string;
  duration : string
}.

(** Python values as they sit in the dict. *)
Inductive pyval : Type :=
| PyInt (n : Z)
| PyStr (s : string)
| PyBool (b : bool).

(** [result[key]] *)
Definition get (r : t) (key : string) : option pyval :=
  if String.eqb key "trial" then Some (PyInt (trial r))
  else if String.eqb key "type" then Some (PyStr (type r))
  else if String.eqb key "phase" then Some (PyStr (phase r))
  else if String.eqb key "stimulus" then Some (PyStr (stimulus r))
  else if String.eqb key "response" then Some (PyStr (response r))
  else if String.eqb key "correct" then Some (PyStr (correct r))
  else if String.eqb key "accuracy" then Some (PyInt (accuracy r))
  else if String.eqb key "start_time" then Some (PyStr (start_time r))
  else if String.eqb key "end_time" then Some (PyStr (end_time r))
  else if String.eqb key "duration" then Some (PyStr (duration r))
  else None.

End Result.

(** ** Files *)

Definition newline : string := String (ascii_of_nat 10) "".

Fixpoint remove_first (path : string) (l : list string) : list string :=
  match l with
  | [] => []
  | p :: l' => if String.eqb p path then l' else p :: remove_first path l'
  end.

(** [open(path, 'a')] on a path that can be opened: the file is
    created when it does not exist. *)
Definition fs_open_append (path : string) : M unit :=
  fun w =>
    let fs := match files w !! path with
              | Some _ => files w
              | None => <[path := ""]> (files w)
              end in
    (Ret tt, set_trace (trace w ++ [(now w, EvOpen path)])
               (set_handles (path :: handles w) (set_files fs w))).

(** [output_file.write(text)] on a file opened for appending, the
    device taking the text. *)
Definition fs_write (path text : string) : M unit :=
  fun w =>
    (Ret tt, set_trace (trace w ++ [(now w, EvWrite path text)])
               (set_files (<[path := default "" (files w !! path) ++ text]> (files w)) w)).

Definition fs_close (path : string) : M unit :=
  fun w =>
    (Ret tt, set_trace (trace w ++ [(now w, EvClose path)])
               (set_handles (remove_first path (handles w)) w)).

(** [with open(path, 'a') as f: body]: the handle is released however
    the body ends. *)
Definition with_open_append {A} (path : string) (body : M A) : M A :=
  fs_open_append path ;;;
  fun w =>
    let (o, w1) := body w in
    let (_, w2) := fs_close path w1 in
    (o, w2).

(** ** Screens *)

(** [display_instructions(win, instruction_text)] *)
Definition display_instructions (instruction_text : string) : M unit :=
  emit (EvInstructions instruction_text) ;;;
  waitKeys.

(** [display_feedback(win, correct)] *)
Definition display_feedback (correct : bool) : M unit :=
  emit (EvFeedback (if correct then "Richtig!" else "Falsch!")) ;;;
  core_wait ticks_per_second.

(** [play_stimulus_and_display_prompt]; [file] stands for the
    [sound.Sound] built from it, the sound and the image of the trial
    screen having been loaded.  The trial screen carries what
    [draw_progress_bar] is called with, if it is called; a call with a
    total of zero, on which it raises [ZeroDivisionError], is left out:
    the loops of a sub-test call it with the length of the list they
    run over, and the statements about other calls exclude it. *)
Definition play_stimulus_and_display_prompt (file prompt_text : string)
    (time_limit : option Z) (trial_number : Z) (image_path : string)
    (total_trials : Z) (test_type : string) : M string :=
  emit (EvPlay file) ;;;
  emit (EvTrialScreen trial_number
          (if String.eqb test_type "melody" then "Melodie" else "Rhythmus")
          prompt_text image_path
          (if trial_number <=? total_trials
           then Some (trial_number, total_trials) else None)) ;;;
  d <- getDuration file ;;
  core_wait (d + ticks_per_second) ;;;
  emit EvWindowOpen ;;;
  polls <- next_script ;;
  response <- collect_response time_limit polls ;;
  emit (EvWindowClose response) ;;;
  core_wait ticks_per_second ;;;
  ret response.

(** ** Elapsed time *)

(** [divmod(duration, 3600)], [divmod(remainder, 60)] and the three
    [int(...)] of the duration string; [duration] is in ticks. *)
Definition duration_str (duration : Z) : string :=
  let hours := duration / (3600 * ticks_per_second) in
  let remainder := duration mod (3600 * ticks_per_second) in
  let minutes := remainder / (60 * ticks_per_second) in
  let seconds := remainder mod (60 * ticks_per_second) in
  Py.format_02d hours ++ ":" ++ Py.format_02d minutes ++ ":" ++
  Py.format_02d (Z.quot seconds ticks_per_second).

(** ** One sub-test *)

(** The f-string of [append_result_to_csv] once the participant's entries
    are known; [experiment] already carries its comma, and is empty in
    [musical_ear_psd.py]. *)
Definition format_row (experiment subject cur_date : string) (result : Result.t) : string :=
  experiment ++ subject ++ "," ++ cur_date ++ "," ++
  Py.str (Result.trial result) ++ "," ++ Result.type result ++ "," ++
  Result.phase result ++ "," ++ Result.stimulus result ++ "," ++
  Result.response result ++ "," ++ Result.correct result ++ "," ++
  Py.str (Result.accuracy result) ++ "," ++ Result.start_time result ++ "," ++
  Result.end_time result ++ "," ++ Result.duration result ++ newline.

Definition german_test_type : gmap string string :=
  <["melody" := "Melodien"]> (<["rhythm" := "Rhythmen"]> ∅).

Section Engine.

Variable test_type : string.
Variable instruction_texts : gmap string string.
Variable practice_output_filename test_output_filename : string.
Variable base_image_path : string.
Variable participant_info : gmap string string.
(** [true] for [musical_ear.py], whose rows start with the experiment
    name; [false] for [musical_ear_psd.py]. *)
Variable with_experiment : bool.

(** The row written by [append_result_to_csv]; the dict lookups can
    raise. *)
Definition row_text (result : Result.t) : M string :=
  experiment <- (if with_experiment
                 then e <- getitem participant_info "experiment" ;; ret (e ++ ",")
                 else ret "") ;;
  subject <- getitem participant_info "Subject_ID" ;;
  cur_date <- getitem participant_info "cur_date" ;;
  ret (format_row experiment subject cur_date result).

Definition output_filename (result : Result.t) : string :=
  if String.eqb (Result.phase result) "practice"
  then practice_output_filename else test_output_filename.

Definition append_result_to_csv (result : Result.t) : M unit :=
  with_open_append (output_filename result)
    (text <- row_text result ;;
     fs_write (output_filename result) text).

(** The text the two loops share (lines 355-390 and 404-438): play and
    collect, score, time, store and append.  [results] is the list
    built so far; [i] and [file] come from [enumerate].  The response
    is handed back with the list because the practice loop goes on to
    use it. *)
Definition run_trial (phase : string) (time_limit : option Z) (total_trials : Z)
    (start_time : Z) (start_time_str : string)
    (results : list Result.t) (i : Z) (file : string)
    : M (list Result.t * string) :=
  plural <- getitem german_test_type test_type ;;
  response <- play_stimulus_and_display_prompt file
                ("Sind die " ++ plural ++ " identisch?")
                time_limit (i + 1)
                (Py.path_join base_image_path (test_type ++ ".png"))
                total_trials test_type ;;
  let correct_answer := correct_answer file in
  let accuracy := accuracy response correct_answer in
  end_time <- time_time ;;
  end_time_str <- strftime_HMS end_time ;;
  let duration := end_time - start_time in
  let result :=
    Result.mk (i + 1) test_type phase file response correct_answer accuracy
              start_time_str end_time_str (duration_str duration) in
  let results := (results ++ [result])%list in
  append_result_to_csv (List.last results result) ;;;
  ret (results, response).

(** Body of the practice loop: the shared text, then feedback and the
    debrief instruction. *)
Definition practice_trial (total_trials start_time : Z) (start_time_str : string)
    (results : list Result.t) (i : Z) (example_file : string) : M (list Result.t) :=
  rr <- run_trial "practice" None total_trials start_time start_time_str
          results i example_file ;;
  let (results, response) := rr in
  display_feedback (String.eqb response (correct_answer example_file)) ;;;
  text <- getitem instruction_texts
            (test_type ++ "_practice_" ++ correct_answer example_file) ;;
  display_instructions text ;;;
  ret results.

(** Body of the test loop: the shared text with a two-second limit. *)
Definition test_trial (total_trials start_time : Z) (start_time_str : string)
    (results : list Result.t) (i : Z) (test_file : string) : M (list Result.t) :=
  rr <- run_trial "test" (Some 2) total_trials start_time start_time_str
          results i test_file ;;
  ret (fst rr).

(** [for i, x in enumerate(l): s = body(s, i, x)] *)
Fixpoint for_enumerate {A S} (body : S -> Z -> A -> M S) (i : Z) (l : list A) (s : S) : M S :=
  match l with
  | [] => ret s
  | x :: l' => s' <- body s i x ;; for_enumerate body (i + 1) l' s'
  end.

Definition musical_ear_test (example_files test_files : list string) : M (list Result.t) :=
  start_time <- time_time ;;
  start_time_str <- strftime_HMS start_time ;;
  part1 <- getitem instruction_texts (test_type ++ "_part1") ;;
  display_instructions part1 ;;;
  results <- for_enumerate
               (practice_trial (Z.of_nat (length example_files)) start_time start_time_str)
               0 example_files [] ;;
  part2 <- getitem instruction_texts (test_type ++ "_part2") ;;
  display_instructions part2 ;;;
  results <- for_enumerate
               (test_trial (Z.of_nat (length test_files)) start_time start_time_str)
               0 test_files results ;;
  ret results.

End Engine.

(** ** The session *)

Section Session.

Variable instruction_texts : gmap string string.
Variable practice_output_filename test_output_filename : string.
Variable base_image_path : string.
Variable participant_info : gmap string string.
Variable with_experiment : bool.
Variable melody_example_files melody_test_files : list string.
Variable rhythm_example_files rhythm_test_files : list string.

(** Body of the loop of [main] over [starting_tests]: the general
    instruction before the first sub-test only, then the sub-test named.
    The records are handed back, as [musical_ear_psd.py] binds them. *)
Definition run_test (i : Z) (test : string) : M (list Result.t) :=
  (if i =? 0
   then intro <- getitem instruction_texts "general_intro" ;;
        display_instructions intro
   else ret tt) ;;;
  if String.eqb test "melody" then
    musical_ear_test "melody" instruction_texts practice_output_filename
      test_output_filename base_image_path participant_info with_experiment
      melody_example_files melody_test_files
  else if String.eqb test "rhythm" then
    musical_ear_test "rhythm" instruction_texts practice_output_filename
      test_output_filename base_image_path participant_info with_experiment
      rhythm_example_files rhythm_test_files
  else ret [].

(** The loop itself; [starting_tests] is the shuffled order. *)
Definition run_tests (starting_tests : list string) : M (list (list Result.t)) :=
  for_enumerate
    (fun done i test => rs <- run_test i test ;; ret (done ++ [rs])%list)
    0 starting_tests [].

End Session.

(** ** Reading a poll script *)

(** Clock ticks taken by the first [k] iterations of a poll script. *)
Fixpoint elapsed (k : nat) (polls : list poll) : Z :=
  match k, polls with
  | S k', (dt, _) :: rest => dt + elapsed k' rest
  | _, _ => 0
  end.

(** The first poll that finds a designated key, and the first such key
    in it. *)
Fixpoint first_answer (polls : list poll) : option (nat * string) :=
  match polls with
  | [] => None
  | (_, buffer) :: rest =>
      match getKeys_yn buffer with
      | key :: _ => Some (0%nat, key)
      | [] =>
          match first_answer rest with
          | Some (j, key) => Some (S j, key)
          | None => None
          end
      end
  end.

(** A poll that finds neither designated key. *)
Definition silent (p : poll) : Prop := getKeys_yn (snd p) = [].

(** The countdown set to end at [deadline] is seen at zero by the guard
    that precedes iteration [k], every earlier guard having seen it
    positive and every earlier poll having been silent. *)
Definition times_out (start deadline : Z) (polls : list poll) (k : nat) : Prop :=
  (k <= length polls)%nat /\
  deadline <= start + elapsed k polls /\
  forall j, (j < k)%nat ->
    start + elapsed j polls < deadline /\
    exists p, polls !! j = Some p /\ silent p.

(** A poll script on which response collection returns: some poll finds
    a designated key, or the script lasts as long as the time limit. *)
Definition resolves (time_limit : option Z) (polls : list poll) : Prop :=
  first_answer polls <> None \/
  exists secs k, time_limit = Some secs /\ (k <= length polls)%nat /\
    secs * ticks_per_second <= elapsed k polls.

(** ** Describing a run *)

(** [display_instructions] took the world from [w] to [w']: the text
    went up and the participant took [dt] ticks to press a key. *)
Definition instructed (text : string) (w w' : world) : Prop :=
  exists (dt : Z) (rest : list Z),
    keywaits w = dt :: rest /\
    w' = World (now w + dt) (utc_offset w) (durations w) (scripts w) rest
           (files w) (handles w) (trace w ++ [(now w, EvInstructions text)]).

(** The world after [display_feedback] has shown [text] for a second. *)
Definition fed_back (text : string) (w : world) : world :=
  World (now w + ticks_per_second) (utc_offset w) (durations w) (scripts w)
        (keywaits w) (files w) (handles w) (trace w ++ [(now w, EvFeedback text)]).

Section RunSpec.

Variable test_type : string.
Variable instruction_texts : gmap string string.
Variable practice_output_filename test_output_filename : string.
Variable participant_info : gmap string string.
Variable with_experiment : bool.

(** The participant's entries a row starts with, when the dict has them. *)
Definition participant_fields : option (string * string * string) :=
  match (if with_experiment
         then (fun e => e ++ ",") <$> participant_info !! "experiment"
         else Some ""),
        participant_info !! "Subject_ID", participant_info !! "cur_date" with
  | Some experiment, Some subject, Some cur_date => Some (experiment, subject, cur_date)
  | _, _, _ => None
  end.

(** The world after a text has been appended to a file at instant [t],
    together with the three file events this adds to the trace. *)
Definition appended (t : Z) (path text : string) (w : world) : world :=
  World t (utc_offset w) (durations w) (scripts w) (keywaits w)
        (<[path := default "" (files w !! path) ++ text]> (files w))
        (handles w)
        (trace w ++ [(t, EvOpen path); (t, EvWrite path text); (t, EvClose path)]).

(** What the shared text of a loop body does, from the world [w] in
    which it starts to the world [w1] in which the row has been
    appended: the instants at which the response window opens and
    closes and at which the end time is read, the record stored, and the
    seven effects added to the trace. *)
Definition trial_spec (phase : string) (time_limit : option Z) (total_trials : Z)
    (start_time : Z) (start_time_str : string) (base_image_path : string)
    (i : Z) (file : string) (w : world) (r : Result.t) (w1 : world) : Prop :=
  exists (plural experiment subject cur_date : string) (k : nat) (w_open : world),
    let polls := default [] (head (scripts w)) in
    let t_open := now w + Z.max 0 (durations w file + ticks_per_second) in
    let t_close := t_open + elapsed k polls in
    let t_end := t_close + ticks_per_second in
    let dest := if String.eqb phase "practice"
                then practice_output_filename else test_output_filename in
    german_test_type !! test_type = Some plural /\
    participant_fields = Some (experiment, subject, cur_date) /\
    (k <= length polls)%nat /\
    now w_open = t_open /\
    collect_response time_limit polls w_open =
      (Ret (Result.response r), set_now t_close w_open) /\
    r = Result.mk (i + 1) test_type phase file (Result.response r)
          (correct_answer file)
          (accuracy (Result.response r) (correct_answer file))
          start_time_str (hms_local (utc_offset w) t_end)
          (duration_str (t_end - start_time)) /\
    w1 = appended t_end dest (format_row experiment subject cur_date r)
           (World t_end (utc_offset w) (durations w) (tail (scripts w))
              (keywaits w) (files w) (handles w)
              (trace w ++
               [(now w, EvPlay file);
                (now w, EvTrialScreen (i + 1)
                   (if String.eqb test_type "melody" then "Melodie" else "Rhythmus")
                   ("Sind die " ++ plural ++ " identisch?")
                   (Py.path_join base_image_path (test_type ++ ".png"))
                   (if i + 1 <=? total_trials
                    then Some (i + 1, total_trials) else None));
                (t_open, EvWindowOpen);
                (t_close, EvWindowClose (Result.response r))])).

(** A practice trial: the shared text, then feedback for one second and
    the debrief instruction until the participant presses a key. *)
Definition practice_spec (total_trials start_time : Z) (start_time_str : string)
    (base_image_path : string)
    (i : Z) (file : string) (w : world) (r : Result.t) (w2 : world) : Prop :=
  exists (w1 : world) (text : string),
    trial_spec "practice" None total_trials start_time start_time_str
      base_image_path i file w r w1 /\
    instruction_texts !! (test_type ++ "_practice_" ++ correct_answer file) = Some text /\
    instructed text
      (fed_back (if String.eqb (Result.response r) (correct_answer file)
                 then "Richtig!" else "Falsch!") w1) w2.

(** A scored trial: the shared text with the two-second limit. *)
Definition test_spec (total_trials start_time : Z) (start_time_str : string)
    (base_image_path : string)
    (i : Z) (file : string) (w : world) (r : Result.t) (w1 : world) : Prop :=
  trial_spec "test" (Some 2) total_trials start_time start_time_str
    base_image_path i file w r w1.

End RunSpec.

(** A loop run, one step per item: [steps P i l w rs w'] when the items
    of [l], numbered from [i], take the world from [w] to [w'] and leave
    the records [rs], each step as [P] describes it. *)
Inductive steps (P : Z -> string -> world -> Result.t -> world -> Prop)
  : Z -> list string -> world -> list Result.t -> world -> Prop :=
| steps_nil (i : Z) (w : world) : steps P i [] w [] w
| steps_cons (i : Z) (file : string) (l : list string) (w w1 w' : world)
    (r : Result.t) (rs : list Result.t) :
    P i file w r w1 ->
    steps P (i + 1) l w1 rs w' ->
    steps P i (file :: l) w (r :: rs) w'.

(** One sub-test, from [w] to [w']: the first instruction, the practice
    steps, the second instruction, the scored steps; the start instant
    is the clock of [w]. *)
Definition subtest_spec (test_type : string) (instruction_texts : gmap string string)
    (practice_output_filename test_output_filename base_image_path : string)
    (participant_info : gmap string string) (with_experiment : bool)
    (example_files test_files : list string)
    (w : world) (results : list Result.t) (w' : world) : Prop :=
  exists (part1 part2 : string) (w1 w2 w3 : world) (practice scored : list Result.t),
    let start_time := now w in
    let start_time_str := hms_local (utc_offset w) (now w) in
    instruction_texts !! (test_type ++ "_part1") = Some part1 /\
    instructed part1 w w1 /\
    steps (practice_spec test_type instruction_texts practice_output_filename
             test_output_filename participant_info with_experiment
             (Z.of_nat (length example_files)) start_time start_time_str
             base_image_path)
      0 example_files w1 practice w2 /\
    instruction_texts !! (test_type ++ "_part2") = Some part2 /\
    instructed part2 w2 w3 /\
    steps (test_spec test_type practice_output_filename
             test_output_filename participant_info with_experiment
             (Z.of_nat (length test_files)) start_time start_time_str
             base_image_path)
      0 test_files w3 scored w' /\
    results = (practice ++ scored)%list.

(** The dicts have the entries a sub-test of [test_type] looks up. *)
Definition configured (test_type : string) (instruction_texts participant_info : gmap string string)
    (with_experiment : bool) : Prop :=
  is_Some (german_test_type !! test_type) /\
  is_Some (instruction_texts !! (test_type ++ "_part1")) /\
  is_Some (instruction_texts !! (test_type ++ "_part2")) /\
  is_Some (instruction_texts !! (test_type ++ "_practice_yes")) /\
  is_Some (instruction_texts !! (test_type ++ "_practice_no")) /\
  is_Some (participant_fields participant_info with_experiment).

(** The participant sees a sub-test of [n_examples] practice items and
    [n_tests] scored items through: every practice window gets its key,
    every scored window gets a key or runs out, and every instruction
    screen is dismissed. *)
Definition responsive (n_examples n_tests : nat) (w : world) : Prop :=
  (n_examples + n_tests <= length (scripts w))%nat /\
  Forall (resolves None) (take n_examples (scripts w)) /\
  Forall (resolves (Some 2)) (take n_tests (drop n_examples (scripts w))) /\
  (n_examples + 2 <= length (keywaits w))%nat.

(** Trial number, phase and stimulus of the records a phase should
    leave: the items in input order, numbered from 1. *)
Definition numbered (phase : string) (files : list string) : list (Z * string * string) :=
  imap (fun k file => (Z.of_nat k + 1, phase, file)) files.

Definition header (r : Result.t) : Z * string * string :=
  (Result.trial r, Result.phase r, Result.stimulus r).

(** ** Reading a trace *)

(** The seven effects of the shared text of a loop body, with their
    instants: the stimulus starts and the trial screen goes up, the
    response window opens, it closes, and the row is appended. *)
Definition trial_events (t_play t_open t_close t_end : Z) (file : string)
    (screen : event) (response dest text : string) : list (Z * event) :=
  [(t_play, EvPlay file); (t_play, screen);
   (t_open, EvWindowOpen); (t_close, EvWindowClose response);
   (t_end, EvOpen dest); (t_end, EvWrite dest text); (t_end, EvClose dest)].

(** The feedback ([inl]) and instruction ([inr]) screens of a trace, in
    the order shown. *)
Definition screen_of (e : Z * event) : option (string + string) :=
  match snd e with
  | EvFeedback text => Some (inl text)
  | EvInstructions text => Some (inr text)
  | _ => None
  end.

Definition screens (tr : list (Z * event)) : list (string + string) :=
  omap screen_of tr.

(** The file effects of a trace, in order. *)
Definition file_event_of (e : Z * event) : option event :=
  match snd e with
  | EvOpen path => Some (EvOpen path)
  | EvWrite path text => Some (EvWrite path text)
  | EvClose path => Some (EvClose path)
  | _ => None
  end.

Definition file_events (tr : list (Z * event)) : list event :=
  omap file_event_of tr.

(** The debrief instruction of a practice item: looked up by test type
    and ground truth. *)
Definition debrief_text (test_type : string) (instruction_texts : gmap string string)
    (file : string) : option string :=
  instruction_texts !! (test_type ++ "_practice_" ++ correct_answer file).

(** The instruction screens among the screens. *)
Definition instructions_of (ss : list (string + string)) : list string :=
  omap (fun s => match s with inr text => Some text | inl _ => None end) ss.

(** The feedback a practice record calls for. *)
Definition feedback_text (r : Result.t) : string :=
  if String.eqb (Result.response r) (Result.correct r) then "Richtig!" else "Falsch!".

(** No part of the environment's script makes the clock run backwards. *)
Definition forward (w : world) : Prop :=
  Forall (Forall (fun p : poll => 0 <= fst p)) (scripts w) /\
  Forall (fun dt => 0 <= dt) (keywaits w).

(** [x] occurs in [tr] as a run of consecutive entries. *)
Definition located {A} (x tr : list A) : Prop :=
  exists before after, tr = (before ++ x ++ after)%list.

(** ** Reading the ledger *)

(** The row of a record, for a participant dict that has the entries. *)
Definition ledger_row (participant_info : gmap string string) (with_experiment : bool)
    (r : Result.t) : string :=
  match participant_fields participant_info with_experiment with
  | Some (experiment, subject, cur_date) => format_row experiment subject cur_date r
  | None => ""
  end.

(** One scoped append as the trace shows it. *)
Definition scoped_write (path text : string) : list event :=
  [EvOpen path; EvWrite path text; EvClose path].

(** File contents after [text] has been appended to [path]. *)
Definition append_to (fs : gmap string string) (path text : string) : gmap string string :=
  <[path := default "" (fs !! path) ++ text]> fs.

(** The number of line breaks in a text. *)
Fixpoint line_breaks (s : string) : nat :=
  match s with
  | EmptyString => 0
  | String c s' => (if Ascii.eqb c (ascii_of_nat 10) then 1 else 0) + line_breaks s'
  end.

(** The line breaks that the fields of a row bring with them. *)
Definition line_breaks_of_fields (experiment subject cur_date : string)
    (r : Result.t) : nat :=
  line_breaks experiment + line_breaks subject + line_breaks cur_date +
  line_breaks (Result.type r) + line_breaks (Result.phase r) +
  line_breaks (Result.stimulus r) + line_breaks (Result.response r) +
  line_breaks (Result.correct r) + line_breaks (Result.start_time r) +
  line_breaks (Result.end_time r) + line_breaks (Result.duration r).

(** A record as the trace [new] of its sub-test accounts for it: the
    trial's seven effects are found together in the trace; its window
    opened no earlier than the sub-test started at [start] and closed no
    earlier than it opened; the record's start time is the sub-test's,
    its end time is the instant one second after the window closed, and
    its duration is the whole seconds from [start] to that instant. *)
Definition recorded_at (start offset : Z) (dest_of row_of : Result.t -> string)
    (new : list (Z * event)) (r : Result.t) : Prop :=
  exists (t_play t_open t_close : Z) (screen : event),
    let t_end := t_close + ticks_per_second in
    located (trial_events t_play t_open t_close t_end (Result.stimulus r) screen
               (Result.response r) (dest_of r) (row_of r)) new /\
    start <= t_play /\ t_play <= t_open /\ t_open <= t_close /\
    Result.start_time r = hms_local offset start /\
    Result.end_time r = hms_local offset t_end /\
    Result.duration r = hms_of_seconds ((t_end - start) / ticks_per_second).

(** The duration of a record counts the whole seconds from [start] to
    the instant at which the record's row is written. *)
Definition elapsed_from (start : Z) (dest_of row_of : Result.t -> string)
    (new : list (Z * event)) (r : Result.t) : Prop :=
  exists t_end,
    start <= t_end /\
    located [(t_end, EvWrite (dest_of r) (row_of r))] new /\
    Result.duration r = hms_of_seconds ((t_end - start) / ticks_per_second).

(** ** Reading a response window *)

(** The instant at which the response window of a trial that starts in
    [w] opens: [core.wait(stimulus.getDuration() + 1)] after the
    stimulus has started. *)
Definition window_opens (file : string) (w : world) : Z :=
  now w + Z.max 0 (durations w file + ticks_per_second).

(** The label of a designated key. *)
Definition label_of (key : string) : string :=
  if String.eqb key "y" then "yes" else "no".

(** What a window without a limit makes of its poll script: the label
    of the first designated key found. *)
Definition answered (response : string) (polls : list poll) : Prop :=
  exists j key, first_answer polls = Some (j, key) /\ response = label_of key.

(** What a window of [secs] seconds makes of its poll script.  The
    countdown is read by the guard only, before each pass of the loop:
    the response is ["NA"] when a guard reads it at zero before any pass
    has found a designated key, and otherwise the label of the first
    key found, every guard up to that pass having read it positive. *)
Definition timed (secs : Z) (response : string) (polls : list poll) : Prop :=
  (response = "NA" <-> exists k, times_out 0 (secs * ticks_per_second) polls k) /\
  (response <> "NA" ->
   exists j key, first_answer polls = Some (j, key) /\ response = label_of key /\
     forall i, (i <= j)%nat -> elapsed i polls < secs * ticks_per_second).

(** The world in which the response window of a trial that starts in
    [w] opens: the stimulus and the trial screen are on the trace, the
    wait is over and the first poll script is taken. *)
Definition window_world (file prompt : string) (n : Z) (image : string) (total : Z)
    (test_type : string) (w : world) : world :=
  World (window_opens file w) (utc_offset w) (durations w) (tail (scripts w))
    (keywaits w) (files w) (handles w)
    (trace w ++
     [(now w, EvPlay file);
      (now w, EvTrialScreen n
         (if String.eqb test_type "melody" then "Melodie" else "Rhythmus")
         prompt image (if n <=? total then Some (n, total) else None));
      (window_opens file w, EvWindowOpen)]).

(** The claim's reading of a window of [secs] seconds: no designated
    key is read before the countdown reaches zero. *)
Definition no_key_in_time (secs : Z) (polls : list poll) : Prop :=
  forall j p, polls !! j = Some p -> elapsed (S j) polls < secs * ticks_per_second ->
    silent p.

(** ** Reading the log of a run *)

(** What a trace shows of the trials and of the files: the stimuli
    started, the response windows closed and the file effects, in
    order. *)
Definition trial_event_of (e : Z * event) : option event :=
  match snd e with
  | EvPlay file => Some (EvPlay file)
  | EvWindowClose response => Some (EvWindowClose response)
  | EvOpen path => Some (EvOpen path)
  | EvWrite path text => Some (EvWrite path text)
  | EvClose path => Some (EvClose path)
  | _ => None
  end.

Definition trial_log (tr : list (Z * event)) : list event :=
  omap trial_event_of tr.

(** What a completed trial leaves in the log: its stimulus was started,
    its window closed with the response, and its row was appended as one
    scoped write, before anything else of the log. *)
Definition completed_trial (dest_of row_of : Result.t -> string) (r : Result.t)
    : list event :=
  EvPlay (Result.stimulus r) :: EvWindowClose (Result.response r) ::
  scoped_write (dest_of r) (row_of r).

(** From [w] to [w'] the trials of the records [rs] were completed, in
    order, each with its row appended, and [pending] is what the log
    shows after the last of them. *)
Definition logged (dest_of row_of : Result.t -> string) (rs : list Result.t)
    (pending : list event) (w w' : world) : Prop :=
  exists new,
    trace w' = (trace w ++ new)%list /\
    trial_log new = (concat (map (completed_trial dest_of row_of) rs) ++ pending)%list /\
    files w' = foldl (fun fs r => append_to fs (dest_of r) (row_of r)) (files w) rs /\
    handles w' = handles w.

(** A run from [w] to [w'] of the items [expected] (trial number, phase
    and stimulus) has completed the trials of [rs], the first
    [length rs] of the items: every one of them has its row; the log
    shows nothing else, except the stimulus of the item whose window is
    still open when the run is left [waiting] there; and a run that has
    [returned] has completed them all. *)
Definition accounted (dest_of row_of : Result.t -> string)
    (expected : list (Z * string * string)) (w w' : world) (rs : list Result.t)
    (waiting returned : Prop) : Prop :=
  exists pending,
    logged dest_of row_of rs pending w w' /\
    map header rs = take (length rs) expected /\
    (pending = [] \/ (exists file, pending = [EvPlay file]) /\ waiting) /\
    (returned -> length rs = length expected /\ pending = []).

(** ** A sample session *)

(** Two practice items and two scored items of the melody sub-test, with
    a participant who answers the first practice item with ["n"] at the
    second poll, the second with ["y"], lets the first scored window
    expire and answers the second.  The sub-test starts at 10:00:00. *)
Definition sample_texts : gmap string string :=
  list_to_map [("general_intro", "intro");
               ("melody_part1", "melody 1"); ("melody_part2", "melody 2");
               ("melody_practice_yes", "identical"); ("melody_practice_no", "different");
               ("rhythm_part1", "rhythm 1"); ("rhythm_part2", "rhythm 2");
               ("rhythm_practice_yes", "identical"); ("rhythm_practice_no", "different");
               ("end", "end")].

Definition sample_info : gmap string string :=
  list_to_map [("experiment", "musical_ear_test"); ("Subject_ID", "s01");
               ("cur_date", "2023-05-06 10:00")].

Definition sample_examples : list string :=
  ["audio/melody_example1_identical.wav"; "audio/melody_example2_different.wav"].

Definition sample_tests : list string :=
  ["audio/melody_test01_identical.wav"; "audio/melody_test02_identical.wav"].

Definition sample_world : world :=
  World (36000 * ticks_per_second) 0 (fun _ => 3 * ticks_per_second)
    [[(500000, []); (500000, ["x"; "n"; "y"])];
     [(100000, ["y"])];
     [(1000000, []); (1000000, [])];
     [(10, ["y"])]]
    [5000000; 2000000; 2000000; 1000000]
    ∅ [] [].

Definition sample_run : outcome (list Result.t) * world :=
  musical_ear_test "melody" sample_texts "practice.csv" "test.csv" "pics"
    sample_info true sample_examples sample_tests sample_world.

Definition sample_results : list Result.t :=
  Eval vm_compute in
    match fst sample_run with
    | Ret rs => rs
    | _ => []
    end.

Definition sample_final : world := snd sample_run.

(** The header line [main] writes to both ledgers before the session. *)
Definition csv_header (with_experiment : bool) : string :=
  (if with_experiment
   then "experiment,subject_ID,date,"
   else "Subject_ID,Date,") ++
  "trial,type,phase,stimulus,response,correct,accuracy,start_time,end_time,duration " ++
  newline.

(** Every character of [s] passes the test [ok]. *)
Fixpoint all_chars (ok : ascii -> bool) (s : string) : bool :=
  match s with
  | EmptyString => true
  | String c s' => ok c && all_chars ok s'
  end.

(** The text holds no comma. *)
Definition comma_free (s : string) : Prop := Py.contains "," s = false.

(** Occurrences of the character [c] in [s]. *)
Fixpoint count_char (c : ascii) (s : string) : nat :=
  match s with
  | EmptyString => 0
  | String a s' => (if Ascii.eqb c a then 1 else 0) + count_char c s'
  end.

(** The characters of a rendered integer: a sign and decimal digits. *)
Definition sign_or_digit (a : ascii) : bool := Ascii.eqb a "-" || Py.is_digit a.

(** The columns a row should split into: the participant's entries
    ([leading] is the experiment name where the row has one), then the
    fields of the record; the last column carries the line break. *)
Definition row_columns (leading : list string) (subject cur_date : string)
    (r : Result.t) : list string :=
  (leading ++
   [subject; cur_date; Py.str (Result.trial r); Result.type r; Result.phase r;
    Result.stimulus r; Result.response r; Result.correct r;
    Py.str (Result.accuracy r); Result.start_time r; Result.end_time r;
    (Result.duration r ++ newline)%string])%list.

(** The string fields of a record. *)
Definition text_fields (r : Result.t) : list string :=
  [Result.type r; Result.phase r; Result.stimulus r; Result.response r;
   Result.correct r; Result.start_time r; Result.end_time r; Result.duration r].

(** The file names of a listing that [load_audio_files] takes for
    practice items of [test_type], and those it takes for scored items:
    the example marker is looked for first. *)
Definition is_example_file (test_type filename : string) : bool :=
  Py.startswith filename test_type && Py.contains "_example" filename.

Definition is_test_file (test_type filename : string) : bool :=
  Py.startswith filename test_type && negb (Py.contains "_example" filename) &&
  Py.contains "_test" filename.

(** A scored item whose name has no digit where the trial number is
    looked for: in the segment that follows the first [_test]. *)
Definition digitless_test_file (test_type filename : string) : Prop :=
  is_test_file test_type filename = true /\
  exists seg, Py.split filename "_test" !! 1%nat = Some seg /\
    all_chars (fun a => negb (Py.is_digit a)) seg = true.

(** A scored item whose trial number does not fit the index of
    [list.insert]: the number less one exceeds [sys.maxsize]. *)
Definition oversized_test_file (test_type filename : string) : Prop :=
  is_test_file test_type filename = true /\
  exists n, trial_number_of filename = Ok n /\ maxsize < n - 1.

(** A scored item on which [load_audio_files] fails. *)
Definition failing_test_file (test_type filename : string) : Prop :=
  digitless_test_file test_type filename \/ oversized_test_file test_type filename.

(** [f] is the first item of the listing that satisfies [P] among
    those on which [load_audio_files] fails. *)
Definition first_failing (test_type : string) (P : string -> Prop)
    (listing : list string) : Prop :=
  exists pre f post,
    listing = (pre ++ f :: post)%list /\
    Forall (fun g => ~ failing_test_file test_type g) pre /\
    failing_test_file test_type f /\ P f.

(** A file name the string primitives of the embedding read as Python
    reads it: ASCII characters only, and no more of them than a file
    system allows in a name. *)
Definition listed_name (filename : string) : bool :=
  all_chars (fun a => (nat_of_ascii a <? 128)%nat) filename &&
  (String.length filename <=? 255)%nat.

(** What a file holds; a file that does not exist holds nothing. *)
Definition content (fs : gmap string string) (path : string) : string :=
  default "" (fs !! path).

(** A text made of whole lines: empty, or ending in a line break. *)
Definition ends_line (text : string) : Prop :=
  text = "" \/ exists body, text = body ++ newline.

(** From [w] to [w'] the files in [paths] have only grown, by whole
    lines; no other file has changed and no handle has been left open. *)
Definition saved (paths : list string) (w w' : world) : Prop :=
  handles w' = handles w /\
  (forall path, path ∉ paths -> files w' !! path = files w !! path) /\
  (forall path, exists text,
     content (files w') path = content (files w) path ++ text /\ ends_line text).

(** [m] takes every world to one related to it by [R], however it ends. *)
Definition keeps {A} (R : world -> world -> Prop) (m : M A) : Prop :=
  forall w, R w (snd (m w)).

(** [m] raises nothing but exceptions that satisfy [P]. *)
Definition raises_only {A} (P : exn -> Prop) (m : M A) : Prop :=
  forall w e, fst (m w) = Raise e -> P e.

(** The key is one that a sub-test of [test_type] looks up and the dict
    it is looked up in does not have it. *)
Definition missing_key (test_type : string)
    (instruction_texts participant_info : gmap string string)
    (with_experiment : bool) (key : string) : Prop :=
  (key = test_type /\ german_test_type !! key = None) \/
  (key ∈ [test_type ++ "_part1"; test_type ++ "_part2";
          test_type ++ "_practice_yes"; test_type ++ "_practice_no"] /\
   instruction_texts !! key = None) \/
  (key ∈ ((if with_experiment then ["experiment"] else []) ++
          ["Subject_ID"; "cur_date"])%list /\
   participant_info !! key = None).

(** A computation that never raises. *)
Definition quiet {A} (m : M A) : Prop := forall w e, fst (m w) <> Raise e.

(** A computation that leaves files and handles as they are. *)
Definition untouched {A} (m : M A) : Prop :=
  forall w, files (snd (m w)) = files w /\ handles (snd (m w)) = handles w.

(** A [visual.Rect] as [draw_progress_bar] builds it. *)
Record rect : Type := Rect {
  pos_x : Q;
  pos_y : Q;
  width : Q;
  height : Q;
  fillColor : string
}.

(** How a call of [draw_progress_bar] ends, with the rectangles it has
    drawn by then. *)
Inductive drawing : Type :=
| Drawn (rects : list rect)
| ZeroDivisionError (rects : list rect).

(** [draw_progress_bar(win, trial_number, total_trials, bar_width,
    bar_height)], in exact rational arithmetic where the source computes
    in floats: the rounding of the quotient, of the product and of the
    position is left out, so that of the numbers only their order, which
    rounding keeps, carries over to the source. *)
Definition draw_progress_bar (trial_number total_trials : Z) (bar_width bar_height : Q)
    : drawing :=
  let background_bar := Rect 0 (-7 # 10) bar_width bar_height "gray" in
  if total_trials =? 0 then ZeroDivisionError [background_bar]
  else
    let filled_portion_width :=
      (bar_width * (inject_Z trial_number / inject_Z total_trials))%Q in
    if Qlt_le_dec 0 filled_portion_width then
      Drawn [background_bar;
             Rect (- (bar_width - filled_portion_width) / 2) (-7 # 10)
               filled_portion_width bar_height "black"]
    else Drawn [background_bar].

(** The progress bars of the trial screens of a trace, in order: the
    trial number and total that [draw_progress_bar] was called with, or
    [None] for a trial screen without bar. *)
Definition progress_of (e : Z * event) : option (option (Z * Z)) :=
  match snd e with
  | EvTrialScreen _ _ _ _ progress => Some progress
  | _ => None
  end.

Definition progress_bars (tr : list (Z * event)) : list (option (Z * Z)) :=
  omap progress_of tr.

(** The bars a phase over [files] should show: the k-th of n. *)
Definition counting_up (files : list string) : list (option (Z * Z)) :=
  imap (fun k _ => Some (Z.of_nat k + 1, Z.of_nat (length files))) files.

(** ** Start-up: folders and dialogs *)

(** How the code around the sub-tests can end early. *)
Inductive abort : Type :=
| Exception (message : string)        (* [raise Exception(...)] *)
| OSError (path : string)             (* [os.mkdir] failed: [OSError] or a subclass *)
| SystemExit                          (* [core.quit()] *)
| UnboundLocalError (name : string)   (* a local read before it is bound *)
| AttributeError (name : string)      (* a method the value does not have *)
| Uncaught (e : exn).                 (* an exception of the code above *)

(** How that code ends: it runs to its end, it ends early, or it is
    left waiting for the participant. *)
Inductive ending (A : Type) : Type :=
| Completes (a : A)
| Aborts (e : abort)
| Waits.
Arguments Completes {A} a.
Arguments Aborts {A} e.
Arguments Waits {A}.

(** [os.mkdir(path)]; [existing] holds the paths [os.path.exists]
    finds, compared as written.  The call fails with [OSError] or one
    of its subclasses ([FileExistsError], [FileNotFoundError],
    [PermissionError]) on a path that is found, and on a path that is
    not found when the system does not let it be created, which
    [creatable] tells: its parent is missing, the folder may not be
    written to, or the name is taken by a link that leads nowhere,
    which [os.path.exists] does not find. *)
Definition mkdir (creatable : string -> bool) (path : string) (existing : gset string)
    : option abort * gset string :=
  if bool_decide (path ∈ existing) then (Some (OSError path), existing)
  else if creatable path then (None, {[path]} ∪ existing)
  else (Some (OSError path), existing).

Definition no_audio_folder : string :=
  "No audio folder detected. Please make sure that " ++
  "'base_audio_path' is correctly set in the configurations".

(** [check_paths(base_audio_path, base_image_path, results_path)]: the
    exception raised, if any, and the paths that exist afterwards. *)
Definition check_paths (creatable : string -> bool)
    (base_audio_path base_image_path results_path : string) (existing : gset string)
    : option abort * gset string :=
  if negb (bool_decide (base_audio_path ∈ existing))
  then (Some (Exception no_audio_folder), existing)
  else
    let (raised, existing) :=
      if negb (bool_decide (base_image_path ∈ existing))
      then mkdir creatable base_image_path existing
      else (None, existing) in
    match raised with
    | Some e => (Some e, existing)
    | None =>
        if negb (bool_decide (results_path ∈ existing))
        then mkdir creatable results_path existing
        else (None, existing)
    end.

(** [get_participant_info()]; [cur_date] is what
    [datetime.datetime.now().strftime("%Y-%m-%d %H:%M")] gives, and
    [dialog] what the box holds in its one field that can be edited
    when OK is pressed, or [None] when the box is cancelled.  The dict
    of [musical_ear.py] has the experiment name, that of
    [musical_ear_psd.py] has not. *)
Definition get_participant_info (with_experiment : bool) (cur_date : string)
    (dialog : option string) : ending (gmap string string) :=
  let exp_data : gmap string string :=
    (if with_experiment then <["experiment" := "musical_ear_test"]> else id)
      (<["cur_date" := cur_date]> (<["Subject_ID" := "subject_ID"]> ∅)) in
  match dialog with
  | Some subject => Completes (<["Subject_ID" := subject]> exp_data)
  | None => Aborts SystemExit
  end.

(** *** The questionnaire of [musical_ear_psd.py] *)

Module Question.

(** An entry of [questions], with the source's keys. *)
Record t : Type := mk {
  label : string;
  question : string;
  type : string
}.

End Question.

(** The one field of a questionnaire box. *)
Inductive field : Type :=
| Checkbox      (* [addField(..., initial=False)] *)
| TextField.    (* [addField(..., initial="")] *)

(** [question_dialog.data[0]]: a [bool] from a checkbox, a [str] from a
    text field. *)
Inductive answer : Type :=
| Ticked (b : bool)
| Typed (s : string).

(** What the participant does with a box: cancel it, or press OK having
    left the checkbox [ticked] or the text field holding [typed]. *)
Inductive reply : Type :=
| Cancel
| Accept (ticked : bool) (typed : string).

Definition data0 (f : field) (ticked : bool) (typed : string) : answer :=
  match f with
  | Checkbox => Ticked ticked
  | TextField => Typed typed
  end.

(** The loop of [show_questionnaire].  [question_dialog] is the local
    of that name: it is bound by the first question of type [bool] or
    [text], and a question of any other type leaves it as it is. *)
Fixpoint questionnaire_loop (questions : list Question.t) (replies : list reply)
    (question_dialog : option field) (result : gmap string answer)
    : ending (gmap string answer) :=
  match questions with
  | [] => Completes result
  | q :: questions' =>
      let question_dialog :=
        if String.eqb (Question.type q) "bool" then Some Checkbox
        else if String.eqb (Question.type q) "text" then Some TextField
        else question_dialog in
      match question_dialog with
      | None => Aborts (UnboundLocalError "question_dialog")
      | Some f =>
          match replies with
          | [] => Waits
          | Cancel :: _ => Aborts SystemExit
          | Accept ticked typed :: replies' =>
              questionnaire_loop questions' replies' (Some f)
                (<[Question.label q := data0 f ticked typed]> result)
          end
      end
  end.

(** [show_questionnaire(questions)] *)
Definition show_questionnaire (questions : list Question.t) (replies : list reply)
    : ending (gmap string answer) :=
  questionnaire_loop questions replies None ∅.

(** [s.replace(old, new)] for a non-empty [old]: the occurrences the
    split finds, left to right and not overlapping, give way to [new]. *)
Definition replace (s old new : string) : string :=
  String.concat new (Py.split s old).

(** [str(b)] *)
Definition str_bool (b : bool) : string := if b then "True" else "False".

(** What [main] writes for one answer of the questionnaire, or the
    exception it raises instead. *)
Definition answer_cell (q : Question.t) (response : answer) : abort + string :=
  if String.eqb (Question.type q) "bool" then
    inr ("," ++ match response with
                | Ticked b => str_bool b
                | Typed s => s
                end)
  else
    match response with
    | Typed s =>
        if String.eqb s "" then inr ",NA"
        else inr ("," ++ replace s "," "")
    | Ticked _ => inl (AttributeError "replace")
    end.

(** The first line of the questionnaire file, one text per call of
    [file.write]. *)
Definition header_cells (questions : list Question.t) : list string :=
  "Subject_ID,Date" ::
  (map (fun q => ("," ++ Question.label q)%string) questions ++ [newline])%list.

(** The loop over the answers: the texts written, in order, and the
    exception that ends the loop early, if one does. *)
Fixpoint answer_cells (questions : list Question.t)
    (questionnaire_data : gmap string answer) : list string * option abort :=
  match questions with
  | [] => ([], None)
  | q :: questions' =>
      match questionnaire_data !! Question.label q with
      | None => ([], Some (Uncaught (KeyError (Question.label q))))
      | Some response =>
          match answer_cell q response with
          | inl e => ([], Some e)
          | inr cell =>
              let (cells, raised) := answer_cells questions' questionnaire_data in
              (cell :: cells, raised)
          end
      end
  end.

(** The module-level list [questions] of [musical_ear_psd.py]. *)
Definition questions : list Question.t :=
  [Question.mk "hoeren_schlecht_ja"
    ("Setzen Sie das Häkchen, wenn Sie ein eingeschränktes" ++
     " Hörvermögen haben:")
    "bool";
   Question.mk "instrument_list"
    ("Falls Sie ein Instrument spielen oder spielten, geben Sie" ++
     " jedes mit Namen an und in Klammern dahinter, wie viele" ++
     " Jahre (oder Monate) Sie dies tun / taten:")
    "text";
   Question.mk "chor_singen_ja"
    ("Setzen Sie das Häkchen, wenn Sie in einem Chor singen oder" ++
     " gesungen haben:")
    "bool";
   Question.mk "chor_dauer"
    ("Falls Sie in einem Chor singen oder gesungen haben, geben" ++
     " Sie bitte ein, wie viele Jahre (oder Monate) Sie dies tun" ++
     " / getan haben:")
    "text";
   Question.mk "band_singen_ja"
    ("Setzen Sie das Häkchen, wenn Sie in einer Band singen oder" ++
     " gesungen haben:")
    "bool";
   Question.mk "band_dauer"
    ("Falls Sie in einer Band singen oder gesungen haben, geben" ++
     " Sie bitte ein, wie viele Jahre (oder Monate) Sie dies tun" ++
     " / getan haben:")
    "text";
   Question.mk "musikschule_besucht_ja"
    ("Setzen Sie das Häkchen, wenn Sie auf einer Musikschule" ++
     " sind oder waren:")
    "bool";
   Question.mk "musikschule_dauer"
    ("Falls Sie auf einer Musikschule sind oder waren, geben Sie" ++
     " bitte ein, wie viele Jahre (oder Monate) Sie auf einer" ++
     " Musikschule waren oder sind:")
    "text";
   Question.mk "musik_hoeren"
    ("Geben Sie bitte an, wie viele Stunden pro Woche (in etwa)" ++
     " Sie Musik hören?")
    "text"].

(** The type of the question is one of the two that [show_questionnaire]
    and [main] provide for. *)
Definition bool_or_text (q : Question.t) : Prop :=
  Question.type q = "bool" \/ Question.type q = "text".

(** The field of the box a question of one of these types is asked in. *)
Definition field_of (q : Question.t) : field :=
  if String.eqb (Question.type q) "bool" then Checkbox else TextField.

(** The participant did not cancel the box. *)
Definition accepted (r : reply) : Prop := r <> Cancel.

(** The answer recorded for a question when the box is closed with
    reply [r]. *)
Definition recorded (questionnaire_data : gmap string answer)
    (q : Question.t) (r : reply) : Prop :=
  exists ticked typed, r = Accept ticked typed /\
    questionnaire_data !! Question.label q = Some (data0 (field_of q) ticked typed).

(** The value [main] writes after the comma for an answer. *)
Definition cell_value (response : answer) : string :=
  match response with
  | Ticked b => str_bool b
  | Typed s => if String.eqb s "" then "NA" else replace s "," ""
  end.

(** Everything [main] writes to the questionnaire file, one text per
    call of [file.write], and the exception that cuts the writing
    short, if one does. *)
Definition questionnaire_texts (questions : list Question.t)
    (questionnaire_data : gmap string answer) (participant_info : gmap string string)
    : list string * option abort :=
  match participant_info !! "Subject_ID" with
  | None => (header_cells questions, Some (Uncaught (KeyError "Subject_ID")))
  | Some subject =>
      match participant_info !! "cur_date" with
      | None => (header_cells questions, Some (Uncaught (KeyError "cur_date")))
      | Some cur_date =>
          let (cells, raised) := answer_cells questions questionnaire_data in
          ((header_cells questions ++ [(subject ++ "," ++ cur_date)%string] ++ cells ++
            match raised with Some _ => [] | None => [newline] end)%list,
           raised)
      end
  end.

(** A participant who ticks the first and third checkbox and types a
    comma into the list of instruments. *)
Definition sample_replies : list reply :=
  [Accept false ""; Accept false "Geige (3 Jahre), Klavier"; Accept true "";
   Accept false "2 Jahre"; Accept false ""; Accept false "";
   Accept true ""; Accept false ""; Accept false "10"].

(** ** The two programs *)

(** [open(path, 'w')] on a path that can be opened: the file is
    created, or emptied if it exists. *)
Definition fs_open_write (path : string) : M unit :=
  fun w =>
    (Ret tt, set_trace (trace w ++ [(now w, EvOpen path)])
               (set_handles (path :: handles w) (set_files (<[path := ""]> (files w)) w))).

(** [with open(path, 'w') as f: body] *)
Definition with_open_write {A} (path : string) (body : M A) : M A :=
  fs_open_write path ;;;
  fun w =>
    let (o, w1) := body w in
    let (_, w2) := fs_close path w1 in
    (o, w2).

(** The world after [text] has been written to [path] opened with
    mode ['w'], whatever the file held before. *)
Definition overwritten (path text : string) (w : world) : world :=
  World (now w) (utc_offset w) (durations w) (scripts w) (keywaits w)
        (<[path := text]> (files w)) (handles w)
        (trace w ++ [(now w, EvOpen path); (now w, EvWrite path text);
                     (now w, EvClose path)]).

(** [for x in l: body(x)] *)
Fixpoint for_each {A} (body : A -> M unit) (l : list A) : M unit :=
  match l with
  | [] => ret tt
  | x :: l' => body x ;;; for_each body l'
  end.

(** What [main] finds when it starts, beside the [world] of the
    session: the folders, the participant at the dialog boxes, the
    audio folder's listing, the outcome of the shuffle and the time
    stamps of the file names. *)
Record desk : Type := Desk {
  creatable : string -> bool;     (* whether [os.mkdir] may create a path *)
  cur_date : string;              (* [strftime("%Y-%m-%d %H:%M")] at the dialog *)
  dialog : option string;         (* the subject id entered; [None]: cancelled *)
  replies : list reply;           (* the questionnaire boxes, in order *)
  listing : list string;          (* [os.listdir(base_audio_path)] *)
  shuffled : bool;                (* [random.shuffle] swapped the two tests *)
  stamp_practice : string;        (* [strftime('%Y%m%d_%H%M%S')] at each of *)
  stamp_test : string;            (* the file names, in the order they are *)
  stamp_musicality : string       (* built *)
}.

(** A program: it runs on the folders and the world and ends in one of
    the three ways. *)
Definition Prog (A : Type) : Type :=
  gset string * world -> ending A * (gset string * world).

Definition pret {A} (a : A) : Prog A := fun s => (Completes a, s).

Definition pbind {A B} (m : Prog A) (f : A -> Prog B) : Prog B :=
  fun s =>
    match m s with
    | (Completes a, s') => f a s'
    | (Aborts e, s') => (Aborts e, s')
    | (Waits, s') => (Waits, s')
    end.

Declare Scope prog_scope.
Delimit Scope prog_scope with P.
Notation "x <- m ;; k" := (pbind m (fun x => k))
  (at level 100, m at next level, right associativity) : prog_scope.
Notation "m ;;; k" := (pbind m (fun _ => k))
  (at level 100, right associativity) : prog_scope.

(** A step on the folders. *)
Definition on_folders (f : gset string -> option abort * gset string) : Prog unit :=
  fun s =>
    let (raised, existing) := f (fst s) in
    (match raised with Some e => Aborts e | None => Completes tt end, (existing, snd s)).

(** A step in the world of the session. *)
Definition in_world {A} (m : M A) : Prog A :=
  fun s =>
    let (o, w) := m (snd s) in
    (match o with
     | Ret a => Completes a
     | Raise e => Aborts (Uncaught e)
     | Stuck => Waits
     end, (fst s, w)).

(** A step that touches neither. *)
Definition of_ending {A} (e : ending A) : Prog A := fun s => (e, s).

Definition of_res {A} (r : res A) : Prog A :=
  of_ending (match r with Ok a => Completes a | Exn e => Aborts (Uncaught e) end).

Definition of_raised (raised : option abort) : Prog unit :=
  of_ending (match raised with Some e => Aborts e | None => Completes tt end).

(** [random.shuffle(starting_tests)] on the two tests. *)
Definition shuffle (swap : bool) (starting_tests : list string) : list string :=
  if swap then reverse starting_tests else starting_tests.

Definition dq : string := String (ascii_of_nat 34) "".

(** *** [musical_ear.py] *)

Module Met.

Definition instruction_texts : gmap string string :=
  list_to_map
    [("general_intro",
     "Willkommen zum Test " ++ dq ++ "Musikalisches-Gehör" ++ dq ++ " " ++
     newline ++ newline ++ "Dieser Test besteht aus zwei Teilen: " ++ newline ++
     newline ++ "dem Melodie-Teil und dem Rhythmus-Teil. " ++ newline ++
     newline ++ "Drücken Sie eine beliebige Taste, wenn Sie bereit sind," ++
     " mit den Beispielen anzufangen.");
     ("melody_part1",
     "Melodie. " ++ newline ++ newline ++
     "Sie werden nun immer zwei kurze Melodien hintereinander" ++ " hören. " ++
     newline ++ newline ++ "Sie müssen entscheiden, ob diese zwei Melodien" ++
     " identisch sind. " ++ newline ++ "Sind sie identisch, drücken Sie " ++
     dq ++ "y" ++ dq ++ " (yes) auf der Tastatur. " ++ newline ++
     "Sind sie nicht identisch, drücken Sie " ++ dq ++ "n" ++ dq ++
     " (no) auf der Tastatur. " ++ newline ++ newline ++
     "Lassen Sie uns mit 2 Beispielen starten. " ++ newline ++ newline ++
     "Drücken Sie eine beliebige Taste, wenn Sie bereit sind.");
     ("melody_practice_yes",
     "In diesem Fall waren die Melodien identisch. " ++ newline ++ newline ++
     "Die korrekte Antwort ist deshalb yes / ja " ++ newline ++
     "und Sie sollten " ++ dq ++ "y" ++ dq ++ " auf der Tastatur drücken. " ++
     newline ++ newline ++ "Drücken Sie eine beliebige Taste, um das zweite" ++
     " Beispiel abzuspielen.");
     ("melody_practice_no",
     "In diesem Fall waren die Melodien nicht identisch. " ++ newline ++
     newline ++ "Die korrekte Antwort ist deshalb no / nein " ++ newline ++
     "und Sie sollten " ++ dq ++ "n" ++ dq ++ " auf der Tastatur drücken. " ++
     newline ++ newline ++ "Drücken Sie eine beliebige Taste, um die" ++
     " Übungsbeispiele abzuschließen.");
     ("melody_part2",
     "Jetzt beginnt der Test. " ++ newline ++ newline ++
     "Sie werden insgesamt 52 Melodie-Paare hören. " ++ newline ++ newline ++
     "Sie enthalten zusätzlich einen leisen Metronomton, " ++ newline ++
     " in gleichmäßigen Abständen unterlegt. " ++ newline ++
     "Sie haben 2 Sekunden Zeit, per Tastatur zu antworten. " ++ newline ++
     "Drücken Sie die " ++ dq ++ "y" ++ dq ++ " oder " ++ dq ++ "n" ++ dq ++
     " Taste, " ++ newline ++
     " sobald die entsprechenden Button erscheinen. " ++ newline ++
     "Das nächste Melodie-Paar startet automatisch. " ++ newline ++
     "Versuchen Sie, so akkurat wie möglich zu antworten. " ++ newline ++
     newline ++ "Drücken Sie eine beliebige Taste, wenn Sie bereit sind," ++
     " anzufangen.");
     ("rhythm_part1",
     "Rhythmus. " ++ newline ++ newline ++
     "Sie werden nun immer zwei kurze Rhythmen hintereinander" ++ " hören. " ++
     newline ++ newline ++ "Sie müssen entscheiden, ob diese zwei Rhythmen" ++
     " identisch sind. " ++ newline ++ "Sind sie identisch, drücken Sie " ++
     dq ++ "y" ++ dq ++ " (yes) auf der Tastatur. " ++ newline ++
     "Sind sie nicht identisch, drücken Sie " ++ dq ++ "n" ++ dq ++
     " (no) auf der Tastatur. " ++ newline ++ newline ++
     "Lassen Sie uns mit 2 Beispielen starten. " ++ newline ++ newline ++
     "Drücken Sie eine beliebige Taste, wenn Sie bereit sind.");
     ("rhythm_practice_yes",
     "In diesem Fall waren die Rhythmen identisch. " ++ newline ++ newline ++
     "Die korrekte Antwort ist deshalb yes / ja " ++ newline ++
     "und Sie sollten " ++ dq ++ "y" ++ dq ++ " auf der Tastatur drücken. " ++
     newline ++ newline ++ "Drücken Sie eine beliebige Taste, um das zweite" ++
     " Beispiel abzuspielen.");
     ("rhythm_practice_no",
     "In diesem Fall waren die Rhythmen nicht identisch. " ++ newline ++
     newline ++ "Die korrekte Antwort ist deshalb no / nein " ++ newline ++
     "und Sie sollten " ++ dq ++ "n" ++ dq ++ " auf der Tastatur drücken. " ++
     newline ++ newline ++ "Drücken Sie eine beliebige Taste, um die" ++
     " Übungsbeispiele abzuschließen.");
     ("rhythm_part2",
     "Jetzt beginnt der Test. " ++ newline ++ newline ++
     "Sie werden insgesamt 52 Rhythmus-Paare hören. " ++ newline ++
     "Sie enthalten zusätzlich einen leisen Metronomton, " ++ newline ++
     " in gleichmäßigen Abständen unterlegt. " ++ newline ++
     "Sie haben 2 Sekunden Zeit, per Tastatur zu antworten. " ++ newline ++
     "Drücken Sie die " ++ dq ++ "y" ++ dq ++ " oder " ++ dq ++ "n" ++ dq ++
     " Taste, " ++ newline ++
     " sobald die entsprechenden Button erscheinen. " ++ newline ++
     "Das nächste Rhythmus-Paar startet automatisch. " ++ newline ++
     "Versuchen Sie, so akkurat wie möglich zu antworten. " ++ newline ++
     newline ++ "Drücken Sie eine beliebige Taste, wenn Sie bereit sind," ++
     " anzufangen.");
     ("end",
     "Sie haben es geschafft! " ++ newline ++ newline ++
     "Drücken Sie eine beliebige Taste, um den Test" ++ " abzuschließen.")].

Definition base_audio_path : string := "audio".
Definition base_image_path : string := "pics".
Definition results_path : string := "results".

Definition practice_output_filename (d : desk) (subject : string) : string :=
  Py.path_join results_path
    ("MET_practice_results_" ++ subject ++ "_" ++ stamp_practice d ++ ".csv").

Definition test_output_filename (d : desk) (subject : string) : string :=
  Py.path_join results_path
    ("MET_test_results_" ++ subject ++ "_" ++ stamp_test d ++ ".csv").

(** The statements of [main] from the file names on: those that run
    in the world of the session. *)
Definition session (d : desk) (participant_info : gmap string string)
    (melody rhythm : list string * list string) : M unit :=
  let starting_tests := shuffle (shuffled d) ["melody"; "rhythm"] in
  subject <- getitem participant_info "Subject_ID" ;;
  let practice_output_filename := practice_output_filename d subject in
  subject <- getitem participant_info "Subject_ID" ;;
  let test_output_filename := test_output_filename d subject in
  for_each
    (fun output_file =>
       with_open_write output_file (fs_write output_file (csv_header true)))
    [practice_output_filename; test_output_filename] ;;;
  run_tests instruction_texts practice_output_filename test_output_filename
    base_image_path participant_info true
    (fst melody) (snd melody) (fst rhythm) (snd rhythm) starting_tests ;;;
  end_text <- getitem instruction_texts "end" ;;
  display_instructions end_text.

(** [main()]: the folders, the dialog, the two catalogues, then the
    session.  The window, opened after the dialog and closed after the
    end screen, has no part in the model: what is put on it are the
    events of the trace. *)
Definition main (d : desk) : Prog unit :=
  (on_folders (check_paths (creatable d) base_audio_path base_image_path results_path) ;;;
   participant_info <- of_ending (get_participant_info true (cur_date d) (dialog d)) ;;
   melody <- of_res (load_audio_files base_audio_path "melody" (listing d)) ;;
   rhythm <- of_res (load_audio_files base_audio_path "rhythm" (listing d)) ;;
   in_world (session d participant_info melody rhythm))%P.

End Met.

(** *** [musical_ear_psd.py] *)

(** [d[key]] on a dict of counts. *)
Definition getitem_int (d : gmap string Z) (key : string) : M Z :=
  match d !! key with
  | Some v => ret v
  | None => raise (KeyError key)
  end.

(** [sum(1 for result in results if result['accuracy'] == 1 and
    result['phase'] == 'test')] *)
Definition correct_count (results : list Result.t) : Z :=
  Z.of_nat (length (List.filter
                      (fun result => (Result.accuracy result =? 1) &&
                                     String.eqb (Result.phase result) "test")
                      results)).

Module Psd.

Definition instruction_texts : gmap string string :=
  list_to_map
    [("general_intro",
     "Willkommen zum Test " ++ dq ++ "Musikalisches-Gehör" ++ dq ++ " " ++
     newline ++ newline ++ "Dieser Test besteht aus zwei Teilen: " ++ newline ++
     newline ++ "dem Melodie-Test und dem Rhythmus-Test. " ++ newline ++
     newline ++ "Drücken Sie eine beliebige Taste, wenn Sie bereit sind," ++
     " mit den Beispielen anzufangen.");
     ("melody_part1",
     "Melodie-Test. " ++ newline ++ newline ++
     "Sie werden nun immer zwei kurze Melodien hintereinander" ++ " hören. " ++
     newline ++ newline ++ "Sie müssen entscheiden, ob diese zwei Melodien" ++
     " identisch sind. " ++ newline ++ "Sind sie identisch, drücken Sie " ++
     dq ++ "y" ++ dq ++ " (yes) auf der Tastatur. " ++ newline ++
     "Sind sie nicht identisch, drücken Sie " ++ dq ++ "n" ++ dq ++
     " (no) auf der Tastatur. " ++ newline ++ newline ++
     "Lassen Sie uns mit 2 Beispielen starten. " ++ newline ++ newline ++
     "Drücken Sie eine beliebige Taste, wenn Sie bereit sind.");
     ("melody_practice_yes",
     "In diesem Fall waren die Melodien identisch. " ++ newline ++ newline ++
     "Die korrekte Antwort ist deshalb yes / ja " ++ newline ++
     "und Sie sollten " ++ dq ++ "y" ++ dq ++ " auf der Tastatur drücken. " ++
     newline ++ newline ++ "Drücken Sie eine beliebige Taste, um das zweite" ++
     " Beispiel abzuspielen.");
     ("melody_practice_no",
     "In diesem Fall waren die Melodien nicht identisch. " ++ newline ++
     newline ++ "Die korrekte Antwort ist deshalb no / nein " ++ newline ++
     "und Sie sollten " ++ dq ++ "n" ++ dq ++ " auf der Tastatur drücken. " ++
     newline ++ newline ++ "Drücken Sie eine beliebige Taste, um die" ++
     " Übungsbeispiele abzuschließen.");
     ("melody_part2",
     "Jetzt beginnt der Test. " ++ newline ++ newline ++
     "Sie werden insgesamt 20 Melodien hören. " ++ newline ++ newline ++
     "Sie haben 2 Sekunden Zeit, per Tastatur zu antworten. " ++ newline ++
     "Drücken Sie die " ++ dq ++ "y" ++ dq ++ " oder " ++ dq ++ "n" ++ dq ++
     " Taste, " ++ newline ++
     " sobald die entsprechenden Button erscheinen. " ++ newline ++
     "Versuchen Sie, so akkurat wie möglich zu antworten. " ++ newline ++
     newline ++ "Drücken Sie eine beliebige Taste, wenn Sie bereit sind," ++
     " anzufangen.");
     ("rhythm_part1",
     "Rhythmus-Test. " ++ newline ++ newline ++
     "Sie werden nun immer zwei kurze Rhythmen hintereinander" ++ " hören. " ++
     newline ++ newline ++ "Sie müssen entscheiden, ob diese zwei Rhythmen" ++
     " identisch sind. " ++ newline ++ "Sind sie identisch, drücken Sie " ++
     dq ++ "y" ++ dq ++ " (yes) auf der Tastatur. " ++ newline ++
     "Sind sie nicht identisch, drücken Sie " ++ dq ++ "n" ++ dq ++
     " (no) auf der Tastatur. " ++ newline ++ newline ++
     "Lassen Sie uns mit 2 Beispielen starten. " ++ newline ++ newline ++
     "Drücken Sie eine beliebige Taste, wenn Sie bereit sind.");
     ("rhythm_practice_yes",
     "In diesem Fall waren die Rhythmen identisch. " ++ newline ++ newline ++
     "Die korrekte Antwort ist deshalb yes / ja " ++ newline ++
     "und Sie sollten " ++ dq ++ "y" ++ dq ++ " auf der Tastatur drücken. " ++
     newline ++ newline ++ "Drücken Sie eine beliebige Taste, um das zweite" ++
     " Beispiel abzuspielen.");
     ("rhythm_practice_no",
     "In diesem Fall waren die Rhythmen nicht identisch. " ++ newline ++
     newline ++ "Die korrekte Antwort ist deshalb no / nein " ++ newline ++
     "und Sie sollten " ++ dq ++ "n" ++ dq ++ " auf der Tastatur drücken. " ++
     newline ++ newline ++ "Drücken Sie eine beliebige Taste, um die" ++
     " Übungsbeispiele abzuschließen.");
     ("rhythm_part2",
     "Jetzt beginnt der Test. " ++ newline ++ newline ++
     "Sie werden insgesamt 20 Rhythmen hören. " ++ newline ++ newline ++
     "Sie haben 2 Sekunden Zeit, per Tastatur zu antworten. " ++ newline ++
     "Drücken Sie die " ++ dq ++ "y" ++ dq ++ " oder " ++ dq ++ "n" ++ dq ++
     " Taste, " ++ newline ++
     " sobald die entsprechenden Button erscheinen. " ++ newline ++
     "Versuchen Sie, so akkurat wie möglich zu antworten. " ++ newline ++
     newline ++ "Drücken Sie eine beliebige Taste, wenn Sie bereit sind," ++
     " anzufangen.");
     ("end",
     "Sie haben es geschafft! " ++ newline ++ newline ++
     "Drücken Sie eine beliebige Taste, um den Test" ++ " abzuschließen.")].

Section Loop.

Variable practice_output_filename test_output_filename : string.
Variable base_image_path : string.
Variable participant_info : gmap string string.
Variable melody_example_files melody_test_files : list string.
Variable rhythm_example_files rhythm_test_files : list string.

(** Body of the loop of [main] over [starting_tests], carrying the two
    dicts of counts. *)
Definition run_test (counts : gmap string Z * gmap string Z) (i : Z) (test : string)
    : M (gmap string Z * gmap string Z) :=
  let (correct_responses, number_trials) := counts in
  (if i =? 0
   then intro <- getitem instruction_texts "general_intro" ;;
        display_instructions intro
   else ret tt) ;;;
  if String.eqb test "melody" then
    results <- musical_ear_test "melody" instruction_texts practice_output_filename
                 test_output_filename base_image_path participant_info false
                 melody_example_files melody_test_files ;;
    ret (<["melody" := correct_count results]> correct_responses,
         <["melody_trials" := Z.of_nat (length melody_test_files)]> number_trials)
  else if String.eqb test "rhythm" then
    results <- musical_ear_test "rhythm" instruction_texts practice_output_filename
                 test_output_filename base_image_path participant_info false
                 rhythm_example_files rhythm_test_files ;;
    ret (<["rhythm" := correct_count results]> correct_responses,
         <["rhythm_trials" := Z.of_nat (length rhythm_test_files)]> number_trials)
  else ret (correct_responses, number_trials).

End Loop.

(** The f-string of the result screen, for the four values it formats. *)
Definition result_text (melody melody_trials rhythm rhythm_trials : Z) : string :=
  "Ergebnis Melodie-Test " ++ newline ++ newline ++ " Korrekt erkannt: " ++
  Py.str melody ++ " von " ++ Py.str melody_trials ++ " " ++
  newline ++ newline ++ newline ++
  "Ergebnis Rhythmus-Test " ++ newline ++ newline ++ " Korrekt erkannt: " ++
  Py.str rhythm ++ " von " ++ Py.str rhythm_trials.

(** The result screen, from the two dicts of counts; the lookups in
    the order the f-string evaluates them. *)
Definition correct_responses_text (counts : gmap string Z * gmap string Z) : M string :=
  let (correct_responses, number_trials) := counts in
  melody <- getitem_int correct_responses "melody" ;;
  melody_trials <- getitem_int number_trials "melody_trials" ;;
  rhythm <- getitem_int correct_responses "rhythm" ;;
  rhythm_trials <- getitem_int number_trials "rhythm_trials" ;;
  ret (result_text melody melody_trials rhythm rhythm_trials).

Definition base_audio_path : string := "psd_audio".
Definition base_image_path : string := "pics".
Definition results_path : string := "psd_results".

Definition practice_output_filename (d : desk) (subject : string) : string :=
  Py.path_join results_path
    ("practice_results_" ++ subject ++ "_" ++ stamp_practice d ++ ".csv").

Definition test_output_filename (d : desk) (subject : string) : string :=
  Py.path_join results_path
    ("test_results_" ++ subject ++ "_" ++ stamp_test d ++ ".csv").

Definition musicality_psd_filename (d : desk) (subject : string) : string :=
  Py.path_join results_path
    ("musicality_PSD_" ++ subject ++ "_" ++ stamp_musicality d ++ ".csv").

(** The three file names, each with its own lookup of the subject id. *)
Definition file_names (d : desk) (participant_info : gmap string string)
    : M (string * string * string) :=
  subject <- getitem participant_info "Subject_ID" ;;
  let practice := practice_output_filename d subject in
  subject <- getitem participant_info "Subject_ID" ;;
  let test := test_output_filename d subject in
  subject <- getitem participant_info "Subject_ID" ;;
  let musicality := musicality_psd_filename d subject in
  ret (practice, test, musicality).

(** The statements of [main] that follow the questionnaire file. *)
Definition session (d : desk) (participant_info : gmap string string)
    (melody rhythm : list string * list string)
    (practice_output_filename test_output_filename : string) : M unit :=
  let starting_tests := shuffle (shuffled d) ["melody"; "rhythm"] in
  for_each
    (fun output_file =>
       with_open_write output_file (fs_write output_file (csv_header false)))
    [practice_output_filename; test_output_filename] ;;;
  let correct_responses : gmap string Z := <["melody" := 0]> (<["rhythm" := 0]> ∅) in
  let number_trials : gmap string Z :=
    <["melody_trials" := 0]> (<["rhythm_trials" := 0]> ∅) in
  counts <- for_enumerate
              (run_test practice_output_filename test_output_filename base_image_path
                 participant_info (fst melody) (snd melody) (fst rhythm) (snd rhythm))
              0 starting_tests (correct_responses, number_trials) ;;
  text <- correct_responses_text counts ;;
  display_instructions text ;;;
  end_text <- getitem instruction_texts "end" ;;
  display_instructions end_text.

(** [main()]: the folders, the dialog, the questionnaire, the two
    catalogues, the three file names, the questionnaire file, then the
    session.  An exception raised while the questionnaire file is being
    written leaves the [with] block, which closes the file, before it
    ends [main]. *)
Definition main (d : desk) : Prog unit :=
  (on_folders (check_paths (creatable d) base_audio_path base_image_path results_path) ;;;
   participant_info <- of_ending (get_participant_info false (cur_date d) (dialog d)) ;;
   questionnaire_data <- of_ending (show_questionnaire questions (replies d)) ;;
   melody <- of_res (load_audio_files base_audio_path "melody" (listing d)) ;;
   rhythm <- of_res (load_audio_files base_audio_path "rhythm" (listing d)) ;;
   names <- in_world (file_names d participant_info) ;;
   let '(practice_output_filename, test_output_filename, musicality_psd_filename) :=
     names in
   let (texts, raised) :=
     questionnaire_texts questions questionnaire_data participant_info in
   in_world
     (with_open_write musicality_psd_filename
        (for_each (fs_write musicality_psd_filename) texts)) ;;;
   of_raised raised ;;;
   in_world
     (session d participant_info melody rhythm
        practice_output_filename test_output_filename))%P.

End Psd.

(** The rows of the records [rs], in order, as one text. *)
Definition rows (experiment subject cur_date : string) (rs : list Result.t) : string :=
  String.concat "" (map (format_row experiment subject cur_date) rs).

(** The number of records whose response is the ground truth of the
    stimulus. *)
Definition hits (rs : list Result.t) : Z :=
  Z.of_nat (length (List.filter
                      (fun r => String.eqb (Result.response r)
                                  (correct_answer (Result.stimulus r)))
                      rs)).

(** The participant sees a session through: for each sub-test in turn,
    given by its example files and its test files, every practice
    window gets its key, every scored window gets a key or runs out,
    and the instruction screens are dismissed; [closing] more screens
    are dismissed at the end. *)
Fixpoint sees_through (subtests : list (list string * list string)) (closing : nat)
    (scripts : list (list poll)) (keywaits : list Z) : Prop :=
  match subtests with
  | [] => (closing <= length keywaits)%nat
  | (example_files, test_files) :: rest =>
      let n := length example_files in
      let m := length test_files in
      (n + m <= length scripts)%nat /\
      Forall (resolves None) (take n scripts) /\
      Forall (resolves (Some 2)) (take m (drop n scripts)) /\
      (n + 2 <= length keywaits)%nat /\
      sees_through rest closing (drop (n + m) scripts) (drop (n + 2) keywaits)
  end.

(** A small session: one example and one scored item per sub-test, a
    participant who answers the first three windows and lets the last
    one run out, and who dismisses every screen after a second. *)
Definition sample_desk : desk :=
  Desk (fun _ => true) "2023-05-06 10:00" (Some "s01") sample_replies
    ["rhythm_test01_identical.wav"; "melody_example1_identical.wav";
     "melody_test01_different.wav"; "rhythm_example1_different.wav"]
    true "20230506_100001" "20230506_100002" "20230506_100003".

Definition sample_session_world : world :=
  World (36000 * ticks_per_second) 0 (fun _ => 3 * ticks_per_second)
    [[(500000, ["y"])]; [(100000, ["n"])]; [(200000, []); (300000, ["n"])];
     [(1000000, []); (1000000, [])]]
    (repeat ticks_per_second 9)
    ∅ [] [].

(** The two dicts of counts have the four entries the result screen
    reads. *)
Definition counted (counts : gmap string Z * gmap string Z) : Prop :=
  is_Some (fst counts !! "melody") /\ is_Some (snd counts !! "melody_trials") /\
  is_Some (fst counts !! "rhythm") /\ is_Some (snd counts !! "rhythm_trials").

(** * Properties *)

(** ** Strings *)

Lemma ascii_eqb_eq (a b : ascii) : Ascii.eqb a b = true <-> a = b.
Proof. apply Ascii.eqb_eq. Qed.

Lemma startswith_app (s p : string) :
  Py.startswith s p = true <-> exists rest, s = p ++ rest.
Proof.
  revert s; induction p as [|a p IH]; intros s; simpl.
  - split; [intros _; exists s; reflexivity | reflexivity].
  - destruct s as [|b s].
    + split; [discriminate | intros [rest H]; discriminate].
    + destruct (Ascii.eqb a b) eqn:E.
      * apply ascii_eqb_eq in E; subst b. rewrite IH.
        split; intros [rest H]; exists rest; [by rewrite H | by injection H].
      * split; [discriminate |].
        intros [rest H]. injection H as Hab _.
        subst b. by rewrite Ascii.eqb_refl in E.
Qed.

Lemma string_app_assoc (a b c : string) : (a ++ b) ++ c = a ++ (b ++ c).
Proof. induction a as [|x a IH]; simpl; [reflexivity | by rewrite IH]. Qed.

Lemma string_app_nil_r (a : string) : a ++ "" = a.
Proof. induction a as [|x a IH]; simpl; [reflexivity | by rewrite IH]. Qed.

(** With the one-character separator of the ground-truth rule the scan
    never has anything to skip. *)
Lemma split_from_underscore_cons (cur : string) (c : ascii) (s : string) :
  Py.split_from "_" 0 cur (String c s) =
  if Ascii.eqb "_" c then cur :: Py.split_from "_" 0 "" s
  else Py.split_from "_" 0 (cur ++ String c "") s.
Proof.
  assert (Hs : Py.startswith (String c s) "_" = Ascii.eqb "_" c).
  { cbn [Py.startswith]. destruct (Ascii.eqb "_" c); reflexivity. }
  cbn [Py.split_from]. rewrite Hs. reflexivity.
Qed.

Lemma split_from_nonempty (sep : string) (skip : nat) (cur s : string) :
  Py.split_from sep skip cur s <> [].
Proof.
  revert skip cur; induction s as [|c s IH]; intros skip cur; simpl.
  - discriminate.
  - destruct skip; [|apply IH].
    destruct (Py.startswith (String c s) sep); [discriminate | apply IH].
Qed.

Lemma split_nonempty (s sep : string) : Py.split s sep <> [].
Proof. apply split_from_nonempty. Qed.

Lemma contains_underscore_cons (c : ascii) (s : string) :
  Py.contains "_" (String c s) = Ascii.eqb "_" c || Py.contains "_" s.
Proof.
  cbn [Py.contains Py.startswith]. destruct (Ascii.eqb "_" c); reflexivity.
Qed.

Lemma split_from_no_underscore (cur s : string) :
  Py.contains "_" s = false -> Py.split_from "_" 0 cur s = [cur ++ s].
Proof.
  revert cur; induction s as [|c s IH]; intros cur H.
  - simpl. by rewrite string_app_nil_r.
  - rewrite contains_underscore_cons in H.
    apply orb_false_iff in H as [Hc Hs].
    rewrite split_from_underscore_cons, Hc, IH by exact Hs.
    by rewrite string_app_assoc.
Qed.

Lemma last_cons_nonempty {A} (x : A) (l : list A) (d : A) :
  l <> [] -> List.last (x :: l) d = List.last l d.
Proof. destruct l; [congruence | reflexivity]. Qed.

Lemma last_split_from_app (cur pre suf : string) :
  List.last (Py.split_from "_" 0 cur (pre ++ "_" ++ suf)) "" =
  List.last (Py.split_from "_" 0 "" suf) "".
Proof.
  revert cur; induction pre as [|c pre IH]; intros cur.
  - change ("" ++ "_" ++ suf) with (String "_" suf).
    rewrite split_from_underscore_cons. simpl Ascii.eqb. cbv iota.
    apply last_cons_nonempty, split_from_nonempty.
  - change (String c pre ++ "_" ++ suf) with (String c (pre ++ "_" ++ suf)).
    rewrite split_from_underscore_cons.
    destruct (Ascii.eqb "_" c).
    + rewrite last_cons_nonempty by apply split_from_nonempty. apply IH.
    + apply IH.
Qed.

(** The last segment is what follows the last underscore. *)
Lemma last_segment_after_underscore (pre suf : string) :
  Py.contains "_" suf = false -> last_segment (pre ++ "_" ++ suf) = suf.
Proof.
  intros H. unfold last_segment, Py.split.
  rewrite last_split_from_app, split_from_no_underscore by exact H.
  reflexivity.
Qed.

(** Without an underscore the identifier is its own last segment. *)
Lemma last_segment_no_underscore (s : string) :
  Py.contains "_" s = false -> last_segment s = s.
Proof.
  intros H. unfold last_segment, Py.split.
  by rewrite split_from_no_underscore.
Qed.

Lemma underscore_decompose (s : string) :
  Py.contains "_" s = false \/
  exists pre suf, s = pre ++ "_" ++ suf /\ Py.contains "_" suf = false.
Proof.
  induction s as [|c s IH].
  - by left.
  - destruct IH as [IH | (pre & suf & -> & Hsuf)].
    + destruct (Ascii.eqb "_" c) eqn:E.
      * right. apply ascii_eqb_eq in E; subst c.
        exists "", s. by split.
      * left. by rewrite contains_underscore_cons, E, IH.
    + right. exists (String c pre), suf. by split.
Qed.

Lemma correct_answer_cases (file : string) :
  correct_answer file = "yes" \/ correct_answer file = "no".
Proof. unfold correct_answer. destruct (Py.startswith _ _); auto. Qed.

Lemma correct_answer_not_NA (file : string) : correct_answer file <> "NA".
Proof. destruct (correct_answer_cases file) as [-> | ->]; discriminate. Qed.

(** ** Scoring *)

Lemma accuracy_cases (response correct : string) :
  (response = correct /\ accuracy response correct = 1) \/
  (response <> correct /\ response = "NA" /\ accuracy response correct = 99) \/
  (response <> correct /\ response <> "NA" /\ accuracy response correct = 0).
Proof.
  unfold accuracy.
  destruct (String.eqb_spec response correct) as [-> | Hne]; [by left | right].
  destruct (String.eqb_spec response "NA") as [-> | Hna]; [left | right]; auto.
Qed.

(** ** The monad *)

Lemma bind_Ret {A B} (m : M A) (f : A -> M B) (w w' : world) (b : B) :
  bind m f w = (Ret b, w') ->
  exists a w1, m w = (Ret a, w1) /\ f a w1 = (Ret b, w').
Proof.
  unfold bind. destruct (m w) as [[a | e |] w1]; intros H; try discriminate.
  exists a, w1. by split.
Qed.

Lemma getitem_Ret (d : gmap string string) (key : string) (w w' : world) (v : string) :
  getitem d key w = (Ret v, w') -> d !! key = Some v /\ w' = w.
Proof.
  unfold getitem. destruct (d !! key); intros H; inversion H; by subst.
Qed.

Lemma set_now_set_now (a b : Z) (w : world) : set_now a (set_now b w) = set_now a w.
Proof. reflexivity. Qed.

Lemma set_now_eq (a b : Z) (w : world) : a = b -> set_now a w = set_now b w.
Proof. by intros ->. Qed.

(** Two results that differ only in how the clock value is written. *)
Ltac solve_now :=
  try f_equal; first [lia | apply set_now_eq; lia].

(** ** Response collection *)

Lemma getKeys_yn_designated (buffer : list string) (key : string) :
  key ∈ getKeys_yn buffer -> key = "y" \/ key = "n".
Proof. unfold getKeys_yn. rewrite list_elem_of_filter. tauto. Qed.

Lemma translate_designated (key : string) :
  key = "y" \/ key = "n" ->
  translate (Some key) = (if String.eqb key "y" then "yes" else "no") /\
  translate (Some key) <> "NA".
Proof. intros [-> | ->]; split; (reflexivity || discriminate). Qed.

Lemma first_answer_Some (polls : list poll) (j : nat) (key : string) :
  first_answer polls = Some (j, key) ->
  (key = "y" \/ key = "n") /\
  (exists p, polls !! j = Some p /\ head (getKeys_yn (snd p)) = Some key) /\
  (forall i p, (i < j)%nat -> polls !! i = Some p -> silent p).
Proof.
  revert j; induction polls as [|[dt buffer] rest IH]; intros j; simpl; [discriminate|].
  destruct (getKeys_yn buffer) as [|k ks] eqn:E.
  - destruct (first_answer rest) as [[j' key']|]; [|discriminate].
    intros H; inversion H; subst; clear H.
    destruct (IH j' eq_refl) as (Hk & Hp & Hs).
    split; [exact Hk|]. split; [exact Hp|].
    intros [|i] p Hi Hl; simpl in Hl.
    + inversion Hl; subst. exact E.
    + apply (Hs i); [lia | exact Hl].
  - intros H; inversion H; subst; clear H.
    split; [apply (getKeys_yn_designated buffer); rewrite E; left|].
    split; [exists (dt, buffer); simpl; by rewrite E|].
    intros i p Hi; lia.
Qed.

Lemma first_answer_None (polls : list poll) :
  first_answer polls = None <-> Forall silent polls.
Proof.
  induction polls as [|[dt buffer] rest IH]; simpl.
  - split; [constructor | reflexivity].
  - rewrite Forall_cons. unfold silent at 1; simpl.
    destruct (getKeys_yn buffer) as [|k ks].
    + destruct (first_answer rest) as [[j key]|].
      * split; [discriminate | intros [_ H]; apply IH in H; discriminate].
      * split; [intros _; split; [reflexivity | by apply IH] | reflexivity].
    + split; [discriminate | intros [H _]; discriminate].
Qed.

(** Without a countdown the loop is decided by the script alone. *)
Lemma response_loop_untimed (polls : list poll) (w : world) :
  response_loop None polls w =
  match first_answer polls with
  | Some (j, key) => (Ret (Some key), set_now (now w + elapsed (S j) polls) w)
  | None => (Stuck, set_now (now w + elapsed (length polls) polls) w)
  end.
Proof.
  revert w; induction polls as [|[dt buffer] rest IH]; intros w.
  - simpl. destruct w; unfold set_now; simpl. by rewrite Z.add_0_r.
  - cbn [response_loop first_answer]. unfold bind, advance.
    destruct (getKeys_yn buffer) as [|k ks].
    + rewrite IH. cbn [now set_now].
      destruct (first_answer rest) as [[j key]|]; cbn [elapsed length];
        rewrite set_now_set_now; solve_now.
    + unfold ret. f_equal. cbn [elapsed].
      destruct rest as [|[? ?] ?]; simpl; solve_now.
Qed.

(** With a countdown, the loop returns no key exactly when the countdown
    is seen at zero before any poll has found one. *)
Lemma response_loop_timed_None (deadline : Z) (polls : list poll) (w : world) :
  fst (response_loop (Some deadline) polls w) = Ret None <->
  exists k, times_out (now w) deadline polls k.
Proof.
  revert w; induction polls as [|[dt buffer] rest IH]; intros w.
  - cbn [response_loop]. destruct (Z.ltb_spec 0 (deadline - now w)); simpl.
    + split; [discriminate|]. intros (k & Hk & Hd & _).
      simpl in Hk. assert (k = 0%nat) by lia; subst. simpl in Hd. lia.
    + split; [intros _ | reflexivity].
      exists 0%nat. split; [simpl; lia|]. split; [simpl; lia|]. intros j Hj; lia.
  - cbn [response_loop]. destruct (Z.ltb_spec 0 (deadline - now w)).
    + unfold bind, advance.
      destruct (getKeys_yn buffer) as [|key ks] eqn:E.
      * rewrite IH. cbn [now set_now]. split.
        -- intros (k & Hk & Hd & Hj). exists (S k).
           split; [simpl; lia|]. split; [simpl; lia|].
           intros [|j] Hlt.
           ++ split; [simpl; lia|]. exists (dt, buffer). by split.
           ++ destruct (Hj j) as [H1 H2]; [lia|].
              split; [simpl; lia | exact H2].
        -- intros (k & Hk & Hd & Hj). destruct k as [|k].
           ++ simpl in Hd. lia.
           ++ exists k. split; [simpl in Hk; lia|]. split; [simpl in Hd; lia|].
              intros j Hlt. destruct (Hj (S j)) as [H1 H2]; [lia|].
              split; [simpl in H1; lia | exact H2].
      * unfold ret; simpl. split; [discriminate|].
        intros (k & Hk & Hd & Hj). destruct k as [|k].
        -- simpl in Hd. lia.
        -- destruct (Hj 0%nat) as [_ (p & Hp & Hs)]; [lia|].
           simpl in Hp. inversion Hp; subst. unfold silent in Hs; simpl in Hs.
           congruence.
    + simpl. split; [intros _ | reflexivity].
      exists 0%nat. split; [simpl; lia|]. split; [simpl; lia|]. intros j Hj; lia.
Qed.

(** With a countdown, a key found while every guard so far has seen the
    countdown positive ends the loop at that poll. *)
Lemma response_loop_timed_answer (deadline : Z) (polls : list poll) (w : world)
    (j : nat) (key : string) :
  first_answer polls = Some (j, key) ->
  (forall i, (i <= j)%nat -> now w + elapsed i polls < deadline) ->
  response_loop (Some deadline) polls w =
  (Ret (Some key), set_now (now w + elapsed (S j) polls) w).
Proof.
  revert w j; induction polls as [|[dt buffer] rest IH]; intros w j; [discriminate|].
  cbn [first_answer response_loop]. intros Hfa Hg.
  assert (H0 : now w < deadline) by (specialize (Hg 0%nat); simpl in Hg; lia).
  destruct (Z.ltb_spec 0 (deadline - now w)); [|lia].
  unfold bind, advance.
  destruct (getKeys_yn buffer) as [|k ks].
  - destruct (first_answer rest) as [[j' key']|] eqn:E; [|discriminate].
    inversion Hfa; subst; clear Hfa.
    rewrite (IH _ j' eq_refl).
    + cbn [now set_now elapsed]. rewrite set_now_set_now.
      solve_now.
    + intros i Hi. specialize (Hg (S i)). cbn [now set_now]. simpl in Hg. lia.
  - inversion Hfa; subst; clear Hfa. unfold ret. do 2 f_equal.
    cbn [elapsed]. destruct rest as [|[? ?] ?]; simpl; solve_now.
Qed.

(** The loop only lets time pass. *)
Lemma response_loop_world (timer : option Z) (polls : list poll) (w : world) :
  exists k, (k <= length polls)%nat /\
    snd (response_loop timer polls w) = set_now (now w + elapsed k polls) w.
Proof.
  revert w; induction polls as [|[dt buffer] rest IH]; intros w.
  - exists 0%nat. split; [lia|]. cbn [response_loop elapsed].
    destruct w; unfold set_now; cbn [now]. rewrite Z.add_0_r.
    destruct timer as [d|]; [destruct (0 <? d - _)|]; reflexivity.
  - cbn [response_loop].
    destruct (match timer with Some d => 0 <? d - now w | None => true end).
    + unfold bind, advance. destruct (getKeys_yn buffer) as [|key ks].
      * destruct (IH (set_now (now w + dt) w)) as (k & Hk & ->).
        exists (S k). split; [simpl; lia|].
        cbn [now set_now elapsed]. rewrite set_now_set_now. solve_now.
      * exists 1%nat. split; [simpl; lia|]. unfold ret; cbn [snd elapsed].
        destruct rest as [|[? ?] ?]; simpl; solve_now.
    + exists 0%nat. split; [lia|]. cbn [snd elapsed].
      destruct w; unfold set_now; cbn [now]. by rewrite Z.add_0_r.
Qed.

Lemma response_loop_designated (timer : option Z) (polls : list poll) (w : world)
    (key : string) :
  fst (response_loop timer polls w) = Ret (Some key) -> key = "y" \/ key = "n".
Proof.
  revert w; induction polls as [|[dt buffer] rest IH]; intros w; cbn [response_loop].
  - destruct (match timer with Some d => 0 <? d - now w | None => true end);
      discriminate.
  - destruct (match timer with Some d => 0 <? d - now w | None => true end);
      [|discriminate].
    unfold bind, advance. destruct (getKeys_yn buffer) as [|k ks] eqn:E.
    + apply IH.
    + unfold ret; simpl. intros H; inversion H; subst.
      apply (getKeys_yn_designated buffer). rewrite E. left.
Qed.

Lemma collect_response_unfold (time_limit : option Z) (polls : list poll) (w : world) :
  collect_response time_limit polls w =
  match response_loop
          (match time_limit with
           | Some secs => Some (now w + secs * ticks_per_second)
           | None => None
           end) polls w with
  | (Ret response, w') => (Ret (translate response), w')
  | (Raise e, w') => (Raise e, w')
  | (Stuck, w') => (Stuck, w')
  end.
Proof. destruct time_limit; reflexivity. Qed.

(** Whatever the mode, collecting a response only lets time pass. *)
Lemma collect_response_world (time_limit : option Z) (polls : list poll) (w : world) :
  exists k, (k <= length polls)%nat /\
    snd (collect_response time_limit polls w) = set_now (now w + elapsed k polls) w.
Proof.
  rewrite collect_response_unfold.
  match goal with |- context [response_loop ?t polls w] =>
    destruct (response_loop_world t polls w) as (k & Hk & Hw);
    destruct (response_loop t polls w) as [[r | e |] w1] end;
    exists k; (split; [exact Hk | exact Hw]).
Qed.

Lemma collect_response_values (time_limit : option Z) (polls : list poll) (w : world)
    (response : string) :
  fst (collect_response time_limit polls w) = Ret response ->
  response = "yes" \/ response = "no" \/ response = "NA".
Proof.
  rewrite collect_response_unfold.
  match goal with |- context [response_loop ?t polls w] =>
    pose proof (response_loop_designated t polls w) as Hd;
    destruct (response_loop t polls w) as [[r | e |] w1] end;
    simpl; intros H; inversion H; subst; clear H.
  destruct r as [key|]; [|auto].
  destruct (Hd key eq_refl) as [-> | ->]; auto.
Qed.

(** Without a time limit, collection is decided by the script alone. *)
Lemma collect_response_untimed (polls : list poll) (w : world) :
  collect_response None polls w =
  match first_answer polls with
  | Some (j, key) =>
      (Ret (if String.eqb key "y" then "yes" else "no"),
       set_now (now w + elapsed (S j) polls) w)
  | None => (Stuck, set_now (now w + elapsed (length polls) polls) w)
  end.
Proof.
  rewrite collect_response_unfold, response_loop_untimed.
  destruct (first_answer polls) as [[j key]|] eqn:E; [|reflexivity].
  apply first_answer_Some in E as (Hk & _).
  by destruct (translate_designated key Hk) as [-> _].
Qed.

Lemma collect_response_untimed_answers (polls : list poll) (w : world) :
  fst (collect_response None polls w) <> Ret "NA".
Proof.
  rewrite collect_response_untimed.
  destruct (first_answer polls) as [[j key]|] eqn:E; [|discriminate].
  apply first_answer_Some in E as (Hk & _).
  destruct Hk as [-> | ->]; discriminate.
Qed.

(** ** Loop bodies *)

Ltac world_simpl :=
  unfold appended, set_now, set_scripts, set_keywaits, set_files, set_handles, set_trace in *;
  cbn [now utc_offset durations scripts keywaits files handles trace fst snd] in *.

(** Steps through the leading primitive of a computation known to return. *)
Ltac mstep H :=
  let a := fresh "a" in
  let w1 := fresh "w" in
  let Hs := fresh "Hs" in
  apply bind_Ret in H as (a & w1 & Hs & H);
  try (first
    [ apply getitem_Ret in Hs as [Hs ->]
    | progress (unfold emit, time_time, strftime_HMS, getDuration, core_wait, advance,
                  fs_open_append, fs_write, fs_close in Hs);
      injection Hs as <- <- ]).

Lemma play_Ret file prompt tl n image total tt_ w resp w' :
  play_stimulus_and_display_prompt file prompt tl n image total tt_ w = (Ret resp, w') ->
  exists k w_open,
    let polls := default [] (head (scripts w)) in
    let t_open := now w + Z.max 0 (durations w file + ticks_per_second) in
    let t_close := t_open + elapsed k polls in
    (k <= length polls)%nat /\
    now w_open = t_open /\
    collect_response tl polls w_open = (Ret resp, set_now t_close w_open) /\
    w' = World (t_close + ticks_per_second) (utc_offset w) (durations w)
           (tail (scripts w)) (keywaits w) (files w) (handles w)
           (trace w ++
            [(now w, EvPlay file);
             (now w, EvTrialScreen n
                (if String.eqb tt_ "melody" then "Melodie" else "Rhythmus")
                prompt image (if n <=? total then Some (n, total) else None));
             (t_open, EvWindowOpen);
             (t_close, EvWindowClose resp)]).
Proof.
  unfold play_stimulus_and_display_prompt. intros H.
  do 5 mstep H.
  apply bind_Ret in H as (polls & w_open & Hs & H).
  assert (polls = default [] (head (scripts w)) /\
          w_open = World (now w + Z.max 0 (durations w file + ticks_per_second))
                     (utc_offset w) (durations w) (tail (scripts w)) (keywaits w)
                     (files w) (handles w) (trace w_open)) as [-> Hopen].
  { unfold next_script in Hs. destruct w as [t0 off dur scr kw fs hs tr].
    world_simpl. destruct scr; injection Hs as <- <-; split; reflexivity. }
  apply bind_Ret in H as (response & w_close & Hc & H).
  do 2 mstep H. injection H as <- <-.
  destruct (collect_response_world tl (default [] (head (scripts w))) w_open)
    as (k & Hk & Hw).
  rewrite Hc in Hw. cbn [snd] in Hw.
  exists k, w_open. cbv zeta.
  split; [exact Hk|]. split; [by rewrite Hopen|].
  split; [rewrite Hc; f_equal; rewrite Hw, Hopen; reflexivity|].
  rewrite Hw. clear Hc Hw. revert Hopen.
  unfold next_script in Hs. destruct w as [t0 off dur scr kw fs hs tr].
  world_simpl. destruct scr; injection Hs as <-; intros _; world_simpl;
    rewrite <- !app_assoc; reflexivity.
Qed.

Section BodyFacts.

Variable test_type : string.
Variable instruction_texts : gmap string string.
Variable practice_output_filename test_output_filename : string.
Variable base_image_path : string.
Variable participant_info : gmap string string.
Variable with_experiment : bool.

Lemma row_text_Ret (r : Result.t) (w w' : world) (text : string) :
  row_text participant_info with_experiment r w = (Ret text, w') ->
  w' = w /\
  exists experiment subject cur_date,
    participant_fields participant_info with_experiment =
      Some (experiment, subject, cur_date) /\
    text = format_row experiment subject cur_date r.
Proof.
  unfold row_text, participant_fields. intros H.
  apply bind_Ret in H as (experiment & w1 & He & H).
  do 2 mstep H. injection H as <- <-.
  rewrite Hs, Hs0.
  destruct with_experiment.
  - mstep He. injection He as <- <-. rewrite Hs1. cbn. eauto 6.
  - injection He as <- <-. eauto 6.
Qed.

Lemma row_text_total (r : Result.t) (w : world) (experiment subject cur_date : string) :
  participant_fields participant_info with_experiment =
    Some (experiment, subject, cur_date) ->
  row_text participant_info with_experiment r w =
    (Ret (format_row experiment subject cur_date r), w).
Proof.
  unfold row_text, participant_fields, bind, getitem, ret.
  destruct with_experiment.
  - destruct (participant_info !! "experiment"); [|discriminate].
    destruct (participant_info !! "Subject_ID"); [|discriminate].
    destruct (participant_info !! "cur_date"); [|discriminate].
    cbn. intros H; injection H as <- <- <-. reflexivity.
  - destruct (participant_info !! "Subject_ID"); [|discriminate].
    destruct (participant_info !! "cur_date"); [|discriminate].
    intros H; injection H as <- <- <-. reflexivity.
Qed.

Lemma remove_first_head (path : string) (l : list string) :
  remove_first path (path :: l) = l.
Proof. simpl. by rewrite String.eqb_refl. Qed.

Lemma appended_files (path text : string) (fs : gmap string string) :
  <[path := default "" (match fs !! path with
                        | Some _ => fs
                        | None => <[path := ""]> fs
                        end !! path) ++ text]>
    (match fs !! path with Some _ => fs | None => <[path := ""]> fs end) =
  <[path := default "" (fs !! path) ++ text]> fs.
Proof.
  destruct (fs !! path) as [c|] eqn:E.
  - by rewrite E.
  - by rewrite lookup_insert_eq, insert_insert_eq.
Qed.

(** A write inside [with open(..., 'a')]: opened, written, closed. *)
Lemma with_open_append_write (path text : string) (w : world) :
  with_open_append path (fs_write path text) w = (Ret tt, appended (now w) path text w).
Proof.
  unfold with_open_append, bind, fs_open_append, fs_write, fs_close. f_equal.
  destruct w as [t0 off dur scr kw fs hs tr].
  cbv [appended set_now set_files set_handles set_trace
       now utc_offset durations scripts keywaits files handles trace].
  by rewrite remove_first_head, appended_files, <- !app_assoc.
Qed.

Lemma append_result_total (r : Result.t) (w : world)
    (experiment subject cur_date : string) :
  participant_fields participant_info with_experiment =
    Some (experiment, subject, cur_date) ->
  append_result_to_csv practice_output_filename test_output_filename
    participant_info with_experiment r w =
  (Ret tt, appended (now w)
             (output_filename practice_output_filename test_output_filename r)
             (format_row experiment subject cur_date r) w).
Proof.
  intros Hpf. rewrite <- with_open_append_write.
  unfold append_result_to_csv, with_open_append, bind, fs_open_append.
  by rewrite (row_text_total _ _ _ _ _ Hpf).
Qed.

Lemma append_result_Ret (r : Result.t) (w w' : world) (u : unit) :
  append_result_to_csv practice_output_filename test_output_filename
    participant_info with_experiment r w = (Ret u, w') ->
  exists experiment subject cur_date,
    participant_fields participant_info with_experiment =
      Some (experiment, subject, cur_date) /\
    w' = appended (now w)
           (output_filename practice_output_filename test_output_filename r)
           (format_row experiment subject cur_date r) w.
Proof.
  intros H. pose proof H as H0.
  unfold append_result_to_csv, with_open_append in H.
  mstep H.
  destruct (bind _ _ _) as [[[] | e |] w1] eqn:E in H; try discriminate.
  mstep E. apply row_text_Ret in Hs as (_ & ex & su & cd & Hpf & _).
  rewrite (append_result_total _ _ _ _ _ Hpf) in H0. injection H0 as <-.
  exists ex, su, cd. by split.
Qed.

Lemma run_trial_Ret (phase : string) (time_limit : option Z) (total_trials : Z)
    (start_time : Z) (start_time_str : string) (results : list Result.t)
    (i : Z) (file : string) (w w' : world) (rs : list Result.t) (response : string) :
  run_trial test_type practice_output_filename test_output_filename base_image_path
    participant_info with_experiment phase time_limit total_trials
    start_time start_time_str results i file w = (Ret (rs, response), w') ->
  exists r, rs = (results ++ [r])%list /\ Result.response r = response /\
    trial_spec test_type practice_output_filename test_output_filename
      participant_info with_experiment phase time_limit total_trials
      start_time start_time_str base_image_path i file w r w'.
Proof.
  unfold run_trial. intros H.
  mstep H. rename Hs into Hplural.
  apply bind_Ret in H as (resp & w1 & Hplay & H).
  do 2 mstep H.
  apply bind_Ret in H as (u & w2 & Happ & H). injection H as <- <- <-.
  rewrite List.last_last in Happ.
  apply append_result_Ret in Happ as (ex & su & cd & Hpf & ->).
  apply play_Ret in Hplay as (k & w_open & Hk & Hopen & Hc & ->).
  eexists. split; [reflexivity|]. split; [reflexivity|].
  exists a, ex, su, cd, k, w_open. cbv zeta.
  cbn [Result.response Result.phase]. unfold output_filename. cbn [Result.phase now utc_offset].
  repeat split; try assumption.
Qed.

Lemma display_instructions_Ret (text : string) (w w' : world) (u : unit) :
  display_instructions text w = (Ret u, w') -> instructed text w w'.
Proof.
  unfold display_instructions. intros H. mstep H.
  unfold waitKeys in H. world_simpl.
  destruct (keywaits w) as [|dt rest] eqn:E; [discriminate|].
  injection H as <-. exists dt, rest. split; [exact E|].
  destruct w; world_simpl. by subst.
Qed.

Lemma display_feedback_Ret (correct : bool) (w w' : world) (u : unit) :
  display_feedback correct w = (Ret u, w') ->
  w' = fed_back (if correct then "Richtig!" else "Falsch!") w.
Proof.
  unfold display_feedback. intros H. mstep H.
  unfold core_wait, advance in H. injection H as _ <-.
  destruct w; reflexivity.
Qed.

Lemma practice_trial_Ret (total_trials start_time : Z) (start_time_str : string)
    (results : list Result.t) (i : Z) (file : string) (w w' : world)
    (rs : list Result.t) :
  practice_trial test_type instruction_texts practice_output_filename
    test_output_filename base_image_path participant_info with_experiment
    total_trials start_time start_time_str results i file w = (Ret rs, w') ->
  exists r, rs = (results ++ [r])%list /\
    practice_spec test_type instruction_texts practice_output_filename
      test_output_filename participant_info with_experiment
      total_trials start_time start_time_str base_image_path i file w r w'.
Proof.
  unfold practice_trial. intros H.
  apply bind_Ret in H as ([rs1 response] & w1 & Hrun & H).
  apply run_trial_Ret in Hrun as (r & -> & <- & Hspec).
  apply bind_Ret in H as (u & w2 & Hfb & H).
  apply display_feedback_Ret in Hfb as ->.
  mstep H.
  apply bind_Ret in H as (u' & w3 & Hins & H). injection H as <- <-.
  apply display_instructions_Ret in Hins.
  exists r. split; [reflexivity|]. exists w1, a. auto.
Qed.

Lemma test_trial_Ret (total_trials start_time : Z) (start_time_str : string)
    (results : list Result.t) (i : Z) (file : string) (w w' : world)
    (rs : list Result.t) :
  test_trial test_type practice_output_filename
    test_output_filename base_image_path participant_info with_experiment
    total_trials start_time start_time_str results i file w = (Ret rs, w') ->
  exists r, rs = (results ++ [r])%list /\
    test_spec test_type practice_output_filename
      test_output_filename participant_info with_experiment
      total_trials start_time start_time_str base_image_path i file w r w'.
Proof.
  unfold test_trial. intros H.
  apply bind_Ret in H as ([rs1 response] & w1 & Hrun & H). injection H as <- <-.
  apply run_trial_Ret in Hrun as (r & -> & <- & Hspec).
  exists r. by split.
Qed.

End BodyFacts.

(** A loop whose body appends one record as [P] describes runs as
    [steps P] describes. *)
Lemma for_enumerate_steps (P : Z -> string -> world -> Result.t -> world -> Prop)
    (body : list Result.t -> Z -> string -> M (list Result.t)) :
  (forall results i file w rs w',
     body results i file w = (Ret rs, w') ->
     exists r, rs = (results ++ [r])%list /\ P i file w r w') ->
  forall l i results w rs w',
    for_enumerate body i l results w = (Ret rs, w') ->
    exists new, rs = (results ++ new)%list /\ steps P i l w new w'.
Proof.
  intros Hbody l; induction l as [|file l IH]; intros i results w rs w' H.
  - injection H as <- <-. exists []. split; [by rewrite app_nil_r | constructor].
  - cbn [for_enumerate] in H.
    apply bind_Ret in H as (rs1 & w1 & Hb & H).
    apply Hbody in Hb as (r & -> & Hp).
    apply IH in H as (new & -> & Hs).
    exists (r :: new). split; [by rewrite <- app_assoc|].
    econstructor; eassumption.
Qed.

(** Every returning run of a sub-test is as [subtest_spec] describes. *)
Lemma musical_ear_test_Ret (test_type : string) (instruction_texts : gmap string string)
    (practice_output_filename test_output_filename base_image_path : string)
    (participant_info : gmap string string) (with_experiment : bool)
    (example_files test_files : list string) (w w' : world) (rs : list Result.t) :
  musical_ear_test test_type instruction_texts practice_output_filename
    test_output_filename base_image_path participant_info with_experiment
    example_files test_files w = (Ret rs, w') ->
  subtest_spec test_type instruction_texts practice_output_filename
    test_output_filename base_image_path participant_info with_experiment
    example_files test_files w rs w'.
Proof.
  unfold musical_ear_test. intros H.
  do 2 mstep H.
  apply bind_Ret in H as (part1 & w0 & Hpart1 & H).
  apply getitem_Ret in Hpart1 as [Hpart1 ->].
  apply bind_Ret in H as (u1 & w1 & Hi1 & H).
  apply display_instructions_Ret in Hi1.
  apply bind_Ret in H as (practice & w2 & Hloop1 & H).
  apply bind_Ret in H as (part2 & w0 & Hpart2 & H).
  apply getitem_Ret in Hpart2 as [Hpart2 ->].
  apply bind_Ret in H as (u2 & w3 & Hi2 & H).
  apply display_instructions_Ret in Hi2.
  apply bind_Ret in H as (rs' & w4 & Hloop2 & H). injection H as <- <-.
  eapply for_enumerate_steps in Hloop1 as (new1 & -> & Hsteps1);
    [|intros *; apply practice_trial_Ret].
  eapply for_enumerate_steps in Hloop2 as (new2 & -> & Hsteps2);
    [|intros *; apply test_trial_Ret].
  exists part1, part2, w1, w2, w3, new1, new2. cbv zeta.
  repeat split; assumption.
Qed.

(** ** Runs, step by step *)

Lemma steps_Forall (P : Z -> string -> world -> Result.t -> world -> Prop)
    (Q : Result.t -> Prop) :
  (forall i file w r w1, P i file w r w1 -> Q r) ->
  forall i l w rs w', steps P i l w rs w' -> Forall Q rs.
Proof.
  intros HPQ i l w rs w' H. induction H; constructor; eauto.
Qed.

Lemma steps_length (P : Z -> string -> world -> Result.t -> world -> Prop)
    (i : Z) (l : list string) (w w' : world) (rs : list Result.t) :
  steps P i l w rs w' -> length rs = length l.
Proof. intros H. induction H; simpl; congruence. Qed.

Lemma trial_spec_fields (test_type practice_output_filename test_output_filename : string)
    (participant_info : gmap string string) (with_experiment : bool)
    (phase : string) (time_limit : option Z) (total_trials start_time : Z)
    (start_time_str base_image_path : string) (i : Z) (file : string)
    (w w1 : world) (r : Result.t) :
  trial_spec test_type practice_output_filename test_output_filename
    participant_info with_experiment phase time_limit total_trials
    start_time start_time_str base_image_path i file w r w1 ->
  r = Result.mk (i + 1) test_type phase file (Result.response r)
        (correct_answer file)
        (accuracy (Result.response r) (correct_answer file))
        start_time_str (hms_local (utc_offset w) (now w1))
        (duration_str (now w1 - start_time)) /\
  (Result.response r = "yes" \/ Result.response r = "no" \/ Result.response r = "NA") /\
  (time_limit = None -> Result.response r <> "NA").
Proof.
  intros (plural & ex & su & cd & k & w_open & Hg & Hpf & Hk & Hopen & Hc & Hr & ->).
  cbn [appended now]. split; [exact Hr|]. split.
  - eapply collect_response_values. by rewrite Hc.
  - intros -> Hna.
    apply (collect_response_untimed_answers (default [] (head (scripts w))) w_open).
    by rewrite Hc, Hna.
Qed.

Lemma practice_spec_trial (test_type : string) (instruction_texts : gmap string string)
    (practice_output_filename test_output_filename : string)
    (participant_info : gmap string string) (with_experiment : bool)
    (total_trials start_time : Z) (start_time_str base_image_path : string)
    (i : Z) (file : string) (w w2 : world) (r : Result.t) :
  practice_spec test_type instruction_texts practice_output_filename
    test_output_filename participant_info with_experiment total_trials
    start_time start_time_str base_image_path i file w r w2 ->
  exists w1,
    trial_spec test_type practice_output_filename test_output_filename
      participant_info with_experiment "practice" None total_trials
      start_time start_time_str base_image_path i file w r w1.
Proof. intros (w1 & text & H & _). eauto. Qed.

(** What holds of the record of every trial holds of every record a
    sub-test returns. *)
Lemma subtest_Forall (test_type : string) (instruction_texts : gmap string string)
    (practice_output_filename test_output_filename base_image_path : string)
    (participant_info : gmap string string) (with_experiment : bool)
    (example_files test_files : list string) (w w' : world) (rs : list Result.t)
    (Q : Result.t -> Prop) :
  (forall phase time_limit total_trials i file w0 r w1,
     trial_spec test_type practice_output_filename test_output_filename
       participant_info with_experiment phase time_limit total_trials
       (now w) (hms_local (utc_offset w) (now w)) base_image_path i file w0 r w1 ->
     Q r) ->
  subtest_spec test_type instruction_texts practice_output_filename
    test_output_filename base_image_path participant_info with_experiment
    example_files test_files w rs w' ->
  Forall Q rs.
Proof.
  intros HQ (part1 & part2 & w1 & w2 & w3 & practice & scored &
             _ & _ & Hp & _ & _ & Ht & ->).
  apply Forall_app. split.
  - eapply steps_Forall; [|exact Hp].
    intros i file w0 r w4 H. apply practice_spec_trial in H as (w5 & H). eauto.
  - eapply steps_Forall; [|exact Ht].
    intros i file w0 r w4 H. eapply HQ, H.
Qed.

(** ** The ground truth as a function of the identifier *)

Lemma contains_underscore_app (a b : string) :
  Py.contains "_" (a ++ b) = Py.contains "_" a || Py.contains "_" b.
Proof.
  induction a as [|c a IH].
  - reflexivity.
  - change (String c a ++ b) with (String c (a ++ b)).
    rewrite !contains_underscore_cons, IH. by rewrite orb_assoc.
Qed.

Lemma contains_app (sub s : string) :
  Py.contains sub s = true <-> exists a b, s = a ++ sub ++ b.
Proof.
  induction s as [|c s IH]; cbn [Py.contains].
  - rewrite orb_false_r, startswith_app. split.
    + intros [rest H]. exists "", rest. exact H.
    + intros (a & b & H). destruct a; [by exists b|discriminate].
  - rewrite orb_true_iff, IH, startswith_app. split.
    + intros [[rest H] | (a & b & H)].
      * exists "", rest. exact H.
      * exists (String c a), b. by rewrite H.
    + intros (a & b & H). destruct a as [|c' a].
      * left. by exists b.
      * right. injection H as _ H. by exists a, b.
Qed.

(** A file name of the catalogue has an underscore. *)
Lemma contains_underscore_of (rest filename : string) :
  Py.contains ("_" ++ rest) filename = true -> Py.contains "_" filename = true.
Proof.
  rewrite !contains_app. intros (a & b & ->).
  exists a, (rest ++ b). by rewrite !string_app_assoc.
Qed.

Lemma path_join_suffix (a b : string) : exists x, Py.path_join a b = x ++ b.
Proof.
  unfold Py.path_join.
  destruct (Py.startswith b "/"); [by exists ""|].
  destruct (String.length a =? 0)%nat; [by exists ""|].
  destruct (Py.startswith _ "/"); [by exists a|].
  exists (a ++ "/"). by rewrite string_app_assoc.
Qed.

Lemma last_segment_under_folder (x filename : string) :
  Py.contains "_" filename = true ->
  last_segment (x ++ filename) = last_segment filename.
Proof.
  intros H. destruct (underscore_decompose filename) as [Hn | (pre & suf & -> & Hsuf)].
  - congruence.
  - rewrite <- string_app_assoc.
    by rewrite !last_segment_after_underscore.
Qed.

(** The marker is the test the code makes on the last segment. *)
Lemma carries_identical_marker_test (identifier : string) :
  carries_identical_marker identifier <->
  Py.startswith (last_segment identifier) "ident" = true.
Proof.
  unfold carries_identical_marker. rewrite startswith_app. split.
  - intros (rest & Hrest & [-> | (pre & ->)]).
    + exists rest. apply last_segment_no_underscore.
      by rewrite contains_underscore_app, Hrest.
    + exists rest.
      change (pre ++ "_ident" ++ rest) with (pre ++ "_" ++ ("ident" ++ rest)).
      apply last_segment_after_underscore.
      by rewrite contains_underscore_app, Hrest.
  - intros [rest Hrest].
    destruct (underscore_decompose identifier) as [Hn | (pre & suf & -> & Hsuf)].
    + rewrite last_segment_no_underscore in Hrest by exact Hn. subst identifier.
      rewrite contains_underscore_app in Hn. apply orb_false_iff in Hn as [_ Hn].
      exists rest. split; [exact Hn | by left].
    + rewrite last_segment_after_underscore in Hrest by exact Hsuf. subst suf.
      rewrite contains_underscore_app in Hsuf. apply orb_false_iff in Hsuf as [_ Hn].
      exists rest. split; [exact Hn | right; by exists pre].
Qed.

(** ** The catalogue *)

Lemma insert_at_length {A} (l : list A) (x : A) :
  Py.insert l (Z.of_nat (length l)) x = (l ++ [x])%list.
Proof.
  unfold Py.insert. cbv zeta.
  destruct (Z.ltb_spec (Z.of_nat (length l)) 0); [lia|].
  rewrite Z.min_id, Nat2Z.id, firstn_all, drop_all. reflexivity.
Qed.

(** ** Runs that return *)

Lemma bind_Ret_intro {A B} (m : M A) (f : A -> M B) (w w1 w2 : world) (a : A) (b : B) :
  m w = (Ret a, w1) -> f a w1 = (Ret b, w2) -> bind m f w = (Ret b, w2).
Proof. unfold bind. by intros -> ->. Qed.

Lemma response_loop_timed_returns (deadline : Z) (polls : list poll) (w : world) :
  first_answer polls <> None \/
  (exists k, (k <= length polls)%nat /\ deadline <= now w + elapsed k polls) ->
  exists r w', response_loop (Some deadline) polls w = (Ret r, w').
Proof.
  revert w; induction polls as [|[dt buffer] rest IH]; intros w H; cbn [response_loop].
  - destruct H as [H | (k & Hk & Hd)]; [done|].
    simpl in Hk. assert (k = 0%nat) by lia; subst. simpl in Hd.
    destruct (Z.ltb_spec 0 (deadline - now w)); [lia | eauto].
  - destruct (Z.ltb_spec 0 (deadline - now w)); [|eauto].
    unfold bind, advance. cbn [first_answer] in H.
    destruct (getKeys_yn buffer) as [|key ks]; [|unfold ret; eauto].
    apply IH. cbn [now set_now].
    destruct H as [H | (k & Hk & Hd)].
    + left. destruct (first_answer rest) as [[j key]|]; done.
    + destruct k as [|k]; [simpl in Hd; lia|].
      right. exists k. simpl in Hk, Hd. split; lia.
Qed.

Lemma collect_response_returns (time_limit : option Z) (polls : list poll) (w : world) :
  resolves time_limit polls ->
  exists response w', collect_response time_limit polls w = (Ret response, w').
Proof.
  intros H. rewrite collect_response_unfold.
  destruct time_limit as [secs|].
  - destruct (response_loop_timed_returns (now w + secs * ticks_per_second) polls w)
      as (r & w' & ->); [|eauto].
    destruct H as [H | (secs' & k & [= <-] & Hk & He)]; [by left|].
    right. exists k. split; [exact Hk | lia].
  - rewrite response_loop_untimed.
    destruct H as [H | (secs' & k & [=] & _)].
    destruct (first_answer polls) as [[j key]|]; [eauto | done].
Qed.

Lemma play_returns (file prompt : string) (time_limit : option Z) (n : Z)
    (image : string) (total : Z) (test_type : string) (w : world) :
  resolves time_limit (default [] (head (scripts w))) ->
  exists response w',
    play_stimulus_and_display_prompt file prompt time_limit n image total test_type w =
    (Ret response, w').
Proof.
  intros H. unfold play_stimulus_and_display_prompt.
  unfold bind, emit, getDuration, core_wait, advance.
  match goal with |- context [next_script ?w0] =>
    assert (exists w1, next_script w0 = (Ret (default [] (head (scripts w))), w1))
      as [w1 ->] by (unfold next_script; world_simpl; destruct (scripts w); eauto)
  end.
  destruct (collect_response_returns time_limit _ w1 H) as (response & w2 & ->).
  unfold ret. eauto.
Qed.

Section Returns.

Variable test_type : string.
Variable instruction_texts : gmap string string.
Variable practice_output_filename test_output_filename : string.
Variable base_image_path : string.
Variable participant_info : gmap string string.
Variable with_experiment : bool.

Lemma run_trial_returns (phase : string) (time_limit : option Z) (total_trials : Z)
    (start_time : Z) (start_time_str : string) (results : list Result.t)
    (i : Z) (file : string) (w : world) :
  is_Some (german_test_type !! test_type) ->
  is_Some (participant_fields participant_info with_experiment) ->
  resolves time_limit (default [] (head (scripts w))) ->
  exists rs response w',
    run_trial test_type practice_output_filename test_output_filename base_image_path
      participant_info with_experiment phase time_limit total_trials
      start_time start_time_str results i file w = (Ret (rs, response), w').
Proof.
  intros [plural Hg] [[[ex su] cd] Hpf] Hres. unfold run_trial.
  unfold bind at 1, getitem. rewrite Hg. unfold ret at 1.
  unfold bind at 1.
  match goal with |- context [play_stimulus_and_display_prompt ?a ?b ?c ?d ?e ?f ?g w] =>
    destruct (play_returns a b c d e f g w Hres) as (response & w1 & ->) end.
  unfold bind at 1, time_time. unfold bind at 1, strftime_HMS.
  unfold bind at 1. rewrite (append_result_total _ _ _ _ _ _ _ _ _ Hpf).
  unfold ret. eauto.
Qed.

Lemma trial_spec_frame (phase : string) (time_limit : option Z)
    (total_trials start_time : Z) (start_time_str : string)
    (i : Z) (file : string) (w w1 : world) (r : Result.t) :
  trial_spec test_type practice_output_filename test_output_filename
    participant_info with_experiment phase time_limit total_trials
    start_time start_time_str base_image_path i file w r w1 ->
  utc_offset w1 = utc_offset w /\ durations w1 = durations w /\
  scripts w1 = tail (scripts w) /\ keywaits w1 = keywaits w /\
  handles w1 = handles w.
Proof.
  intros (plural & ex & su & cd & k & w_open & _ & _ & _ & _ & _ & _ & ->).
  repeat split.
Qed.

Lemma practice_spec_frame (total_trials start_time : Z) (start_time_str : string)
    (i : Z) (file : string) (w w2 : world) (r : Result.t) :
  practice_spec test_type instruction_texts practice_output_filename
    test_output_filename participant_info with_experiment total_trials
    start_time start_time_str base_image_path i file w r w2 ->
  utc_offset w2 = utc_offset w /\ durations w2 = durations w /\
  scripts w2 = tail (scripts w) /\ keywaits w2 = tail (keywaits w) /\
  handles w2 = handles w.
Proof.
  intros (w1 & text & Hs & _ & dt & rest & Hk & ->).
  apply trial_spec_frame in Hs as (Ho & Hd & Hsc & Hkw & Hh).
  cbn [fed_back utc_offset durations scripts keywaits handles] in *.
  rewrite <- Hkw, Hk. repeat split; assumption.
Qed.

Lemma display_instructions_returns (text : string) (w : world) :
  keywaits w <> [] -> exists w', display_instructions text w = (Ret tt, w').
Proof.
  intros H. unfold display_instructions, bind, emit, waitKeys. world_simpl.
  destruct (keywaits w); [done | eauto].
Qed.

Lemma practice_trial_returns (total_trials start_time : Z) (start_time_str : string)
    (results : list Result.t) (i : Z) (file : string) (w : world) :
  is_Some (german_test_type !! test_type) ->
  is_Some (participant_fields participant_info with_experiment) ->
  is_Some (instruction_texts !! (test_type ++ "_practice_yes")) ->
  is_Some (instruction_texts !! (test_type ++ "_practice_no")) ->
  resolves None (default [] (head (scripts w))) ->
  keywaits w <> [] ->
  exists rs w',
    practice_trial test_type instruction_texts practice_output_filename
      test_output_filename base_image_path participant_info with_experiment
      total_trials start_time start_time_str results i file w = (Ret rs, w').
Proof.
  intros Hg Hpf Hy Hn Hres Hkw. unfold practice_trial.
  destruct (run_trial_returns "practice" None total_trials start_time start_time_str
              results i file w Hg Hpf Hres) as (rs & response & w1 & Hrun).
  unfold bind at 1. rewrite Hrun.
  apply run_trial_Ret in Hrun as (r & _ & _ & Hspec).
  apply trial_spec_frame in Hspec as (_ & _ & _ & Hk & _).
  unfold bind at 1, display_feedback, bind at 1, emit, core_wait, advance.
  assert (exists text, instruction_texts !!
            (test_type ++ "_practice_" ++ correct_answer file) = Some text) as [text Ht].
  { destruct (correct_answer_cases file) as [-> | ->]; [apply Hy | apply Hn]. }
  unfold bind at 1, getitem. rewrite Ht. unfold ret at 1.
  unfold bind at 1.
  match goal with |- context [display_instructions text ?w0] =>
    destruct (display_instructions_returns text w0) as [w2 ->] end.
  - world_simpl. congruence.
  - unfold ret. eauto.
Qed.

Lemma test_trial_returns (total_trials start_time : Z) (start_time_str : string)
    (results : list Result.t) (i : Z) (file : string) (w : world) :
  is_Some (german_test_type !! test_type) ->
  is_Some (participant_fields participant_info with_experiment) ->
  resolves (Some 2) (default [] (head (scripts w))) ->
  exists rs w',
    test_trial test_type practice_output_filename
      test_output_filename base_image_path participant_info with_experiment
      total_trials start_time start_time_str results i file w = (Ret rs, w').
Proof.
  intros Hg Hpf Hres. unfold test_trial.
  destruct (run_trial_returns "test" (Some 2) total_trials start_time start_time_str
              results i file w Hg Hpf Hres) as (rs & response & w1 & Hrun).
  unfold bind. rewrite Hrun. unfold ret. eauto.
Qed.

End Returns.

(** A loop returns when its body does on every world the loop can
    reach: [I n] holds of the worlds with [n] items still to go. *)
Lemma for_enumerate_returns {A S} (body : S -> Z -> A -> M S) (I : nat -> world -> Prop) :
  (forall n s i x w, I (Datatypes.S n) w -> exists s' w', body s i x w = (Ret s', w') /\ I n w') ->
  forall l i s w, I (length l) w ->
    exists s' w', for_enumerate body i l s w = (Ret s', w') /\ I 0%nat w'.
Proof.
  intros Hbody l; induction l as [|x l IH]; intros i s w HI.
  - exists s, w. by split.
  - cbn [for_enumerate]. destruct (Hbody _ s i x w HI) as (s1 & w1 & Hb & HI1).
    destruct (IH (i + 1) s1 w1 HI1) as (s' & w' & Hl & HI').
    exists s', w'. split; [|exact HI'].
    eapply bind_Ret_intro; eassumption.
Qed.

Lemma instructed_frame (text : string) (w w' : world) :
  instructed text w w' ->
  scripts w' = scripts w /\ keywaits w' = tail (keywaits w) /\
  utc_offset w' = utc_offset w /\ handles w' = handles w.
Proof. intros (dt & rest & Hk & ->). rewrite Hk. repeat split. Qed.

Lemma Forall_take_S {A} (P : A -> Prop) (n : nat) (l : list A) :
  (S n <= length l)%nat -> Forall P (take (S n) l) ->
  exists x t, l = x :: t /\ P x /\ Forall P (take n t).
Proof.
  destruct l as [|x t]; simpl; [lia|]. intros _ H.
  apply Forall_cons in H as [Hx Ht]. eauto.
Qed.

(** A configured sub-test with a responsive participant returns. *)
Lemma musical_ear_test_returns (test_type : string)
    (instruction_texts : gmap string string)
    (practice_output_filename test_output_filename base_image_path : string)
    (participant_info : gmap string string) (with_experiment : bool)
    (example_files test_files : list string) (w : world) :
  configured test_type instruction_texts participant_info with_experiment ->
  responsive (length example_files) (length test_files) w ->
  exists rs w',
    musical_ear_test test_type instruction_texts practice_output_filename
      test_output_filename base_image_path participant_info with_experiment
      example_files test_files w = (Ret rs, w').
Proof.
  intros (Hg & [part1 Hp1] & [part2 Hp2] & Hy & Hn & Hpf) (Hlen & Hprac & Htest & Hkw).
  unfold musical_ear_test.
  unfold bind at 1, time_time. unfold bind at 1, strftime_HMS.
  unfold bind at 1, getitem. rewrite Hp1. unfold ret at 1.
  destruct (display_instructions_returns part1 w) as [w1 Hi1].
  { destruct (keywaits w); simpl in Hkw; [lia | done]. }
  unfold bind at 1. rewrite Hi1.
  apply display_instructions_Ret, instructed_frame in Hi1 as (Hs1 & Hk1 & _).
  set (body1 := practice_trial _ _ _ _ _ _ _ _ _ _).
  destruct (for_enumerate_returns body1
              (fun n w0 =>
                 (n <= length (scripts w0))%nat /\
                 Forall (resolves None) (take n (scripts w0)) /\
                 (n <= length (keywaits w0))%nat /\
                 drop n (scripts w0) = drop (length example_files) (scripts w) /\
                 length (drop n (keywaits w0)) =
                   length (drop (length example_files) (keywaits w1)))
              ) with (l := example_files) (i := 0) (s := @nil Result.t) (w := w1)
    as (practice & w2 & Hloop1 & _ & _ & _ & Hs2 & Hk2).
  { intros n results i file w0 (Hl & Hf & Hk & Hd & Hdk).
    apply Forall_take_S in Hf as (p & t & Hsc & Hp & Hf); [|exact Hl].
    destruct (practice_trial_returns test_type instruction_texts
                practice_output_filename test_output_filename base_image_path
                participant_info with_experiment
                (Z.of_nat (length example_files)) (now w)
                (hms_local (utc_offset w) (now w)) results i file w0)
      as (rs & w' & Hb); try assumption.
    { by rewrite Hsc. }
    { destruct (keywaits w0); simpl in Hk; [lia | done]. }
    exists rs, w'. split; [exact Hb|].
    apply practice_trial_Ret in Hb as (r & _ & Hspec).
    apply practice_spec_frame in Hspec as (_ & _ & Hsc' & Hkw' & _).
    rewrite Hsc', Hkw', Hsc. cbn [tail]. rewrite Hsc in Hl, Hd. simpl in Hl.
    split; [lia|]. split; [exact Hf|].
    destruct (keywaits w0) as [|dt kw]; simpl in Hk; [lia|]. cbn [tail].
    split; [lia|]. split; [exact Hd | exact Hdk]. }
  { rewrite Hs1, Hk1. split; [lia|]. split; [exact Hprac|].
    destruct (keywaits w); simpl in *; [lia|]. split; [lia|]. by split. }
  unfold bind at 1. rewrite Hloop1.
  unfold bind at 1, getitem. rewrite Hp2. unfold ret at 1.
  rewrite !drop_0 in *.
  destruct (display_instructions_returns part2 w2) as [w3 Hi2].
  { intros E. rewrite E, Hk1 in Hk2. rewrite length_drop in Hk2.
    destruct (keywaits w); simpl in *; lia. }
  unfold bind at 1. rewrite Hi2.
  apply display_instructions_Ret, instructed_frame in Hi2 as (Hs3 & _).
  set (body2 := test_trial _ _ _ _ _ _ _ _ _).
  destruct (for_enumerate_returns body2
              (fun n w0 =>
                 (n <= length (scripts w0))%nat /\
                 Forall (resolves (Some 2)) (take n (scripts w0)))
              ) with (l := test_files) (i := 0) (s := practice) (w := w3)
    as (rs & w' & Hloop2 & _).
  { intros n results i file w0 (Hl & Hf).
    apply Forall_take_S in Hf as (p & t & Hsc & Hp & Hf); [|exact Hl].
    destruct (test_trial_returns test_type
                practice_output_filename test_output_filename base_image_path
                participant_info with_experiment
                (Z.of_nat (length test_files)) (now w)
                (hms_local (utc_offset w) (now w)) results i file w0)
      as (rs & w' & Hb); try assumption.
    { by rewrite Hsc. }
    exists rs, w'. split; [exact Hb|].
    apply test_trial_Ret in Hb as (r & _ & Hspec).
    apply trial_spec_frame in Hspec as (_ & _ & Hsc' & _).
    rewrite Hsc', Hsc. cbn [tail]. rewrite Hsc in Hl. simpl in Hl.
    split; [lia | exact Hf]. }
  { rewrite Hs3, Hs2. split; [rewrite length_drop; lia | exact Htest]. }
  unfold bind at 1. rewrite Hloop2. unfold ret. eauto.
Qed.

(** ** The shape of the returned list *)

Lemma steps_numbered (P : Z -> string -> world -> Result.t -> world -> Prop)
    (phase : string) :
  (forall i file w r w1, P i file w r w1 -> header r = (i + 1, phase, file)) ->
  forall i l w rs w', steps P i l w rs w' ->
    map header rs = imap (fun k file => (i + Z.of_nat k + 1, phase, file)) l.
Proof.
  intros HP i l w rs w' H. induction H as [|i file l w w1 w' r rs Hr _ IH].
  - reflexivity.
  - cbn [map imap]. rewrite (HP _ _ _ _ _ Hr), IH. f_equal.
    + f_equal. f_equal. lia.
    + apply imap_ext. intros k x _. cbn. f_equal. f_equal. lia.
Qed.

Lemma trial_spec_header (test_type practice_output_filename test_output_filename : string)
    (participant_info : gmap string string) (with_experiment : bool)
    (phase : string) (time_limit : option Z) (total_trials start_time : Z)
    (start_time_str base_image_path : string) (i : Z) (file : string)
    (w w1 : world) (r : Result.t) :
  trial_spec test_type practice_output_filename test_output_filename
    participant_info with_experiment phase time_limit total_trials
    start_time start_time_str base_image_path i file w r w1 ->
  header r = (i + 1, phase, file).
Proof.
  intros H. apply trial_spec_fields in H as (Hr & _). by rewrite Hr.
Qed.

(** The list a sub-test returns, when it returns. *)
Lemma subtest_shape (test_type : string) (instruction_texts : gmap string string)
    (practice_output_filename test_output_filename base_image_path : string)
    (participant_info : gmap string string) (with_experiment : bool)
    (example_files test_files : list string) (w w' : world) (rs : list Result.t) :
  subtest_spec test_type instruction_texts practice_output_filename
    test_output_filename base_image_path participant_info with_experiment
    example_files test_files w rs w' ->
  length rs = (length example_files + length test_files)%nat /\
  map header rs = (numbered "practice" example_files ++ numbered "test" test_files)%list.
Proof.
  intros (part1 & part2 & w1 & w2 & w3 & practice & scored &
          _ & _ & Hp & _ & _ & Ht & ->).
  split.
  - rewrite length_app. f_equal; eapply steps_length; eassumption.
  - rewrite map_app. f_equal.
    + erewrite steps_numbered; [|intros i file w0 r w4 H|exact Hp]; [reflexivity|].
      apply practice_spec_trial in H as (w5 & H).
      eapply trial_spec_header, H.
    + erewrite steps_numbered; [|intros i file w0 r w4 H|exact Ht]; [reflexivity|].
      eapply trial_spec_header, H.
Qed.

(** ** The files of a run *)

Lemma imap_pair_snd {A B} (g : nat -> A) (l : list B) :
  map snd (imap (fun k x => (g k, x)) l) = l.
Proof.
  revert g; induction l as [|x l IH]; intros g; [reflexivity|].
  cbn [imap map snd]. f_equal. apply (IH (g ∘ S)).
Qed.

Lemma numbered_files (phase : string) (files : list string) :
  map (fun h : Z * string * string => snd h) (numbered phase files) = files.
Proof. exact (imap_pair_snd (fun k => (Z.of_nat k + 1, phase)) files). Qed.

(** ** What a trial leaves in the trace and in the files *)

Lemma elapsed_nonneg (k : nat) (polls : list poll) :
  Forall (fun p : poll => 0 <= fst p) polls -> 0 <= elapsed k polls.
Proof.
  revert k; induction polls as [|[dt buffer] rest IH]; intros k H.
  - destruct k; simpl; lia.
  - apply Forall_cons in H as [Hd Hr]. destruct k as [|k]; simpl; [lia|].
    specialize (IH k Hr). simpl in Hd. lia.
Qed.

Lemma forward_head (w : world) :
  forward w -> Forall (fun p : poll => 0 <= fst p) (default [] (head (scripts w))).
Proof.
  intros [H _]. destruct (scripts w) as [|s t]; simpl; [constructor|].
  by apply Forall_cons in H as [H _].
Qed.

Lemma forward_tail_scripts (w w1 : world) :
  forward w -> scripts w1 = tail (scripts w) -> keywaits w1 = keywaits w -> forward w1.
Proof.
  intros [Hs Hk] Hs1 Hk1. unfold forward. rewrite Hs1, Hk1. split; [|exact Hk].
  destruct (scripts w) as [|s t]; simpl; [constructor|].
  by apply Forall_cons in Hs as [_ Hs].
Qed.

Section TrialTrace.

Variable test_type : string.
Variable instruction_texts : gmap string string.
Variable practice_output_filename test_output_filename : string.
Variable base_image_path : string.
Variable participant_info : gmap string string.
Variable with_experiment : bool.

(** The shared text of a loop body, read off the trace. *)
Lemma trial_spec_trace (phase : string) (time_limit : option Z)
    (total_trials start_time : Z) (start_time_str : string)
    (i : Z) (file : string) (w w1 : world) (r : Result.t) :
  trial_spec test_type practice_output_filename test_output_filename
    participant_info with_experiment phase time_limit total_trials
    start_time start_time_str base_image_path i file w r w1 ->
  exists (t_open t_close : Z) (screen : event) (experiment subject cur_date : string),
    let dest := output_filename practice_output_filename test_output_filename r in
    let text := format_row experiment subject cur_date r in
    participant_fields participant_info with_experiment =
      Some (experiment, subject, cur_date) /\
    trace w1 = (trace w ++
                trial_events (now w) t_open t_close (now w1) file screen
                  (Result.response r) dest text)%list /\
    files w1 = <[dest := default "" (files w !! dest) ++ text]> (files w) /\
    (exists n label prompt image progress,
       screen = EvTrialScreen n label prompt image progress) /\
    now w <= t_open /\
    (forward w -> t_open <= t_close) /\
    now w1 = t_close + ticks_per_second.
Proof.
  intros H. pose proof (trial_spec_fields _ _ _ _ _ _ _ _ _ _ _ _ _ _ _ _ H) as (Hr & _).
  destruct H as (plural & ex & su & cd & k & w_open & Hg & Hpf & Hk & Hopen & Hc & _ & ->).
  eexists _, _, _, ex, su, cd. cbv zeta.
  assert (Hdest : output_filename practice_output_filename test_output_filename r =
                  if String.eqb phase "practice"
                  then practice_output_filename else test_output_filename).
  { unfold output_filename. by rewrite Hr. }
  rewrite Hdest. unfold appended, trial_events.
  cbn [now trace files utc_offset durations scripts keywaits handles].
  split; [exact Hpf|]. split; [by rewrite <- app_assoc|].
  split; [reflexivity|]. split; [eauto 6|].
  split; [lia|]. split; [|reflexivity].
  intros Hf. pose proof (elapsed_nonneg k _ (forward_head w Hf)). lia.
Qed.

End TrialTrace.

(** ** Screens *)

Lemma screens_app (a b : list (Z * event)) : screens (a ++ b) = (screens a ++ screens b)%list.
Proof. apply omap_app. Qed.

Lemma screens_trial_events (t_play t_open t_close t_end : Z) (file : string)
    (screen : event) (response dest text : string) :
  (exists n label prompt image progress,
     screen = EvTrialScreen n label prompt image progress) ->
  screens (trial_events t_play t_open t_close t_end file screen response dest text) = [].
Proof. intros (n & a & b & c & d & ->). reflexivity. Qed.

Lemma instructions_of_app (a b : list (string + string)) :
  instructions_of (a ++ b) = (instructions_of a ++ instructions_of b)%list.
Proof. apply omap_app. Qed.

Lemma instructions_of_practice (rs : list Result.t) (debriefs : list string) :
  length rs = length debriefs ->
  instructions_of
    (concat (zip_with (fun r text => [inl (feedback_text r); inr text]) rs debriefs)) =
  debriefs.
Proof.
  revert debriefs; induction rs as [|r rs IH]; intros [|d ds] Hlen;
    try discriminate; [reflexivity|].
  cbn. f_equal. apply IH. by injection Hlen.
Qed.

Section Debrief.

Variable test_type : string.
Variable instruction_texts : gmap string string.
Variable practice_output_filename test_output_filename : string.
Variable base_image_path : string.
Variable participant_info : gmap string string.
Variable with_experiment : bool.

Lemma practice_steps_screens (total_trials start_time : Z) (start_time_str : string)
    (i : Z) (l : list string) (w w' : world) (rs : list Result.t) :
  steps (practice_spec test_type instruction_texts practice_output_filename
           test_output_filename participant_info with_experiment total_trials
           start_time start_time_str base_image_path) i l w rs w' ->
  exists new debriefs,
    trace w' = (trace w ++ new)%list /\
    map Some debriefs = map (debrief_text test_type instruction_texts) l /\
    screens new =
      concat (zip_with (fun r text => [inl (feedback_text r); inr text]) rs debriefs).
Proof.
  intros H. induction H as [i w|i file l w w2 w' r rs Hstep _ IH].
  - exists [], []. by rewrite app_nil_r.
  - destruct IH as (new & debriefs & Htr & Hd & Hsc).
    destruct Hstep as (w1 & text & Hs & Htext & dt & rest & Hk & ->).
    pose proof (trial_spec_fields _ _ _ _ _ _ _ _ _ _ _ _ _ _ _ _ Hs) as (Hr & _).
    apply trial_spec_trace in Hs
      as (t_open & t_close & screen & ex & su & cd & _ & Ht1 & _ & Hscreen & _).
    cbn [fed_back trace now] in Htr. rewrite Ht1 in Htr.
    eexists _, (text :: debriefs). split; [|split].
    + rewrite Htr, <- !app_assoc. reflexivity.
    + cbn [map]. unfold debrief_text at 1. by rewrite Htext, Hd.
    + rewrite !screens_app, (screens_trial_events _ _ _ _ _ _ _ _ _ Hscreen), Hsc.
      cbn. unfold feedback_text. by rewrite Hr.
Qed.

Lemma test_steps_screens (total_trials start_time : Z) (start_time_str : string)
    (i : Z) (l : list string) (w w' : world) (rs : list Result.t) :
  steps (test_spec test_type practice_output_filename
           test_output_filename participant_info with_experiment total_trials
           start_time start_time_str base_image_path) i l w rs w' ->
  exists new, trace w' = (trace w ++ new)%list /\ screens new = [].
Proof.
  intros H. induction H as [i w|i file l w w1 w' r rs Hstep _ IH].
  - exists []. by rewrite app_nil_r.
  - destruct IH as (new & Htr & Hsc).
    apply trial_spec_trace in Hstep
      as (t_open & t_close & screen & ex & su & cd & _ & Ht1 & _ & Hscreen & _).
    rewrite Ht1 in Htr. eexists. split.
    + rewrite Htr, <- app_assoc. reflexivity.
    + by rewrite screens_app, (screens_trial_events _ _ _ _ _ _ _ _ _ Hscreen), Hsc.
Qed.

End Debrief.

(** ** The ledger *)

Lemma file_events_app (a b : list (Z * event)) :
  file_events (a ++ b) = (file_events a ++ file_events b)%list.
Proof. apply omap_app. Qed.

Lemma file_events_trial_events (t_play t_open t_close t_end : Z) (file : string)
    (screen : event) (response dest text : string) :
  (exists n label prompt image progress,
     screen = EvTrialScreen n label prompt image progress) ->
  file_events (trial_events t_play t_open t_close t_end file screen response dest text) =
  scoped_write dest text.
Proof. intros (n & a & b & c & d & ->). reflexivity. Qed.

Lemma row_text_world (participant_info : gmap string string) (with_experiment : bool)
    (r : Result.t) (w : world) :
  snd (row_text participant_info with_experiment r w) = w.
Proof.
  unfold row_text, bind, getitem, ret, raise.
  destruct with_experiment.
  - destruct (participant_info !! "experiment"); [|reflexivity]. cbn.
    destruct (participant_info !! "Subject_ID"); [|reflexivity].
    destruct (participant_info !! "cur_date"); reflexivity.
  - destruct (participant_info !! "Subject_ID"); [|reflexivity].
    destruct (participant_info !! "cur_date"); reflexivity.
Qed.

Lemma format_row_ends_line (experiment subject cur_date : string) (r : Result.t) :
  exists body, format_row experiment subject cur_date r = body ++ newline.
Proof.
  unfold format_row. eexists. rewrite <- !string_app_assoc. reflexivity.
Qed.

Lemma line_breaks_app (a b : string) :
  line_breaks (a ++ b) = (line_breaks a + line_breaks b)%nat.
Proof.
  induction a as [|c a IH]; [reflexivity|].
  change (String c a ++ b) with (String c (a ++ b)).
  cbn [line_breaks]. rewrite IH. lia.
Qed.

Lemma line_breaks_str (n : Z) : line_breaks (Py.str n) = 0%nat.
Proof.
  assert (Hu : forall d, line_breaks (NilEmpty.string_of_uint d) = 0%nat).
  { induction d; simpl; try assumption; reflexivity. }
  unfold Py.str. destruct (Z.to_int n) as [d | d]; simpl.
  - destruct d; try reflexivity; apply (Hu (_ d)).
  - destruct d; try reflexivity; apply (Hu (_ d)).
Qed.

(** A row has the line breaks of its fields and the one that ends it. *)
Lemma line_breaks_format_row (experiment subject cur_date : string) (r : Result.t) :
  line_breaks (format_row experiment subject cur_date r) =
  S (line_breaks_of_fields experiment subject cur_date r).
Proof.
  unfold format_row, line_breaks_of_fields.
  rewrite !line_breaks_app, !line_breaks_str.
  change (line_breaks ",") with 0%nat. change (line_breaks newline) with 1%nat.
  lia.
Qed.

Section Sink.

Variable test_type : string.
Variable instruction_texts : gmap string string.
Variable practice_output_filename test_output_filename : string.
Variable base_image_path : string.
Variable participant_info : gmap string string.
Variable with_experiment : bool.

Local Abbreviation dest_of :=
  (output_filename practice_output_filename test_output_filename).
Local Abbreviation row_of := (ledger_row participant_info with_experiment).

(** The handle is released however the call ends. *)
Lemma append_result_releases (r : Result.t) (w : world) :
  handles (snd (append_result_to_csv practice_output_filename test_output_filename
                  participant_info with_experiment r w)) = handles w.
Proof.
  unfold append_result_to_csv, with_open_append.
  unfold bind at 1, fs_open_append.
  match goal with |- context [bind ?m ?f ?w0] =>
    assert (Hb : handles (snd (bind m f w0)) = handles w0);
    [|destruct (bind m f w0) as [o w1]] end.
  { unfold bind. pose proof (row_text_world participant_info with_experiment r) as Hw.
    match goal with |- context [row_text _ _ _ ?w0] =>
      specialize (Hw w0); destruct (row_text participant_info with_experiment r w0)
        as [[text | e |] w2] end; cbn [snd] in *; subst; reflexivity. }
  cbn [snd] in Hb. unfold fs_close. cbn [snd handles set_trace set_handles].
  rewrite Hb. cbn [handles set_trace set_handles set_files]. apply remove_first_head.
Qed.

Lemma steps_ledger (P : Z -> string -> world -> Result.t -> world -> Prop) :
  (forall i file w r w1, P i file w r w1 ->
     exists seg, trace w1 = (trace w ++ seg)%list /\
       file_events seg = scoped_write (dest_of r) (row_of r) /\
       files w1 = append_to (files w) (dest_of r) (row_of r) /\
       handles w1 = handles w) ->
  forall i l w rs w', steps P i l w rs w' ->
    exists new, trace w' = (trace w ++ new)%list /\
      file_events new =
        concat (map (fun r => scoped_write (dest_of r) (row_of r)) rs) /\
      files w' = foldl (fun fs r => append_to fs (dest_of r) (row_of r)) (files w) rs /\
      handles w' = handles w.
Proof.
  intros HP i l w rs w' H. induction H as [i w|i file l w w1 w' r rs Hstep _ IH].
  - exists []. by rewrite app_nil_r.
  - destruct IH as (new & Htr & Hfe & Hfs & Hh).
    apply HP in Hstep as (seg & Ht1 & Hf1 & Hfs1 & Hh1).
    exists (seg ++ new)%list. split; [|split; [|split]].
    + by rewrite Htr, Ht1, <- app_assoc.
    + rewrite file_events_app, Hf1, Hfe. reflexivity.
    + cbn [foldl]. by rewrite Hfs, Hfs1.
    + congruence.
Qed.

Lemma trial_spec_ledger (phase : string) (time_limit : option Z)
    (total_trials start_time : Z) (start_time_str : string)
    (i : Z) (file : string) (w w1 : world) (r : Result.t) :
  trial_spec test_type practice_output_filename test_output_filename
    participant_info with_experiment phase time_limit total_trials
    start_time start_time_str base_image_path i file w r w1 ->
  exists seg, trace w1 = (trace w ++ seg)%list /\
    file_events seg = scoped_write (dest_of r) (row_of r) /\
    files w1 = append_to (files w) (dest_of r) (row_of r) /\
    handles w1 = handles w.
Proof.
  intros H. pose proof (trial_spec_frame _ _ _ _ _ _ _ _ _ _ _ _ _ _ _ _ H)
    as (_ & _ & _ & _ & Hh).
  apply trial_spec_trace in H
    as (t_open & t_close & screen & ex & su & cd & Hpf & Htr & Hfs & Hscreen & _).
  unfold ledger_row. rewrite Hpf.
  eexists. split; [exact Htr|]. split; [|split; [exact Hfs | exact Hh]].
  by apply file_events_trial_events.
Qed.

End Sink.

(** ** Elapsed time *)

Lemma div_of_mod_mul (a t c : Z) : 0 < t -> 0 < c -> a mod (t * c) / t = (a / t) mod c.
Proof.
  intros Ht Hc. rewrite Z.rem_mul_r by lia.
  rewrite (Z.mul_comm t), Z.add_comm, Z.div_add_l by lia.
  rewrite (Z.div_small (a mod t)) by (apply Z.mod_pos_bound; lia). lia.
Qed.

(** The duration string is the hours, minutes and seconds of the
    duration floored to whole seconds; the hours are not reduced. *)
Lemma duration_str_floor (duration : Z) :
  duration_str duration = hms_of_seconds (duration / ticks_per_second).
Proof.
  unfold duration_str, hms_of_seconds.
  assert (Ht : 0 < ticks_per_second) by reflexivity.
  set (t := ticks_per_second) in *.
  assert (H1 : duration / (3600 * t) = duration / t / 3600).
  { rewrite Z.div_div by lia. by rewrite (Z.mul_comm t 3600). }
  assert (H2 : duration mod (3600 * t) / (60 * t) = (duration / t) mod 3600 / 60).
  { rewrite <- (div_of_mod_mul duration t 3600) by lia.
    rewrite Z.div_div by lia.
    by rewrite (Z.mul_comm t 3600), (Z.mul_comm t 60). }
  assert (H3 : Z.quot ((duration mod (3600 * t)) mod (60 * t)) t = (duration / t) mod 60).
  { rewrite Z.quot_div_nonneg; [|apply Z.mod_pos_bound; lia | lia].
    rewrite Z.mod_mod_divide by (exists 60; lia).
    rewrite <- (div_of_mod_mul duration t 60) by lia.
    by rewrite (Z.mul_comm t 60). }
  cbv zeta. by rewrite H1, H2, H3.
Qed.

Lemma str_nonempty (n : Z) : Py.str n <> "".
Proof.
  unfold Py.str. destruct (Z.to_int n) as [d | d]; [|discriminate].
  destruct d; discriminate.
Qed.

(** ['{:02d}'] pads with at most one zero and never truncates. *)
Lemma format_02d_pads (n : Z) :
  (Py.format_02d n = Py.str n \/ Py.format_02d n = "0" ++ Py.str n) /\
  (2 <= String.length (Py.format_02d n))%nat.
Proof.
  unfold Py.format_02d. cbv zeta.
  pose proof (str_nonempty n) as Hne.
  destruct (Nat.ltb_spec (String.length (Py.str n)) 2) as [Hlt | Hge].
  - split; [by right|]. destruct (Py.str n); [done | simpl; lia].
  - split; [by left | exact Hge].
Qed.

(** Below a hundred the field is the two decimal digits. *)
Lemma format_02d_two_digits (n : Z) :
  0 <= n < 100 ->
  Py.format_02d n =
  String (ascii_of_nat (48 + Z.to_nat (n / 10)))
    (String (ascii_of_nat (48 + Z.to_nat (n mod 10))) "").
Proof.
  intros Hn.
  assert (Hall : forallb (fun k =>
            String.eqb (Py.format_02d (Z.of_nat k))
              (String (ascii_of_nat (48 + Z.to_nat (Z.of_nat k / 10)))
                 (String (ascii_of_nat (48 + Z.to_nat (Z.of_nat k mod 10))) "")))
            (seq 0 100) = true) by (vm_compute; reflexivity).
  rewrite forallb_forall in Hall.
  specialize (Hall (Z.to_nat n)). rewrite Z2Nat.id in Hall by lia.
  apply String.eqb_eq, Hall, in_seq. lia.
Qed.

(** ** Where a record sits in time *)

Lemma located_extend {A} (x tr before after : list A) :
  located x tr -> located x (before ++ tr ++ after).
Proof.
  intros (b & a & ->). exists (before ++ b)%list, (a ++ after)%list.
  by rewrite <- !app_assoc.
Qed.

Lemma located_self {A} (x : list A) : located x x.
Proof. exists [], []. by rewrite app_nil_r. Qed.

Lemma recorded_at_extend (start offset : Z) (dest_of row_of : Result.t -> string)
    (tr before after : list (Z * event)) (r : Result.t) :
  recorded_at start offset dest_of row_of tr r ->
  recorded_at start offset dest_of row_of (before ++ tr ++ after) r.
Proof.
  intros (t_play & t_open & t_close & screen & Hl & H).
  exists t_play, t_open, t_close, screen. split; [by apply located_extend | exact H].
Qed.

Lemma instructed_forward (text : string) (w w' : world) :
  instructed text w w' -> forward w ->
  forward w' /\ now w <= now w' /\ utc_offset w' = utc_offset w /\
  trace w' = (trace w ++ [(now w, EvInstructions text)])%list.
Proof.
  intros (dt & rest & Hk & ->) [Hs Hkw]. rewrite Hk in Hkw.
  apply Forall_cons in Hkw as [Hdt Hrest]. cbn [now utc_offset trace].
  split; [by split|]. split; [lia|]. by split.
Qed.

Section Timing.

Variable test_type : string.
Variable instruction_texts : gmap string string.
Variable practice_output_filename test_output_filename : string.
Variable base_image_path : string.
Variable participant_info : gmap string string.
Variable with_experiment : bool.

Local Abbreviation dest_of :=
  (output_filename practice_output_filename test_output_filename).
Local Abbreviation row_of := (ledger_row participant_info with_experiment).

Lemma trial_spec_recorded (phase : string) (time_limit : option Z)
    (total_trials start_time : Z) (i : Z) (file : string)
    (w w1 : world) (r : Result.t) :
  trial_spec test_type practice_output_filename test_output_filename
    participant_info with_experiment phase time_limit total_trials
    start_time (hms_local (utc_offset w) start_time) base_image_path i file w r w1 ->
  forward w -> start_time <= now w ->
  forward w1 /\ start_time <= now w1 /\ utc_offset w1 = utc_offset w /\
  exists seg, trace w1 = (trace w ++ seg)%list /\
    recorded_at start_time (utc_offset w) dest_of row_of seg r.
Proof.
  intros H Hf Hstart.
  pose proof (trial_spec_fields _ _ _ _ _ _ _ _ _ _ _ _ _ _ _ _ H) as (Hr & _).
  pose proof (trial_spec_frame _ _ _ _ _ _ _ _ _ _ _ _ _ _ _ _ H)
    as (Ho & _ & Hsc & Hkw & _).
  apply trial_spec_trace in H
    as (t_open & t_close & screen & ex & su & cd & Hpf & Htr & _ & _ & Hopen & Hclose & Hnow).
  specialize (Hclose Hf).
  assert (0 < ticks_per_second) by reflexivity.
  split; [eapply forward_tail_scripts; eassumption|].
  split; [lia|]. split; [exact Ho|].
  eexists. split; [exact Htr|].
  exists (now w), t_open, t_close, screen. cbv zeta.
  unfold ledger_row. rewrite Hpf, Hnow.
  assert (Hst : Result.stimulus r = file) by (by rewrite Hr).
  rewrite Hst. split; [apply located_self|].
  split; [exact Hstart|]. split; [exact Hopen|]. split; [exact Hclose|].
  rewrite Hr. cbn [Result.start_time Result.end_time Result.duration].
  rewrite Hnow, duration_str_floor. by repeat split.
Qed.

Lemma steps_recorded (P : Z -> string -> world -> Result.t -> world -> Prop)
    (start offset : Z) :
  (forall i file w r w1, P i file w r w1 ->
     forward w -> start <= now w -> utc_offset w = offset ->
     forward w1 /\ start <= now w1 /\ utc_offset w1 = offset /\
     exists seg, trace w1 = (trace w ++ seg)%list /\
       recorded_at start offset dest_of row_of seg r) ->
  forall i l w rs w', steps P i l w rs w' ->
    forward w -> start <= now w -> utc_offset w = offset ->
    forward w' /\ start <= now w' /\ utc_offset w' = offset /\
    exists new, trace w' = (trace w ++ new)%list /\
      Forall (recorded_at start offset dest_of row_of new) rs.
Proof.
  intros HP i l w rs w' H. induction H as [i w|i file l w w1 w' r rs Hstep _ IH];
    intros Hf Hs Ho.
  - do 3 (split; [assumption|]). exists []. by rewrite app_nil_r.
  - destruct (HP _ _ _ _ _ Hstep Hf Hs Ho) as (Hf1 & Hs1 & Ho1 & seg & Htr1 & Hrec).
    destruct (IH Hf1 Hs1 Ho1) as (Hf' & Hs' & Ho' & new & Htr' & Hall).
    do 3 (split; [assumption|]).
    exists (seg ++ new)%list. split; [by rewrite Htr', Htr1, <- app_assoc|].
    constructor.
    + exact (recorded_at_extend _ _ _ _ seg [] new r Hrec).
    + eapply Forall_impl; [exact Hall|]. intros r0 Hr0.
      pose proof (recorded_at_extend _ _ _ _ new seg [] r0 Hr0) as Hx.
      by rewrite app_nil_r in Hx.
Qed.

(** Every record of a sub-test is accounted for by the sub-test's trace,
    when the environment lets no time run backwards. *)
Lemma subtest_recorded (example_files test_files : list string)
    (w w' : world) (rs : list Result.t) :
  subtest_spec test_type instruction_texts practice_output_filename
    test_output_filename base_image_path participant_info with_experiment
    example_files test_files w rs w' ->
  forward w ->
  forward w' /\ now w <= now w' /\ utc_offset w' = utc_offset w /\
  exists new, trace w' = (trace w ++ new)%list /\
    Forall (recorded_at (now w) (utc_offset w) dest_of row_of new) rs.
Proof.
  intros (part1 & part2 & w1 & w2 & w3 & practice & scored &
          _ & Hi1 & Hp & _ & Hi2 & Ht & ->) Hf.
  apply instructed_forward in Hi1 as (Hf1 & Hn1 & Ho1 & Htr1); [|exact Hf].
  eapply (steps_recorded _ (now w) (utc_offset w)) in Hp
    as (Hf2 & Hn2 & Ho2 & newp & Htr2 & Hallp); [|clear Hp|assumption..].
  2:{ intros i file w0 r w4 (w5 & text & Hs & _ & Hins) Hf0 Hs0 Ho0.
      rewrite <- Ho0 in Hs.
      apply trial_spec_recorded in Hs as (Hf5 & Hs5 & Ho5 & seg & Htr5 & Hrec);
        [|assumption..].
      apply instructed_forward in Hins as (Hf4 & Hn4 & Ho4 & Htr4).
      2:{ destruct Hf5 as [Ha Hb]. by split. }
      cbn [fed_back now utc_offset trace] in *.
      assert (0 < ticks_per_second) by reflexivity.
      split; [exact Hf4|]. split; [lia|]. split; [congruence|].
      eexists. split.
      - rewrite Htr4, Htr5, <- !app_assoc. reflexivity.
      - rewrite <- Ho0.
        exact (recorded_at_extend _ _ _ _ seg [] _ r Hrec). }
  apply instructed_forward in Hi2 as (Hf3 & Hn3 & Ho3 & Htr3); [|exact Hf2].
  eapply (steps_recorded _ (now w) (utc_offset w)) in Ht
    as (Hf' & Hn' & Ho' & newt & Htr' & Hallt);
    [|clear Ht|try assumption; try lia; congruence..].
  2:{ intros i file w0 r w4 Hs Hf0 Hs0 Ho0. rewrite <- Ho0 in Hs.
      apply trial_spec_recorded in Hs as (Hf5 & Hs5 & Ho5 & seg & Htr5 & Hrec);
        [|assumption..].
      split; [exact Hf5|]. split; [exact Hs5|]. split; [congruence|].
      exists seg. split; [exact Htr5|]. by rewrite <- Ho0. }
  do 3 (split; [assumption|]).
  eexists. split.
  - rewrite Htr', Htr3, Htr2, Htr1, <- !app_assoc. reflexivity.
  - apply Forall_app. split.
    + eapply Forall_impl; [exact Hallp|]. intros r Hr.
      exact (recorded_at_extend _ _ _ _ newp [_] _ r Hr).
    + eapply Forall_impl; [exact Hallt|]. intros r Hr.
      pose proof (recorded_at_extend _ _ _ _ newt
                    ([(now w, EvInstructions part1)] ++ newp ++
                     [(now w2, EvInstructions part2)]) [] r Hr) as Hx.
      by rewrite app_nil_r, <- !app_assoc in Hx.
Qed.

End Timing.

Lemma located_suffix {A} (p x tr : list A) : located (p ++ x) tr -> located x tr.
Proof.
  intros (b & a & ->). exists (b ++ p)%list, a. by rewrite <- !app_assoc.
Qed.

Lemma located_prefix {A} (x s tr : list A) : located (x ++ s) tr -> located x tr.
Proof.
  intros (b & a & ->). exists b, (s ++ a)%list. by rewrite <- !app_assoc.
Qed.

(** ** Elapsed time in a run *)

Section Elapsed.

Variable instruction_texts : gmap string string.
Variable practice_output_filename test_output_filename : string.
Variable base_image_path : string.
Variable participant_info : gmap string string.
Variable with_experiment : bool.

Local Abbreviation dest_of :=
  (output_filename practice_output_filename test_output_filename).
Local Abbreviation row_of := (ledger_row participant_info with_experiment).

Lemma recorded_at_elapsed (start offset : Z) (new : list (Z * event)) (r : Result.t) :
  recorded_at start offset dest_of row_of new r ->
  elapsed_from start dest_of row_of new r.
Proof.
  intros (t_play & t_open & t_close & screen & Hl & Hs & Hp & Hc & _ & _ & Hd).
  exists (t_close + ticks_per_second).
  assert (0 < ticks_per_second) by reflexivity.
  split; [lia|]. split; [|exact Hd].
  unfold trial_events in Hl.
  apply (located_suffix [_; _; _; _; _]) in Hl.
  exact (located_prefix [_] [_] _ Hl).
Qed.

Lemma subtest_elapsed (test_type : string) (example_files test_files : list string)
    (w w' : world) (rs : list Result.t) :
  musical_ear_test test_type instruction_texts practice_output_filename
    test_output_filename base_image_path participant_info with_experiment
    example_files test_files w = (Ret rs, w') ->
  forward w ->
  forward w' /\ now w <= now w' /\
  exists new, trace w' = (trace w ++ new)%list /\
    Forall (elapsed_from (now w) dest_of row_of new) rs.
Proof.
  intros H Hf. apply musical_ear_test_Ret in H.
  eapply subtest_recorded in H as (Hf' & Hn & _ & new & Htr & Hall); [|exact Hf].
  split; [exact Hf'|]. split; [exact Hn|].
  exists new. split; [exact Htr|].
  eapply Forall_impl; [exact Hall|]. intros r. apply recorded_at_elapsed.
Qed.

Variable melody_example_files melody_test_files : list string.
Variable rhythm_example_files rhythm_test_files : list string.

Local Abbreviation run_test' :=
  (run_test instruction_texts practice_output_filename test_output_filename
     base_image_path participant_info with_experiment
     melody_example_files melody_test_files rhythm_example_files rhythm_test_files).

(** A sub-test of the session: its durations count from the instant
    [start] at which the sub-test proper was entered, after the general
    instruction if that was shown. *)
Lemma run_test_elapsed (i : Z) (test : string) (w w' : world) (rs : list Result.t) :
  run_test' i test w = (Ret rs, w') ->
  forward w ->
  forward w' /\ now w <= now w' /\
  exists start new,
    now w <= start /\ (i <> 0 -> start = now w) /\
    located new (trace w') /\
    Forall (elapsed_from start dest_of row_of new) rs.
Proof.
  unfold run_test. intros H Hf.
  apply bind_Ret in H as (u & w0 & Hintro & H).
  assert (forward w0 /\ now w <= now w0 /\ (i <> 0 -> w0 = w) /\
          exists pre, trace w0 = (trace w ++ pre)%list) as (Hf0 & Hn0 & Hi0 & pre & Htr0).
  { destruct (Z.eqb_spec i 0) as [-> | Hne].
    - apply bind_Ret in Hintro as (intro & w1 & Hg & Hintro).
      apply getitem_Ret in Hg as [_ ->].
      apply display_instructions_Ret, instructed_forward in Hintro
        as (Hf0 & Hn0 & _ & Htr0); [|exact Hf].
      split; [exact Hf0|]. split; [exact Hn0|]. split; [done|]. eauto.
    - injection Hintro as _ <-. split; [exact Hf|]. split; [lia|].
      split; [done|]. exists []. by rewrite app_nil_r. }
  assert (Hsub : forall test_type ex te,
            musical_ear_test test_type instruction_texts practice_output_filename
              test_output_filename base_image_path participant_info with_experiment
              ex te w0 = (Ret rs, w') ->
            forward w' /\ now w <= now w' /\
            exists start new,
              now w <= start /\ (i <> 0 -> start = now w) /\
              located new (trace w') /\
              Forall (elapsed_from start dest_of row_of new) rs).
  { intros test_type ex te Hrun.
    pose proof (musical_ear_test_Ret _ _ _ _ _ _ _ _ _ _ _ _ Hrun) as Hspec.
    eapply subtest_recorded in Hspec as (Hf' & Hn' & _ & new & Htr & Hall); [|exact Hf0].
    split; [exact Hf'|]. split; [lia|].
    exists (now w0), new. split; [exact Hn0|].
    split; [intros Hi; by rewrite (Hi0 Hi)|].
    split; [exists (trace w0), []; by rewrite app_nil_r|].
    eapply Forall_impl; [exact Hall|]. intros r. apply recorded_at_elapsed. }
  destruct (String.eqb test "melody"); [eapply Hsub, H|].
  destruct (String.eqb test "rhythm"); [eapply Hsub, H|].
  injection H as <- <-. split; [exact Hf0|]. split; [exact Hn0|].
  exists (now w0), []. split; [exact Hn0|].
  split; [intros Hi; by rewrite (Hi0 Hi)|].
  split; [exists (trace w0), []; by rewrite app_nil_r | constructor].
Qed.

End Elapsed.

(** ** The response window of a trial *)

Lemma times_out_shift (start limit : Z) (polls : list poll) (k : nat) :
  times_out start (start + limit) polls k <-> times_out 0 limit polls k.
Proof.
  unfold times_out. split; intros (Hk & Hd & Hj); (split; [exact Hk|]); (split; [lia|]);
    intros j Hlt; destruct (Hj j Hlt) as [H1 H2]; (split; [lia | exact H2]).
Qed.

(** With a countdown, a key is returned only from a pass whose guard,
    like every guard before it, has read the countdown positive. *)
Lemma response_loop_timed_key (deadline : Z) (polls : list poll) (w w' : world)
    (key : string) :
  response_loop (Some deadline) polls w = (Ret (Some key), w') ->
  exists j, first_answer polls = Some (j, key) /\
    forall i, (i <= j)%nat -> now w + elapsed i polls < deadline.
Proof.
  revert w; induction polls as [|[dt buffer] rest IH]; intros w; cbn [response_loop].
  - destruct (0 <? deadline - now w); discriminate.
  - destruct (Z.ltb_spec 0 (deadline - now w)); [|discriminate].
    unfold bind, advance. cbn [first_answer].
    destruct (getKeys_yn buffer) as [|k ks].
    + intros Hr. apply IH in Hr as (j & Hfa & Hg). rewrite Hfa.
      exists (S j). split; [reflexivity|].
      intros [|i] Hi; [simpl; lia|]. specialize (Hg i). cbn [now set_now] in Hg.
      simpl. lia.
    + unfold ret. intros [= -> _]. exists 0%nat. split; [reflexivity|].
      intros i Hi. assert (i = 0%nat) by lia; subst. simpl. lia.
Qed.

Lemma collect_response_timed (secs : Z) (polls : list poll) (w w' : world)
    (response : string) :
  collect_response (Some secs) polls w = (Ret response, w') ->
  timed secs response polls.
Proof.
  intros H. rewrite collect_response_unfold in H.
  pose proof (response_loop_timed_None (now w + secs * ticks_per_second) polls w) as Hn.
  destruct (response_loop _ polls w) as [[r | e |] w1] eqn:E; try discriminate.
  injection H as <- <-. cbn [fst] in Hn.
  destruct r as [key|].
  - apply response_loop_timed_key in E as Hk. destruct Hk as (j & Hfa & Hg).
    pose proof (first_answer_Some _ _ _ Hfa) as (Hkey & _).
    destruct (translate_designated key Hkey) as [Ht Hna].
    split.
    + split; [by intros Hx|]. intros [k Hk]. exfalso.
      apply (proj2 (times_out_shift (now w) _ _ _)) in Hk.
      pose proof (proj2 Hn (ex_intro _ k Hk)). discriminate.
    + intros _. exists j, key. split; [exact Hfa|]. split; [exact Ht|].
      intros i Hi. specialize (Hg i Hi). lia.
  - split; [|by intros Hx].
    split; [intros _ | reflexivity].
    destruct (proj1 Hn eq_refl) as [k Hk]. exists k.
    exact (proj1 (times_out_shift _ _ _ _) Hk).
Qed.

Lemma collect_response_answered (polls : list poll) (w w' : world) (response : string) :
  collect_response None polls w = (Ret response, w') ->
  answered response polls.
Proof.
  rewrite collect_response_untimed.
  destruct (first_answer polls) as [[j key]|] eqn:E; [|discriminate].
  intros [= <- _]. by exists j, key.
Qed.

(** [play_stimulus_and_display_prompt] is the response window, opened
    after the stimulus and closed by whatever ends the loop. *)
Lemma play_unfold (file prompt : string) (time_limit : option Z) (n : Z)
    (image : string) (total : Z) (test_type : string) (w : world) :
  play_stimulus_and_display_prompt file prompt time_limit n image total test_type w =
  match collect_response time_limit (default [] (head (scripts w)))
          (window_world file prompt n image total test_type w) with
  | (Ret response, w_close) =>
      (Ret response,
       set_now (now w_close + ticks_per_second)
         (set_trace (trace w_close ++ [(now w_close, EvWindowClose response)]) w_close))
  | (Raise e, w_close) => (Raise e, w_close)
  | (Stuck, w_close) => (Stuck, w_close)
  end.
Proof.
  destruct w as [t0 off dur scr kw fs hs tr].
  unfold play_stimulus_and_display_prompt, window_world, window_opens.
  unfold bind at 1, emit at 1. unfold bind at 1, emit at 1.
  unfold bind at 1, getDuration at 1. unfold bind at 1, core_wait at 1, advance at 1.
  unfold bind at 1, emit at 1. unfold bind at 1, next_script at 1.
  world_simpl. rewrite <- !app_assoc. cbn [app].
  destruct scr as [|polls rest]; cbn [head tail default]; unfold bind at 1;
    (destruct (collect_response _ _ _) as [[response | e |] w_close]; [|reflexivity..]);
    unfold bind, emit, core_wait, advance, ret; world_simpl; reflexivity.
Qed.

Lemma answered_nil (response : string) : ~ answered response [].
Proof. by intros (j & key & H & _). Qed.

Lemma timed_two_nil (response : string) : ~ timed 2 response [].
Proof.
  intros [Hna Hkey]. destruct (String.eqb_spec response "NA") as [E | E].
  - destruct (proj1 Hna E) as (k & Hk & Hd & _). simpl in Hk.
    assert (k = 0%nat) by lia; subst. vm_compute in Hd. by apply Hd.
  - by destruct (Hkey E) as (j & key & H & _).
Qed.

(** The windows of a loop take the poll scripts in turn, one each. *)
Lemma steps_windows (P : Z -> string -> world -> Result.t -> world -> Prop)
    (Q : Result.t -> list poll -> Prop) :
  (forall r, ~ Q r []) ->
  (forall i file w r w1, P i file w r w1 ->
     scripts w1 = tail (scripts w) /\ Q r (default [] (head (scripts w)))) ->
  forall i l w rs w', steps P i l w rs w' ->
    Forall2 Q rs (take (length l) (scripts w)) /\
    scripts w' = drop (length l) (scripts w).
Proof.
  intros Hnil HP i l w rs w' H.
  induction H as [i w|i file l w w1 w' r rs Hstep _ [IH1 IH2]].
  - split; [constructor | reflexivity].
  - apply HP in Hstep as [Hs HQ].
    destruct (scripts w) as [|polls rest]; [by apply Hnil in HQ|].
    cbn [head default tail] in *. rewrite Hs in IH1, IH2. cbn [length take drop].
    split; [by constructor | exact IH2].
Qed.

Section Window.

Variable test_type : string.
Variable instruction_texts : gmap string string.
Variable practice_output_filename test_output_filename : string.
Variable base_image_path : string.
Variable participant_info : gmap string string.
Variable with_experiment : bool.

Lemma trial_spec_window (phase : string) (time_limit : option Z)
    (total_trials start_time : Z) (start_time_str : string)
    (i : Z) (file : string) (w w1 : world) (r : Result.t) :
  trial_spec test_type practice_output_filename test_output_filename
    participant_info with_experiment phase time_limit total_trials
    start_time start_time_str base_image_path i file w r w1 ->
  scripts w1 = tail (scripts w) /\
  match time_limit with
  | None => answered (Result.response r) (default [] (head (scripts w)))
  | Some secs => timed secs (Result.response r) (default [] (head (scripts w)))
  end.
Proof.
  intros H. pose proof (trial_spec_frame _ _ _ _ _ _ _ _ _ _ _ _ _ _ _ _ H)
    as (_ & _ & Hs & _).
  split; [exact Hs|].
  destruct H as (plural & ex & su & cd & k & w_open & _ & _ & _ & _ & Hc & _).
  destruct time_limit as [secs|].
  - eapply collect_response_timed, Hc.
  - eapply collect_response_answered, Hc.
Qed.

(** The windows of a sub-test that returns: those of the practice
    trials have no limit, those of the scored trials two seconds, and
    they take the poll scripts in turn. *)
Lemma subtest_windows (example_files test_files : list string) (w w' : world)
    (rs : list Result.t) :
  musical_ear_test test_type instruction_texts practice_output_filename
    test_output_filename base_image_path participant_info with_experiment
    example_files test_files w = (Ret rs, w') ->
  exists practice scored,
    rs = (practice ++ scored)%list /\
    length practice = length example_files /\
    length scored = length test_files /\
    Forall2 (fun r polls => answered (Result.response r) polls)
      practice (take (length example_files) (scripts w)) /\
    Forall2 (fun r polls => timed 2 (Result.response r) polls)
      scored (take (length test_files) (drop (length example_files) (scripts w))).
Proof.
  intros H. apply musical_ear_test_Ret in H
    as (part1 & part2 & w1 & w2 & w3 & practice & scored &
        _ & Hi1 & Hp & _ & Hi2 & Ht & ->).
  exists practice, scored. split; [reflexivity|].
  split; [eapply steps_length, Hp|]. split; [eapply steps_length, Ht|].
  apply instructed_frame in Hi1 as (Hs1 & _). apply instructed_frame in Hi2 as (Hs3 & _).
  eapply (steps_windows _ (fun r polls => answered (Result.response r) polls))
    in Hp as [Hp Hs2]; [|intros r; apply answered_nil|].
  2:{ intros i file w0 r w4 (w5 & text & Hs & _ & Hi).
      apply trial_spec_window in Hs as [Hs HQ].
      apply instructed_frame in Hi as (Hs' & _). cbn [fed_back scripts] in Hs'.
      split; [congruence | exact HQ]. }
  eapply (steps_windows _ (fun r polls => timed 2 (Result.response r) polls))
    in Ht as [Ht _]; [|intros r; apply timed_two_nil|].
  2:{ intros i file w0 r w4 Hs. apply trial_spec_window in Hs. exact Hs. }
  rewrite Hs1 in Hp, Hs2. rewrite Hs3, Hs2 in Ht. by split.
Qed.

End Window.

Lemma collect_response_timed_NA (secs : Z) (polls : list poll) (w : world) :
  fst (collect_response (Some secs) polls w) = Ret "NA" <->
  exists k, times_out 0 (secs * ticks_per_second) polls k.
Proof.
  setoid_rewrite <- (times_out_shift (now w)).
  rewrite <- response_loop_timed_None, collect_response_unfold.
  pose proof (response_loop_designated (Some (now w + secs * ticks_per_second)) polls w)
    as Hd.
  destruct (response_loop _ polls w) as [[[key|] | e |] w1]; cbn [fst];
    [|done|done|done].
  destruct (translate_designated key (Hd key eq_refl)) as [_ Hna].
  split; [intros [= E]; by destruct Hna | discriminate].
Qed.

Lemma collect_response_timed_answer (secs : Z) (polls : list poll) (w : world)
    (j : nat) (key : string) :
  first_answer polls = Some (j, key) ->
  (forall i, (i <= j)%nat -> elapsed i polls < secs * ticks_per_second) ->
  collect_response (Some secs) polls w =
  (Ret (label_of key), set_now (now w + elapsed (S j) polls) w).
Proof.
  intros Hfa Hg. rewrite collect_response_unfold.
  rewrite (response_loop_timed_answer _ _ _ j key Hfa).
  - apply first_answer_Some in Hfa as (Hk & _).
    by destruct (translate_designated key Hk) as [-> _].
  - intros i Hi. specialize (Hg i Hi). lia.
Qed.

Lemma play_result (file prompt : string) (time_limit : option Z) (n : Z)
    (image : string) (total : Z) (test_type : string) (w : world) :
  fst (play_stimulus_and_display_prompt file prompt time_limit n image total test_type w) =
  fst (collect_response time_limit (default [] (head (scripts w)))
         (window_world file prompt n image total test_type w)).
Proof.
  rewrite play_unfold. by destruct (collect_response _ _ _) as [[r | e |] w1].
Qed.

(** ** The log of a run, however it ends *)

Lemma bind_cases {A B} (m : M A) (f : A -> M B) (w : world) :
  bind m f w =
  match m w with
  | (Ret a, w1) => f a w1
  | (Raise e, w1) => (Raise e, w1)
  | (Stuck, w1) => (Stuck, w1)
  end.
Proof. unfold bind. by destruct (m w) as [[a | e |] w1]. Qed.

Lemma trial_log_app (a b : list (Z * event)) :
  trial_log (a ++ b) = (trial_log a ++ trial_log b)%list.
Proof. apply omap_app. Qed.

Lemma response_loop_raises_nothing (timer : option Z) (polls : list poll) (w : world)
    (e : exn) :
  fst (response_loop timer polls w) <> Raise e.
Proof.
  revert w; induction polls as [|[dt buffer] rest IH]; intros w; cbn [response_loop].
  - destruct (match timer with Some d => 0 <? d - now w | None => true end); discriminate.
  - destruct (match timer with Some d => 0 <? d - now w | None => true end);
      [|discriminate].
    unfold bind, advance. destruct (getKeys_yn buffer); [apply IH | discriminate].
Qed.

Lemma collect_response_raises_nothing (time_limit : option Z) (polls : list poll)
    (w : world) (e : exn) :
  fst (collect_response time_limit polls w) <> Raise e.
Proof.
  rewrite collect_response_unfold.
  match goal with |- context [response_loop ?t polls w] =>
    pose proof (response_loop_raises_nothing t polls w) as H;
    destruct (response_loop t polls w) as [[r | e' |] w1] end; try discriminate.
  by specialize (H e').
Qed.

Section Logged.

Variable dest_of row_of : Result.t -> string.

Lemma logged_refl (w : world) : logged dest_of row_of [] [] w w.
Proof. exists []. by rewrite app_nil_r. Qed.

(** A step that adds to the trace nothing the log shows and leaves the
    files and handles alone. *)
Lemma logged_frame (w w' : world) (seg : list (Z * event)) :
  trace w' = (trace w ++ seg)%list -> trial_log seg = [] ->
  files w' = files w -> handles w' = handles w ->
  logged dest_of row_of [] [] w w'.
Proof. intros Ht Hl Hf Hh. exists seg. by rewrite Hl. Qed.

Lemma logged_trans (rs1 rs2 : list Result.t) (pending : list event) (w w1 w2 : world) :
  logged dest_of row_of rs1 [] w w1 ->
  logged dest_of row_of rs2 pending w1 w2 ->
  logged dest_of row_of (rs1 ++ rs2) pending w w2.
Proof.
  intros (n1 & Ht1 & Hl1 & Hf1 & Hh1) (n2 & Ht2 & Hl2 & Hf2 & Hh2).
  exists (n1 ++ n2)%list. split; [|split; [|split]].
  - by rewrite Ht2, Ht1, <- app_assoc.
  - rewrite trial_log_app, Hl1, Hl2, app_nil_r, map_app, concat_app, <- app_assoc.
    reflexivity.
  - by rewrite Hf2, Hf1, foldl_app.
  - congruence.
Qed.

Lemma accounted_nothing (w w' : world) (waiting returned : Prop) :
  logged dest_of row_of [] [] w w' ->
  accounted dest_of row_of [] w w' [] waiting returned.
Proof. intros H. exists []. split; [exact H|]. split; [reflexivity|]. by split; [left|]. Qed.

Lemma accounted_length (expected : list (Z * string * string)) (w w' : world)
    (rs : list Result.t) (waiting returned : Prop) :
  accounted dest_of row_of expected w w' rs waiting returned ->
  (length rs <= length expected)%nat.
Proof.
  intros (pending & _ & Hh & _). apply (f_equal length) in Hh.
  rewrite length_map, length_take in Hh. lia.
Qed.

(** A run that goes on after its first part has returned. *)
Lemma accounted_app (e1 e2 : list (Z * string * string)) (w w1 w2 : world)
    (rs1 rs2 : list Result.t) (waiting1 waiting returned : Prop) :
  accounted dest_of row_of e1 w w1 rs1 waiting1 True ->
  accounted dest_of row_of e2 w1 w2 rs2 waiting returned ->
  accounted dest_of row_of (e1 ++ e2) w w2 (rs1 ++ rs2) waiting returned.
Proof.
  intros (p1 & Hl1 & Hh1 & _ & Hr1) (p2 & Hl2 & Hh2 & Hp2 & Hr2).
  destruct (Hr1 I) as [Hlen ->].
  exists p2. split; [by eapply logged_trans|]. split; [|split; [exact Hp2|]].
  - rewrite map_app, length_app, Hh1, Hh2, Hlen, take_ge by lia.
    rewrite take_app_add'; [reflexivity | lia].
  - intros Hr. destruct (Hr2 Hr) as [Hlen2 ->]. rewrite !length_app. split; [lia | done].
Qed.

(** A run that ends in its first part. *)
Lemma accounted_stop (e1 e2 : list (Z * string * string)) (w w1 : world)
    (rs1 : list Result.t) (waiting returned : Prop) :
  accounted dest_of row_of e1 w w1 rs1 waiting False ->
  ~ returned ->
  accounted dest_of row_of (e1 ++ e2) w w1 rs1 waiting returned.
Proof.
  intros H Hn. pose proof (accounted_length _ _ _ _ _ _ H) as Hlen.
  destruct H as (p1 & Hl1 & Hh1 & Hp1 & _).
  exists p1. split; [exact Hl1|]. split; [|split; [exact Hp1 | done]].
  by rewrite take_app_le.
Qed.

Lemma accounted_iff (expected : list (Z * string * string)) (w w' : world)
    (rs : list Result.t) (waiting waiting' returned returned' : Prop) :
  (waiting -> waiting') -> (returned' -> returned) ->
  accounted dest_of row_of expected w w' rs waiting returned ->
  accounted dest_of row_of expected w w' rs waiting' returned'.
Proof.
  intros Hw Hr (p & Hl & Hh & Hp & Hret).
  exists p. split; [exact Hl|]. split; [exact Hh|]. split; [|auto].
  destruct Hp as [-> | [Hf Hx]]; [by left | right; auto].
Qed.

(** A run that starts after a step the log shows nothing of. *)
Lemma accounted_after (expected : list (Z * string * string)) (w w1 w2 : world)
    (rs : list Result.t) (waiting returned : Prop) :
  logged dest_of row_of [] [] w w1 ->
  accounted dest_of row_of expected w1 w2 rs waiting returned ->
  accounted dest_of row_of expected w w2 rs waiting returned.
Proof.
  intros H0 (p & Hl & Hrest). exists p. split; [|exact Hrest].
  exact (logged_trans [] rs p w w1 w2 H0 Hl).
Qed.

(** A run that has returned, followed by a step the log shows nothing
    of. *)
Lemma accounted_before (expected : list (Z * string * string)) (w w1 w2 : world)
    (rs : list Result.t) (waiting1 waiting returned : Prop) :
  accounted dest_of row_of expected w w1 rs waiting1 True ->
  logged dest_of row_of [] [] w1 w2 ->
  accounted dest_of row_of expected w w2 rs waiting returned.
Proof.
  intros (p & Hl & Hh & _ & Hr) H0. destruct (Hr I) as [Hlen ->].
  exists []. split; [|split; [exact Hh|split; [by left|done]]].
  pose proof (logged_trans rs [] [] w w1 w2 Hl H0) as H. by rewrite app_nil_r in H.
Qed.

End Logged.

Lemma display_instructions_logged (dest_of row_of : Result.t -> string)
    (text : string) (w : world) :
  logged dest_of row_of [] [] w (snd (display_instructions text w)).
Proof.
  unfold display_instructions, bind, emit, waitKeys. world_simpl.
  destruct (keywaits w); by eapply logged_frame.
Qed.

Lemma display_feedback_logged (dest_of row_of : Result.t -> string)
    (correct : bool) (w : world) :
  logged dest_of row_of [] [] w (snd (display_feedback correct w)).
Proof. by eapply logged_frame. Qed.

Section Accounts.

Variable test_type : string.
Variable instruction_texts : gmap string string.
Variable practice_output_filename test_output_filename : string.
Variable base_image_path : string.
Variable participant_info : gmap string string.
Variable with_experiment : bool.

Local Abbreviation dest_of :=
  (output_filename practice_output_filename test_output_filename).
Local Abbreviation row_of := (ledger_row participant_info with_experiment).

(** The window of a trial, however it ends: it returns with the window
    closed, or is left waiting with the window open; the files are not
    touched. *)
Lemma play_ends (file prompt : string) (time_limit : option Z) (n : Z)
    (image : string) (total : Z) (w : world) :
  let run := play_stimulus_and_display_prompt file prompt time_limit n image total
               test_type w in
  exists seg,
    trace (snd run) = (trace w ++ seg)%list /\
    files (snd run) = files w /\ handles (snd run) = handles w /\
    ((exists response, fst run = Ret response /\
        trial_log seg = [EvPlay file; EvWindowClose response]) \/
     (fst run = Stuck /\ trial_log seg = [EvPlay file])).
Proof.
  cbv zeta. rewrite play_unfold.
  destruct (collect_response_world time_limit (default [] (head (scripts w)))
              (window_world file prompt n image total test_type w)) as (k & _ & Hw).
  pose proof (collect_response_raises_nothing time_limit (default [] (head (scripts w)))
                (window_world file prompt n image total test_type w)) as Hq.
  destruct (collect_response _ _ _) as [[response | e |] w_close];
    cbn [fst snd] in *; subst w_close.
  - eexists. split; [|split; [reflexivity|split; [reflexivity|]]].
    + unfold window_world. world_simpl. rewrite <- app_assoc. reflexivity.
    + left. exists response. by split.
  - by specialize (Hq e).
  - eexists. split; [|split; [reflexivity|split; [reflexivity|]]].
    + unfold window_world. world_simpl. reflexivity.
    + right. by split.
Qed.

(** The shared text of the loop bodies, read off the source: the
    lookup of the plural, the window, then the record and its row. *)
Lemma run_trial_unfold (phase : string) (time_limit : option Z) (total_trials : Z)
    (start_time : Z) (start_time_str : string) (results : list Result.t)
    (i : Z) (file : string) (w : world) :
  run_trial test_type practice_output_filename test_output_filename
    base_image_path participant_info with_experiment phase time_limit
    total_trials start_time start_time_str results i file w =
  match german_test_type !! test_type with
  | None => (Raise (KeyError test_type), w)
  | Some plural =>
      match play_stimulus_and_display_prompt file
              ("Sind die " ++ plural ++ " identisch?") time_limit (i + 1)
              (Py.path_join base_image_path (test_type ++ ".png"))
              total_trials test_type w with
      | (Ret response, w1) =>
          let r := Result.mk (i + 1) test_type phase file response
                     (correct_answer file) (accuracy response (correct_answer file))
                     start_time_str (hms_local (utc_offset w1) (now w1))
                     (duration_str (now w1 - start_time)) in
          match append_result_to_csv practice_output_filename test_output_filename
                  participant_info with_experiment r w1 with
          | (Ret _, w2) => (Ret ((results ++ [r])%list, response), w2)
          | (Raise e, w2) => (Raise e, w2)
          | (Stuck, w2) => (Stuck, w2)
          end
      | (Raise e, w1) => (Raise e, w1)
      | (Stuck, w1) => (Stuck, w1)
      end
  end.
Proof.
  unfold run_trial. rewrite bind_cases. unfold getitem.
  destruct (german_test_type !! test_type) as [plural|]; [|reflexivity].
  unfold ret at 1. rewrite bind_cases.
  destruct (play_stimulus_and_display_prompt _ _ _ _ _ _ _ w) as [[response | e |] w1];
    [|reflexivity..].
  rewrite bind_cases. unfold time_time at 1. rewrite bind_cases.
  unfold strftime_HMS at 1. rewrite bind_cases, List.last_last. cbv zeta.
  by destruct (append_result_to_csv _ _ _ _ _ w1) as [[u | e |] w2].
Qed.

(** The shared text of the loop bodies, however it ends: when the
    window closes the row is appended and the record handed back; left
    waiting in the window it has written nothing; and it raises only
    before the stimulus. *)
Lemma run_trial_accounted (phase : string) (time_limit : option Z) (total_trials : Z)
    (start_time : Z) (start_time_str : string) (results : list Result.t)
    (i : Z) (file : string) (w : world) :
  is_Some (participant_fields participant_info with_experiment) ->
  let run := run_trial test_type practice_output_filename test_output_filename
               base_image_path participant_info with_experiment phase time_limit
               total_trials start_time start_time_str results i file w in
  exists rs,
    accounted dest_of row_of [(i + 1, phase, file)] w (snd run) rs
      (fst run = Stuck) (exists a, fst run = Ret a) /\
    forall res response, fst run = Ret (res, response) ->
      res = (results ++ rs)%list /\ exists r, rs = [r] /\ Result.response r = response.
Proof.
  intros [[[ex su] cd] Hpf]. cbv zeta. rewrite run_trial_unfold.
  destruct (german_test_type !! test_type) as [plural|].
  2:{ cbn [fst snd]. exists []. split; [|intros res response H; discriminate H].
      apply (accounted_stop _ _ [] [_]); [|by intros [a Ha]].
      apply accounted_nothing, logged_refl. }
  destruct (play_ends file ("Sind die " ++ plural ++ " identisch?") time_limit (i + 1)
              (Py.path_join base_image_path (test_type ++ ".png")) total_trials w)
    as (seg & Ht & Hf & Hh & Hcase).
  destruct (play_stimulus_and_display_prompt _ _ _ _ _ _ _ w) as [o w1].
  cbn [fst snd] in *.
  destruct Hcase as [(response & -> & Hlog) | [-> Hlog]].
  - cbv zeta. rewrite (append_result_total _ _ _ _ _ _ _ _ _ Hpf). cbn [fst snd].
    refine (ex_intro _ [_] (conj _ _)); revgoals.
    + intros res response' H. inversion H; subst. split; [reflexivity|]. by eexists.
    + eexists []. split; [|split; [reflexivity|split; [by left|done]]].
      eexists. split; [|split; [|split]].
      * cbn [appended trace]. rewrite Ht, <- app_assoc. reflexivity.
      * rewrite trial_log_app, Hlog. unfold ledger_row. rewrite Hpf. reflexivity.
      * cbn [appended files foldl]. unfold ledger_row. rewrite Hpf, Hf. reflexivity.
      * cbn [appended handles]. exact Hh.
  - exists []. cbn [fst snd]. split; [|intros res response H; discriminate H].
    exists [EvPlay file]. split; [|split; [reflexivity|split]].
    + exists seg. by rewrite Hlog.
    + right. split; [by eexists | reflexivity].
    + intros [a Ha]. discriminate.
Qed.

Lemma practice_trial_accounted (total_trials start_time : Z) (start_time_str : string)
    (results : list Result.t) (i : Z) (file : string) (w : world) :
  is_Some (participant_fields participant_info with_experiment) ->
  let run := practice_trial test_type instruction_texts practice_output_filename
               test_output_filename base_image_path participant_info with_experiment
               total_trials start_time start_time_str results i file w in
  exists rs,
    accounted dest_of row_of [(i + 1, "practice", file)] w (snd run) rs
      (fst run = Stuck) (exists a, fst run = Ret a) /\
    forall res, fst run = Ret res -> res = (results ++ rs)%list.
Proof.
  intros Hpf. cbv zeta. unfold practice_trial. rewrite bind_cases.
  destruct (run_trial_accounted "practice" None total_trials start_time start_time_str
              results i file w Hpf) as (rs & Hacc & Hres).
  destruct (run_trial _ _ _ _ _ _ _ _ _ _ _ _ _ _ w) as [[[res response] | e |] w1];
    cbn [fst snd] in *.
  - destruct (Hres res response eq_refl) as [-> _]. exists rs.
    rewrite bind_cases.
    pose proof (display_feedback_logged dest_of row_of
                  (String.eqb response (correct_answer file)) w1) as Hfb.
    destruct (display_feedback _ w1) as [[u | e |] w2] eqn:Efb;
      try (unfold display_feedback, bind, emit, core_wait, advance in Efb; discriminate).
    cbn [snd] in Hfb. rewrite bind_cases. unfold getitem.
    assert (Hdone : accounted dest_of row_of [(i + 1, "practice", file)] w w2 rs
                      False True).
    { apply (accounted_before _ _ _ w w1 w2 rs False); [|exact Hfb].
      revert Hacc. apply accounted_iff; [intros H; discriminate H | by eexists]. }
    destruct (instruction_texts !! _) as [text|]; unfold ret, raise; cbn [fst snd].
    + rewrite bind_cases.
      pose proof (display_instructions_logged dest_of row_of text w2) as Hdi.
      destruct (display_instructions text w2) as [[u' | e |] w3]; cbn [fst snd] in *.
      * split; [|by intros res [= <-]].
        eapply accounted_before; [|exact Hdi]. exact Hdone.
      * split; [|intros res H; discriminate H].
        eapply accounted_before; [|exact Hdi]. exact Hdone.
      * split; [|intros res H; discriminate H].
        eapply accounted_before; [|exact Hdi]. exact Hdone.
    + split; [|intros res H; discriminate H].
      eapply accounted_before; [exact Hdone | apply logged_refl].
  - exists rs. split; [|intros res H; discriminate H].
    eapply accounted_iff; [| |exact Hacc]; [discriminate | by intros [a Ha]].
  - exists rs. split; [|intros res H; discriminate H].
    eapply accounted_iff; [| |exact Hacc]; [done | by intros [a Ha]].
Qed.

Lemma test_trial_accounted (total_trials start_time : Z) (start_time_str : string)
    (results : list Result.t) (i : Z) (file : string) (w : world) :
  is_Some (participant_fields participant_info with_experiment) ->
  let run := test_trial test_type practice_output_filename
               test_output_filename base_image_path participant_info with_experiment
               total_trials start_time start_time_str results i file w in
  exists rs,
    accounted dest_of row_of [(i + 1, "test", file)] w (snd run) rs
      (fst run = Stuck) (exists a, fst run = Ret a) /\
    forall res, fst run = Ret res -> res = (results ++ rs)%list.
Proof.
  intros Hpf. cbv zeta. unfold test_trial. rewrite bind_cases.
  destruct (run_trial_accounted "test" (Some 2) total_trials start_time start_time_str
              results i file w Hpf) as (rs & Hacc & Hres).
  destruct (run_trial _ _ _ _ _ _ _ _ _ _ _ _ _ _ w) as [[[res response] | e |] w1];
    cbn [fst snd] in *; exists rs.
  - destruct (Hres res response eq_refl) as [-> _]. unfold ret. cbn [fst snd].
    split; [|by intros res [= <-]].
    eapply accounted_iff; [| |exact Hacc]; [discriminate | by eexists].
  - split; [|intros res H; discriminate H].
    eapply accounted_iff; [| |exact Hacc]; [discriminate | by intros [a Ha]].
  - split; [|intros res H; discriminate H].
    eapply accounted_iff; [| |exact Hacc]; [done | by intros [a Ha]].
Qed.

(** A loop over the items of a phase, however it ends. *)
Lemma for_enumerate_accounted (phase : string)
    (body : list Result.t -> Z -> string -> M (list Result.t)) :
  (forall results i file w,
     exists rs,
       accounted dest_of row_of [(i + 1, phase, file)] w (snd (body results i file w)) rs
         (fst (body results i file w) = Stuck)
         (exists a, fst (body results i file w) = Ret a) /\
       forall res, fst (body results i file w) = Ret res -> res = (results ++ rs)%list) ->
  forall l i results w,
    exists rs,
      accounted dest_of row_of
        (imap (fun k file => (i + Z.of_nat k + 1, phase, file)) l)
        w (snd (for_enumerate body i l results w)) rs
        (fst (for_enumerate body i l results w) = Stuck)
        (exists a, fst (for_enumerate body i l results w) = Ret a) /\
      forall res, fst (for_enumerate body i l results w) = Ret res ->
        res = (results ++ rs)%list.
Proof.
  intros Hbody l; induction l as [|file l IH]; intros i results w; cbn [for_enumerate].
  - exists []. unfold ret. cbn [fst snd imap]. split.
    + apply accounted_nothing, logged_refl.
    + intros res [= <-]. by rewrite app_nil_r.
  - rewrite bind_cases. destruct (Hbody results i file w) as (rs1 & Hacc & Hres).
    assert (Himap : imap (fun k file => (i + Z.of_nat k + 1, phase, file)) (file :: l) =
                    ([(i + 1, phase, file)] ++
                     imap (fun k file => (i + 1 + Z.of_nat k + 1, phase, file)) l)%list).
    { cbn [imap app]. f_equal; [do 2 f_equal; lia|].
      apply imap_ext. intros k x _. cbn. do 2 f_equal. lia. }
    rewrite Himap.
    destruct (body results i file w) as [[s' | e |] w1]; cbn [fst snd] in *.
    + rewrite (Hres s' eq_refl).
      destruct (IH (i + 1) (results ++ rs1)%list w1) as (rs2 & Hacc2 & Hres2).
      exists (rs1 ++ rs2)%list. split.
      * apply (accounted_app _ _ _ _ w w1 _ rs1 rs2
                 (Ret s' = Stuck :> outcome (list Result.t))); [|exact Hacc2].
        revert Hacc. apply accounted_iff; [intros H; exact H | by eexists].
      * intros res H. rewrite (Hres2 res H), app_assoc. reflexivity.
    + exists rs1. split; [|intros res H; discriminate H].
      apply accounted_stop; [|by intros [a Ha]].
      eapply accounted_iff; [| |exact Hacc]; [intros H; exact H | done].
    + exists rs1. split; [|intros res H; discriminate H].
      apply accounted_stop; [|by intros [a Ha]].
      eapply accounted_iff; [| |exact Hacc]; [intros H; exact H | done].
Qed.

Lemma numbered_from_zero (phase : string) (l : list string) :
  imap (fun k file => (0 + Z.of_nat k + 1, phase, file)) l = numbered phase l.
Proof. apply imap_ext. intros k x _. cbn. do 2 f_equal. Qed.

(** A sub-test, however it ends. *)
Lemma musical_ear_test_accounted (example_files test_files : list string) (w w' : world)
    (o : outcome (list Result.t)) :
  is_Some (participant_fields participant_info with_experiment) ->
  musical_ear_test test_type instruction_texts practice_output_filename
    test_output_filename base_image_path participant_info with_experiment
    example_files test_files w = (o, w') ->
  exists rs,
    accounted dest_of row_of
      (numbered "practice" example_files ++ numbered "test" test_files)%list
      w w' rs (o = Stuck) (exists a, o = Ret a) /\
    forall res, o = Ret res -> res = rs.
Proof.
  intros Hpf Hrun. unfold musical_ear_test in Hrun.
  rewrite bind_cases in Hrun. unfold time_time at 1 in Hrun.
  rewrite bind_cases in Hrun. unfold strftime_HMS at 1 in Hrun.
  rewrite bind_cases in Hrun. unfold getitem at 1 in Hrun.
  set (e1 := numbered "practice" example_files).
  set (e2 := numbered "test" test_files).
  assert (Hnone : forall w', accounted dest_of row_of [] w w' [] False False ->
            forall waiting returned : Prop, ~ returned ->
            accounted dest_of row_of (e1 ++ e2)%list w w' [] waiting returned).
  { intros w0 H waiting returned Hn.
    apply (accounted_stop _ _ [] (e1 ++ e2)%list); [|exact Hn].
    revert H. by apply accounted_iff. }
  destruct (instruction_texts !! (test_type ++ "_part1")) as [part1|].
  2:{ injection Hrun as <- <-. exists [].
      split; [|intros res H; discriminate H].
      apply Hnone; [|by intros [a Ha]]. apply accounted_nothing, logged_refl. }
  unfold ret at 1 in Hrun. rewrite bind_cases in Hrun.
  pose proof (display_instructions_logged dest_of row_of part1 w) as Hi1.
  destruct (display_instructions part1 w) as [[u1 | e |] w1]; cbn [fst snd] in *.
  2,3: injection Hrun as <- <-; exists []; (split; [|intros res H; discriminate H]);
       (apply Hnone; [|by intros [a Ha]]); by apply accounted_nothing.
  rewrite bind_cases in Hrun.
  destruct (for_enumerate_accounted "practice"
              (practice_trial test_type instruction_texts practice_output_filename
                 test_output_filename base_image_path participant_info with_experiment
                 (Z.of_nat (length example_files)) (now w)
                 (hms_local (utc_offset w) (now w)))
              (fun results i file w0 =>
                 practice_trial_accounted _ _ _ results i file w0 Hpf)
              example_files 0 [] w1) as (rs1 & Hacc1 & Hres1).
  rewrite numbered_from_zero in Hacc1. fold e1 in Hacc1.
  apply (accounted_after _ _ _ w w1) in Hacc1; [|exact Hi1].
  destruct (for_enumerate _ 0 example_files [] w1) as [[results1 | e |] w2];
    cbn [fst snd] in *.
  2,3: injection Hrun as <- <-; exists rs1; (split; [|intros res H; discriminate H]);
       (apply accounted_stop; [|by intros [a Ha]]);
       revert Hacc1; apply accounted_iff; [intros H; (exact H || discriminate H) | done].
  rewrite (Hres1 results1 eq_refl) in Hrun. cbn [app] in Hrun. clear Hres1.
  assert (Hdone : accounted dest_of row_of e1 w w2 rs1 False True).
  { revert Hacc1. apply accounted_iff; [intros H; discriminate H | by eexists]. }
  clear Hacc1.
  rewrite bind_cases in Hrun. unfold getitem at 1 in Hrun.
  destruct (instruction_texts !! (test_type ++ "_part2")) as [part2|].
  2:{ injection Hrun as <- <-. exists rs1.
      split; [|intros res H; discriminate H].
      apply accounted_stop; [|by intros [a Ha]].
      revert Hdone. by apply accounted_iff. }
  unfold ret at 1 in Hrun. rewrite bind_cases in Hrun.
  pose proof (display_instructions_logged dest_of row_of part2 w2) as Hi2.
  destruct (display_instructions part2 w2) as [[u2 | e |] w3]; cbn [fst snd] in *.
  2,3: injection Hrun as <- <-; exists rs1; (split; [|intros res H; discriminate H]);
       (apply accounted_stop; [|by intros [a Ha]]);
       apply (accounted_before _ _ _ w w2 _ rs1 False); [exact Hdone | exact Hi2].
  apply (accounted_before _ _ _ w w2 w3 rs1 False False True) in Hdone; [|exact Hi2].
  rewrite bind_cases in Hrun.
  destruct (for_enumerate_accounted "test"
              (test_trial test_type practice_output_filename
                 test_output_filename base_image_path participant_info with_experiment
                 (Z.of_nat (length test_files)) (now w)
                 (hms_local (utc_offset w) (now w)))
              (fun results i file w0 =>
                 test_trial_accounted _ _ _ results i file w0 Hpf)
              test_files 0 rs1 w3) as (rs2 & Hacc2 & Hres2).
  rewrite numbered_from_zero in Hacc2. fold e2 in Hacc2.
  exists (rs1 ++ rs2)%list.
  destruct (for_enumerate _ 0 test_files rs1 w3) as [[results2 | e |] w4];
    unfold ret in Hrun; cbn [fst snd] in *; injection Hrun as <- <-.
  - rewrite (Hres2 results2 eq_refl). split; [|by intros res [= <-]].
    apply (accounted_app _ _ _ _ w w3 w4 rs1 rs2 False); [exact Hdone|].
    revert Hacc2. apply accounted_iff; [intros H; discriminate H | by eexists].
  - split; [|intros res H; discriminate H].
    apply (accounted_app _ _ _ _ w w3 w4 rs1 rs2 False); [exact Hdone|].
    revert Hacc2. apply accounted_iff; [intros H; discriminate H | by intros [a Ha]].
  - split; [|intros res H; discriminate H].
    apply (accounted_app _ _ _ _ w w3 w4 rs1 rs2 False); [exact Hdone|].
    revert Hacc2. apply accounted_iff; [done | by intros [a Ha]].
Qed.

End Accounts.

(** * The claims *)

(** ** The sample session *)

Lemma sample_run_returns : sample_run = (Ret sample_results, sample_final).
Proof. vm_compute. reflexivity. Qed.

Lemma sample_configured : configured "melody" sample_texts sample_info true.
Proof. repeat split; vm_compute; eauto. Qed.

Lemma sample_responsive : responsive 2 2 sample_world.
Proof.
  split; [simpl; lia|]. split; [|split; [|simpl; lia]]; simpl.
  - apply Forall_cons; split; [left; vm_compute; discriminate|].
    apply Forall_cons; split; [left; vm_compute; discriminate|].
    constructor.
  - apply Forall_cons; split.
    + right. exists 2, 2%nat. split; [reflexivity|]. split; [simpl; lia|].
      vm_compute. discriminate.
    + apply Forall_cons; split; [left; vm_compute; discriminate|].
      constructor.
Qed.

Lemma sample_forward : forward sample_world.
Proof.
  split; simpl; repeat (apply Forall_cons; split); try constructor; simpl; lia.
Qed.

(** ** C1: the accuracy code *)

(** C1.  For every trial a sub-test records, the accuracy code is one
    of 0, 1 and 99; it is 1 exactly when the response equals the ground
    truth, 99 exactly when the response is ["NA"], and 0 exactly when it
    is neither.  The ground truth stored is that of the trial's own
    stimulus and is ["yes"] or ["no"], so a missing response is never
    scored as correct. *)
Theorem accuracy_of_recorded_trials (test_type : string)
    (instruction_texts : gmap string string)
    (practice_output_filename test_output_filename base_image_path : string)
    (participant_info : gmap string string) (with_experiment : bool)
    (example_files test_files : list string) (w w' : world) (rs : list Result.t) :
  musical_ear_test test_type instruction_texts practice_output_filename
    test_output_filename base_image_path participant_info with_experiment
    example_files test_files w = (Ret rs, w') ->
  Forall (fun r =>
    Result.correct r = correct_answer (Result.stimulus r) /\
    Result.accuracy r = accuracy (Result.response r) (Result.correct r) /\
    (Result.accuracy r = 0 \/ Result.accuracy r = 1 \/ Result.accuracy r = 99) /\
    (Result.accuracy r = 1 <-> Result.response r = Result.correct r) /\
    (Result.accuracy r = 99 <-> Result.response r = "NA") /\
    (Result.accuracy r = 0 <->
       Result.response r <> Result.correct r /\ Result.response r <> "NA")) rs.
Proof.
  intros H. apply musical_ear_test_Ret in H.
  eapply subtest_Forall; [|exact H].
  intros phase tl total i file w0 r w1 Hs.
  apply trial_spec_fields in Hs as (Hr & _ & _).
  rewrite Hr. cbn [Result.correct Result.stimulus Result.accuracy Result.response].
  pose proof (correct_answer_not_NA file) as Hna.
  split; [reflexivity|]. split; [reflexivity|].
  destruct (accuracy_cases (Result.response r) (correct_answer file))
    as [[He ->] | [(Hne & He & ->) | (Hne & Hn & ->)]].
  - repeat split; auto; try discriminate; try congruence. tauto.
  - repeat split; auto; try discriminate; try congruence. tauto.
  - repeat split; auto; try discriminate; try congruence.
Qed.

Lemma accuracy_of_recorded_trials_witness :
  Forall (fun r =>
    Result.correct r = correct_answer (Result.stimulus r) /\
    Result.accuracy r = accuracy (Result.response r) (Result.correct r) /\
    (Result.accuracy r = 0 \/ Result.accuracy r = 1 \/ Result.accuracy r = 99) /\
    (Result.accuracy r = 1 <-> Result.response r = Result.correct r) /\
    (Result.accuracy r = 99 <-> Result.response r = "NA") /\
    (Result.accuracy r = 0 <->
       Result.response r <> Result.correct r /\ Result.response r <> "NA"))
    sample_results.
Proof.
  apply (accuracy_of_recorded_trials "melody" sample_texts "practice.csv" "test.csv"
           "pics" sample_info true sample_examples sample_tests
           sample_world sample_final sample_results).
  vm_compute. reflexivity.
Defined.

(** ** C2: the ground truth *)

(** C2.  The ground truth of an item is ["yes"] exactly when its
    identifier carries the "identical" marker, that is, when the last
    underscore-separated segment begins with [ident], and ["no"]
    otherwise.  It is a function of the identifier alone: the folder
    that [os.path.join] puts in front of a file name with an underscore,
    as every catalogue file name has, does not change it, and the ground truths a sub-test records are those of its
    input files, one by one, in whatever order the files come. *)
Theorem ground_truth_of_identifier :
  (forall identifier : string,
     (correct_answer identifier = "yes" <-> carries_identical_marker identifier) /\
     (correct_answer identifier = "no" <-> ~ carries_identical_marker identifier) /\
     (carries_identical_marker identifier <->
        Py.startswith (List.last (Py.split identifier "_") "") "ident" = true) /\
     (forall folder,
        Py.contains "_" identifier = true \/
        Py.contains "_example" identifier = true \/
        Py.contains "_test" identifier = true ->
        correct_answer (Py.path_join folder identifier) = correct_answer identifier)) /\
  (forall (test_type : string) (instruction_texts : gmap string string)
          (practice_output_filename test_output_filename base_image_path : string)
          (participant_info : gmap string string) (with_experiment : bool)
          (example_files test_files : list string) (w w' : world) (rs : list Result.t),
     musical_ear_test test_type instruction_texts practice_output_filename
       test_output_filename base_image_path participant_info with_experiment
       example_files test_files w = (Ret rs, w') ->
     map Result.stimulus rs = (example_files ++ test_files)%list /\
     map Result.correct rs = map correct_answer (example_files ++ test_files)).
Proof.
  split.
  - intros identifier.
    pose proof (carries_identical_marker_test identifier) as Hm.
    split; [|split; [|split]].
    + rewrite Hm. unfold correct_answer.
      destruct (Py.startswith _ _); split; (reflexivity || discriminate).
    + rewrite Hm. unfold correct_answer.
      destruct (Py.startswith _ _); split; try reflexivity; try discriminate; congruence.
    + exact Hm.
    + intros folder Hu. destruct (path_join_suffix folder identifier) as [x ->].
      unfold correct_answer. rewrite last_segment_under_folder; [reflexivity|].
      destruct Hu as [Hu | [Hu | Hu]]; [exact Hu|..];
        eapply contains_underscore_of, Hu.
  - intros test_type instruction_texts practice_output_filename test_output_filename
      base_image_path participant_info with_experiment example_files test_files
      w w' rs H.
    apply musical_ear_test_Ret in H.
    assert (Hst : map Result.stimulus rs = (example_files ++ test_files)%list).
    { apply subtest_shape in H as [_ Hh].
      apply (f_equal (map (fun h : Z * string * string => snd h))) in Hh.
      rewrite map_app, !numbered_files, map_map in Hh. exact Hh. }
    split; [exact Hst|]. rewrite <- Hst, map_map.
    assert (HQ : Forall (fun r => Result.correct r = correct_answer (Result.stimulus r)) rs).
    { eapply subtest_Forall; [|exact H].
      intros phase tl total i file w0 r w1 Hs.
      apply trial_spec_fields in Hs as (Hr & _). by rewrite Hr. }
    clear H Hst. induction HQ as [|r rs0 Hr _ IH]; [reflexivity|].
    cbn [map]. by rewrite Hr, IH.
Qed.

(** The folder in front of a catalogue file name leaves its ground
    truth alone, and the sample session records the ground truths of its
    four files. *)
Lemma ground_truth_of_identifier_witness :
  correct_answer (Py.path_join "psd_audio" "rhythm_test07_identical.wav") =
  correct_answer "rhythm_test07_identical.wav" /\
  map Result.correct sample_results = ["yes"; "no"; "yes"; "yes"].
Proof.
  destruct ground_truth_of_identifier as [Hid Hrun]. split.
  - destruct (Hid "rhythm_test07_identical.wav") as (_ & _ & _ & H).
    apply H. left. reflexivity.
  - destruct (Hrun "melody" sample_texts "practice.csv" "test.csv" "pics" sample_info
                true sample_examples sample_tests sample_world sample_final
                sample_results) as [_ H].
    + vm_compute. reflexivity.
    + exact H.
Defined.

Example ground_truth_examples :
  map correct_answer
    ["audio/melody_test03_different.wav"; "psd_audio/rhythm_test07_identical.wav";
     "identical.wav"; "melody_identical_2.wav"] = ["no"; "yes"; "yes"; "no"].
Proof. reflexivity. Qed.

(** ** C3: the order of the catalogue *)

(** C3 (failing input).  A listing that presents the three scored items
    3, 2, 1 is loaded in the order 1, 3, 2: [insert] at position
    [ordinal - 1] of a list that is still too short appends. *)
Theorem load_audio_files_descending_listing :
  load_audio_files "audio" "melody"
    ["melody_test03_different.wav"; "melody_test02_identical.wav";
     "melody_test01_different.wav"] =
  Ok ([], ["audio/melody_test01_different.wav"; "audio/melody_test03_different.wav";
           "audio/melody_test02_identical.wav"]) /\
  map trial_number_of
    ["audio/melody_test01_different.wav"; "audio/melody_test03_different.wav";
     "audio/melody_test02_identical.wav"] = [Ok 1; Ok 3; Ok 2].
Proof. split; reflexivity. Qed.

(** ** C4: the response window *)

(** C4 (as the code has it).  The response window of a trial,
    [play_stimulus_and_display_prompt], on the poll script the
    environment plays for it, the progress bar, where one is drawn,
    having a total other than zero.  Without a time limit it never returns
    ["NA"]: it returns the label of the first designated key found,
    one second after the pass of the loop that found it, and is left
    waiting when no pass finds one.  With a time limit it returns
    ["NA"] exactly when a guard of the loop reads the countdown at zero
    before any pass has found a designated key.  The countdown is read
    by the guard only: the first key found ends the window at its pass
    if that pass and those before it began with the countdown positive,
    also when the pass itself ends after the countdown has run out.  In
    a sub-test the windows of the practice trials have no limit and
    those of the scored trials two seconds, each on its own script. *)
Theorem response_window_of_a_trial :
  (forall (file prompt : string) (n : Z) (image : string) (total : Z)
          (test_type : string) (w : world),
     (n <= total -> total <> 0) ->
     let polls := default [] (head (scripts w)) in
     let run := play_stimulus_and_display_prompt file prompt None n image total
                  test_type w in
     fst run <> Ret "NA" /\
     match first_answer polls with
     | Some (j, key) =>
         fst run = Ret (label_of key) /\
         now (snd run) = window_opens file w + elapsed (S j) polls + ticks_per_second
     | None => fst run = Stuck /\ Forall silent polls
     end) /\
  (forall (file prompt : string) (secs n : Z) (image : string) (total : Z)
          (test_type : string) (w : world),
     (n <= total -> total <> 0) ->
     let polls := default [] (head (scripts w)) in
     let run := play_stimulus_and_display_prompt file prompt (Some secs) n image total
                  test_type w in
     (forall response, fst run = Ret response -> timed secs response polls) /\
     (fst run = Ret "NA" <->
      exists k, times_out 0 (secs * ticks_per_second) polls k) /\
     (forall j key,
        first_answer polls = Some (j, key) ->
        (forall i, (i <= j)%nat -> elapsed i polls < secs * ticks_per_second) ->
        fst run = Ret (label_of key) /\
        now (snd run) = window_opens file w + elapsed (S j) polls + ticks_per_second)) /\
  (forall (test_type : string) (instruction_texts : gmap string string)
          (practice_output_filename test_output_filename base_image_path : string)
          (participant_info : gmap string string) (with_experiment : bool)
          (example_files test_files : list string) (w w' : world) (rs : list Result.t),
     musical_ear_test test_type instruction_texts practice_output_filename
       test_output_filename base_image_path participant_info with_experiment
       example_files test_files w = (Ret rs, w') ->
     exists practice scored,
       rs = (practice ++ scored)%list /\
       length practice = length example_files /\
       length scored = length test_files /\
       Forall2 (fun r polls => answered (Result.response r) polls)
         practice (take (length example_files) (scripts w)) /\
       Forall2 (fun r polls => timed 2 (Result.response r) polls)
         scored (take (length test_files) (drop (length example_files) (scripts w)))).
Proof.
  split; [|split].
  - intros file prompt n image total test_type w _ polls run. subst run.
    rewrite play_unfold. fold polls. rewrite collect_response_untimed.
    destruct (first_answer polls) as [[j key]|] eqn:E; cbn [fst snd].
    + apply first_answer_Some in E as (Hk & _).
      split; [destruct Hk as [-> | ->]; discriminate|].
      split; [reflexivity|]. unfold window_world. world_simpl. lia.
    + split; [discriminate|]. split; [reflexivity | by apply first_answer_None].
  - intros file prompt secs n image total test_type w _ polls run. subst run.
    split; [|split].
    + intros response. rewrite play_result. fold polls.
      destruct (collect_response _ _ _) as [r w1] eqn:E. cbn [fst]. intros ->.
      eapply collect_response_timed, E.
    + rewrite play_result. apply collect_response_timed_NA.
    + intros j key Hfa Hg. rewrite play_unfold. fold polls.
      rewrite (collect_response_timed_answer _ _ _ j key Hfa Hg). cbn [fst snd].
      split; [reflexivity|]. unfold window_world. world_simpl. lia.
  - intros *. apply subtest_windows.
Qed.

(** The first window of the sample run, which has no limit and finds
    [n] at its second pass; a window of two seconds on two silent
    passes of one second each; and the sample run as a whole: two
    practice windows without a limit, then two scored windows of two
    seconds, on the four scripts in turn. *)
Lemma response_window_of_a_trial_witness :
  fst (play_stimulus_and_display_prompt "audio/melody_example1_identical.wav"
         "Sind die Melodien identisch?" None 1 "pics/melody.png" 2 "melody"
         sample_world) = Ret "no" /\
  fst (play_stimulus_and_display_prompt "audio/melody_test01_identical.wav"
         "Sind die Melodien identisch?" (Some 2) 1 "pics/melody.png" 2 "melody"
         (set_scripts [[(1000000, []); (1000000, [])]] sample_world)) = Ret "NA" /\
  exists practice scored,
    sample_results = (practice ++ scored)%list /\
    length practice = 2%nat /\
    length scored = 2%nat /\
    Forall2 (fun r polls => answered (Result.response r) polls)
      practice (take 2 (scripts sample_world)) /\
    Forall2 (fun r polls => timed 2 (Result.response r) polls)
      scored (take 2 (drop 2 (scripts sample_world))).
Proof.
  destruct response_window_of_a_trial as (Huntimed & Htimed & Hrun).
  split; [|split].
  - destruct (Huntimed "audio/melody_example1_identical.wav"
                "Sind die Melodien identisch?" 1 "pics/melody.png" 2 "melody"
                sample_world) as [_ H]; [discriminate|].
    exact (proj1 H).
  - destruct (Htimed "audio/melody_test01_identical.wav"
                "Sind die Melodien identisch?" 2 1 "pics/melody.png" 2 "melody"
                (set_scripts [[(1000000, []); (1000000, [])]] sample_world))
      as (_ & H & _); [discriminate|].
    apply H. exists 2%nat.
    split; [simpl; lia|]. split; [vm_compute; discriminate|].
    intros [|[|j]] Hj; [| |lia].
    + split; [reflexivity|]. eexists; split; reflexivity.
    + split; [reflexivity|]. eexists; split; reflexivity.
  - exact (Hrun _ _ _ _ _ _ _ _ _ _ _ _ sample_run_returns).
Defined.

(** A scored trial whose first pass of the loop ends 1.99 s after the
    window opened without a key, and whose second pass, begun with
    0.01 s left on the countdown, ends at 2.01 s and finds [y]: no
    designated key is read before the countdown reaches zero, yet the
    trial is recorded with the response ["yes"], not ["NA"]. *)
Lemma late_key_is_accepted :
  let polls := [(1990000, []); (20000, ["y"])] in
  let w := World (36000 * ticks_per_second) 0 (fun _ => 3 * ticks_per_second)
             [[(500000, ["n"])]; [(100000, ["y"])]; polls]
             [5000000; 2000000; 2000000; 1000000] ∅ [] [] in
  no_key_in_time 2 polls /\
  fst (collect_response (Some 2) polls w) = Ret "yes" /\
  match fst (musical_ear_test "melody" sample_texts "practice.csv" "test.csv" "pics"
               sample_info true sample_examples
               ["audio/melody_test01_identical.wav"] w) with
  | Ret rs => map Result.response rs = ["no"; "yes"; "yes"]
  | _ => False
  end.
Proof.
  cbv zeta. split; [|split].
  - intros [|[|j]] p Hp He.
    + injection Hp as <-. reflexivity.
    + vm_compute in He. discriminate.
    + discriminate.
  - reflexivity.
  - vm_compute. reflexivity.
Qed.

(** ** C5: start and end times *)

Section WindowTimes.

Variable test_type : string.
Variable instruction_texts : gmap string string.
Variable practice_output_filename test_output_filename : string.
Variable base_image_path : string.
Variable participant_info : gmap string string.
Variable with_experiment : bool.

Local Abbreviation dest_of :=
  (output_filename practice_output_filename test_output_filename).
Local Abbreviation row_of := (ledger_row participant_info with_experiment).

(** C5 (as the code has it).  In every record of a sub-test the start
    time is the time of day at which the sub-test itself started, read
    once on entry and so the same in all its records; the end time is
    the time of day of the instant read one second after the trial's own
    response window closed, just before the row is written.  The window
    of the trial opens and closes between the two, so they bound the
    response-capture step, but the start time is not the opening of that
    window. *)
Theorem start_and_end_time_of_records (example_files test_files : list string)
    (w w' : world) (rs : list Result.t) :
  musical_ear_test test_type instruction_texts practice_output_filename
    test_output_filename base_image_path participant_info with_experiment
    example_files test_files w = (Ret rs, w') ->
  forward w ->
  exists new, trace w' = (trace w ++ new)%list /\
    Forall (fun r =>
      Result.start_time r = hms_local (utc_offset w) (now w) /\
      exists t_open t_close t_end,
        located [(t_open, EvWindowOpen);
                 (t_close, EvWindowClose (Result.response r));
                 (t_end, EvOpen (dest_of r));
                 (t_end, EvWrite (dest_of r) (row_of r));
                 (t_end, EvClose (dest_of r))] new /\
        now w <= t_open /\ t_open <= t_close /\
        t_end = t_close + ticks_per_second /\
        Result.end_time r = hms_local (utc_offset w) t_end) rs.
Proof.
  intros H Hf. apply musical_ear_test_Ret in H.
  eapply subtest_recorded in H as (_ & _ & _ & new & Htr & Hall); [|exact Hf].
  exists new. split; [exact Htr|].
  eapply Forall_impl; [exact Hall|].
  intros r (t_play & t_open & t_close & screen & Hl & Hs & Hp & Hc & Hst & Hen & _).
  split; [exact Hst|]. exists t_open, t_close, (t_close + ticks_per_second).
  split; [|split; [lia|split; [exact Hc|split; [reflexivity | exact Hen]]]].
  unfold trial_events in Hl.
  exact (located_suffix [_; _] _ _ Hl).
Qed.

End WindowTimes.

Lemma start_and_end_time_of_records_witness :
  exists new, trace sample_final = (trace sample_world ++ new)%list /\
    Forall (fun r =>
      Result.start_time r = hms_local 0 (36000 * ticks_per_second) /\
      exists t_open t_close t_end,
        located [(t_open, EvWindowOpen);
                 (t_close, EvWindowClose (Result.response r));
                 (t_end, EvOpen (output_filename "practice.csv" "test.csv" r));
                 (t_end, EvWrite (output_filename "practice.csv" "test.csv" r)
                           (ledger_row sample_info true r));
                 (t_end, EvClose (output_filename "practice.csv" "test.csv" r))] new /\
        36000 * ticks_per_second <= t_open /\ t_open <= t_close /\
        t_end = t_close + ticks_per_second /\
        Result.end_time r = hms_local 0 t_end) sample_results.
Proof.
  apply (start_and_end_time_of_records "melody" sample_texts "practice.csv" "test.csv"
           "pics" sample_info true sample_examples sample_tests
           sample_world sample_final sample_results).
  - vm_compute. reflexivity.
  - exact sample_forward.
Defined.

(** In the sample session the window of the second practice trial opens
    at 10:00:18, eighteen seconds into the sub-test; its record, like the
    first trial's, has start time 10:00:00. *)
Lemma start_time_is_not_the_window_opening :
  exists rs r1 r2 before after,
    fst sample_run = Ret rs /\
    rs !! 0%nat = Some r1 /\ rs !! 1%nat = Some r2 /\
    trace (snd sample_run) =
      (before ++
       [(36018000000, EvWindowOpen);
        (36018100000, EvWindowClose (Result.response r2));
        (36019100000, EvOpen "practice.csv");
        (36019100000, EvWrite "practice.csv" (ledger_row sample_info true r2));
        (36019100000, EvClose "practice.csv")] ++ after)%list /\
    hms_local 0 36018000000 = "10:00:18" /\
    Result.start_time r2 = "10:00:00" /\
    Result.start_time r2 <> hms_local 0 36018000000 /\
    Result.start_time r1 = Result.start_time r2.
Proof.
  exists sample_results. eexists. eexists.
  exists (take 12 (trace (snd sample_run))), (drop 17 (trace (snd sample_run))).
  split; [by rewrite sample_run_returns|].
  split; [reflexivity|]. split; [reflexivity|].
  split; [vm_compute; reflexivity|].
  split; [reflexivity|]. split; [reflexivity|]. split; [|reflexivity].
  vm_compute. discriminate.
Qed.

(** ** C6: the result sink *)

Section SinkContract.

Variable test_type : string.
Variable instruction_texts : gmap string string.
Variable practice_output_filename test_output_filename : string.
Variable base_image_path : string.
Variable participant_info : gmap string string.
Variable with_experiment : bool.

Local Abbreviation dest_of :=
  (output_filename practice_output_filename test_output_filename).
Local Abbreviation row_of := (ledger_row participant_info with_experiment).

(** C6.  The result sink.  Opening a ledger for appending and writing
    to it are taken to succeed.

    A call of [append_result_to_csv] releases the file handle however
    it ends.  When the participant dict has its entries, the call
    returns having appended exactly the record's row, a text ending in a
    newline and with no other line break than its fields bring, to the
    file chosen by the record's phase: the practice file for
    ["practice"], the test file for anything else.  What the file held
    before is kept, no other file changes, and the trace shows the open,
    the single write and the close as one unit at one instant.

    The shared text of the two loop bodies, [run_trial], calls the sink
    once for the trial it has just completed (the progress bar, where
    one is drawn, having a total other than zero): when the window of
    the trial returns a response, the record is built, appended to the list
    and its row appended to the ledger before the body returns; when the
    window does not return, nothing is written.

    Over a whole sub-test that returns there is one such unit per
    record, in the order of the records.  And however a sub-test ends,
    the trials completed so far, the first of the practice items
    followed by the scored items, each have their row in the ledger,
    written straight after the window closed and before the next
    stimulus: the log of stimuli, window closings and file effects is
    made of one group per completed trial and nothing else, except the
    stimulus of the trial whose window is still open when the
    participant leaves the run waiting there.  A sub-test that returns
    has completed every item and returns these records. *)
Theorem append_result_to_csv_contract :
  (forall (r : Result.t) (w : world),
     let dest := if String.eqb (Result.phase r) "practice"
                 then practice_output_filename else test_output_filename in
     handles (snd (append_result_to_csv practice_output_filename test_output_filename
                     participant_info with_experiment r w)) = handles w /\
     forall experiment subject cur_date,
       participant_fields participant_info with_experiment =
         Some (experiment, subject, cur_date) ->
       let text := format_row experiment subject cur_date r in
       exists w',
         append_result_to_csv practice_output_filename test_output_filename
           participant_info with_experiment r w = (Ret tt, w') /\
         files w' !! dest = Some (default "" (files w !! dest) ++ text) /\
         (forall path, path <> dest -> files w' !! path = files w !! path) /\
         (exists body, text = body ++ newline) /\
         line_breaks text = S (line_breaks_of_fields experiment subject cur_date r) /\
         trace w' = (trace w ++ [(now w, EvOpen dest); (now w, EvWrite dest text);
                                 (now w, EvClose dest)])%list /\
         handles w' = handles w /\ now w' = now w) /\
  (forall (phase : string) (time_limit : option Z) (total_trials start_time : Z)
          (start_time_str : string) (results : list Result.t) (i : Z) (file : string)
          (w : world) (plural experiment subject cur_date : string),
     german_test_type !! test_type = Some plural ->
     participant_fields participant_info with_experiment =
       Some (experiment, subject, cur_date) ->
     (i + 1 <= total_trials -> total_trials <> 0) ->
     let window :=
       play_stimulus_and_display_prompt file ("Sind die " ++ plural ++ " identisch?")
         time_limit (i + 1) (Py.path_join base_image_path (test_type ++ ".png"))
         total_trials test_type w in
     let run :=
       run_trial test_type practice_output_filename test_output_filename
         base_image_path participant_info with_experiment phase time_limit
         total_trials start_time start_time_str results i file w in
     match fst window with
     | Ret response =>
         let r := Result.mk (i + 1) test_type phase file response
                    (correct_answer file) (accuracy response (correct_answer file))
                    start_time_str
                    (hms_local (utc_offset (snd window)) (now (snd window)))
                    (duration_str (now (snd window) - start_time)) in
         run = (Ret ((results ++ [r])%list, response),
                appended (now (snd window))
                  (if String.eqb phase "practice"
                   then practice_output_filename else test_output_filename)
                  (format_row experiment subject cur_date r) (snd window))
     | Raise e => run = (Raise e, snd window)
     | Stuck => run = (Stuck, snd window)
     end) /\
  (forall (example_files test_files : list string) (w w' : world) (rs : list Result.t),
     musical_ear_test test_type instruction_texts practice_output_filename
       test_output_filename base_image_path participant_info with_experiment
       example_files test_files w = (Ret rs, w') ->
     exists new,
       trace w' = (trace w ++ new)%list /\
       file_events new = concat (map (fun r => scoped_write (dest_of r) (row_of r)) rs) /\
       files w' = foldl (fun fs r => append_to fs (dest_of r) (row_of r)) (files w) rs /\
       handles w' = handles w) /\
  (forall (example_files test_files : list string) (w : world),
     is_Some (participant_fields participant_info with_experiment) ->
     let run :=
       musical_ear_test test_type instruction_texts practice_output_filename
         test_output_filename base_image_path participant_info with_experiment
         example_files test_files w in
     exists (new : list (Z * event)) (rs : list Result.t) (pending : list event),
       trace (snd run) = (trace w ++ new)%list /\
       trial_log new =
         (concat (map (completed_trial dest_of row_of) rs) ++ pending)%list /\
       (pending = [] \/ (exists file, pending = [EvPlay file]) /\ fst run = Stuck) /\
       map header rs =
         take (length rs)
           (numbered "practice" example_files ++ numbered "test" test_files) /\
       files (snd run) =
         foldl (fun fs r => append_to fs (dest_of r) (row_of r)) (files w) rs /\
       handles (snd run) = handles w /\
       (forall res, fst run = Ret res ->
          res = rs /\ pending = [] /\
          length rs = (length example_files + length test_files)%nat)).
Proof.
  split; [|split; [|split]].
  - intros r w dest. split; [apply append_result_releases|].
    intros ex su cd Hpf text. eexists.
    split; [apply (append_result_total _ _ _ _ _ _ _ _ _ Hpf)|].
    unfold appended. cbn [files trace handles now].
    fold dest text. unfold output_filename. fold dest.
    split; [apply lookup_insert_eq|].
    split; [intros path Hne; by apply lookup_insert_ne|].
    split; [apply format_row_ends_line|].
    split; [apply line_breaks_format_row|]. by repeat split.
  - intros phase time_limit total_trials start_time start_time_str results i file w
      plural ex su cd Hplural Hpf _. cbv zeta.
    rewrite run_trial_unfold, Hplural.
    destruct (play_stimulus_and_display_prompt _ _ _ _ _ _ _ w) as [[response | e |] w1];
      cbn [fst snd]; [|reflexivity..].
    cbv zeta. by rewrite (append_result_total _ _ _ _ _ _ _ _ _ Hpf).
  - intros example_files test_files w w' rs H.
    apply musical_ear_test_Ret in H
      as (part1 & part2 & w1 & w2 & w3 & practice & scored &
          _ & Hi1 & Hp & _ & Hi2 & Ht & ->).
    eapply steps_ledger in Hp as (newp & Htr2 & Hfe2 & Hfs2 & Hh2).
    2:{ intros i file w0 r w4 (w5 & text & Hs & _ & dt & rest & _ & ->).
        apply trial_spec_ledger in Hs as (seg & Hs1 & Hs2 & Hs3 & Hs4).
        cbn [fed_back trace files handles]. eexists. split; [|split; [|split]].
        - rewrite Hs1, <- !app_assoc. reflexivity.
        - by rewrite !file_events_app, Hs2.
        - exact Hs3.
        - exact Hs4. }
    eapply steps_ledger in Ht as (newt & Htr' & Hfe' & Hfs' & Hh');
      [|intros i file w0 r w4 Hs; eapply trial_spec_ledger, Hs].
    destruct Hi1 as (dt1 & rest1 & _ & ->). destruct Hi2 as (dt2 & rest2 & _ & ->).
    cbn [trace files handles] in *.
    eexists. split; [|split; [|split]].
    + rewrite Htr', Htr2, <- !app_assoc. reflexivity.
    + rewrite !file_events_app, Hfe2, Hfe', map_app, concat_app. reflexivity.
    + by rewrite Hfs', Hfs2, foldl_app.
    + congruence.
  - intros example_files test_files w Hpf run.
    destruct run as [o w'] eqn:Hrun. subst run.
    destruct (musical_ear_test_accounted _ _ _ _ _ _ _ _ _ _ _ _ Hpf Hrun)
      as (rs & (pending & (new & Htr & Hlog & Hfs & Hh) & Hhead & Hpend & Hret) & Hres).
    exists new, rs, pending. cbn [fst snd].
    split; [exact Htr|]. split; [exact Hlog|]. split; [exact Hpend|].
    split; [exact Hhead|]. split; [exact Hfs|]. split; [exact Hh|].
    intros res ->. split; [by apply Hres|].
    destruct Hret as [Hlen ->]; [by eexists|]. split; [reflexivity|].
    rewrite Hlen, length_app. unfold numbered. by rewrite !length_imap.
Qed.

End SinkContract.

(** The sample session's ledger: one open, write and close per record,
    in the order of the records, and no handle left open.  And the same
    session with a participant who leaves during the fourth window: the
    run is left waiting, and the three trials completed have their rows. *)
Lemma append_result_to_csv_contract_witness :
  (exists new,
     trace sample_final = (trace sample_world ++ new)%list /\
     file_events new =
       concat (map (fun r => scoped_write (output_filename "practice.csv" "test.csv" r)
                               (ledger_row sample_info true r)) sample_results) /\
     files sample_final =
       foldl (fun fs r => append_to fs (output_filename "practice.csv" "test.csv" r)
                            (ledger_row sample_info true r)) ∅ sample_results /\
     handles sample_final = []) /\
  let w := set_scripts (take 3 (scripts sample_world)) sample_world in
  let run := musical_ear_test "melody" sample_texts "practice.csv" "test.csv" "pics"
               sample_info true sample_examples sample_tests w in
  fst run = Stuck /\
  exists (new : list (Z * event)) (rs : list Result.t) (pending : list event),
    trace (snd run) = (trace w ++ new)%list /\
    trial_log new =
      (concat (map (completed_trial (output_filename "practice.csv" "test.csv")
                      (ledger_row sample_info true)) rs) ++ pending)%list /\
    (pending = [] \/ (exists file, pending = [EvPlay file]) /\ fst run = Stuck) /\
    map header rs =
      take (length rs) (numbered "practice" sample_examples ++ numbered "test" sample_tests) /\
    files (snd run) =
      foldl (fun fs r => append_to fs (output_filename "practice.csv" "test.csv" r)
                           (ledger_row sample_info true r)) (files w) rs /\
    handles (snd run) = handles w /\
    (forall res, fst run = Ret res ->
       res = rs /\ pending = [] /\
       length rs = (length sample_examples + length sample_tests)%nat).
Proof.
  destruct (append_result_to_csv_contract "melody" sample_texts "practice.csv"
              "test.csv" "pics" sample_info true) as (_ & _ & Hrun & Hany).
  split.
  - apply (Hrun sample_examples sample_tests sample_world sample_final sample_results).
    vm_compute. reflexivity.
  - cbv zeta. split; [vm_compute; reflexivity|].
    apply Hany. eexists. vm_compute. reflexivity.
Defined.

(** ** C7: the [correct] field *)

(** C7 (as the code has it).  In every record a sub-test returns, the
    field ['correct'] holds the ground-truth label of the record's own
    stimulus, a string that is ["yes"] or ["no"] whatever the response
    was; it is not a boolean. *)
Theorem correct_field_holds_ground_truth (test_type : string)
    (instruction_texts : gmap string string)
    (practice_output_filename test_output_filename base_image_path : string)
    (participant_info : gmap string string) (with_experiment : bool)
    (example_files test_files : list string) (w w' : world) (rs : list Result.t) :
  musical_ear_test test_type instruction_texts practice_output_filename
    test_output_filename base_image_path participant_info with_experiment
    example_files test_files w = (Ret rs, w') ->
  Forall (fun r =>
    Result.get r "correct" =
      Some (Result.PyStr (correct_answer (Result.stimulus r))) /\
    (Result.get r "correct" = Some (Result.PyStr "yes") \/
     Result.get r "correct" = Some (Result.PyStr "no")) /\
    (forall b, Result.get r "correct" <> Some (Result.PyBool b))) rs.
Proof.
  intros H. apply musical_ear_test_Ret in H.
  eapply subtest_Forall; [|exact H].
  intros phase tl total i file w0 r w1 Hs.
  apply trial_spec_fields in Hs as (Hr & _ & _).
  assert (Hg : Result.get r "correct" = Some (Result.PyStr (correct_answer file))).
  { rewrite Hr. reflexivity. }
  rewrite Hg. split; [by rewrite Hr|]. split; [|discriminate].
  destruct (correct_answer_cases file) as [-> | ->]; auto.
Qed.

Lemma correct_field_holds_ground_truth_witness :
  Forall (fun r =>
    Result.get r "correct" =
      Some (Result.PyStr (correct_answer (Result.stimulus r))) /\
    (Result.get r "correct" = Some (Result.PyStr "yes") \/
     Result.get r "correct" = Some (Result.PyStr "no")) /\
    (forall b, Result.get r "correct" <> Some (Result.PyBool b))) sample_results.
Proof.
  apply (correct_field_holds_ground_truth "melody" sample_texts "practice.csv"
           "test.csv" "pics" sample_info true sample_examples sample_tests
           sample_world sample_final sample_results).
  vm_compute. reflexivity.
Defined.

(** The third trial of the sample session gets no response to an
    "identical" item: its ['correct'] field is the string ["yes"], where
    a boolean [response == ground_truth] would be [False]. *)
Lemma correct_field_of_missed_trial :
  exists rs r,
    fst sample_run = Ret rs /\ rs !! 2%nat = Some r /\
    Result.response r = "NA" /\
    Result.get r "correct" = Some (Result.PyStr "yes") /\
    Result.get r "correct" <>
      Some (Result.PyBool (String.eqb (Result.response r)
                             (correct_answer (Result.stimulus r)))).
Proof.
  exists sample_results. eexists.
  split; [by rewrite sample_run_returns|].
  split; [reflexivity|]. split; [reflexivity|]. split; [reflexivity|].
  discriminate.
Qed.

(** ** C8: elapsed time *)

Section ElapsedTime.

Variable instruction_texts : gmap string string.
Variable practice_output_filename test_output_filename : string.
Variable base_image_path : string.
Variable participant_info : gmap string string.
Variable with_experiment : bool.
Variable melody_example_files melody_test_files : list string.
Variable rhythm_example_files rhythm_test_files : list string.

Local Abbreviation dest_of :=
  (output_filename practice_output_filename test_output_filename).
Local Abbreviation row_of := (ledger_row participant_info with_experiment).
Local Abbreviation run_test' :=
  (run_test instruction_texts practice_output_filename test_output_filename
     base_image_path participant_info with_experiment
     melody_example_files melody_test_files rhythm_example_files rhythm_test_files).

(** C8.  Elapsed time.  The duration string is [HH:MM:SS] of the
    duration floored to whole seconds, each field padded with a zero to
    two digits (below a hundred it is the two decimal digits) and never
    truncated, the hours not reduced.  A sub-test
    reads its start instant once, on entry, and the duration of each of
    its records counts from that instant to the instant the record's end
    time is read.  So in a session of two sub-tests the durations of the
    second count from the instant the second was entered, which is when
    the first had finished, however long the first took. *)
Theorem elapsed_since_subtest_start :
  (forall duration : Z,
     let secs := duration / ticks_per_second in
     duration_str duration =
       Py.format_02d (secs / 3600) ++ ":" ++ Py.format_02d (secs mod 3600 / 60) ++ ":" ++
       Py.format_02d (secs mod 60)) /\
  (forall n : Z,
     (Py.format_02d n = Py.str n \/ Py.format_02d n = "0" ++ Py.str n) /\
     (2 <= String.length (Py.format_02d n))%nat /\
     (0 <= n < 100 ->
      Py.format_02d n =
      String (ascii_of_nat (48 + Z.to_nat (n / 10)))
        (String (ascii_of_nat (48 + Z.to_nat (n mod 10))) ""))) /\
  (forall (test_type : string) (example_files test_files : list string)
          (w w' : world) (rs : list Result.t),
     musical_ear_test test_type instruction_texts practice_output_filename
       test_output_filename base_image_path participant_info with_experiment
       example_files test_files w = (Ret rs, w') ->
     forward w ->
     exists new, trace w' = (trace w ++ new)%list /\
       Forall (elapsed_from (now w) dest_of row_of new) rs) /\
  (forall (first second : string) (w w' : world) (rss : list (list Result.t)),
     run_tests instruction_texts practice_output_filename test_output_filename
       base_image_path participant_info with_experiment
       melody_example_files melody_test_files rhythm_example_files rhythm_test_files
       [first; second] w = (Ret rss, w') ->
     forward w ->
     exists rs1 rs2 w_mid new,
       rss = [rs1; rs2] /\
       run_test' 0 first w = (Ret rs1, w_mid) /\
       run_test' 1 second w_mid = (Ret rs2, w') /\
       now w <= now w_mid /\
       located new (trace w') /\
       Forall (elapsed_from (now w_mid) dest_of row_of new) rs2).
Proof.
  split; [|split; [|split]].
  - intros duration secs. apply duration_str_floor.
  - intros n. destruct (format_02d_pads n) as [Hp Hl].
    split; [exact Hp|]. split; [exact Hl | apply format_02d_two_digits].
  - intros test_type example_files test_files w w' rs H Hf.
    eapply subtest_elapsed in H as (_ & _ & H); [exact H | exact Hf].
  - intros first second w w' rss H Hf. unfold run_tests in H.
    cbn [for_enumerate] in H.
    apply bind_Ret in H as (done1 & w1 & H1 & H).
    apply bind_Ret in H1 as (rs1 & w_mid & Hrun1 & H1). injection H1 as <- <-.
    apply bind_Ret in H as (done2 & w2 & H2 & H). injection H as <- <-.
    apply bind_Ret in H2 as (rs2 & w2' & Hrun2 & H2). injection H2 as <- <-.
    pose proof (run_test_elapsed _ _ _ _ _ _ _ _ _ _ _ _ _ _ _ Hrun1 Hf) as (Hf1 & Hn1 & _).
    change (0 + 1) with 1 in Hrun2.
    pose proof (run_test_elapsed _ _ _ _ _ _ _ _ _ _ _ _ _ _ _ Hrun2 Hf1)
      as (_ & _ & start & new & _ & Hstart & Hl & Hall).
    rewrite Hstart in Hall by discriminate.
    exists rs1, rs2, w_mid, new. by repeat split.
Qed.

End ElapsedTime.

(** A session of the melody sub-test followed by the rhythm sub-test,
    one practice item and one scored item each.  The melody sub-test
    ends 7 min 42 s after it started, the participant having dwelt on
    its second instruction screen; the rhythm sub-test counts from zero
    again. *)
Lemma elapsed_since_subtest_start_witness :
  exists rs1 rs2 w',
    run_tests sample_texts "practice.csv" "test.csv" "pics" sample_info true
      ["audio/melody_example1_identical.wav"] ["audio/melody_test01_different.wav"]
      ["audio/rhythm_example1_different.wav"] ["audio/rhythm_test01_identical.wav"]
      ["melody"; "rhythm"]
      (World 0 0 (fun _ => 3 * ticks_per_second)
         [[(1000000, ["y"])]; [(1000000, ["n"])]; [(1000000, ["n"])]; [(1000000, ["y"])]]
         [1000000; 1000000; 1000000; 447000000; 1000000; 1000000; 1000000]
         ∅ [] []) = (Ret [rs1; rs2], w') /\
    map Result.duration rs1 = ["00:00:07"; "00:07:42"] /\
    map Result.duration rs2 = ["00:00:07"; "00:00:16"].
Proof.
  set (w := World 0 0 (fun _ => 3 * ticks_per_second)
         [[(1000000, ["y"])]; [(1000000, ["n"])]; [(1000000, ["n"])]; [(1000000, ["y"])]]
         [1000000; 1000000; 1000000; 447000000; 1000000; 1000000; 1000000]
         ∅ [] []).
  set (run := run_tests sample_texts "practice.csv" "test.csv" "pics" sample_info true
      ["audio/melody_example1_identical.wav"] ["audio/melody_test01_different.wav"]
      ["audio/rhythm_example1_different.wav"] ["audio/rhythm_test01_identical.wav"]
      ["melody"; "rhythm"] w).
  destruct (elapsed_since_subtest_start sample_texts "practice.csv" "test.csv" "pics"
              sample_info true
              ["audio/melody_example1_identical.wav"] ["audio/melody_test01_different.wav"]
              ["audio/rhythm_example1_different.wav"] ["audio/rhythm_test01_identical.wav"])
    as (_ & _ & _ & Hsession).
  destruct (Hsession "melody" "rhythm" w (snd run)
              (match fst run with Ret rss => rss | _ => [] end))
    as (rs1 & rs2 & w_mid & new & Hrss & _).
  - vm_compute. reflexivity.
  - split; simpl; repeat (apply Forall_cons; split); try constructor; simpl; lia.
  - exists rs1, rs2, (snd run).
    assert (Hrun : run = (Ret [rs1; rs2], snd run)).
    { rewrite <- Hrss. vm_compute. reflexivity. }
    split; [exact Hrun|].
    vm_compute in Hrss. injection Hrss as <- <-. split; reflexivity.
Defined.

(** ** C9: the debrief instruction *)

Section DebriefInstruction.

Variable test_type : string.
Variable instruction_texts : gmap string string.
Variable practice_output_filename test_output_filename : string.
Variable base_image_path : string.
Variable participant_info : gmap string string.
Variable with_experiment : bool.

(** C9.  The screens of a sub-test, in the order shown, are the first
    instruction, then for each practice item its feedback followed by
    its debrief instruction, then the second instruction.  The feedback
    depends on the response; the debrief instruction is the text looked
    up under the test type and the item's ground truth, so the
    instructions shown are the same whatever the participant answered. *)
Theorem debrief_follows_ground_truth (example_files test_files : list string)
    (w w' : world) (rs : list Result.t) :
  musical_ear_test test_type instruction_texts practice_output_filename
    test_output_filename base_image_path participant_info with_experiment
    example_files test_files w = (Ret rs, w') ->
  exists new part1 part2 debriefs,
    trace w' = (trace w ++ new)%list /\
    instruction_texts !! (test_type ++ "_part1") = Some part1 /\
    instruction_texts !! (test_type ++ "_part2") = Some part2 /\
    map Some debriefs = map (debrief_text test_type instruction_texts) example_files /\
    screens new =
      (inr part1 ::
       concat (zip_with (fun r text => [inl (feedback_text r); inr text])
                 (take (length example_files) rs) debriefs) ++
       [inr part2])%list /\
    instructions_of (screens new) = (part1 :: debriefs ++ [part2])%list.
Proof.
  intros H. apply musical_ear_test_Ret in H
    as (part1 & part2 & w1 & w2 & w3 & practice & scored &
        Hp1 & Hi1 & Hp & Hp2 & Hi2 & Ht & ->).
  pose proof (steps_length _ _ _ _ _ _ Hp) as Hlen.
  apply practice_steps_screens in Hp as (newp & debriefs & Htr2 & Hd & Hscp).
  apply test_steps_screens in Ht as (newt & Htr' & Hsct).
  destruct Hi1 as (dt1 & rest1 & _ & ->). destruct Hi2 as (dt2 & rest2 & _ & ->).
  cbn [trace] in *.
  eexists _, part1, part2, debriefs.
  split; [rewrite Htr', Htr2, <- !app_assoc; reflexivity|].
  split; [exact Hp1|]. split; [exact Hp2|]. split; [exact Hd|].
  rewrite <- Hlen, take_app_length.
  assert (Hscreens : screens ([(now w, EvInstructions part1)] ++ newp ++
                              [(now w2, EvInstructions part2)] ++ newt) =
            (inr part1 ::
             concat (zip_with (fun r text => [inl (feedback_text r); inr text])
                       practice debriefs) ++ [inr part2])%list).
  { rewrite !screens_app, Hscp, Hsct. reflexivity. }
  split; [exact Hscreens|]. rewrite Hscreens.
  change (instructions_of (inr part1 :: ?l)) with (part1 :: instructions_of l).
  rewrite instructions_of_app, instructions_of_practice; [reflexivity|].
  apply (f_equal length) in Hd. rewrite !length_map in Hd. congruence.
Qed.

End DebriefInstruction.

Lemma debrief_follows_ground_truth_witness :
  exists new,
    trace sample_final = (trace sample_world ++ new)%list /\
    screens new =
      [inr "melody 1"; inl "Falsch!"; inr "identical"; inl "Falsch!"; inr "different";
       inr "melody 2"].
Proof.
  destruct (debrief_follows_ground_truth "melody" sample_texts "practice.csv"
              "test.csv" "pics" sample_info true sample_examples sample_tests
              sample_world sample_final sample_results)
    as (new & part1 & part2 & debriefs & Htr & Hp1 & Hp2 & Hd & Hs & _).
  - vm_compute. reflexivity.
  - exists new. split; [exact Htr|].
    vm_compute in Hp1, Hp2, Hd.
    injection Hp1 as <-. injection Hp2 as <-.
    destruct debriefs as [|d1 [|d2 [|d3 ds]]]; cbn [map] in Hd; try discriminate Hd.
    injection Hd as <- <-. rewrite Hs. vm_compute. reflexivity.
Defined.

(** ** C10: the returned list *)

(** C10.  A configured sub-test run with a responsive participant
    returns a list with one record per input file: first the practice
    items in input order, phase ["practice"], numbered from 1, then the
    scored items in input order, phase ["test"], numbered from 1, each
    record naming its file as stimulus. *)
Theorem musical_ear_test_returned_list (test_type : string)
    (instruction_texts : gmap string string)
    (practice_output_filename test_output_filename base_image_path : string)
    (participant_info : gmap string string) (with_experiment : bool)
    (example_files test_files : list string) (w : world) :
  configured test_type instruction_texts participant_info with_experiment ->
  responsive (length example_files) (length test_files) w ->
  exists rs w',
    musical_ear_test test_type instruction_texts practice_output_filename
      test_output_filename base_image_path participant_info with_experiment
      example_files test_files w = (Ret rs, w') /\
    length rs = (length example_files + length test_files)%nat /\
    map header rs =
      (numbered "practice" example_files ++ numbered "test" test_files)%list.
Proof.
  intros Hc Hr.
  destruct (musical_ear_test_returns test_type instruction_texts
              practice_output_filename test_output_filename base_image_path
              participant_info with_experiment example_files test_files w Hc Hr)
    as (rs & w' & Hrun).
  exists rs, w'. split; [exact Hrun|].
  eapply subtest_shape, musical_ear_test_Ret, Hrun.
Qed.

Lemma musical_ear_test_returned_list_witness :
  exists rs w',
    sample_run = (Ret rs, w') /\
    length rs = 4%nat /\
    map header rs =
      [(1, "practice", "audio/melody_example1_identical.wav");
       (2, "practice", "audio/melody_example2_different.wav");
       (1, "test", "audio/melody_test01_identical.wav");
       (2, "test", "audio/melody_test02_identical.wav")].
Proof.
  exact (musical_ear_test_returned_list "melody" sample_texts "practice.csv" "test.csv"
           "pics" sample_info true sample_examples sample_tests sample_world
           sample_configured sample_responsive).
Defined.

(** * Further properties *)

(** ** The columns of a row *)

Lemma split_from_char_cons (c : ascii) (cur : string) (a : ascii) (s : string) :
  Py.split_from (String c "") 0 cur (String a s) =
  if Ascii.eqb c a then cur :: Py.split_from (String c "") 0 "" s
  else Py.split_from (String c "") 0 (cur ++ String a "") s.
Proof.
  assert (Hs : Py.startswith (String a s) (String c "") = Ascii.eqb c a).
  { cbn [Py.startswith]. destruct (Ascii.eqb c a); reflexivity. }
  cbn [Py.split_from]. rewrite Hs. reflexivity.
Qed.

Lemma contains_char_cons (c a : ascii) (s : string) :
  Py.contains (String c "") (String a s) = Ascii.eqb c a || Py.contains (String c "") s.
Proof.
  cbn [Py.contains Py.startswith]. destruct (Ascii.eqb c a); reflexivity.
Qed.

Lemma contains_char_app (c : ascii) (a b : string) :
  Py.contains (String c "") (a ++ b) =
  Py.contains (String c "") a || Py.contains (String c "") b.
Proof.
  induction a as [|x a IH].
  - reflexivity.
  - change (String x a ++ b) with (String x (a ++ b)).
    rewrite !contains_char_cons, IH. by rewrite orb_assoc.
Qed.

Lemma split_from_char_free (c : ascii) (cur s : string) :
  Py.contains (String c "") s = false ->
  Py.split_from (String c "") 0 cur s = [cur ++ s].
Proof.
  revert cur; induction s as [|a s IH]; intros cur H.
  - simpl. by rewrite string_app_nil_r.
  - rewrite contains_char_cons in H. apply orb_false_iff in H as [Ha Hs].
    rewrite split_from_char_cons, Ha, IH by exact Hs.
    by rewrite string_app_assoc.
Qed.

(** A field free of the separator, followed by the separator, is the
    first segment of the split. *)
Lemma split_from_char_field (c : ascii) (cur field rest : string) :
  Py.contains (String c "") field = false ->
  Py.split_from (String c "") 0 cur (field ++ String c rest) =
  (cur ++ field) :: Py.split_from (String c "") 0 "" rest.
Proof.
  revert cur; induction field as [|a field IH]; intros cur H.
  - change ("" ++ String c rest) with (String c rest).
    rewrite split_from_char_cons, Ascii.eqb_refl. by rewrite string_app_nil_r.
  - rewrite contains_char_cons in H. apply orb_false_iff in H as [Ha Hs].
    change (String a field ++ String c rest) with (String a (field ++ String c rest)).
    rewrite split_from_char_cons, Ha, IH by exact Hs.
    by rewrite string_app_assoc.
Qed.

Lemma split_char_field (c : ascii) (field rest : string) :
  Py.contains (String c "") field = false ->
  Py.split (field ++ String c rest) (String c "") =
  field :: Py.split rest (String c "").
Proof. intros H. unfold Py.split. by rewrite split_from_char_field. Qed.

Lemma split_char_last (c : ascii) (field : string) :
  Py.contains (String c "") field = false ->
  Py.split field (String c "") = [field].
Proof. intros H. unfold Py.split. by rewrite split_from_char_free. Qed.

(** The split at a character has one segment more than the text has
    occurrences of the character. *)
Lemma split_from_char_length (c : ascii) (cur s : string) :
  length (Py.split_from (String c "") 0 cur s) = S (count_char c s).
Proof.
  revert cur; induction s as [|a s IH]; intros cur; [reflexivity|].
  rewrite split_from_char_cons. cbn [count_char].
  destruct (Ascii.eqb c a); cbn [length]; by rewrite IH.
Qed.

Lemma count_char_app (c : ascii) (a b : string) :
  count_char c (a ++ b) = (count_char c a + count_char c b)%nat.
Proof.
  induction a as [|x a IH]; [reflexivity|].
  change (String x a ++ b) with (String x (a ++ b)).
  cbn [count_char]. rewrite IH. lia.
Qed.

Lemma count_char_free (c : ascii) (s : string) :
  count_char c s = 0%nat <-> Py.contains (String c "") s = false.
Proof.
  induction s as [|a s IH]; [done|].
  rewrite contains_char_cons, orb_false_iff. cbn [count_char].
  destruct (Ascii.eqb c a); [split; [lia | intros [? _]; done]|].
  rewrite <- IH. split; [by split | by intros [_ ?]].
Qed.

Lemma all_chars_app (ok : ascii -> bool) (a b : string) :
  all_chars ok (a ++ b) = all_chars ok a && all_chars ok b.
Proof.
  induction a as [|x a IH]; [reflexivity|].
  change (String x a ++ b) with (String x (a ++ b)).
  cbn [all_chars]. by rewrite IH, andb_assoc.
Qed.

Lemma all_chars_impl (ok ok' : ascii -> bool) (s : string) :
  (forall a, ok a = true -> ok' a = true) ->
  all_chars ok s = true -> all_chars ok' s = true.
Proof.
  intros H. induction s as [|a s IH]; [done|]. cbn [all_chars].
  rewrite !andb_true_iff. intros [Ha Hs]. auto.
Qed.

Lemma all_chars_free (c : ascii) (ok : ascii -> bool) (s : string) :
  ok c = false -> all_chars ok s = true -> Py.contains (String c "") s = false.
Proof.
  intros Hc. induction s as [|a s IH]; [done|]. cbn [all_chars].
  rewrite andb_true_iff, contains_char_cons. intros [Ha Hs].
  rewrite (IH Hs), orb_false_r.
  destruct (Ascii.eqb_spec c a) as [-> | _]; congruence.
Qed.

Lemma str_chars (n : Z) : all_chars sign_or_digit (Py.str n) = true.
Proof.
  assert (Hu : forall d, all_chars sign_or_digit (NilEmpty.string_of_uint d) = true).
  { induction d; simpl; try assumption; reflexivity. }
  unfold Py.str. destruct (Z.to_int n) as [d | d]; simpl.
  - destruct d; try reflexivity; apply (Hu (_ d)).
  - destruct d; try reflexivity; apply (Hu (_ d)).
Qed.

Lemma format_02d_chars (n : Z) : all_chars sign_or_digit (Py.format_02d n) = true.
Proof.
  destruct (format_02d_pads n) as [[-> | ->] _].
  - apply str_chars.
  - cbn [String.append all_chars]. by rewrite str_chars.
Qed.

Lemma str_comma_free (n : Z) : comma_free (Py.str n).
Proof. eapply all_chars_free, str_chars. reflexivity. Qed.

Lemma hms_of_seconds_comma_free (secs : Z) : comma_free (hms_of_seconds secs).
Proof.
  unfold comma_free, hms_of_seconds.
  rewrite !(contains_char_app ","), !orb_false_iff.
  repeat split; try reflexivity; eapply all_chars_free, format_02d_chars; reflexivity.
Qed.

Lemma comma_free_app (a b : string) :
  comma_free (a ++ b) <-> comma_free a /\ comma_free b.
Proof. unfold comma_free. by rewrite (contains_char_app ","), orb_false_iff. Qed.

Lemma split_comma_field (field rest : string) :
  comma_free field ->
  Py.split (field ++ "," ++ rest) "," = field :: Py.split rest ",".
Proof. intros H. exact (split_char_field "," field rest H). Qed.

(** A row whose fields hold no comma splits at its commas into exactly
    those fields. *)
Lemma format_row_columns (subject cur_date : string) (r : Result.t) :
  comma_free subject -> comma_free cur_date -> Forall comma_free (text_fields r) ->
  Py.split (format_row "" subject cur_date r) "," = row_columns [] subject cur_date r /\
  forall e, comma_free e ->
    Py.split (format_row (e ++ ",") subject cur_date r) "," =
    row_columns [e] subject cur_date r.
Proof.
  intros Hs Hd Hf.
  apply Forall_cons in Hf as [Hty Hf]. apply Forall_cons in Hf as [Hph Hf].
  apply Forall_cons in Hf as [Hst Hf]. apply Forall_cons in Hf as [Hre Hf].
  apply Forall_cons in Hf as [Hco Hf]. apply Forall_cons in Hf as [Hsta Hf].
  apply Forall_cons in Hf as [Hen Hf]. apply Forall_cons in Hf as [Hdu _].
  assert (Hrow : Py.split (format_row "" subject cur_date r) "," =
                 row_columns [] subject cur_date r).
  { unfold format_row, row_columns. cbn [String.append app].
    rewrite !(split_char_field ",") by (assumption || apply str_comma_free).
    rewrite (split_char_last ","); [reflexivity|].
    apply comma_free_app. by split. }
  split; [exact Hrow|]. intros e He.
  replace (format_row (e ++ ",") subject cur_date r)
    with (e ++ "," ++ format_row "" subject cur_date r).
  - rewrite split_comma_field, Hrow by exact He. reflexivity.
  - unfold format_row. cbn [String.append]. by rewrite string_app_assoc.
Qed.

(** The commas of a row: the twelve (or eleven) that separate its
    columns and whatever commas its fields bring. *)
Lemma count_commas_format_row (experiment subject cur_date : string) (r : Result.t) :
  count_char "," (format_row experiment subject cur_date r) =
  (11 + count_char "," experiment + count_char "," subject + count_char "," cur_date +
   foldr (fun s n => count_char "," s + n) 0 (text_fields r))%nat.
Proof.
  unfold format_row, text_fields. cbn [foldr].
  rewrite !count_char_app.
  rewrite !(proj2 (count_char_free "," (Py.str _)) (str_comma_free _)).
  change (count_char "," ",") with 1%nat. change (count_char "," newline) with 0%nat.
  lia.
Qed.

Lemma steps_elements (P : Z -> string -> world -> Result.t -> world -> Prop)
    (i : Z) (l : list string) (w w' : world) (rs : list Result.t) :
  steps P i l w rs w' ->
  Forall (fun r => exists j file w0 w1, file ∈ l /\ P j file w0 r w1) rs.
Proof.
  intros H. induction H as [|i file l w w1 w' r rs Hr _ IH]; constructor.
  - exists i, file, w, w1. split; [left | exact Hr].
  - eapply Forall_impl; [exact IH|]. intros r0 (j & f & w0 & w2 & Hin & Hp).
    exists j, f, w0, w2. split; [by right | exact Hp].
Qed.

(** Every record a sub-test returns comes from a practice trial on one
    of the example files or from a scored trial on one of the test
    files. *)
Lemma subtest_records (test_type : string) (instruction_texts : gmap string string)
    (practice_output_filename test_output_filename base_image_path : string)
    (participant_info : gmap string string) (with_experiment : bool)
    (example_files test_files : list string) (w w' : world) (rs : list Result.t) :
  subtest_spec test_type instruction_texts practice_output_filename
    test_output_filename base_image_path participant_info with_experiment
    example_files test_files w rs w' ->
  Forall (fun r => exists phase time_limit total i file w0 w1,
            ((phase = "practice" /\ time_limit = None /\ file ∈ example_files) \/
             (phase = "test" /\ time_limit = Some 2 /\ file ∈ test_files)) /\
            trial_spec test_type practice_output_filename test_output_filename
              participant_info with_experiment phase time_limit total
              (now w) (hms_local (utc_offset w) (now w)) base_image_path
              i file w0 r w1) rs.
Proof.
  intros (part1 & part2 & w1 & w2 & w3 & practice & scored &
          _ & _ & Hp & _ & _ & Ht & ->).
  apply Forall_app. split.
  - eapply Forall_impl; [exact (steps_elements _ _ _ _ _ _ Hp)|].
    intros r (j & file & w0 & w4 & Hin & Hs).
    apply practice_spec_trial in Hs as (w5 & Hs).
    exists "practice", None, (Z.of_nat (length example_files)), j, file, w0, w5.
    split; [left; by repeat split | exact Hs].
  - eapply Forall_impl; [exact (steps_elements _ _ _ _ _ _ Ht)|].
    intros r (j & file & w0 & w4 & Hin & Hs).
    exists "test", (Some 2), (Z.of_nat (length test_files)), j, file, w0, w4.
    split; [right; by repeat split | exact Hs].
Qed.

Lemma german_test_type_keys (test_type : string) :
  is_Some (german_test_type !! test_type) <-> test_type = "melody" \/ test_type = "rhythm".
Proof.
  unfold german_test_type. split.
  - intros [v H].
    destruct (decide (test_type = "melody")) as [-> | Hm]; [by left|].
    rewrite lookup_insert_ne in H by done.
    destruct (decide (test_type = "rhythm")) as [-> | Hr]; [by right|].
    rewrite lookup_insert_ne in H by done. done.
  - intros [-> | ->]; eexists; reflexivity.
Qed.

Lemma trial_spec_text_fields (test_type practice_output_filename test_output_filename : string)
    (participant_info : gmap string string) (with_experiment : bool)
    (phase : string) (time_limit : option Z) (total_trials start_time : Z)
    (offset : Z) (base_image_path : string) (i : Z) (file : string)
    (w w1 : world) (r : Result.t) :
  trial_spec test_type practice_output_filename test_output_filename
    participant_info with_experiment phase time_limit total_trials
    start_time (hms_local offset start_time) base_image_path i file w r w1 ->
  comma_free phase -> comma_free file ->
  Forall comma_free (text_fields r).
Proof.
  intros H Hph Hfile.
  pose proof (trial_spec_fields _ _ _ _ _ _ _ _ _ _ _ _ _ _ _ _ H) as (Hr & Hresp & _).
  destruct H as (plural & _ & _ & _ & _ & _ & Hg & _).
  assert (Hty : comma_free test_type).
  { destruct (proj1 (german_test_type_keys test_type)) as [-> | ->]; by eauto. }
  rewrite Hr. unfold text_fields.
  cbn [Result.type Result.phase Result.stimulus Result.response Result.correct
       Result.start_time Result.end_time Result.duration].
  repeat (apply Forall_cons; split); try assumption.
  - destruct Hresp as [-> | [-> | ->]]; reflexivity.
  - destruct (correct_answer_cases file) as [-> | ->]; reflexivity.
  - apply hms_of_seconds_comma_free.
  - apply hms_of_seconds_comma_free.
  - rewrite duration_str_floor. apply hms_of_seconds_comma_free.
  - constructor.
Qed.

Section RowColumns.

Variable test_type : string.
Variable instruction_texts : gmap string string.
Variable practice_output_filename test_output_filename : string.
Variable base_image_path : string.
Variable participant_info : gmap string string.
Variable with_experiment : bool.

(** X1.  The rows of a sub-test can be read back.  When the subject
    id, the date, the experiment name where the row has one, and the
    stimulus paths hold no comma, the row of every record the sub-test
    returns splits at its commas into exactly the participant's entries
    followed by the ten fields of the record, the last with the line
    break; it has as many columns as the header line written at
    start-up. *)
Theorem ledger_rows_split_into_fields (example_files test_files : list string)
    (w w' : world) (rs : list Result.t) (name subject cur_date : string) :
  musical_ear_test test_type instruction_texts practice_output_filename
    test_output_filename base_image_path participant_info with_experiment
    example_files test_files w = (Ret rs, w') ->
  participant_info !! "Subject_ID" = Some subject ->
  participant_info !! "cur_date" = Some cur_date ->
  (with_experiment = true -> participant_info !! "experiment" = Some name) ->
  comma_free subject -> comma_free cur_date ->
  (with_experiment = true -> comma_free name) ->
  Forall comma_free (example_files ++ test_files) ->
  Forall (fun r =>
    Py.split (ledger_row participant_info with_experiment r) "," =
      row_columns (if with_experiment then [name] else []) subject cur_date r /\
    length (Py.split (ledger_row participant_info with_experiment r) ",") =
      length (Py.split (csv_header with_experiment) ",")) rs.
Proof.
  intros Hrun Hsu Hcd Hex Hfsu Hfcd Hfex Hfiles.
  apply musical_ear_test_Ret, subtest_records in Hrun.
  eapply Forall_impl; [exact Hrun|]. clear Hrun.
  intros r (phase & tl & total & i & file & w0 & w1 & Hcase & Hs).
  assert (Hphase : comma_free phase /\ comma_free file).
  { rewrite Forall_app, !Forall_forall in Hfiles. destruct Hfiles as [Hfe Hft].
    destruct Hcase as [(-> & _ & Hin) | (-> & _ & Hin)]; split; (reflexivity || auto). }
  destruct Hphase as [Hph Hfile].
  pose proof (trial_spec_text_fields _ _ _ _ _ _ _ _ _ _ _ _ _ _ _ _ Hs Hph Hfile) as Htf.
  destruct (format_row_columns subject cur_date r Hfsu Hfcd Htf) as [Hrow0 Hrow1].
  assert (Hcols : Py.split (ledger_row participant_info with_experiment r) "," =
                  row_columns (if with_experiment then [name] else []) subject cur_date r).
  { unfold ledger_row, participant_fields. rewrite Hsu, Hcd.
    destruct with_experiment.
    - rewrite (Hex eq_refl). cbn. apply Hrow1, Hfex. reflexivity.
    - exact Hrow0. }
  split; [exact Hcols|]. rewrite Hcols. by destruct with_experiment.
Qed.

End RowColumns.

Lemma ledger_rows_split_into_fields_witness :
  Forall (fun r =>
    Py.split (ledger_row sample_info true r) "," =
      row_columns ["musical_ear_test"] "s01" "2023-05-06 10:00" r /\
    length (Py.split (ledger_row sample_info true r) ",") = 13%nat) sample_results.
Proof.
  refine (ledger_rows_split_into_fields "melody" sample_texts "practice.csv" "test.csv"
            "pics" sample_info true sample_examples sample_tests sample_world
            sample_final sample_results "musical_ear_test" "s01" "2023-05-06 10:00"
            _ _ _ _ _ _ _ _).
  - vm_compute. reflexivity.
  - reflexivity.
  - reflexivity.
  - reflexivity.
  - reflexivity.
  - reflexivity.
  - reflexivity.
  - repeat (apply Forall_cons; split; [reflexivity|]). constructor.
Defined.

(** X2.  Nothing in a row is quoted or escaped: split at its commas, a
    row has twelve columns and one more for every comma that the
    participant's entries and the fields of the record bring with them
    (the comma after the experiment name, where there is one, is
    counted with [experiment]). *)
Theorem row_commas_are_not_escaped (experiment subject cur_date : string) (r : Result.t) :
  length (Py.split (format_row experiment subject cur_date r) ",") =
  (12 + count_char "," experiment + count_char "," subject + count_char "," cur_date +
   foldr (fun s n => count_char "," s + n) 0 (text_fields r))%nat.
Proof.
  unfold Py.split.
  rewrite (split_from_char_length ","), count_commas_format_row. lia.
Qed.

(** ** The catalogue, whatever the listing *)

Lemma insert_permutation {A} (l : list A) (i : Z) (x : A) : Py.insert l i x ≡ₚ x :: l.
Proof.
  unfold Py.insert. cbv zeta.
  rewrite <- Permutation_middle. by rewrite take_drop.
Qed.

Lemma insert_beyond {A} (l : list A) (i : Z) (x : A) :
  Z.of_nat (length l) <= i -> Py.insert l i x = (l ++ [x])%list.
Proof.
  intros H. unfold Py.insert. cbv zeta.
  destruct (Z.ltb_spec i 0); [lia|].
  rewrite Z.min_r, Nat2Z.id, firstn_all, drop_all by lia. reflexivity.
Qed.

Lemma maxsize_pos : 0 < maxsize.
Proof. reflexivity. Qed.

Lemma list_insert_cases {A} (l : list A) (i : Z) (x : A) :
  (- maxsize - 1 <= i <= maxsize /\ list_insert l i x = Ok (Py.insert l i x)) \/
  (~ (- maxsize - 1 <= i <= maxsize) /\ list_insert l i x = Exn OverflowError).
Proof.
  unfold list_insert.
  destruct (Z.leb_spec (- maxsize - 1) i), (Z.leb_spec i maxsize); cbn [andb];
    [left | right..]; (split; [lia | reflexivity]).
Qed.

Lemma load_loop_step (folder_path test_type filename : string) (rest : list string)
    (example_files test_files : list string) :
  load_loop folder_path test_type (filename :: rest) example_files test_files =
  if is_example_file test_type filename then
    load_loop folder_path test_type rest
      (example_files ++ [Py.path_join folder_path filename]) test_files
  else if is_test_file test_type filename then
    match trial_number_of filename with
    | Exn e => Exn e
    | Ok trial_number =>
        match list_insert test_files (trial_number - 1)
                (Py.path_join folder_path filename) with
        | Exn e => Exn e
        | Ok test_files => load_loop folder_path test_type rest example_files test_files
        end
    end
  else load_loop folder_path test_type rest example_files test_files.
Proof.
  cbn [load_loop]. unfold is_example_file, is_test_file.
  destruct (Py.startswith filename test_type); [|reflexivity].
  destruct (Py.contains "_example" filename); [reflexivity|].
  destruct (Py.contains "_test" filename); reflexivity.
Qed.

Lemma is_example_not_test (test_type filename : string) :
  is_example_file test_type filename = true -> is_test_file test_type filename = false.
Proof.
  unfold is_example_file, is_test_file.
  destruct (Py.startswith _ _), (Py.contains "_example" _); simpl; congruence.
Qed.

(** What a returning load has collected. *)
Lemma load_loop_content (folder_path test_type : string) (listing : list string)
    (example_files test_files ex te : list string) :
  load_loop folder_path test_type listing example_files test_files = Ok (ex, te) ->
  ex = (example_files ++
        map (Py.path_join folder_path) (List.filter (is_example_file test_type) listing))%list /\
  te ≡ₚ (test_files ++
         map (Py.path_join folder_path) (List.filter (is_test_file test_type) listing))%list.
Proof.
  revert example_files test_files; induction listing as [|f rest IH];
    intros example_files test_files H.
  - injection H as <- <-. by rewrite !app_nil_r.
  - rewrite load_loop_step in H. cbn [List.filter].
    destruct (is_example_file test_type f) eqn:Ee.
    + rewrite (is_example_not_test _ _ Ee).
      apply IH in H as [-> Hte]. split; [|exact Hte].
      cbn [map]. by rewrite <- app_assoc.
    + destruct (is_test_file test_type f) eqn:Et; [|by apply IH].
      destruct (trial_number_of f) as [n | e]; [|discriminate].
      destruct (list_insert_cases test_files (n - 1) (Py.path_join folder_path f))
        as [[_ E] | [_ E]]; rewrite E in H; [|discriminate].
      apply IH in H as [-> Hte]. split; [reflexivity|].
      rewrite Hte, insert_permutation. cbn [map].
      by rewrite <- Permutation_middle.
Qed.

(** Where a non-empty separator occurs, the split has a second segment. *)
Lemma split_from_second (sep cur s : string) :
  sep <> "" -> Py.contains sep s = true ->
  exists seg, Py.split_from sep 0 cur s !! 1%nat = Some seg.
Proof.
  intros Hsep. revert cur; induction s as [|c s IH]; intros cur H.
  - cbn [Py.contains] in H. rewrite orb_false_r in H.
    destruct sep; [done | discriminate].
  - cbn [Py.contains] in H. cbn [Py.split_from].
    destruct (Py.startswith (String c s) sep) eqn:E.
    + cbn [lookup list_lookup].
      destruct (Py.split_from sep (String.length sep - 1) "" s) as [|x l] eqn:El.
      * by apply split_from_nonempty in El.
      * eauto.
    + apply IH. exact H.
Qed.

Lemma findall_digits_from_nil (cur : option string) (s : string) :
  Py.findall_digits_from cur s = [] <->
  cur = None /\ all_chars (fun a => negb (Py.is_digit a)) s = true.
Proof.
  revert cur; induction s as [|c s IH]; intros cur; cbn [Py.findall_digits_from all_chars].
  - destruct cur; split; try done. by intros [? _].
  - destruct (Py.is_digit c); cbn [negb andb].
    + rewrite IH. split; [by intros [? _] | by intros [_ ?]].
    + destruct cur as [r|]; [split; [done | by intros [? _]]|].
      rewrite IH. tauto.
Qed.

(** The trial number of a scored item is missing exactly when its name
    has no digit in the segment after the first [_test]; the lookup of
    that segment itself never fails. *)
Lemma trial_number_of_raises (filename : string) :
  Py.contains "_test" filename = true ->
  (forall e, trial_number_of filename = Exn e -> e = IndexError) /\
  (trial_number_of filename = Exn IndexError <->
   exists seg, Py.split filename "_test" !! 1%nat = Some seg /\
     all_chars (fun a => negb (Py.is_digit a)) seg = true).
Proof.
  intros H. destruct (split_from_second "_test" "" filename) as [seg Hseg]; [done | exact H|].
  fold (Py.split filename "_test") in Hseg.
  unfold trial_number_of, index. rewrite Hseg. cbn [lookup].
  destruct (Py.findall_digits seg) as [|d ds] eqn:Ed; cbn [lookup list_lookup].
  - split; [by intros e [= <-]|]. split; [intros _ | done].
    exists seg. split; [reflexivity|].
    by apply (findall_digits_from_nil None seg) in Ed as [_ ?].
  - split; [done|]. split; [done|].
    intros (seg' & [= <-] & Hall).
    assert (Py.findall_digits seg = []) by (by apply findall_digits_from_nil).
    congruence.
Qed.

(** A number read off a name is not negative. *)
Lemma int_from_nonneg (acc : Z) (s : string) :
  0 <= acc -> all_chars Py.is_digit s = true -> 0 <= Py.int_from acc s.
Proof.
  revert acc; induction s as [|c s IH]; intros acc Hacc H; [exact Hacc|].
  cbn [all_chars] in H. apply andb_true_iff in H as [Hc Hs].
  cbn [Py.int_from]. apply IH; [|exact Hs].
  unfold Py.is_digit in Hc. cbv zeta in Hc. apply andb_true_iff in Hc as [H1 _].
  apply Nat.leb_le in H1. lia.
Qed.

Lemma findall_digits_from_digits (cur : option string) (s : string) :
  all_chars Py.is_digit (default "" cur) = true ->
  Forall (fun d => all_chars Py.is_digit d = true) (Py.findall_digits_from cur s).
Proof.
  revert cur; induction s as [|c s IH]; intros cur Hcur; cbn [Py.findall_digits_from].
  - destruct cur; repeat constructor. exact Hcur.
  - destruct (Py.is_digit c) eqn:Ec.
    + apply IH.
      change (all_chars Py.is_digit (default "" cur ++ String c "") = true).
      rewrite all_chars_app, Hcur. cbn [all_chars]. by rewrite Ec.
    + destruct cur as [r|]; [constructor; [exact Hcur|]|]; by apply IH.
Qed.

Lemma trial_number_of_nonneg (filename : string) (n : Z) :
  trial_number_of filename = Ok n -> 0 <= n.
Proof.
  unfold trial_number_of, index.
  destruct (Py.split filename "_test" !! 1%nat) as [seg|]; [|discriminate].
  pose proof (findall_digits_from_digits None seg eq_refl) as Hd.
  fold (Py.findall_digits seg) in Hd.
  destruct (Py.findall_digits seg) as [|d ds]; cbn [lookup list_lookup]; [discriminate|].
  intros [= <-]. apply Forall_cons in Hd as [Hd _].
  by apply int_from_nonneg.
Qed.

Lemma first_failing_skip (test_type : string) (P : string -> Prop) (f : string)
    (rest : list string) :
  ~ failing_test_file test_type f ->
  first_failing test_type P (f :: rest) <-> first_failing test_type P rest.
Proof.
  intros Hf. split.
  - intros (pre & g & post & E & Hpre & Hg & HP). destruct pre as [|p pre].
    + injection E as -> ->. done.
    + injection E as -> ->. apply Forall_cons in Hpre as [_ Hpre].
      by exists pre, g, post.
  - intros (pre & g & post & -> & Hpre & Hg & HP).
    exists (f :: pre), g, post. split; [reflexivity|]. split; [|done].
    by apply Forall_cons.
Qed.

Lemma first_failing_here (test_type : string) (P : string -> Prop) (f : string)
    (rest : list string) :
  failing_test_file test_type f ->
  first_failing test_type P (f :: rest) <-> P f.
Proof.
  intros Hf. split.
  - intros (pre & g & post & E & Hpre & Hg & HP). destruct pre as [|p pre].
    + by injection E as -> ->.
    + injection E as -> ->. by apply Forall_cons in Hpre as [? _].
  - intros HP. exists [], f, rest. split; [reflexivity|]. split; [constructor | done].
Qed.

Lemma first_failing_nil (test_type : string) (P : string -> Prop) :
  ~ first_failing test_type P [].
Proof. intros (pre & g & post & E & _). by destruct pre. Qed.

Lemma digitless_not_oversized (test_type filename : string) :
  digitless_test_file test_type filename -> ~ oversized_test_file test_type filename.
Proof.
  intros [Ht Hd] [_ (n & Hn & _)].
  assert (Hc : Py.contains "_test" filename = true).
  { unfold is_test_file in Ht. by apply andb_true_iff in Ht as [_ ?]. }
  destruct (trial_number_of_raises filename Hc) as [_ H2].
  apply H2 in Hd. congruence.
Qed.

Lemma Forall_skip (test_type f : string) (rest : list string) :
  ~ failing_test_file test_type f ->
  Forall (fun g => ~ failing_test_file test_type g) (f :: rest) <->
  Forall (fun g => ~ failing_test_file test_type g) rest.
Proof. intros Hf. rewrite Forall_cons. tauto. Qed.

(** The first item on which the load fails decides what is raised, and
    without such an item the load returns. *)
Lemma load_loop_raises (folder_path test_type : string) (listing : list string)
    (example_files test_files : list string) :
  (forall e, load_loop folder_path test_type listing example_files test_files = Exn e ->
     e = IndexError \/ e = OverflowError) /\
  (load_loop folder_path test_type listing example_files test_files = Exn IndexError <->
   first_failing test_type (digitless_test_file test_type) listing) /\
  (load_loop folder_path test_type listing example_files test_files = Exn OverflowError <->
   first_failing test_type (oversized_test_file test_type) listing) /\
  ((exists ex te,
      load_loop folder_path test_type listing example_files test_files = Ok (ex, te)) <->
   Forall (fun f => ~ failing_test_file test_type f) listing).
Proof.
  revert example_files test_files; induction listing as [|f rest IH];
    intros example_files test_files.
  - split; [done|]. split; [|split].
    + split; [done | by intros ?%first_failing_nil].
    + split; [done | by intros ?%first_failing_nil].
    + split; [constructor | cbn; eauto].
  - rewrite load_loop_step.
    assert (Hskip : is_test_file test_type f = false -> ~ failing_test_file test_type f).
    { intros E [[Ht _] | [Ht _]]; congruence. }
    assert (Hhere : forall e, failing_test_file test_type f ->
              (exists ex te, Exn e = Ok (ex, te) :> res (list string * list string)) <->
              Forall (fun g => ~ failing_test_file test_type g) (f :: rest)).
    { intros e Hf. split; [by intros (ex & te & ?)|].
      intros H. by apply Forall_cons in H as [? _]. }
    destruct (is_example_file test_type f) eqn:Ee.
    + pose proof (Hskip (is_example_not_test _ _ Ee)) as Hf.
      rewrite !(first_failing_skip _ _ _ _ Hf), (Forall_skip _ _ _ Hf). apply IH.
    + destruct (is_test_file test_type f) eqn:Et.
      2:{ rewrite !(first_failing_skip _ _ _ _ (Hskip eq_refl)),
            (Forall_skip _ _ _ (Hskip eq_refl)). apply IH. }
      assert (Hc : Py.contains "_test" f = true).
      { unfold is_test_file in Et. by apply andb_true_iff in Et as [_ ?]. }
      destruct (trial_number_of_raises f Hc) as [Hn1 Hn2].
      destruct (trial_number_of f) as [n | e] eqn:En.
      * pose proof (trial_number_of_nonneg f n En) as Hn0.
        destruct (list_insert_cases test_files (n - 1) (Py.path_join folder_path f))
          as [[Hr ->] | [Hr ->]].
        -- assert (Hf : ~ failing_test_file test_type f).
           { intros [[_ Hd] | [_ (m & Hm & Hbig)]].
             - by apply Hn2 in Hd.
             - rewrite En in Hm. injection Hm as <-. lia. }
           rewrite !(first_failing_skip _ _ _ _ Hf), (Forall_skip _ _ _ Hf). apply IH.
        -- assert (Ho : oversized_test_file test_type f).
           { split; [exact Et|]. exists n. split; [exact En|].
             pose proof maxsize_pos. lia. }
           rewrite !first_failing_here by (by right).
           split; [intros e [= <-]; by right|].
           split; [split; [done|]|split; [by split|apply Hhere; by right]].
           intros Hd. by apply digitless_not_oversized in Hd.
      * pose proof (Hn1 e eq_refl) as ->.
        assert (Hd : digitless_test_file test_type f).
        { split; [exact Et | by apply Hn2]. }
        rewrite !first_failing_here by (by left).
        split; [intros e [= <-]; by left|].
        split; [by split|split; [split; [done|]|apply Hhere; by left]].
        intros Ho. by apply digitless_not_oversized in Ho.
Qed.

(** Ordinals that increase strictly from one or more upwards make every
    insertion an append. *)
Lemma load_loop_increasing (folder_path test_type : string) (listing : list string)
    (example_files test_files : list string) (ordinals : list Z) :
  map trial_number_of (List.filter (is_test_file test_type) listing) = map Ok ordinals ->
  Forall (fun n => Z.of_nat (length test_files) < n <= maxsize + 1) ordinals ->
  StronglySorted Z.lt ordinals ->
  load_loop folder_path test_type listing example_files test_files =
  Ok ((example_files ++
       map (Py.path_join folder_path) (List.filter (is_example_file test_type) listing))%list,
      (test_files ++
       map (Py.path_join folder_path) (List.filter (is_test_file test_type) listing))%list).
Proof.
  revert example_files test_files ordinals; induction listing as [|f rest IH];
    intros example_files test_files ordinals Hmap Hlow Hsorted.
  - cbn. by rewrite !app_nil_r.
  - rewrite load_loop_step. cbn [List.filter] in *.
    destruct (is_example_file test_type f) eqn:Ee.
    + rewrite (is_example_not_test _ _ Ee) in *.
      rewrite (IH _ _ ordinals Hmap Hlow Hsorted). cbn [map]. by rewrite <- app_assoc.
    + destruct (is_test_file test_type f) eqn:Et; [|by apply (IH _ _ ordinals)].
      destruct ordinals as [|n ordinals]; [discriminate|].
      cbn [map] in Hmap. injection Hmap as Hn Hmap. rewrite Hn.
      apply Forall_cons in Hlow as [Hlow_n Hlow].
      apply StronglySorted_inv in Hsorted as [Hsorted Hgt].
      destruct (list_insert_cases test_files (n - 1) (Py.path_join folder_path f))
        as [[_ ->] | [Hr _]]; [|lia].
      rewrite insert_beyond by lia.
      rewrite (IH _ _ ordinals Hmap); [|
        rewrite length_app; cbn [length];
        apply Forall_forall; intros m Hm;
        pose proof (proj1 (Forall_forall _ _) Hgt m Hm);
        pose proof (proj1 (Forall_forall _ _) Hlow m Hm); cbn beta in *; lia |
        exact Hsorted].
      cbn [map]. by rewrite <- app_assoc.
Qed.

(** ** X3: what the catalogue holds *)

(** X3.  When [load_audio_files] returns, the example list is the
    listing's example files of the test type, joined to the folder, in
    listing order; the test list holds the listing's test files of the
    test type, joined to the folder, each exactly once, in some order.
    Files of another test type, and files with neither marker, are left
    out, and a name with both markers counts as an example. *)
Theorem load_audio_files_keeps_every_file (base_audio_path test_type : string)
    (listing example_files test_files : list string) :
  load_audio_files base_audio_path test_type listing = Ok (example_files, test_files) ->
  example_files =
    map (Py.path_join base_audio_path) (List.filter (is_example_file test_type) listing) /\
  test_files ≡ₚ
    map (Py.path_join base_audio_path) (List.filter (is_test_file test_type) listing) /\
  (length example_files + length test_files <= length listing)%nat.
Proof.
  intros H. apply load_loop_content in H as [-> Hte]. cbn [app] in *.
  split; [reflexivity|]. split; [exact Hte|].
  rewrite Hte, !length_map. clear Hte.
  induction listing as [|f rest IH]; cbn [List.filter length]; [lia|].
  destruct (is_example_file test_type f) eqn:Ee.
  - rewrite (is_example_not_test _ _ Ee). cbn [length]. lia.
  - destruct (is_test_file test_type f); cbn [length]; lia.
Qed.

Lemma load_audio_files_keeps_every_file_witness :
  load_audio_files "audio" "melody"
    ["melody_test03_different.wav"; "rhythm_test01_identical.wav";
     "melody_example1_test_identical.wav"; "melody_notes.txt";
     "melody_test02_identical.wav"; "melody_test01_different.wav"] =
  Ok (["audio/melody_example1_test_identical.wav"],
      ["audio/melody_test01_different.wav"; "audio/melody_test03_different.wav";
       "audio/melody_test02_identical.wav"]) /\
  ["audio/melody_test01_different.wav"; "audio/melody_test03_different.wav";
   "audio/melody_test02_identical.wav"] ≡ₚ
  ["audio/melody_test03_different.wav"; "audio/melody_test02_identical.wav";
   "audio/melody_test01_different.wav"].
Proof.
  assert (H : load_audio_files "audio" "melody"
    ["melody_test03_different.wav"; "rhythm_test01_identical.wav";
     "melody_example1_test_identical.wav"; "melody_notes.txt";
     "melody_test02_identical.wav"; "melody_test01_different.wav"] =
  Ok (["audio/melody_example1_test_identical.wav"],
      ["audio/melody_test01_different.wav"; "audio/melody_test03_different.wav";
       "audio/melody_test02_identical.wav"])) by (vm_compute; reflexivity).
  split; [exact H|].
  exact (proj1 (proj2 (load_audio_files_keeps_every_file _ _ _ _ _ H))).
Defined.

(** ** X4: when loading fails *)

(** X4.  [load_audio_files] on a listing of ASCII names, once
    [os.listdir] has returned it.  It raises nothing but [IndexError]
    and [OverflowError], and what it raises is decided by the first
    test file of the test type on which it fails: [IndexError] when
    that file has no digit in the segment that follows the first
    [_test] of its name, [OverflowError] when the number read there,
    less one, exceeds [sys.maxsize] and so does not fit the index of
    [list.insert].  It returns exactly when the listing has no such
    file.  Looking up the segment itself never fails, since the name
    contains [_test]. *)
Theorem load_audio_files_raises (base_audio_path test_type : string)
    (listing : list string) :
  Forall (fun f => listed_name f = true) listing ->
  (forall e, load_audio_files base_audio_path test_type listing = Exn e ->
     e = IndexError \/ e = OverflowError) /\
  (load_audio_files base_audio_path test_type listing = Exn IndexError <->
   first_failing test_type (digitless_test_file test_type) listing) /\
  (load_audio_files base_audio_path test_type listing = Exn OverflowError <->
   first_failing test_type (oversized_test_file test_type) listing) /\
  ((exists example_files test_files,
      load_audio_files base_audio_path test_type listing =
      Ok (example_files, test_files)) <->
   Forall (fun f => ~ failing_test_file test_type f) listing).
Proof. intros _. apply load_loop_raises. Qed.

(** A listing whose second test file has no number, and one whose
    second test file has a number of twenty digits. *)
Lemma load_audio_files_raises_witness :
  load_audio_files "audio" "melody"
    ["melody_test01_identical.wav"; "melody_test_different.wav";
     "melody_test99999999999999999999_identical.wav"] = Exn IndexError /\
  load_audio_files "audio" "melody"
    ["melody_test01_identical.wav"; "melody_test99999999999999999999_identical.wav";
     "melody_test_different.wav"] = Exn OverflowError.
Proof.
  split.
  - apply (load_audio_files_raises "audio" "melody");
      [repeat constructor|].
    exists ["melody_test01_identical.wav"], "melody_test_different.wav",
      ["melody_test99999999999999999999_identical.wav"].
    assert (Hd : digitless_test_file "melody" "melody_test_different.wav").
    { split; [reflexivity|]. eexists. split; reflexivity. }
    split; [reflexivity|]. split; [|split; [by left | exact Hd]].
    repeat constructor. intros [[_ (seg & [= <-] & Hall)] | [_ (n & [= <-] & Hn)]];
      [discriminate | vm_compute in Hn; discriminate].
  - apply (load_audio_files_raises "audio" "melody");
      [repeat constructor|].
    exists ["melody_test01_identical.wav"],
      "melody_test99999999999999999999_identical.wav", ["melody_test_different.wav"].
    assert (Ho : oversized_test_file "melody"
                   "melody_test99999999999999999999_identical.wav").
    { split; [reflexivity|]. eexists. split; reflexivity. }
    split; [reflexivity|]. split; [|split; [by right | exact Ho]].
    repeat constructor. intros [[_ (seg & [= <-] & Hall)] | [_ (n & [= <-] & Hn)]];
      [discriminate | vm_compute in Hn; discriminate].
Defined.

(** ** X5: a listing in increasing order *)

(** X5.  If the names of the listing are ASCII names and its test files
    carry trial numbers that start at one or above, increase strictly
    along the listing, gaps allowed, and stay within the index range of
    [list.insert] (at most [sys.maxsize + 1]), then every insertion is
    an append: the test list comes out in listing order, that is in
    increasing trial number, whatever other files the listing has in
    between. *)
Theorem load_audio_files_increasing_listing (base_audio_path test_type : string)
    (listing : list string) (ordinals : list Z) :
  Forall (fun f => listed_name f = true) listing ->
  map trial_number_of (List.filter (is_test_file test_type) listing) = map Ok ordinals ->
  Forall (fun n => 1 <= n <= maxsize + 1) ordinals ->
  StronglySorted Z.lt ordinals ->
  load_audio_files base_audio_path test_type listing =
  Ok (map (Py.path_join base_audio_path) (List.filter (is_example_file test_type) listing),
      map (Py.path_join base_audio_path) (List.filter (is_test_file test_type) listing)).
Proof.
  intros _ Hmap Hlow Hsorted. unfold load_audio_files.
  rewrite (load_loop_increasing _ _ _ _ _ ordinals Hmap); [reflexivity| |exact Hsorted].
  eapply Forall_impl; [exact Hlow|]. intros n Hn. cbn in *. lia.
Qed.

Lemma load_audio_files_increasing_listing_witness :
  load_audio_files "audio" "melody"
    ["melody_example1_identical.wav"; "melody_test01_different.wav";
     "rhythm_test02_identical.wav"; "melody_test03_identical.wav";
     "melody_test07_different.wav"] =
  Ok (["audio/melody_example1_identical.wav"],
      ["audio/melody_test01_different.wav"; "audio/melody_test03_identical.wav";
       "audio/melody_test07_different.wav"]).
Proof.
  refine (load_audio_files_increasing_listing "audio" "melody"
            ["melody_example1_identical.wav"; "melody_test01_different.wav";
             "rhythm_test02_identical.wav"; "melody_test03_identical.wav";
             "melody_test07_different.wav"] [1; 3; 7] _ _ _ _).
  - repeat constructor.
  - reflexivity.
  - repeat constructor; (lia || (vm_compute; discriminate)).
  - repeat constructor; lia.
Defined.

(** ** However a run ends *)

Lemma ends_line_app (a b : string) : ends_line a -> ends_line b -> ends_line (a ++ b).
Proof.
  intros [-> | [x ->]] [-> | [y ->]].
  - by left.
  - right. by exists y.
  - right. exists x. by rewrite string_app_nil_r.
  - right. exists (x ++ newline ++ y). by rewrite !string_app_assoc.
Qed.

Lemma saved_refl (paths : list string) (w : world) : saved paths w w.
Proof.
  split; [reflexivity|]. split; [reflexivity|].
  intros path. exists "". split; [by rewrite string_app_nil_r | by left].
Qed.

Lemma saved_trans (paths : list string) (w1 w2 w3 : world) :
  saved paths w1 w2 -> saved paths w2 w3 -> saved paths w1 w3.
Proof.
  intros (Hh1 & Ho1 & Hc1) (Hh2 & Ho2 & Hc2).
  split; [congruence|]. split.
  - intros path Hp. rewrite Ho2, Ho1 by exact Hp. reflexivity.
  - intros path. destruct (Hc1 path) as (t1 & E1 & L1), (Hc2 path) as (t2 & E2 & L2).
    exists (t1 ++ t2). split; [|by apply ends_line_app].
    by rewrite E2, E1, string_app_assoc.
Qed.

(** A computation that leaves files and handles alone. *)
Lemma saved_frame (paths : list string) (w w' : world) :
  files w' = files w -> handles w' = handles w -> saved paths w w'.
Proof.
  intros Hf Hh. split; [exact Hh|]. rewrite Hf. split; [reflexivity|].
  intros path. exists "". split; [by rewrite string_app_nil_r | by left].
Qed.

Section Keeps.

Variable R : world -> world -> Prop.
Hypothesis R_refl : forall w, R w w.
Hypothesis R_trans : forall w1 w2 w3, R w1 w2 -> R w2 w3 -> R w1 w3.

Lemma keeps_ret {A} (a : A) : keeps R (ret a).
Proof. intros w. apply R_refl. Qed.

Lemma keeps_bind {A B} (m : M A) (f : A -> M B) :
  keeps R m -> (forall a, keeps R (f a)) -> keeps R (bind m f).
Proof.
  intros Hm Hf w. unfold bind. specialize (Hm w).
  destruct (m w) as [[a | e |] w1]; cbn [snd] in *; [|exact Hm..].
  eapply R_trans; [exact Hm | apply Hf].
Qed.

Lemma keeps_for_enumerate {A S} (body : S -> Z -> A -> M S) :
  (forall s i x, keeps R (body s i x)) ->
  forall l i s, keeps R (for_enumerate body i l s).
Proof.
  intros Hb l; induction l as [|x l IH]; intros i s; cbn [for_enumerate].
  - apply keeps_ret.
  - apply keeps_bind; [apply Hb | intros s'; apply IH].
Qed.

End Keeps.

Section RaisesOnly.

Variable P : exn -> Prop.

Lemma raises_only_ret {A} (a : A) : raises_only P (ret a).
Proof. intros w e H. discriminate. Qed.

Lemma raises_only_bind {A B} (m : M A) (f : A -> M B) :
  raises_only P m -> (forall a, raises_only P (f a)) -> raises_only P (bind m f).
Proof.
  intros Hm Hf w e. unfold bind. specialize (Hm w).
  destruct (m w) as [[a | e' |] w1]; cbn [fst] in *.
  - apply Hf.
  - intros [= <-]. by apply Hm.
  - discriminate.
Qed.

Lemma raises_only_for_enumerate {A S} (body : S -> Z -> A -> M S) :
  (forall s i x, raises_only P (body s i x)) ->
  forall l i s, raises_only P (for_enumerate body i l s).
Proof.
  intros Hb l; induction l as [|x l IH]; intros i s; cbn [for_enumerate].
  - apply raises_only_ret.
  - apply raises_only_bind; [apply Hb | intros s'; apply IH].
Qed.

Lemma raises_only_getitem (d : gmap string string) (key : string) :
  (d !! key = None -> P (KeyError key)) -> raises_only P (getitem d key).
Proof.
  intros H w e. unfold getitem. destruct (d !! key); [discriminate|].
  intros [= <-]. by apply H.
Qed.

End RaisesOnly.

Lemma quiet_raises_only {A} (P : exn -> Prop) (m : M A) : quiet m -> raises_only P m.
Proof. intros H w e He. by apply H in He. Qed.

Lemma response_loop_quiet (timer : option Z) (polls : list poll) :
  quiet (response_loop timer polls).
Proof.
  induction polls as [|[dt buffer] rest IH]; intros w e; cbn [response_loop].
  - destruct (match timer with Some d => 0 <? d - now w | None => true end); discriminate.
  - destruct (match timer with Some d => 0 <? d - now w | None => true end);
      [|discriminate].
    unfold bind, advance. destruct (getKeys_yn buffer); [apply IH | discriminate].
Qed.

Lemma collect_response_quiet (time_limit : option Z) (polls : list poll) :
  quiet (collect_response time_limit polls).
Proof.
  intros w e. rewrite collect_response_unfold.
  match goal with |- context [response_loop ?t polls w] =>
    pose proof (response_loop_quiet t polls w) as H;
    destruct (response_loop t polls w) as [[r | e' |] w1] end; try discriminate.
  by specialize (H e').
Qed.

Lemma play_quiet (file prompt : string) (time_limit : option Z) (n : Z)
    (image : string) (total : Z) (test_type : string) :
  quiet (play_stimulus_and_display_prompt file prompt time_limit n image total test_type).
Proof.
  intros w e. unfold play_stimulus_and_display_prompt.
  unfold bind, emit, getDuration, core_wait, advance.
  match goal with |- context [next_script ?w0] =>
    destruct (next_script w0) as [[polls | e' |] w1] eqn:En end;
    [|unfold next_script in En; destruct (scripts _); discriminate..].
  pose proof (collect_response_quiet time_limit polls w1) as H.
  destruct (collect_response time_limit polls w1) as [[r | e' |] w2]; try discriminate.
  by specialize (H e').
Qed.

Lemma display_instructions_quiet (text : string) : quiet (display_instructions text).
Proof.
  intros w e. unfold display_instructions, bind, emit, waitKeys. world_simpl.
  destruct (keywaits w); discriminate.
Qed.

Lemma display_feedback_quiet (correct : bool) : quiet (display_feedback correct).
Proof. intros w e. discriminate. Qed.

Section Raises.

Variable test_type : string.
Variable instruction_texts : gmap string string.
Variable practice_output_filename test_output_filename : string.
Variable base_image_path : string.
Variable participant_info : gmap string string.
Variable with_experiment : bool.

Local Abbreviation missing :=
  (fun e => exists key, e = KeyError key /\
     missing_key test_type instruction_texts participant_info with_experiment key).
Local Abbreviation ledgers := [practice_output_filename; test_output_filename].

Lemma row_text_raises (r : Result.t) :
  raises_only missing (row_text participant_info with_experiment r).
Proof.
  unfold row_text.
  apply raises_only_bind; [|intros experiment].
  { destruct with_experiment eqn:E; [|apply raises_only_ret].
    apply raises_only_bind; [|intros; apply raises_only_ret].
    apply raises_only_getitem. intros H. eexists. split; [reflexivity|].
    right; right. split; [left | exact H]. }
  apply raises_only_bind; [|intros subject].
  { apply raises_only_getitem. intros H. eexists. split; [reflexivity|].
    right; right. split; [|exact H].
    apply elem_of_app. right. left. }
  apply raises_only_bind; [|intros; apply raises_only_ret].
  apply raises_only_getitem. intros H. eexists. split; [reflexivity|].
  right; right. split; [|exact H].
  apply elem_of_app. right. right. left.
Qed.

Lemma with_open_append_outcome {A} (path : string) (body : M A) (w : world) :
  exists w0, fst (with_open_append path body w) = fst (body w0).
Proof.
  unfold with_open_append, bind at 1, fs_open_append.
  match goal with |- context [body ?w0] => exists w0; destruct (body w0) as [o w1] end.
  reflexivity.
Qed.

Lemma append_result_raises (r : Result.t) :
  raises_only missing
    (append_result_to_csv practice_output_filename test_output_filename
       participant_info with_experiment r).
Proof.
  intros w e. unfold append_result_to_csv.
  destruct (with_open_append_outcome (output_filename practice_output_filename
              test_output_filename r)
              (text <- row_text participant_info with_experiment r ;;
               fs_write (output_filename practice_output_filename
                           test_output_filename r) text) w) as [w0 ->].
  revert w0 e. apply raises_only_bind; [apply row_text_raises|].
  intros text w0 e. discriminate.
Qed.

Lemma output_filename_ledger (r : Result.t) :
  output_filename practice_output_filename test_output_filename r ∈ ledgers.
Proof.
  unfold output_filename. destruct (String.eqb _ _); [left | right; left].
Qed.

Lemma saved_appended (t : Z) (path text : string) (w : world) :
  path ∈ ledgers -> ends_line text -> saved ledgers w (appended t path text w).
Proof.
  intros Hp Ht. split; [reflexivity|]. cbn [appended files]. split.
  - intros q Hq. apply lookup_insert_ne. intros ->. done.
  - intros q. unfold content. destruct (decide (path = q)) as [-> | Hne].
    + exists text. split; [|exact Ht]. by rewrite lookup_insert_eq.
    + rewrite lookup_insert_ne by exact Hne.
      exists "". split; [by rewrite string_app_nil_r | by left].
Qed.

Lemma saved_opened (path : string) (w : world) :
  path ∈ ledgers ->
  saved ledgers w (snd (fs_close path (snd (fs_open_append path w)))).
Proof.
  intros Hp. unfold fs_close, fs_open_append.
  cbn [snd files handles set_trace set_handles set_files].
  split; [apply remove_first_head|]. split.
  - intros q Hq. destruct (files w !! path) eqn:E; [reflexivity|].
    apply lookup_insert_ne. intros ->. done.
  - intros q. exists "". split; [|by left]. rewrite string_app_nil_r.
    unfold content. world_simpl.
    destruct (files w !! path) eqn:E; [reflexivity|].
    destruct (decide (path = q)) as [<- | Hne].
    + by rewrite lookup_insert_eq, E.
    + by rewrite lookup_insert_ne.
Qed.

Lemma append_result_saved (r : Result.t) :
  keeps (saved ledgers)
    (append_result_to_csv practice_output_filename test_output_filename
       participant_info with_experiment r).
Proof.
  intros w.
  pose proof (output_filename_ledger r) as Hp.
  destruct (participant_fields participant_info with_experiment)
    as [[[ex su] cd]|] eqn:Hpf.
  - rewrite (append_result_total _ _ _ _ _ _ _ _ _ Hpf). cbn [snd].
    apply saved_appended; [exact Hp|].
    right. apply format_row_ends_line.
  - set (path := output_filename practice_output_filename test_output_filename r) in *.
    assert (Hrow : forall w0, exists e,
               row_text participant_info with_experiment r w0 = (Raise e, w0)).
    { intros w0. pose proof (row_text_world participant_info with_experiment r w0) as Hw.
      destruct (row_text participant_info with_experiment r w0) as [[text | e |] w1] eqn:E;
        cbn [snd] in Hw; subst.
      - apply row_text_Ret in E as (_ & a & b & c & Hsome & _). congruence.
      - eauto.
      - exfalso. revert E. unfold row_text, bind, getitem, ret, raise.
        destruct with_experiment;
          repeat (match goal with |- context [match ?d !! ?k with _ => _ end] =>
                    destruct (d !! k) end; cbn); discriminate. }
    unfold append_result_to_csv, with_open_append. unfold bind at 1.
    fold path.
    destruct (fs_open_append path w) as [o w0] eqn:Eo.
    assert (o = Ret tt) as -> by (unfold fs_open_append in Eo; congruence).
    unfold bind. destruct (Hrow w0) as [e ->].
    replace w0 with (snd (fs_open_append path w)) by (by rewrite Eo).
    destruct (fs_close path _) as [o2 w2] eqn:Ec. cbn [snd].
    replace w2 with (snd (fs_close path (snd (fs_open_append path w)))) by (by rewrite Ec).
    by apply saved_opened.
Qed.

End Raises.

Lemma untouched_keeps {A} (paths : list string) (m : M A) :
  untouched m -> keeps (saved paths) m.
Proof. intros H w. destruct (H w). by apply saved_frame. Qed.

Lemma getitem_untouched (d : gmap string string) (key : string) : untouched (getitem d key).
Proof. intros w. unfold getitem. by destruct (d !! key). Qed.

Lemma display_instructions_untouched (text : string) : untouched (display_instructions text).
Proof.
  intros w. unfold display_instructions, bind, emit, waitKeys. world_simpl.
  by destruct (keywaits w).
Qed.

Lemma display_feedback_untouched (correct : bool) : untouched (display_feedback correct).
Proof. intros w. by split. Qed.

Lemma play_untouched (file prompt : string) (time_limit : option Z) (n : Z)
    (image : string) (total : Z) (test_type : string) :
  untouched (play_stimulus_and_display_prompt file prompt time_limit n image total test_type).
Proof.
  intros w. unfold play_stimulus_and_display_prompt.
  unfold bind, emit, getDuration, core_wait, advance.
  match goal with |- context [next_script ?w0] =>
    assert (exists polls w1, next_script w0 = (Ret polls, w1) /\
              files w1 = files w /\ handles w1 = handles w)
      as (polls & w1 & -> & Hf & Hh)
      by (unfold next_script; world_simpl; destruct (scripts w); eauto)
  end.
  destruct (collect_response_world time_limit polls w1) as (k & _ & Hw).
  destruct (collect_response time_limit polls w1) as [[r | e |] w2];
    cbn [snd] in *; subst w2; by split.
Qed.

Lemma keeps_saved_ret {A} (paths : list string) (a : A) : keeps (saved paths) (ret a).
Proof. apply keeps_ret, saved_refl. Qed.

Lemma keeps_saved_bind {A B} (paths : list string) (m : M A) (f : A -> M B) :
  keeps (saved paths) m -> (forall a, keeps (saved paths) (f a)) ->
  keeps (saved paths) (bind m f).
Proof. apply keeps_bind, saved_trans. Qed.

Lemma keeps_saved_for_enumerate {A S} (paths : list string) (body : S -> Z -> A -> M S) :
  (forall s i x, keeps (saved paths) (body s i x)) ->
  forall l i s, keeps (saved paths) (for_enumerate body i l s).
Proof. apply keeps_for_enumerate; [apply saved_refl | apply saved_trans]. Qed.

Section Saves.

Variable test_type : string.
Variable instruction_texts : gmap string string.
Variable practice_output_filename test_output_filename : string.
Variable base_image_path : string.
Variable participant_info : gmap string string.
Variable with_experiment : bool.

Local Abbreviation missing :=
  (fun e => exists key, e = KeyError key /\
     missing_key test_type instruction_texts participant_info with_experiment key).
Local Abbreviation ledgers := [practice_output_filename; test_output_filename].

Lemma run_trial_saved (phase : string) (time_limit : option Z) (total_trials : Z)
    (start_time : Z) (start_time_str : string) (results : list Result.t)
    (i : Z) (file : string) :
  keeps (saved ledgers)
    (run_trial test_type practice_output_filename test_output_filename base_image_path
       participant_info with_experiment phase time_limit total_trials
       start_time start_time_str results i file).
Proof.
  unfold run_trial.
  apply keeps_saved_bind; [apply untouched_keeps, getitem_untouched | intros plural].
  apply keeps_saved_bind; [apply untouched_keeps, play_untouched | intros response].
  apply keeps_saved_bind; [by apply untouched_keeps | intros end_time].
  apply keeps_saved_bind; [by apply untouched_keeps | intros end_time_str].
  apply keeps_saved_bind; [apply append_result_saved | intros _].
  apply keeps_saved_ret.
Qed.

Lemma run_trial_raises (phase : string) (time_limit : option Z) (total_trials : Z)
    (start_time : Z) (start_time_str : string) (results : list Result.t)
    (i : Z) (file : string) :
  raises_only missing
    (run_trial test_type practice_output_filename test_output_filename base_image_path
       participant_info with_experiment phase time_limit total_trials
       start_time start_time_str results i file).
Proof.
  unfold run_trial.
  apply raises_only_bind; [|intros plural].
  { apply raises_only_getitem. intros H. eexists. split; [reflexivity|].
    left. by split. }
  apply raises_only_bind; [apply quiet_raises_only, play_quiet | intros response].
  apply raises_only_bind; [by intros w e | intros end_time].
  apply raises_only_bind; [by intros w e | intros end_time_str].
  apply raises_only_bind; [apply append_result_raises | intros _].
  apply raises_only_ret.
Qed.

Lemma practice_trial_saved (total_trials start_time : Z) (start_time_str : string)
    (results : list Result.t) (i : Z) (file : string) :
  keeps (saved ledgers)
    (practice_trial test_type instruction_texts practice_output_filename
       test_output_filename base_image_path participant_info with_experiment
       total_trials start_time start_time_str results i file).
Proof.
  unfold practice_trial.
  apply keeps_saved_bind; [apply run_trial_saved | intros [rs response]].
  apply keeps_saved_bind; [apply untouched_keeps, display_feedback_untouched | intros _].
  apply keeps_saved_bind; [apply untouched_keeps, getitem_untouched | intros text].
  apply keeps_saved_bind; [apply untouched_keeps, display_instructions_untouched | intros _].
  apply keeps_saved_ret.
Qed.

Lemma practice_trial_raises (total_trials start_time : Z) (start_time_str : string)
    (results : list Result.t) (i : Z) (file : string) :
  raises_only missing
    (practice_trial test_type instruction_texts practice_output_filename
       test_output_filename base_image_path participant_info with_experiment
       total_trials start_time start_time_str results i file).
Proof.
  unfold practice_trial.
  apply raises_only_bind; [apply run_trial_raises | intros [rs response]].
  apply raises_only_bind; [apply quiet_raises_only, display_feedback_quiet | intros _].
  apply raises_only_bind; [|intros text].
  { apply raises_only_getitem. intros H. eexists. split; [reflexivity|].
    right; left. split; [|exact H].
    destruct (correct_answer_cases file) as [-> | ->];
      [do 2 right; left | do 3 right; left]. }
  apply raises_only_bind; [apply quiet_raises_only, display_instructions_quiet | intros _].
  apply raises_only_ret.
Qed.

Lemma test_trial_saved (total_trials start_time : Z) (start_time_str : string)
    (results : list Result.t) (i : Z) (file : string) :
  keeps (saved ledgers)
    (test_trial test_type practice_output_filename
       test_output_filename base_image_path participant_info with_experiment
       total_trials start_time start_time_str results i file).
Proof.
  unfold test_trial.
  apply keeps_saved_bind; [apply run_trial_saved | intros rr]. apply keeps_saved_ret.
Qed.

Lemma test_trial_raises (total_trials start_time : Z) (start_time_str : string)
    (results : list Result.t) (i : Z) (file : string) :
  raises_only missing
    (test_trial test_type practice_output_filename
       test_output_filename base_image_path participant_info with_experiment
       total_trials start_time start_time_str results i file).
Proof.
  unfold test_trial.
  apply raises_only_bind; [apply run_trial_raises | intros rr]. apply raises_only_ret.
Qed.

Lemma musical_ear_test_saved (example_files test_files : list string) :
  keeps (saved ledgers)
    (musical_ear_test test_type instruction_texts practice_output_filename
       test_output_filename base_image_path participant_info with_experiment
       example_files test_files).
Proof.
  unfold musical_ear_test.
  apply keeps_saved_bind; [by apply untouched_keeps | intros start_time].
  apply keeps_saved_bind; [by apply untouched_keeps | intros start_time_str].
  apply keeps_saved_bind; [apply untouched_keeps, getitem_untouched | intros part1].
  apply keeps_saved_bind; [apply untouched_keeps, display_instructions_untouched | intros _].
  apply keeps_saved_bind; [|intros results].
  { apply keeps_saved_for_enumerate. intros; apply practice_trial_saved. }
  apply keeps_saved_bind; [apply untouched_keeps, getitem_untouched | intros part2].
  apply keeps_saved_bind; [apply untouched_keeps, display_instructions_untouched | intros _].
  apply keeps_saved_bind; [|intros results'; apply keeps_saved_ret].
  apply keeps_saved_for_enumerate. intros; apply test_trial_saved.
Qed.

Lemma musical_ear_test_raises (example_files test_files : list string) :
  raises_only missing
    (musical_ear_test test_type instruction_texts practice_output_filename
       test_output_filename base_image_path participant_info with_experiment
       example_files test_files).
Proof.
  unfold musical_ear_test.
  apply raises_only_bind; [by intros w e | intros start_time].
  apply raises_only_bind; [by intros w e | intros start_time_str].
  apply raises_only_bind; [|intros part1].
  { apply raises_only_getitem. intros H. eexists. split; [reflexivity|].
    right; left. split; [left | exact H]. }
  apply raises_only_bind; [apply quiet_raises_only, display_instructions_quiet | intros _].
  apply raises_only_bind; [|intros results].
  { apply raises_only_for_enumerate. intros; apply practice_trial_raises. }
  apply raises_only_bind; [|intros part2].
  { apply raises_only_getitem. intros H. eexists. split; [reflexivity|].
    right; left. split; [right; left | exact H]. }
  apply raises_only_bind; [apply quiet_raises_only, display_instructions_quiet | intros _].
  apply raises_only_bind; [|intros results'; apply raises_only_ret].
  apply raises_only_for_enumerate. intros; apply test_trial_raises.
Qed.

Lemma configured_no_missing_key (key : string) :
  configured test_type instruction_texts participant_info with_experiment ->
  ~ missing_key test_type instruction_texts participant_info with_experiment key.
Proof.
  intros (Hg & Hp1 & Hp2 & Hy & Hn & Hpf) [[-> H] | [[Hin H] | [Hin H]]].
  - rewrite H in Hg. by destruct Hg.
  - repeat (apply elem_of_cons in Hin as [-> | Hin]);
      [rewrite H in Hp1; by destruct Hp1 | rewrite H in Hp2; by destruct Hp2 |
       rewrite H in Hy; by destruct Hy | rewrite H in Hn; by destruct Hn |
       by apply elem_of_nil in Hin].
  - destruct Hpf as [x Hpf]. unfold participant_fields in Hpf.
    destruct (participant_info !! "experiment") eqn:E1,
             (participant_info !! "Subject_ID") eqn:E2,
             (participant_info !! "cur_date") eqn:E3;
      destruct with_experiment; cbn in Hpf, Hin; try discriminate Hpf;
      repeat (apply elem_of_cons in Hin as [-> | Hin]);
      try (by apply elem_of_nil in Hin); congruence.
Qed.

End Saves.

Section Endings.

Variable test_type : string.
Variable instruction_texts : gmap string string.
Variable practice_output_filename test_output_filename : string.
Variable base_image_path : string.
Variable participant_info : gmap string string.
Variable with_experiment : bool.

(** X6.  However a sub-test ends (it returns, it raises, or it is left
    waiting for the participant), it leaves no file handle open, it has
    changed no file but the two ledgers, and each ledger holds what it
    held before followed by whole lines: rows already saved are never
    lost or rewritten. *)
Theorem ledger_survives_any_ending (example_files test_files : list string) (w : world) :
  let w' := snd (musical_ear_test test_type instruction_texts practice_output_filename
                   test_output_filename base_image_path participant_info with_experiment
                   example_files test_files w) in
  handles w' = handles w /\
  (forall path, path ∉ [practice_output_filename; test_output_filename] ->
     files w' !! path = files w !! path) /\
  (forall path, exists text,
     content (files w') path = content (files w) path ++ text /\ ends_line text).
Proof. apply musical_ear_test_saved. Qed.

(** X7.  The dict lookups of a sub-test.  A [KeyError] that a
    sub-test raises is for a key that it looks up and that the dict in
    question lacks: the test type in the table of German plurals, the
    four instruction keys of the test type, the participant's entries.
    With the dicts configured it raises no [KeyError]. *)
Theorem musical_ear_test_key_errors (example_files test_files : list string)
    (w : world) :
  (forall key,
     fst (musical_ear_test test_type instruction_texts practice_output_filename
            test_output_filename base_image_path participant_info with_experiment
            example_files test_files w) = Raise (KeyError key) ->
     missing_key test_type instruction_texts participant_info with_experiment key) /\
  (configured test_type instruction_texts participant_info with_experiment ->
   forall key,
     fst (musical_ear_test test_type instruction_texts practice_output_filename
            test_output_filename base_image_path participant_info with_experiment
            example_files test_files w) <> Raise (KeyError key)).
Proof.
  split.
  - intros key He. apply musical_ear_test_raises in He as (key' & [= <-] & Hk).
    exact Hk.
  - intros Hc key He. apply musical_ear_test_raises in He as (key' & _ & Hk).
    by apply configured_no_missing_key in Hk.
Qed.

End Endings.

Lemma musical_ear_test_key_errors_witness :
  missing_key "melody" ∅ sample_info true "melody_part1" /\
  (forall key, fst sample_run <> Raise (KeyError key)).
Proof.
  pose proof (musical_ear_test_key_errors "melody" ∅ "practice.csv"
                "test.csv" "pics" sample_info true sample_examples sample_tests
                sample_world) as [H1 _].
  pose proof (musical_ear_test_key_errors "melody" sample_texts
                "practice.csv" "test.csv" "pics" sample_info true sample_examples
                sample_tests sample_world) as [_ H2].
  split.
  - apply H1. vm_compute. reflexivity.
  - apply H2. repeat split; vm_compute; eauto.
Defined.

(** ** Progress bars *)

Lemma progress_bars_app (a b : list (Z * event)) :
  progress_bars (a ++ b) = (progress_bars a ++ progress_bars b)%list.
Proof. apply omap_app. Qed.

Section Progress.

Variable test_type : string.
Variable instruction_texts : gmap string string.
Variable practice_output_filename test_output_filename : string.
Variable base_image_path : string.
Variable participant_info : gmap string string.
Variable with_experiment : bool.

Lemma trial_spec_progress (phase : string) (time_limit : option Z)
    (total_trials start_time : Z) (start_time_str : string)
    (i : Z) (file : string) (w w1 : world) (r : Result.t) :
  trial_spec test_type practice_output_filename test_output_filename
    participant_info with_experiment phase time_limit total_trials
    start_time start_time_str base_image_path i file w r w1 ->
  exists seg, trace w1 = (trace w ++ seg)%list /\
    progress_bars seg =
      [if i + 1 <=? total_trials then Some (i + 1, total_trials) else None].
Proof.
  intros (plural & ex & su & cd & k & w_open & _ & _ & _ & _ & _ & _ & ->).
  cbn [appended trace]. eexists. split; [by rewrite <- app_assoc|]. reflexivity.
Qed.

Lemma steps_progress (P : Z -> string -> world -> Result.t -> world -> Prop)
    (total : Z) :
  (forall i file w r w1, P i file w r w1 ->
     exists seg, trace w1 = (trace w ++ seg)%list /\
       progress_bars seg = [if i + 1 <=? total then Some (i + 1, total) else None]) ->
  forall i l w rs w', steps P i l w rs w' ->
    0 <= i -> i + Z.of_nat (length l) <= total ->
    exists new, trace w' = (trace w ++ new)%list /\
      progress_bars new = imap (fun k _ => Some (i + Z.of_nat k + 1, total)) l.
Proof.
  intros HP i l w rs w' H. induction H as [i w|i file l w w1 w' r rs Hstep _ IH];
    intros Hi Hlen.
  - exists []. by rewrite app_nil_r.
  - cbn [length] in Hlen.
    destruct IH as (new & Htr & Hbars); [lia..|].
    apply HP in Hstep as (seg & Ht1 & Hb1).
    exists (seg ++ new)%list. split; [by rewrite Htr, Ht1, <- app_assoc|].
    rewrite progress_bars_app, Hb1, Hbars. cbn [imap app].
    destruct (Z.leb_spec (i + 1) total); [|lia].
    f_equal; [do 2 f_equal; lia|].
    apply imap_ext. intros k x _. cbn. do 2 f_equal. lia.
Qed.

Lemma subtest_progress (example_files test_files : list string)
    (w w' : world) (rs : list Result.t) :
  subtest_spec test_type instruction_texts practice_output_filename
    test_output_filename base_image_path participant_info with_experiment
    example_files test_files w rs w' ->
  exists new, trace w' = (trace w ++ new)%list /\
    progress_bars new = (counting_up example_files ++ counting_up test_files)%list.
Proof.
  intros (part1 & part2 & w1 & w2 & w3 & practice & scored &
          _ & (dt1 & rest1 & _ & ->) & Hp & _ & (dt2 & rest2 & _ & ->) & Ht & ->).
  eapply (steps_progress _ (Z.of_nat (length example_files))) in Hp
    as (newp & Htrp & Hbp); [|clear Hp|lia..].
  2:{ intros i file w0 r w4 (w5 & text & Hs & _ & dt & rest & _ & ->).
      apply trial_spec_progress in Hs as (seg & Htr & Hb).
      cbn [fed_back trace]. eexists. split; [rewrite Htr, <- !app_assoc; reflexivity|].
      by rewrite !progress_bars_app, Hb. }
  eapply (steps_progress _ (Z.of_nat (length test_files))) in Ht
    as (newt & Htrt & Hbt); [|clear Ht|lia..].
  2:{ intros i file w0 r w4 Hs. by apply trial_spec_progress in Hs. }
  cbn [trace] in Htrp, Htrt.
  eexists. split; [rewrite Htrt, Htrp, <- !app_assoc; reflexivity|].
  rewrite !progress_bars_app, Hbp, Hbt. cbn [progress_bars omap progress_of snd app].
  unfold counting_up. f_equal; apply imap_ext; intros k x _; cbn; do 2 f_equal; lia.
Qed.

End Progress.

(** ** The bar itself *)

Lemma draw_progress_bar_bar (trial_number total_trials : Z) (bar_width bar_height : Q) :
  (0 < bar_width)%Q -> 1 <= trial_number <= total_trials ->
  exists filled,
    draw_progress_bar trial_number total_trials bar_width bar_height =
    Drawn [Rect 0 (-7 # 10) bar_width bar_height "gray";
           Rect (- (bar_width - filled) / 2) (-7 # 10) filled bar_height "black"] /\
    (filled == bar_width * (trial_number # Z.to_pos total_trials))%Q /\
    (0 < filled)%Q /\ (filled <= bar_width)%Q /\
    (trial_number = total_trials -> filled == bar_width)%Q /\
    (- (bar_width - filled) / 2 - filled / 2 == 0 - bar_width / 2)%Q.
Proof.
  intros Hw [Hlo Hhi]. unfold draw_progress_bar. cbv zeta.
  destruct (Z.eqb_spec total_trials 0) as [-> | Hne]; [lia|].
  set (filled := (bar_width * (inject_Z trial_number / inject_Z total_trials))%Q).
  assert (Hfrac : (inject_Z trial_number / inject_Z total_trials ==
                   trial_number # Z.to_pos total_trials)%Q).
  { unfold Qeq, Qdiv, Qmult, Qinv, inject_Z. cbn [Qnum Qden].
    destruct total_trials as [|p|p]; [lia | | lia]. cbn. lia. }
  assert (Hpos : (0 < trial_number # Z.to_pos total_trials)%Q).
  { unfold Qlt. cbn. lia. }
  assert (Hle : (trial_number # Z.to_pos total_trials <= 1)%Q).
  { unfold Qle. cbn. rewrite Z2Pos.id by lia. lia. }
  assert (Hf : (filled == bar_width * (trial_number # Z.to_pos total_trials))%Q).
  { unfold filled. by rewrite Hfrac. }
  assert (Hf0 : (0 < filled)%Q).
  { rewrite Hf. apply Qmult_lt_0_compat; assumption. }
  destruct (Qlt_le_dec 0 filled) as [_ | Hbad]; [|by apply Qle_not_lt in Hbad].
  exists filled. split; [reflexivity|]. split; [exact Hf|]. split; [exact Hf0|].
  split; [|split].
  - rewrite Hf. rewrite <- (Qmult_1_r bar_width) at 2.
    apply Qmult_le_l; assumption.
  - intros ->. rewrite Hf.
    assert ((total_trials # Z.to_pos total_trials == 1)%Q) as ->.
    { unfold Qeq. cbn. rewrite Z2Pos.id by lia. lia. }
    apply Qmult_1_r.
  - field.
Qed.

Section ProgressBars.

Variable test_type : string.
Variable instruction_texts : gmap string string.
Variable practice_output_filename test_output_filename : string.
Variable base_image_path : string.
Variable participant_info : gmap string string.
Variable with_experiment : bool.

(** X8.  In a sub-test that returns, every trial screen carries its
    progress bar, the k-th of the n items of its phase: first the
    practice items, then the scored items, each counted from one.  With
    these numbers [draw_progress_bar] draws the background and the
    filled part; it never divides by zero. *)
Theorem progress_bars_count_up (example_files test_files : list string)
    (w w' : world) (rs : list Result.t) :
  musical_ear_test test_type instruction_texts practice_output_filename
    test_output_filename base_image_path participant_info with_experiment
    example_files test_files w = (Ret rs, w') ->
  exists new, trace w' = (trace w ++ new)%list /\
    progress_bars new = (counting_up example_files ++ counting_up test_files)%list /\
    Forall (fun bar => exists k n background filled,
              bar = Some (k, n) /\ 1 <= k <= n /\
              draw_progress_bar k n (3 # 2) (1 # 10) = Drawn [background; filled])
      (progress_bars new).
Proof.
  intros H. apply musical_ear_test_Ret, subtest_progress in H as (new & Htr & Hb).
  exists new. split; [exact Htr|]. split; [exact Hb|]. rewrite Hb.
  assert (Hc : forall files,
            Forall (fun bar => exists k n background filled,
                      bar = Some (k, n) /\ 1 <= k <= n /\
                      draw_progress_bar k n (3 # 2) (1 # 10) = Drawn [background; filled])
              (counting_up files)).
  { intros files. apply Forall_forall. intros bar Hin.
    apply elem_of_lookup_imap in Hin as (k & x & -> & Hk).
    apply lookup_lt_Some in Hk.
    assert (Hr : 1 <= Z.of_nat k + 1 <= Z.of_nat (length files)) by lia.
    destruct (draw_progress_bar_bar (Z.of_nat k + 1) (Z.of_nat (length files))
                (3 # 2) (1 # 10)) as (f & Hd & _); [reflexivity | exact Hr|].
    eauto 8. }
  apply Forall_app. split; apply Hc.
Qed.

End ProgressBars.

Lemma progress_bars_count_up_witness :
  exists new, trace sample_final = (trace sample_world ++ new)%list /\
    progress_bars new = [Some (1, 2); Some (2, 2); Some (1, 2); Some (2, 2)].
Proof.
  destruct (progress_bars_count_up "melody" sample_texts "practice.csv" "test.csv"
              "pics" sample_info true sample_examples sample_tests sample_world
              sample_final sample_results) as (new & Htr & Hb & _).
  - vm_compute. reflexivity.
  - exists new. split; [exact Htr | exact Hb].
Defined.

(** X9.  [draw_progress_bar] with the bar of the trial screens, 1.5
    wide and 0.1 high, for trial numbers and totals below 2 ^ 1000 in
    absolute value.  With no trials in total it raises
    [ZeroDivisionError], the background being drawn already.  Otherwise
    the sign of the quotient decides: when trial number and total have
    opposite signs, or the trial number is zero, it draws the background
    alone; when they have the same sign it draws the background and a
    filled part of positive width.  When moreover the trial number does
    not exceed the total in absolute value, as from the first trial to
    the last, the filled part is at most as wide as the bar and centred
    in its left half, between -0.75 and 0; at the last trial it is the
    whole bar, centred at 0.  Only the order of the numbers is stated,
    which rounding keeps. *)
Theorem draw_progress_bar_cases (trial_number total_trials : Z) :
  let background := Rect 0 (-7 # 10) (3 # 2) (1 # 10) "gray" in
  let drawn := draw_progress_bar trial_number total_trials (3 # 2) (1 # 10) in
  Z.abs trial_number < 2 ^ 1000 -> Z.abs total_trials < 2 ^ 1000 ->
  (total_trials = 0 -> drawn = ZeroDivisionError [background]) /\
  (total_trials <> 0 -> trial_number * total_trials <= 0 ->
   drawn = Drawn [background]) /\
  (0 < trial_number * total_trials ->
   exists x filled,
     drawn = Drawn [background; Rect x (-7 # 10) filled (1 # 10) "black"] /\
     (0 < filled)%Q /\
     (Z.abs trial_number <= Z.abs total_trials ->
      (filled <= 3 # 2)%Q /\ (- (3 # 4) <= x)%Q /\ (x <= 0)%Q) /\
     (trial_number = total_trials -> (filled == 3 # 2)%Q /\ (x == 0)%Q)).
Proof.
  intros background drawn _ _. subst drawn background.
  unfold draw_progress_bar. cbv zeta.
  split; [by intros ->|].
  destruct (Z.eqb_spec total_trials 0) as [-> | Hne]; [split; [done | lia]|].
  set (q := (inject_Z trial_number / inject_Z total_trials)%Q).
  assert (Hsign : (0 < q)%Q <-> 0 < trial_number * total_trials).
  { unfold q, Qlt, Qdiv, Qmult, Qinv, inject_Z. cbn [Qnum Qden].
    destruct total_trials as [|p|p]; [done | |]; cbn; nia. }
  assert (Hone : Z.abs trial_number <= Z.abs total_trials ->
                 0 < trial_number * total_trials -> (q <= 1)%Q).
  { unfold q, Qle, Qdiv, Qmult, Qinv, inject_Z. cbn [Qnum Qden].
    destruct total_trials as [|p|p]; [done | |]; cbn; nia. }
  assert (Hall : trial_number = total_trials -> (q == 1)%Q).
  { intros ->. unfold q. apply Qmult_inv_r.
    unfold Qeq, inject_Z. cbn. lia. }
  destruct (Qlt_le_dec 0 ((3 # 2) * q)) as [Hpos | Hle].
  - assert (Hq : (0 < q)%Q).
    { destruct (Qlt_le_dec 0 q) as [H | H]; [exact H|]. exfalso.
      apply (Qlt_not_le _ _ Hpos). rewrite <- (Qmult_0_r (3 # 2)).
      by apply Qmult_le_l. }
    split; [intros _ Hprod; apply Hsign in Hq; lia|].
    intros Hprod. eexists _, _. split; [reflexivity|]. split; [exact Hpos|]. split.
    + intros Habs. pose proof (Hone Habs Hprod) as H1.
      assert (Hf : ((3 # 2) * q <= 3 # 2)%Q).
      { rewrite <- (Qmult_1_r (3 # 2)) at 2. by apply Qmult_le_l. }
      split; [exact Hf|]. revert Hf Hpos. generalize ((3 # 2) * q)%Q. intros f Hf Hpos.
      unfold Qle, Qlt, Qdiv, Qmult, Qminus, Qplus, Qopp, Qinv in *.
      destruct f as [a b]. cbn in *. split; lia.
    + intros Heq. rewrite (Hall Heq). split; reflexivity.
  - split; [reflexivity|]. intros Hprod. exfalso. apply Hsign in Hprod.
    apply (Qle_not_lt _ _ Hle). rewrite <- (Qmult_0_r (3 # 2)).
    by apply Qmult_lt_l.
Qed.

Lemma draw_progress_bar_cases_witness :
  draw_progress_bar 3 0 (3 # 2) (1 # 10) =
    ZeroDivisionError [Rect 0 (-7 # 10) (3 # 2) (1 # 10) "gray"] /\
  draw_progress_bar 0 4 (3 # 2) (1 # 10) =
    Drawn [Rect 0 (-7 # 10) (3 # 2) (1 # 10) "gray"] /\
  exists x filled,
    draw_progress_bar 3 4 (3 # 2) (1 # 10) =
    Drawn [Rect 0 (-7 # 10) (3 # 2) (1 # 10) "gray";
           Rect x (-7 # 10) filled (1 # 10) "black"] /\
    (0 < filled)%Q /\ (filled <= 3 # 2)%Q /\ (- (3 # 4) <= x)%Q /\ (x <= 0)%Q.
Proof.
  destruct (draw_progress_bar_cases 3 0) as (H0 & _); [reflexivity..|].
  destruct (draw_progress_bar_cases 0 4) as (_ & H1 & _); [reflexivity..|].
  destruct (draw_progress_bar_cases 3 4) as (_ & _ & H2); [reflexivity..|].
  split; [by apply H0|]. split; [apply H1; lia|].
  destruct H2 as (x & filled & Hd & Hpos & Hin & _); [lia|].
  destruct Hin as (Hf & Hx1 & Hx2); [lia|].
  exists x, filled. by repeat split.
Defined.

(** ** Start-up: the folders *)

Lemma mkdir_outcome (creatable : string -> bool) (path : string) (existing : gset string) :
  path ∉ existing ->
  mkdir creatable path existing =
  if creatable path then (None, {[path]} ∪ existing) else (Some (OSError path), existing).
Proof. intros H. unfold mkdir. by rewrite bool_decide_eq_false_2. Qed.

Lemma check_paths_settled (creatable : string -> bool)
    (base_audio_path base_image_path results_path : string) (existing : gset string) :
  base_audio_path ∈ existing -> base_image_path ∈ existing -> results_path ∈ existing ->
  check_paths creatable base_audio_path base_image_path results_path existing =
  (None, existing).
Proof.
  intros Ha Hi Hr. unfold check_paths.
  rewrite (bool_decide_eq_true_2 _ Ha), (bool_decide_eq_true_2 _ Hi). cbn [negb].
  by rewrite (bool_decide_eq_true_2 _ Hr).
Qed.

(** X10.  [check_paths].  It raises its [Exception] exactly when the
    audio folder is missing, and has then created nothing.  Otherwise
    it creates the image folder and the results folder where
    [os.path.exists] does not find them and nothing else, and keeps
    every path that existed.  [os.mkdir] is called only on a path that
    was not found, so it fails only where the system does not let that
    path be created, and the [OSError] is for the image folder or the
    results folder.  The call returns exactly when the audio folder
    exists and each of the other two exists or can be created; both
    then exist, and a second call returns without creating anything. *)
Theorem check_paths_outcome (creatable : string -> bool)
    (base_audio_path base_image_path results_path : string) (existing : gset string) :
  let raised :=
    fst (check_paths creatable base_audio_path base_image_path results_path existing) in
  let after :=
    snd (check_paths creatable base_audio_path base_image_path results_path existing) in
  (raised = Some (Exception no_audio_folder) <-> base_audio_path ∉ existing) /\
  (base_audio_path ∉ existing -> after = existing) /\
  existing ⊆ after /\
  after ⊆ existing ∪ {[base_image_path; results_path]} /\
  (forall path, raised = Some (OSError path) ->
     (path = base_image_path \/ path = results_path) /\
     path ∉ existing /\ creatable path = false) /\
  (raised = None <->
   base_audio_path ∈ existing /\
   (base_image_path ∈ existing \/ creatable base_image_path = true) /\
   (results_path ∈ existing \/ results_path = base_image_path \/
    creatable results_path = true)) /\
  (raised = None ->
   base_image_path ∈ after /\ results_path ∈ after /\
   check_paths creatable base_audio_path base_image_path results_path after =
   (None, after)).
Proof.
  cbv zeta. unfold check_paths.
  destruct (bool_decide_reflect (base_audio_path ∈ existing)) as [Ha | Ha]; cbn [negb].
  2:{ cbn [fst snd]. repeat split; try done; try set_solver. }
  destruct (bool_decide_reflect (base_image_path ∈ existing)) as [Hi | Hi]; cbn [negb];
    [|rewrite mkdir_outcome by done; destruct (creatable base_image_path) eqn:Ei];
    (match goal with
     | |- context [bool_decide (results_path ∈ ?X)] =>
         destruct (bool_decide_reflect (results_path ∈ X)) as [Hr | Hr]; cbn [negb];
         [|rewrite mkdir_outcome by done; destruct (creatable results_path) eqn:Ec]
     | _ => idtac
     end);
    cbn [fst snd]; repeat split;
    try done; try tauto; try set_solver;
    try (apply check_paths_settled; set_solver);
    try (intros (_ & [? | ?] & [? | [-> | ?]]); solve [done | congruence | set_solver]).
Qed.

Lemma check_paths_outcome_witness :
  check_paths (fun _ => true) "audio" "pics" "results" {["audio"]} =
    (None, {["results"]} ∪ ({["pics"]} ∪ {["audio"]})) /\
  check_paths (fun _ => true) "audio" "pics" "results"
    ({["results"]} ∪ ({["pics"]} ∪ {["audio"]})) =
    (None, {["results"]} ∪ ({["pics"]} ∪ {["audio"]})).
Proof.
  destruct (check_paths_outcome (fun _ => true) "audio" "pics" "results" {["audio"]})
    as (_ & _ & _ & _ & _ & _ & H).
  assert (E : check_paths (fun _ => true) "audio" "pics" "results" {["audio"]} =
              (None, {["results"]} ∪ ({["pics"]} ∪ {["audio"]}))).
  { unfold check_paths.
    rewrite (bool_decide_eq_true_2 ("audio" ∈ ({["audio"]} : gset string))) by set_solver.
    cbn [negb].
    rewrite (bool_decide_eq_false_2 ("pics" ∈ ({["audio"]} : gset string))) by set_solver.
    cbn [negb]. rewrite mkdir_outcome by set_solver.
    rewrite bool_decide_eq_false_2 by set_solver.
    cbn [negb]. rewrite mkdir_outcome by set_solver. reflexivity. }
  split; [exact E|]. rewrite E in H. by apply H.
Defined.

(** ** Start-up: the questionnaire *)

Lemma questionnaire_loop_outcome (questions : list Question.t) :
  Forall bool_or_text questions -> NoDup (map Question.label questions) ->
  forall replies question_dialog result,
    match questionnaire_loop questions replies question_dialog result with
    | Completes data =>
        (length questions <= length replies)%nat /\
        (forall l, l ∉ map Question.label questions -> data !! l = result !! l) /\
        Forall2 (recorded data) questions (take (length questions) replies)
    | Aborts e =>
        e = SystemExit /\
        exists k, (k < length questions)%nat /\ replies !! k = Some Cancel /\
          Forall accepted (take k replies)
    | Waits => (length replies < length questions)%nat /\ Forall accepted replies
    end.
Proof.
  intros Hty Hnd. induction questions as [|q qs IH]; intros replies dlg result.
  - cbn. split; [lia|]. split; [done | constructor].
  - apply Forall_cons in Hty as [Hq Hty]. cbn [map] in Hnd.
    apply NoDup_cons in Hnd as [Hfresh Hnd].
    cbn [questionnaire_loop length].
    assert (Hf : (if String.eqb (Question.type q) "bool" then Some Checkbox
                  else if String.eqb (Question.type q) "text" then Some TextField
                  else dlg) = Some (field_of q)).
    { unfold field_of. destruct Hq as [-> | ->]; reflexivity. }
    rewrite Hf. destruct replies as [|[|ticked typed] replies].
    + split; [simpl; lia | constructor].
    + split; [reflexivity|]. exists 0%nat. split; [lia|]. split; [reflexivity | constructor].
    + specialize (IH Hty Hnd replies (Some (field_of q))
                    (<[Question.label q := data0 (field_of q) ticked typed]> result)).
      destruct (questionnaire_loop qs replies _ _) as [data | e |].
      * destruct IH as (Hlen & Hout & Hrec).
        split; [simpl; lia|]. split.
        -- intros l Hl. rewrite Hout by (intros ?; apply Hl; by right).
           apply lookup_insert_ne. intros <-. apply Hl. left.
        -- cbn [take]. constructor; [|exact Hrec].
           exists ticked, typed. split; [reflexivity|].
           rewrite Hout by exact Hfresh. apply lookup_insert_eq.
      * destruct IH as (-> & k & Hk & Hc & Ha).
        split; [reflexivity|]. exists (S k). split; [lia|]. split; [exact Hc|].
        cbn [take]. constructor; [done | exact Ha].
      * destruct IH as (Hlen & Ha). split; [simpl; lia|]. constructor; [done | exact Ha].
Qed.

Lemma split_from_char_absorb (c : ascii) (cur a rest : string) :
  Py.contains (String c "") a = false ->
  Py.split_from (String c "") 0 cur (a ++ rest) =
  Py.split_from (String c "") 0 (cur ++ a) rest.
Proof.
  revert cur; induction a as [|x a IH]; intros cur H.
  - by rewrite string_app_nil_r.
  - rewrite contains_char_cons in H. apply orb_false_iff in H as [Hx Ha].
    change (String x a ++ rest) with (String x (a ++ rest)).
    rewrite split_from_char_cons, Hx, IH by exact Ha.
    by rewrite string_app_assoc.
Qed.

(** Cells that each start with the comma and hold no other split into
    their values. *)
Lemma split_from_cells (cur : string) (values : list string) :
  Forall comma_free values ->
  Py.split_from "," 0 cur (String.concat "" (map (fun v => "," ++ v) values)) =
  cur :: values.
Proof.
  revert cur; induction values as [|v values IH]; intros cur H; [reflexivity|].
  apply Forall_cons in H as [Hv H]. cbn [map].
  assert (Hc : String.concat "" (("," ++ v) :: map (fun v => "," ++ v) values) =
               String "," (v ++ String.concat "" (map (fun v => "," ++ v) values))).
  { destruct values as [|v' values]; cbn [map String.concat String.append].
    - by rewrite string_app_nil_r.
    - reflexivity. }
  rewrite Hc, split_from_char_cons, Ascii.eqb_refl.
  rewrite split_from_char_absorb by exact Hv. cbn [String.append].
  by rewrite IH.
Qed.

Lemma split_from_segments_free (c : ascii) (cur s : string) :
  Py.contains (String c "") cur = false ->
  Forall (fun seg => Py.contains (String c "") seg = false)
    (Py.split_from (String c "") 0 cur s).
Proof.
  revert cur; induction s as [|a s IH]; intros cur H.
  - by repeat constructor.
  - rewrite split_from_char_cons. destruct (Ascii.eqb c a) eqn:E.
    + constructor; [exact H | by apply IH].
    + apply IH. by rewrite contains_char_app, H, contains_char_cons, E.
Qed.

Lemma concat_free (c : ascii) (parts : list string) :
  Forall (fun seg => Py.contains (String c "") seg = false) parts ->
  Py.contains (String c "") (String.concat "" parts) = false.
Proof.
  induction parts as [|p parts IH]; intros H; [reflexivity|].
  apply Forall_cons in H as [Hp H].
  destruct parts as [|p' parts]; [exact Hp|].
  change (String.concat "" (p :: p' :: parts)) with (p ++ "" ++ String.concat "" (p' :: parts)).
  rewrite !contains_char_app, Hp, (IH H). reflexivity.
Qed.

(** [replace(',', '')] leaves no comma behind. *)
Lemma replace_comma_free (s : string) : comma_free (replace s "," "").
Proof.
  unfold comma_free, replace. apply concat_free.
  by apply (split_from_segments_free ",").
Qed.

Lemma cell_value_comma_free (response : answer) : comma_free (cell_value response).
Proof.
  destruct response as [[|] | s]; try reflexivity. cbn [cell_value].
  destruct (String.eqb s ""); [reflexivity | apply replace_comma_free].
Qed.

(** With every question answered in its own kind, every answer is
    written, as the comma and its value. *)
Lemma answer_cells_recorded (questions : list Question.t) (replies : list reply)
    (data : gmap string answer) :
  Forall bool_or_text questions ->
  Forall2 (recorded data) questions replies ->
  exists responses,
    Forall2 (fun q response => data !! Question.label q = Some response) questions responses /\
    answer_cells questions data =
      (map (fun response => "," ++ cell_value response) responses, None).
Proof.
  intros Hty Hrec. induction Hrec as [|q r qs rs (ticked & typed & -> & Hq) _ IH].
  - exists []. by split.
  - apply Forall_cons in Hty as [Hq_ty Hty].
    destruct (IH Hty) as (responses & Hall & Hcells).
    exists (data0 (field_of q) ticked typed :: responses).
    split; [by constructor|].
    cbn [answer_cells map]. rewrite Hq, Hcells.
    unfold answer_cell, field_of.
    destruct Hq_ty as [E | E]; rewrite E; cbn [String.eqb Ascii.eqb Bool.eqb data0 cell_value].
    + reflexivity.
    + destruct (String.eqb typed ""); reflexivity.
Qed.

Lemma concat_cons (x : string) (xs : list string) :
  String.concat "" (x :: xs) = x ++ String.concat "" xs.
Proof. destruct xs; cbn [String.concat]; [by rewrite string_app_nil_r | reflexivity]. Qed.

Lemma concat_app (xs ys : list string) :
  String.concat "" (xs ++ ys) = String.concat "" xs ++ String.concat "" ys.
Proof.
  induction xs as [|x xs IH]; [reflexivity|].
  change ((x :: xs) ++ ys)%list with (x :: (xs ++ ys))%list.
  by rewrite !concat_cons, IH, string_app_assoc.
Qed.

Lemma split_two_and_cells (a b : string) (values : list string) :
  comma_free a -> comma_free b -> Forall comma_free values ->
  Py.split (a ++ "," ++ b ++ String.concat "" (map (fun v => "," ++ v) values)) "," =
  a :: b :: values.
Proof.
  intros Ha Hb Hv. cbn [String.append].
  rewrite (split_char_field "," a) by exact Ha. unfold Py.split.
  rewrite split_from_char_absorb by exact Hb. cbn [String.append].
  by rewrite split_from_cells.
Qed.

(** X11.  [show_questionnaire] on questions of type [bool] or [text]
    with distinct labels.  It asks them in order, one box each.  It
    quits at the first box that is cancelled, without asking further.
    When every box is accepted it returns a dict whose keys are exactly
    the labels, holding for each question the state of its checkbox or
    the text of its field. *)
Theorem show_questionnaire_outcome (questions : list Question.t) (replies : list reply) :
  Forall bool_or_text questions -> NoDup (map Question.label questions) ->
  match show_questionnaire questions replies with
  | Completes data =>
      (length questions <= length replies)%nat /\
      dom data = list_to_set (map Question.label questions) /\
      Forall2 (recorded data) questions (take (length questions) replies)
  | Aborts e =>
      e = SystemExit /\
      exists k, (k < length questions)%nat /\ replies !! k = Some Cancel /\
        Forall accepted (take k replies)
  | Waits => (length replies < length questions)%nat /\ Forall accepted replies
  end.
Proof.
  intros Hty Hnd. unfold show_questionnaire.
  pose proof (questionnaire_loop_outcome questions Hty Hnd replies None ∅) as H.
  destruct (questionnaire_loop questions replies None ∅) as [data | e |]; [|exact H..].
  destruct H as (Hlen & Hout & Hrec). split; [exact Hlen|]. split; [|exact Hrec].
  apply set_eq. intros l. rewrite elem_of_dom, elem_of_list_to_set. split.
  - intros Hl. destruct (decide (l ∈ map Question.label questions)) as [Hin | Hnot]; [done|].
    rewrite (Hout l Hnot), lookup_empty in Hl. by destruct Hl.
  - intros Hin. apply list_elem_of_fmap in Hin as (q & -> & Hq).
    apply list_elem_of_lookup in Hq as [i Hi].
    destruct (Forall2_lookup_l _ _ _ _ _ Hrec Hi) as (r & _ & ticked & typed & _ & Hq).
    by rewrite Hq.
Qed.

Lemma questions_bool_or_text : Forall bool_or_text questions.
Proof. repeat (apply Forall_cons; split; [(by left) || (by right)|]). constructor. Qed.

Lemma questions_distinct : NoDup (map Question.label questions).
Proof. refine (bool_decide_unpack _ _). vm_compute. exact I. Qed.

Lemma sample_replies_accepted (k : nat) : sample_replies !! k <> Some Cancel.
Proof. do 9 (destruct k as [|k]; [discriminate|]). discriminate. Qed.

(** The texts written to the questionnaire file make two lines. *)
Lemma questionnaire_lines (questions : list Question.t) (responses : list answer)
    (subject cur_date : string) :
  String.concat ""
    (header_cells questions ++ [(subject ++ "," ++ cur_date)%string] ++
     map (fun response => ("," ++ cell_value response)%string) responses ++
     [newline])%list =
  ("Subject_ID,Date" ++
   String.concat "" (map (fun v => "," ++ v) (map Question.label questions))) ++
  newline ++
  (subject ++ "," ++ cur_date ++
   String.concat "" (map (fun v => "," ++ v) (map cell_value responses))) ++
  newline.
Proof.
  unfold header_cells.
  rewrite !concat_app, !concat_cons, !concat_app. cbn [String.concat].
  rewrite <- !list_fmap_compose. unfold compose.
  rewrite !string_app_nil_r, !string_app_assoc. reflexivity.
Qed.

(** A questionnaire that is answered records every answer. *)
Lemma show_questionnaire_recorded (questions : list Question.t) (replies : list reply)
    (data : gmap string answer) :
  Forall bool_or_text questions -> NoDup (map Question.label questions) ->
  show_questionnaire questions replies = Completes data ->
  Forall2 (recorded data) questions (take (length questions) replies).
Proof.
  intros Hty Hnd Hshow. unfold show_questionnaire in Hshow.
  pose proof (questionnaire_loop_outcome questions Hty Hnd replies None ∅) as H.
  rewrite Hshow in H. by destruct H as (_ & _ & Hrec).
Qed.

Lemma sample_questionnaire_completes :
  exists data, show_questionnaire questions sample_replies = Completes data.
Proof.
  unfold show_questionnaire.
  pose proof (questionnaire_loop_outcome questions questions_bool_or_text
                questions_distinct sample_replies None ∅) as H.
  destruct (questionnaire_loop questions sample_replies None ∅) as [data | e |].
  - eauto.
  - destruct H as (_ & k & _ & Hk & _). by apply sample_replies_accepted in Hk.
  - destruct H as (Hlen & _). simpl in Hlen. lia.
Qed.

Lemma show_questionnaire_outcome_witness :
  match show_questionnaire questions sample_replies with
  | Completes data =>
      dom data = list_to_set (map Question.label questions) /\
      Forall2 (recorded data) questions sample_replies
  | _ => False
  end.
Proof.
  pose proof (show_questionnaire_outcome questions sample_replies
                questions_bool_or_text questions_distinct) as H.
  destruct (show_questionnaire questions sample_replies) as [data | e |].
  - destruct H as (_ & Hdom & Hrec). split; [exact Hdom | exact Hrec].
  - destruct H as (_ & k & _ & Hk & _). by apply sample_replies_accepted in Hk.
  - destruct H as (Hlen & _). simpl in Hlen. lia.
Defined.

(** X12.  The questionnaire file.  For questions of type [bool] or
    [text] with distinct, comma-free labels, answered through
    [show_questionnaire], and a subject id and date without comma,
    [main] writes two lines and raises nothing.  The first line splits
    at its commas into [Subject_ID], [Date] and the labels; the second
    into the subject id, the date and one value per question: [True] or
    [False] for a checkbox, [NA] for an empty text, the text with its
    commas removed otherwise.  Whatever the participant types, the two
    lines have the same number of columns. *)
Theorem questionnaire_file_columns (questions : list Question.t) (replies : list reply)
    (data : gmap string answer) (participant_info : gmap string string)
    (subject cur_date : string) :
  Forall bool_or_text questions -> NoDup (map Question.label questions) ->
  Forall (fun q => comma_free (Question.label q)) questions ->
  show_questionnaire questions replies = Completes data ->
  participant_info !! "Subject_ID" = Some subject ->
  participant_info !! "cur_date" = Some cur_date ->
  comma_free subject -> comma_free cur_date ->
  exists (responses : list answer) (line1 line2 : string),
    Forall2 (fun q response => data !! Question.label q = Some response)
      questions responses /\
    questionnaire_texts questions data participant_info =
      ((header_cells questions ++ [(subject ++ "," ++ cur_date)%string] ++
        map (fun response => ("," ++ cell_value response)%string) responses ++
        [newline])%list,
       None) /\
    String.concat "" (fst (questionnaire_texts questions data participant_info)) =
      line1 ++ newline ++ line2 ++ newline /\
    Py.split line1 "," = "Subject_ID" :: "Date" :: map Question.label questions /\
    Py.split line2 "," = subject :: cur_date :: map cell_value responses /\
    length (Py.split line1 ",") = length (Py.split line2 ",").
Proof.
  intros Hty Hnd Hlabels Hshow Hsubject Hdate Hsu Hcd.
  pose proof (show_questionnaire_recorded _ _ _ Hty Hnd Hshow) as Hrec.
  destruct (answer_cells_recorded _ _ _ Hty Hrec) as (responses & Hall & Hcells).
  exists responses,
    ("Subject_ID,Date" ++
     String.concat "" (map (fun v => "," ++ v) (map Question.label questions))),
    (subject ++ "," ++ cur_date ++
     String.concat "" (map (fun v => "," ++ v) (map cell_value responses))).
  assert (Htexts : questionnaire_texts questions data participant_info =
      ((header_cells questions ++ [(subject ++ "," ++ cur_date)%string] ++
        map (fun response => ("," ++ cell_value response)%string) responses ++
        [newline])%list,
       None)).
  { unfold questionnaire_texts. by rewrite Hsubject, Hdate, Hcells. }
  assert (H1 : Py.split ("Subject_ID,Date" ++
                 String.concat "" (map (fun v => "," ++ v) (map Question.label questions)))
                 "," = "Subject_ID" :: "Date" :: map Question.label questions).
  { apply (split_two_and_cells "Subject_ID" "Date"); [reflexivity..|].
    by apply Forall_fmap. }
  assert (H2 : Py.split (subject ++ "," ++ cur_date ++
                 String.concat "" (map (fun v => "," ++ v) (map cell_value responses)))
                 "," = subject :: cur_date :: map cell_value responses).
  { apply split_two_and_cells; [exact Hsu | exact Hcd|].
    apply Forall_fmap, Forall_forall. intros r _. apply cell_value_comma_free. }
  split; [exact Hall|]. split; [exact Htexts|]. split; [|split; [exact H1|split; [exact H2|]]].
  - rewrite Htexts. cbn [fst]. apply questionnaire_lines.
  - rewrite H1, H2. cbn [length]. rewrite !length_map.
    by rewrite (Forall2_length _ _ _ Hall).
Qed.

Lemma questionnaire_file_columns_witness :
  exists data responses line1 line2,
    show_questionnaire questions sample_replies = Completes data /\
    Forall2 (fun q response => data !! Question.label q = Some response)
      questions responses /\
    String.concat "" (fst (questionnaire_texts questions data sample_info)) =
      line1 ++ newline ++ line2 ++ newline /\
    Py.split line2 "," = "s01" :: "2023-05-06 10:00" :: map cell_value responses /\
    length (Py.split line1 ",") = 11%nat /\ length (Py.split line2 ",") = 11%nat.
Proof.
  destruct sample_questionnaire_completes as [data E].
  destruct (questionnaire_file_columns questions sample_replies data sample_info "s01"
              "2023-05-06 10:00" questions_bool_or_text questions_distinct)
    as (responses & line1 & line2 & Hall & _ & Hcat & H1 & H2 & Hlen);
    [|exact E|reflexivity..|].
  { repeat (apply Forall_cons; split; [reflexivity|]). constructor. }
  exists data, responses, line1, line2.
  split; [exact E|]. split; [exact Hall|]. split; [exact Hcat|]. split; [exact H2|].
  rewrite <- Hlen, H1. by split.
Defined.

Example cell_value_strips_commas :
  cell_value (Typed "Geige (3 Jahre), Klavier") = "Geige (3 Jahre) Klavier" /\
  cell_value (Typed "") = "NA" /\ cell_value (Ticked true) = "True".
Proof. repeat split. Qed.

(** ** The programs *)

Lemma pbind_inv {A B} (m : Prog A) (f : A -> Prog B) (s s' : gset string * world)
    (o : ending B) :
  pbind m f s = (o, s') ->
  (exists a s1, m s = (Completes a, s1) /\ f a s1 = (o, s')) \/
  (exists e, m s = (Aborts e, s') /\ o = Aborts e) \/
  (m s = (Waits, s') /\ o = Waits).
Proof.
  unfold pbind. destruct (m s) as [[a | e |] s1]; intros H.
  - left. eauto.
  - right; left. injection H as <- <-. eauto.
  - right; right. injection H as <- <-. eauto.
Qed.

(** Consecutive steps in the world are one computation in the world. *)
Lemma in_world_bind {A B} (m : M A) (f : A -> M B) (s : gset string * world) :
  pbind (in_world m) (fun a => in_world (f a)) s = in_world (bind m f) s.
Proof.
  unfold pbind, in_world, bind. destruct s as [folders w]. cbn [fst snd].
  destruct (m w) as [[a | e |] w1]; cbn [fst snd]; [|reflexivity..].
  reflexivity.
Qed.

Lemma in_world_ending {A} (m : M A) (s s' : gset string * world) (o : ending A) :
  in_world m s = (o, s') ->
  fst s' = fst s /\ snd s' = snd (m (snd s)) /\
  o = match fst (m (snd s)) with
      | Ret a => Completes a
      | Raise e => Aborts (Uncaught e)
      | Stuck => Waits
      end.
Proof.
  unfold in_world. destruct (m (snd s)) as [r w1]. intros [= <- <-]. by repeat split.
Qed.

Lemma check_paths_raised (creatable : string -> bool)
    (base_audio_path base_image_path results_path : string)
    (existing after : gset string) (e : abort) :
  check_paths creatable base_audio_path base_image_path results_path existing =
    (Some e, after) ->
  (e = Exception no_audio_folder /\ (base_audio_path ∉ existing) /\ after = existing) \/
  (base_audio_path ∈ existing /\
   exists path, e = OSError path /\ (path = base_image_path \/ path = results_path) /\
     (path ∉ after) /\ creatable path = false).
Proof.
  unfold check_paths.
  destruct (bool_decide_reflect (base_audio_path ∈ existing)) as [Ha | Ha]; cbn [negb].
  2:{ intros [= <- <-]. by left. }
  intros H. right. split; [exact Ha|]. revert H.
  destruct (bool_decide_reflect (base_image_path ∈ existing)) as [Hi | Hi]; cbn [negb].
  - destruct (bool_decide_reflect (results_path ∈ existing)) as [Hr | Hr]; cbn [negb];
      [discriminate|].
    rewrite mkdir_outcome by done.
    destruct (creatable results_path) eqn:Ec; [discriminate|].
    intros [= <- <-]. exists results_path. by repeat split; auto.
  - rewrite mkdir_outcome by done.
    destruct (creatable base_image_path) eqn:Ei.
    + destruct (bool_decide_reflect (results_path ∈ {[base_image_path]} ∪ existing))
        as [Hr | Hr]; cbn [negb]; [discriminate|].
      rewrite mkdir_outcome by done.
      destruct (creatable results_path) eqn:Ec; [discriminate|].
      intros [= <- <-]. exists results_path. by repeat split; auto.
    + intros [= <- <-]. exists base_image_path. by repeat split; auto.
Qed.

Lemma get_participant_info_entries (with_experiment : bool) (cur_date subject : string) :
  exists participant_info,
    get_participant_info with_experiment cur_date (Some subject) =
      Completes participant_info /\
    participant_info !! "Subject_ID" = Some subject /\
    participant_info !! "cur_date" = Some cur_date /\
    participant_info !! "experiment" =
      (if with_experiment then Some "musical_ear_test" else None).
Proof.
  eexists. split; [reflexivity|]. destruct with_experiment; cbn [id].
  - repeat split; by simplify_map_eq.
  - repeat split; by simplify_map_eq.
Qed.

Lemma participant_fields_entries (participant_info : gmap string string)
    (with_experiment : bool) (cur_date subject : string) :
  participant_info !! "Subject_ID" = Some subject ->
  participant_info !! "cur_date" = Some cur_date ->
  participant_info !! "experiment" =
    (if with_experiment then Some "musical_ear_test" else None) ->
  participant_fields participant_info with_experiment =
  Some (if with_experiment then "musical_ear_test," else "", subject, cur_date).
Proof.
  intros Hs Hd He. unfold participant_fields. rewrite Hs, Hd.
  destruct with_experiment; [by rewrite He | reflexivity].
Qed.

(** *** Writing a file anew *)

Lemma with_open_write_write (path text : string) (w : world) :
  with_open_write path (fs_write path text) w = (Ret tt, overwritten path text w).
Proof.
  unfold with_open_write, bind, fs_open_write, fs_write, fs_close. f_equal.
  destruct w as [t0 off dur scr kw fs hs tr].
  cbv [overwritten set_now set_files set_handles set_trace
       now utc_offset durations scripts keywaits files handles trace].
  rewrite remove_first_head, lookup_insert_eq, insert_insert_eq, <- !app_assoc.
  reflexivity.
Qed.

(** *** [musical_ear.py] *)

Lemma met_texts_configured (test_type : string) (participant_info : gmap string string)
    (subject cur_date : string) :
  test_type = "melody" \/ test_type = "rhythm" ->
  participant_info !! "Subject_ID" = Some subject ->
  participant_info !! "cur_date" = Some cur_date ->
  participant_info !! "experiment" = Some "musical_ear_test" ->
  configured test_type Met.instruction_texts participant_info true.
Proof.
  intros Ht Hs Hd He.
  assert (Hpf : is_Some (participant_fields participant_info true)).
  { rewrite (participant_fields_entries _ true cur_date subject); eauto. }
  destruct Ht as [-> | ->]; repeat split; try exact Hpf;
    eexists; vm_compute; reflexivity.
Qed.

(** What start-up has settled when the session of [musical_ear.py]
    begins. *)
Lemma met_main_started (d : desk) (s s' : gset string * world) (o : ending unit) :
  Met.main d s = (o, s') ->
  (exists e, o = Aborts e /\ snd s' = snd s /\
     ((e = Exception no_audio_folder /\ (Met.base_audio_path ∉ fst s) /\ fst s' = fst s) \/
      (exists path, e = OSError path /\
         (path = Met.base_image_path \/ path = Met.results_path) /\
         (path ∉ fst s') /\ creatable d path = false) \/
      (e = SystemExit /\ dialog d = None) \/
      (exists e0, e = Uncaught e0 /\
         (load_audio_files "audio" "melody" (listing d) = Exn e0 \/
          load_audio_files "audio" "rhythm" (listing d) = Exn e0)))) \/
  (exists subject participant_info melody rhythm,
     check_paths (creatable d) Met.base_audio_path Met.base_image_path Met.results_path
       (fst s) = (None, fst s') /\
     dialog d = Some subject /\
     get_participant_info true (cur_date d) (dialog d) = Completes participant_info /\
     load_audio_files Met.base_audio_path "melody" (listing d) = Ok melody /\
     load_audio_files Met.base_audio_path "rhythm" (listing d) = Ok rhythm /\
     in_world (Met.session d participant_info melody rhythm) (fst s', snd s) = (o, s')).
Proof.
  unfold Met.main. destruct s as [folders w], s' as [folders' w']. cbn [fst snd].
  intros H. apply pbind_inv in H as [(u & s1 & H1 & H) | [(e & H1 & ->) | [H1 _]]].
  3:{ unfold on_folders in H1. destruct (check_paths _ _ _ _ _) as [[?|] ?]; discriminate. }
  2:{ left. exists e. split; [reflexivity|].
      unfold on_folders in H1. cbn [fst snd] in H1.
      destruct (check_paths _ _ _ _ _) as [[e'|] after] eqn:Ecp; [|discriminate].
      injection H1 as -> -> ->. split; [reflexivity|].
      apply check_paths_raised in Ecp as [(-> & Ha & ->) | (_ & path & -> & Hp & Hn & Hc)].
      - by left.
      - right; left. exists path. by repeat split. }
  unfold on_folders in H1. cbn [fst snd] in H1.
  destruct (check_paths _ _ _ _ _) as [[e'|] after] eqn:Ecp; [discriminate|].
  injection H1 as <- <-.
  apply pbind_inv in H as [(participant_info & s2 & H2 & H) | [(e & H2 & ->) | [H2 _]]].
  3:{ unfold of_ending, get_participant_info in H2. destruct (dialog d); discriminate. }
  2:{ left. exists e. unfold of_ending, get_participant_info in H2.
      destruct (dialog d) eqn:Ed; [discriminate|]. injection H2 as <- <- <-.
      split; [reflexivity|]. split; [reflexivity|]. right; right; left. by split. }
  unfold of_ending in H2. injection H2 as H2 <-.
  assert (exists subject, dialog d = Some subject) as [subject Hsub].
  { unfold get_participant_info in H2. destruct (dialog d); [eauto | discriminate]. }
  apply pbind_inv in H as [(melody & s3 & H3 & H) | [(e & H3 & ->) | [H3 _]]].
  3:{ unfold of_res, of_ending in H3.
      destruct (load_audio_files _ "melody" _); discriminate. }
  2:{ left. exists e. unfold of_res, of_ending in H3.
      destruct (load_audio_files _ "melody" _) as [?|e'] eqn:El; [discriminate|].
      injection H3 as <- <- <-.
      split; [reflexivity|]. split; [reflexivity|]. do 3 right.
      exists e'. split; [reflexivity|]. left. first [exact El | reflexivity]. }
  unfold of_res, of_ending in H3.
  destruct (load_audio_files _ "melody" _) as [melody'|?] eqn:Elm; [|discriminate].
  injection H3 as <- <-.
  apply pbind_inv in H as [(rhythm & s4 & H4 & H) | [(e & H4 & ->) | [H4 _]]].
  3:{ unfold of_res, of_ending in H4.
      destruct (load_audio_files _ "rhythm" _); discriminate. }
  2:{ left. exists e. unfold of_res, of_ending in H4.
      destruct (load_audio_files _ "rhythm" _) as [?|e'] eqn:El; [discriminate|].
      injection H4 as <- <- <-.
      split; [reflexivity|]. split; [reflexivity|]. do 3 right.
      exists e'. split; [reflexivity|]. right. first [exact El | reflexivity]. }
  unfold of_res, of_ending in H4.
  destruct (load_audio_files _ "rhythm" _) as [rhythm'|?] eqn:Elr; [|discriminate].
  injection H4 as <- <-.
  right. exists subject, participant_info, melody', rhythm'.
  apply in_world_ending in H as Hw. cbn [fst snd] in Hw. destruct Hw as (<- & _).
  by repeat split.
Qed.

(** *** What a sub-test leaves behind *)

Lemma tail_drop {A} (l : list A) : tail l = drop 1 l.
Proof. by destruct l. Qed.

Lemma steps_frame (P : Z -> string -> world -> Result.t -> world -> Prop) (pressed : bool) :
  (forall i file w r w1, P i file w r w1 ->
     scripts w1 = tail (scripts w) /\
     keywaits w1 = if pressed then tail (keywaits w) else keywaits w) ->
  forall i l w rs w', steps P i l w rs w' ->
    scripts w' = drop (length l) (scripts w) /\
    keywaits w' = drop (if pressed then length l else 0%nat) (keywaits w).
Proof.
  intros HP i l w rs w' H. induction H as [i w|i file l w w1 w' r rs Hstep _ [IHs IHk]].
  - by destruct pressed.
  - apply HP in Hstep as [Hs Hk]. rewrite IHs, IHk, Hs, Hk. cbn [length].
    destruct pressed; rewrite ?tail_drop, ?drop_drop; done.
Qed.

Lemma filter_keep {A} (f : A -> bool) (l : list A) :
  Forall (fun x => f x = true) l -> List.filter f l = l.
Proof. induction 1 as [|x l Hx _ IH]; cbn; [done|]. by rewrite Hx, IH. Qed.

Lemma filter_drop {A} (f : A -> bool) (l : list A) :
  Forall (fun x => f x = false) l -> List.filter f l = [].
Proof. induction 1 as [|x l Hx _ IH]; cbn; [done|]. by rewrite Hx, IH. Qed.

Lemma header_phase (phase : string) (l : list string) (rs : list Result.t) :
  map header rs = numbered phase l -> Forall (fun r => Result.phase r = phase) rs.
Proof.
  unfold numbered.
  enough (forall (g : nat -> Z) rs,
            map header rs = imap (fun k file => (g k, phase, file)) l ->
            Forall (fun r => Result.phase r = phase) rs) as H by apply H.
  induction l as [|file l IH]; intros g [|r rs']; cbn [imap map]; try discriminate.
  - constructor.
  - intros [= _ Hp _ H]. constructor; [exact Hp|]. exact (IH (g ∘ S) rs' H).
Qed.

Section Ledger.

Variable practice_output_filename test_output_filename : string.
Variable row_of : Result.t -> string.

Local Abbreviation dest_of :=
  (output_filename practice_output_filename test_output_filename).
Local Abbreviation ledger :=
  (foldl (fun fs r => append_to fs (dest_of r) (row_of r))).

(** The rows go to the two ledgers and nowhere else. *)
Lemma ledger_other (fs : gmap string string) (rs : list Result.t) (path : string) :
  path <> practice_output_filename -> path <> test_output_filename ->
  ledger fs rs !! path = fs !! path.
Proof.
  intros Hp Ht. revert fs. induction rs as [|r rs IH]; intros fs; cbn [foldl]; [done|].
  rewrite IH. unfold append_to. apply lookup_insert_ne.
  unfold output_filename. destruct (String.eqb _ _); congruence.
Qed.

(** A ledger that exists grows by the rows sent to it, in order. *)
Lemma ledger_lookup (fs : gmap string string) (rs : list Result.t) (path held : string) :
  fs !! path = Some held ->
  ledger fs rs !! path =
  Some (held ++ String.concat ""
                  (map row_of (List.filter (fun r => String.eqb (dest_of r) path) rs))).
Proof.
  revert fs held. induction rs as [|r rs IH]; intros fs held Hheld; cbn [foldl].
  - cbn. by rewrite string_app_nil_r.
  - cbn [List.filter]. destruct (String.eqb_spec (dest_of r) path) as [E | E].
    + rewrite (IH _ (held ++ row_of r)).
      * cbn [map String.concat]. destruct (map row_of _) eqn:Em.
        -- by rewrite !string_app_nil_r.
        -- cbn [String.append]. by rewrite string_app_assoc.
      * unfold append_to. rewrite E, lookup_insert_eq, Hheld. reflexivity.
    + apply IH. unfold append_to. by rewrite lookup_insert_ne.
Qed.

Lemma filter_practice (rs : list Result.t) :
  Forall (fun r => Result.phase r = "practice") rs ->
  List.filter (fun r => String.eqb (dest_of r) practice_output_filename) rs = rs /\
  (practice_output_filename <> test_output_filename ->
   List.filter (fun r => String.eqb (dest_of r) test_output_filename) rs = []).
Proof.
  intros H. split; [|intros Hne]; [apply filter_keep | apply filter_drop];
    (eapply Forall_impl; [exact H|]); intros r Hr; unfold output_filename; rewrite Hr;
    cbn; [apply String.eqb_refl | by apply String.eqb_neq].
Qed.

Lemma filter_test (rs : list Result.t) :
  Forall (fun r => Result.phase r = "test") rs ->
  List.filter (fun r => String.eqb (dest_of r) test_output_filename) rs = rs /\
  (practice_output_filename <> test_output_filename ->
   List.filter (fun r => String.eqb (dest_of r) practice_output_filename) rs = []).
Proof.
  intros H. split; [|intros Hne]; [apply filter_keep | apply filter_drop];
    (eapply Forall_impl; [exact H|]); intros r Hr; unfold output_filename; rewrite Hr;
    cbn; [apply String.eqb_refl | by apply String.eqb_neq].
Qed.

End Ledger.

Section Account.

Variable test_type : string.
Variable instruction_texts : gmap string string.
Variable practice_output_filename test_output_filename : string.
Variable base_image_path : string.
Variable participant_info : gmap string string.
Variable with_experiment : bool.

Local Abbreviation dest_of :=
  (output_filename practice_output_filename test_output_filename).
Local Abbreviation row_of := (ledger_row participant_info with_experiment).

(** What a returning sub-test has done: the records of the two phases,
    the rows appended, and the scripts and key presses used up. *)
Lemma subtest_account (example_files test_files : list string) (w w' : world)
    (rs : list Result.t) :
  musical_ear_test test_type instruction_texts practice_output_filename
    test_output_filename base_image_path participant_info with_experiment
    example_files test_files w = (Ret rs, w') ->
  exists practice scored,
    rs = (practice ++ scored)%list /\
    map header practice = numbered "practice" example_files /\
    map header scored = numbered "test" test_files /\
    Forall (fun r => Result.type r = test_type /\
                     Result.accuracy r =
                       accuracy (Result.response r) (correct_answer (Result.stimulus r)) /\
                     (Result.response r = "yes" \/ Result.response r = "no" \/
                      Result.response r = "NA")) rs /\
    files w' = foldl (fun fs r => append_to fs (dest_of r) (row_of r)) (files w) rs /\
    handles w' = handles w /\
    scripts w' = drop (length example_files + length test_files) (scripts w) /\
    keywaits w' = drop (length example_files + 2) (keywaits w).
Proof.
  intros H. apply musical_ear_test_Ret in H.
  assert (Hall : Forall (fun r => Result.type r = test_type /\
                     Result.accuracy r =
                       accuracy (Result.response r) (correct_answer (Result.stimulus r)) /\
                     (Result.response r = "yes" \/ Result.response r = "no" \/
                      Result.response r = "NA")) rs).
  { eapply subtest_Forall; [|exact H].
    intros phase tl total i file w0 r w1 Hs.
    apply trial_spec_fields in Hs as (Hr & Hv & _).
    split; [by rewrite Hr | split; [by rewrite Hr | exact Hv]]. }
  destruct H as (part1 & part2 & w1 & w2 & w3 & practice & scored &
                 _ & Hi1 & Hp & _ & Hi2 & Ht & ->).
  exists practice, scored. split; [reflexivity|].
  split.
  { erewrite steps_numbered; [|intros i file w0 r w4 H|exact Hp]; [reflexivity|].
    apply practice_spec_trial in H as (w5 & H). eapply trial_spec_header, H. }
  split.
  { erewrite steps_numbered; [|intros i file w0 r w4 H|exact Ht]; [reflexivity|].
    eapply trial_spec_header, H. }
  split; [exact Hall|].
  pose proof (steps_frame _ true
                ltac:(intros i file w0 r w4 Hs;
                      apply practice_spec_frame in Hs as (_ & _ & Hs1 & Hs2 & _);
                      by split) _ _ _ _ _ Hp) as [Hsc2 Hkw2].
  pose proof (steps_frame _ false
                ltac:(intros i file w0 r w4 Hs;
                      apply trial_spec_frame in Hs as (_ & _ & Hs1 & Hs2 & _);
                      by split) _ _ _ _ _ Ht) as [Hsc4 Hkw4].
  eapply steps_ledger in Hp as (newp & _ & _ & Hfs2 & Hh2).
  2:{ intros i file w0 r w4 (w5 & text & Hs & _ & dt & rest & _ & ->).
      apply trial_spec_ledger in Hs as (seg & Hs1 & Hs2 & Hs3 & Hs4).
      cbn [fed_back trace files handles]. eexists. split; [|split; [|split]].
      - rewrite Hs1, <- !app_assoc. reflexivity.
      - by rewrite !file_events_app, Hs2.
      - exact Hs3.
      - exact Hs4. }
  eapply steps_ledger in Ht as (newt & _ & _ & Hfs4 & Hh4);
    [|intros i file w0 r w4 Hs; eapply trial_spec_ledger, Hs].
  destruct Hi1 as (dt1 & rest1 & Hk1 & ->). destruct Hi2 as (dt2 & rest2 & Hk2 & ->).
  cbn [trace files handles scripts keywaits] in *.
  split; [rewrite Hfs4, Hfs2, foldl_app; reflexivity|].
  split; [congruence|].
  split.
  - rewrite Hsc4, Hsc2, drop_drop. reflexivity.
  - rewrite Hkw4, drop_0. change rest2 with (tail (dt2 :: rest2)).
    rewrite <- Hk2, Hkw2. change rest1 with (tail (dt1 :: rest1)).
    rewrite <- Hk1, !tail_drop, !drop_drop. f_equal. lia.
Qed.

End Account.
(** *** Sub-tests in a row *)

Lemma bind_step {A B} (m : M A) (f : A -> M B) (w w1 : world) (a : A) :
  m w = (Ret a, w1) -> bind m f w = f a w1.
Proof. intros H. unfold bind. by rewrite H. Qed.

Lemma getitem_step {B} (d : gmap string string) (key v : string) (f : string -> M B)
    (w : world) :
  d !! key = Some v -> bind (getitem d key) f w = f v w.
Proof. intros H. apply bind_step. unfold getitem. by rewrite H. Qed.

Section Prelude.

Variable instruction_texts : gmap string string.

(** The general instruction, shown before the first sub-test only. *)
Local Abbreviation prelude i :=
  (if i =? 0
   then intro <- getitem instruction_texts "general_intro" ;;
        display_instructions intro
   else ret tt).

Lemma prelude_Ret (i : Z) (w w0 : world) (u : unit) :
  prelude i w = (Ret u, w0) ->
  files w0 = files w /\ handles w0 = handles w /\ scripts w0 = scripts w /\
  keywaits w0 = (if i =? 0 then tail (keywaits w) else keywaits w) /\
  exists shown, trace w0 = (trace w ++ shown)%list.
Proof.
  destruct (i =? 0).
  - intros H. apply bind_Ret in H as (intro & w1 & Hg & H).
    apply getitem_Ret in Hg as [_ ->].
    apply display_instructions_Ret in H as (dt & rest & Hk & ->).
    rewrite Hk. cbn. repeat split. eauto.
  - intros H. inversion H; subst. repeat split. exists []. by rewrite app_nil_r.
Qed.

Lemma prelude_returns (i : Z) (w : world) :
  is_Some (instruction_texts !! "general_intro") -> keywaits w <> [] ->
  exists w0, prelude i w = (Ret tt, w0).
Proof.
  intros [intro Hi] Hk. destruct (i =? 0); [|by eexists].
  rewrite (getitem_step _ _ _ _ _ Hi). by apply display_instructions_returns.
Qed.

Variable practice_output_filename test_output_filename : string.
Variable base_image_path : string.
Variable participant_info : gmap string string.
Variable with_experiment : bool.

(** A sub-test the participant sees through returns, and the
    participant then sees the rest through. *)
Lemma subtest_seen_through (test_type : string) (example_files test_files : list string)
    (rest : list (list string * list string)) (closing : nat) (w : world) :
  configured test_type instruction_texts participant_info with_experiment ->
  sees_through ((example_files, test_files) :: rest) closing (scripts w) (keywaits w) ->
  exists rs w',
    musical_ear_test test_type instruction_texts practice_output_filename
      test_output_filename base_image_path participant_info with_experiment
      example_files test_files w = (Ret rs, w') /\
    sees_through rest closing (scripts w') (keywaits w').
Proof.
  intros Hc (Hlen & Hp & Ht & Hk & Hrest).
  destruct (musical_ear_test_returns test_type instruction_texts
              practice_output_filename test_output_filename base_image_path
              participant_info with_experiment example_files test_files w Hc)
    as (rs & w' & Hrun); [by repeat split|].
  exists rs, w'. split; [exact Hrun|].
  apply subtest_account in Hrun as (_ & _ & _ & _ & _ & _ & _ & _ & Hs' & Hk').
  by rewrite Hs', Hk'.
Qed.

End Prelude.

Section Tests.

Variable instruction_texts : gmap string string.
Variable practice_output_filename test_output_filename : string.
Variable base_image_path : string.
Variable participant_info : gmap string string.
Variable with_experiment : bool.
Variable melody_example_files melody_test_files : list string.
Variable rhythm_example_files rhythm_test_files : list string.

Local Abbreviation dest_of :=
  (output_filename practice_output_filename test_output_filename).
Local Abbreviation row_of := (ledger_row participant_info with_experiment).
Local Abbreviation run_test' :=
  (run_test instruction_texts practice_output_filename test_output_filename
     base_image_path participant_info with_experiment
     melody_example_files melody_test_files rhythm_example_files rhythm_test_files).
Local Abbreviation files_of test :=
  (if String.eqb test "melody"
   then (melody_example_files, melody_test_files)
   else (rhythm_example_files, rhythm_test_files)).

Lemma run_test_account (i : Z) (test : string) (w w' : world) (rs : list Result.t) :
  test = "melody" \/ test = "rhythm" ->
  run_test' i test w = (Ret rs, w') ->
  exists practice scored,
    rs = (practice ++ scored)%list /\
    map header practice = numbered "practice" (fst (files_of test)) /\
    map header scored = numbered "test" (snd (files_of test)) /\
    Forall (fun r => Result.type r = test) rs /\
    files w' = foldl (fun fs r => append_to fs (dest_of r) (row_of r)) (files w) rs /\
    handles w' = handles w.
Proof.
  intros Ht H. unfold run_test in H.
  apply bind_Ret in H as (u & w0 & Hpre & H).
  apply prelude_Ret in Hpre as (Hf0 & Hh0 & _).
  assert (Hsub : musical_ear_test test instruction_texts practice_output_filename
                   test_output_filename base_image_path participant_info with_experiment
                   (fst (files_of test)) (snd (files_of test)) w0 = (Ret rs, w')).
  { destruct Ht as [-> | ->]; exact H. }
  apply subtest_account in Hsub
    as (practice & scored & -> & Hp & Hs & Hall & Hfs & Hh & _).
  exists practice, scored. rewrite <- Hf0, <- Hh0. repeat split; try assumption.
  eapply Forall_impl; [exact Hall|]. by intros r (Hty & _).
Qed.

Lemma run_test_seen_through (i : Z) (test : string) (w : world)
    (rest : list (list string * list string)) (closing : nat) :
  test = "melody" \/ test = "rhythm" ->
  is_Some (instruction_texts !! "general_intro") ->
  configured "melody" instruction_texts participant_info with_experiment ->
  configured "rhythm" instruction_texts participant_info with_experiment ->
  keywaits w <> [] ->
  sees_through (files_of test :: rest) closing (scripts w)
    (if i =? 0 then tail (keywaits w) else keywaits w) ->
  exists rs w',
    run_test' i test w = (Ret rs, w') /\
    sees_through rest closing (scripts w') (keywaits w').
Proof.
  intros Ht Hi Hm Hr Hk Hsee. unfold run_test.
  destruct (prelude_returns instruction_texts i w Hi Hk) as [w0 Hpre].
  rewrite (bind_step _ _ _ _ _ Hpre).
  apply prelude_Ret in Hpre as (_ & _ & Hs0 & Hk0 & _). rewrite <- Hs0, <- Hk0 in Hsee.
  destruct Ht as [-> | ->]; eapply subtest_seen_through; eassumption.
Qed.

End Tests.

(** *** The session of [musical_ear.py] *)

Lemma met_file_names_differ (d : desk) (subject : string) :
  Met.practice_output_filename d subject <> Met.test_output_filename d subject.
Proof. unfold Met.practice_output_filename, Met.test_output_filename. cbn. discriminate. Qed.

Lemma rows_app (experiment subject cur_date : string) (rs1 rs2 : list Result.t) :
  rows experiment subject cur_date (rs1 ++ rs2)%list =
  rows experiment subject cur_date rs1 ++ rows experiment subject cur_date rs2.
Proof. unfold rows. by rewrite map_app, concat_app. Qed.

Lemma overwritten_files (path text : string) (w : world) :
  files (overwritten path text w) = <[path := text]> (files w) /\
  handles (overwritten path text w) = handles w /\
  scripts (overwritten path text w) = scripts w /\
  keywaits (overwritten path text w) = keywaits w.
Proof. by repeat split. Qed.

(** The two ledgers after two sub-tests in a row, from the two headers. *)
Lemma two_ledgers (practice test header : string) (row_of : Result.t -> string)
    (fs : gmap string string) (p1 s1 p2 s2 : list Result.t) (path : string) :
  practice <> test ->
  Forall (fun r => Result.phase r = "practice") p1 ->
  Forall (fun r => Result.phase r = "test") s1 ->
  Forall (fun r => Result.phase r = "practice") p2 ->
  Forall (fun r => Result.phase r = "test") s2 ->
  let ledger := foldl (fun fs r => append_to fs (output_filename practice test r) (row_of r)) in
  let after := ledger (ledger (<[test := header]> (<[practice := header]> fs)) (p1 ++ s1)%list)
                 (p2 ++ s2)%list in
  after !! practice = Some (header ++ String.concat "" (map row_of (p1 ++ p2)%list)) /\
  after !! test = Some (header ++ String.concat "" (map row_of (s1 ++ s2)%list)) /\
  (path <> practice -> path <> test -> after !! path = fs !! path).
Proof.
  intros Hne Hp1 Hs1 Hp2 Hs2 ledger after. subst after ledger. rewrite <- foldl_app.
  destruct (filter_practice practice test p1 Hp1) as [Hp1a Hp1b].
  destruct (filter_practice practice test p2 Hp2) as [Hp2a Hp2b].
  destruct (filter_test practice test s1 Hs1) as [Hs1a Hs1b].
  destruct (filter_test practice test s2 Hs2) as [Hs2a Hs2b].
  split; [|split].
  - erewrite ledger_lookup; [|by rewrite lookup_insert_ne, lookup_insert_eq].
    by rewrite !List.filter_app, Hp1a, Hp2a, Hs1b, Hs2b, !app_nil_r by done.
  - erewrite ledger_lookup; [|by rewrite lookup_insert_eq].
    by rewrite !List.filter_app, Hs1a, Hs2a, Hp1b, Hp2b by done.
  - intros H1 H2. rewrite ledger_other by done. by rewrite !lookup_insert_ne.
Qed.

Lemma ledger_row_entries (participant_info : gmap string string) (with_experiment : bool)
    (cur_date subject : string) :
  participant_info !! "Subject_ID" = Some subject ->
  participant_info !! "cur_date" = Some cur_date ->
  participant_info !! "experiment" =
    (if with_experiment then Some "musical_ear_test" else None) ->
  ledger_row participant_info with_experiment =
  format_row (if with_experiment then "musical_ear_test," else "") subject cur_date.
Proof.
  intros Hs Hd He. unfold ledger_row.
  by rewrite (participant_fields_entries _ _ _ _ Hs Hd He).
Qed.

(** What a session of [musical_ear.py] that runs to its end has done. *)
Lemma met_session_account (d : desk) (participant_info : gmap string string)
    (melody rhythm : list string * list string) (subject : string) (w w' : world) :
  participant_info !! "Subject_ID" = Some subject ->
  participant_info !! "cur_date" = Some (cur_date d) ->
  participant_info !! "experiment" = Some "musical_ear_test" ->
  Met.session d participant_info melody rhythm w = (Ret tt, w') ->
  let first := if shuffled d then rhythm else melody in
  let second := if shuffled d then melody else rhythm in
  let practice := Met.practice_output_filename d subject in
  let test := Met.test_output_filename d subject in
  let rows := rows "musical_ear_test," subject (cur_date d) in
  exists p1 s1 p2 s2 : list Result.t,
    map header p1 = numbered "practice" (fst first) /\
    map header s1 = numbered "test" (snd first) /\
    map header p2 = numbered "practice" (fst second) /\
    map header s2 = numbered "test" (snd second) /\
    Forall (fun r => Result.type r = if shuffled d then "rhythm" else "melody")
      (p1 ++ s1)%list /\
    Forall (fun r => Result.type r = if shuffled d then "melody" else "rhythm")
      (p2 ++ s2)%list /\
    files w' !! practice = Some (csv_header true ++ rows (p1 ++ p2)%list) /\
    files w' !! test = Some (csv_header true ++ rows (s1 ++ s2)%list) /\
    (forall path, path <> practice -> path <> test -> files w' !! path = files w !! path) /\
    handles w' = handles w.
Proof.
  intros Hs Hd He H first second practice test rows0.
  unfold Met.session in H. cbv zeta in H.
  rewrite !(getitem_step _ _ _ _ _ Hs) in H. fold practice test in H.
  apply bind_Ret in H as (u & w1 & Hhead & H).
  cbn [for_each] in Hhead.
  rewrite (bind_step _ _ _ _ _ (with_open_write_write _ _ _)) in Hhead.
  rewrite (bind_step _ _ _ _ _ (with_open_write_write _ _ _)) in Hhead.
  unfold ret in Hhead. injection Hhead as _ <-.
  apply bind_Ret in H as (rss & w2 & Hrun & H).
  apply bind_Ret in H as (end_text & w3 & Hend & H).
  apply getitem_Ret in Hend as [_ ->].
  apply display_instructions_Ret in H as (dt & rest & _ & ->).
  cbn [files handles].
  unfold run_tests in Hrun.
  assert (Htests : exists t1 t2,
            shuffle (shuffled d) ["melody"; "rhythm"] = [t1; t2] /\
            (t1 = "melody" \/ t1 = "rhythm") /\ (t2 = "melody" \/ t2 = "rhythm") /\
            t1 = (if shuffled d then "rhythm" else "melody") /\
            t2 = (if shuffled d then "melody" else "rhythm")).
  { unfold shuffle. destruct (shuffled d); eexists _, _; (split; [reflexivity|]); auto. }
  destruct Htests as (t1 & t2 & Hsh & Ht1 & Ht2 & Et1 & Et2). rewrite Hsh in Hrun.
  cbn [for_enumerate] in Hrun.
  apply bind_Ret in Hrun as (done1 & wa & Hb1 & Hrun).
  apply bind_Ret in Hb1 as (rs1 & wa' & Hrun1 & Hb1). injection Hb1 as <- <-.
  apply bind_Ret in Hrun as (done2 & wb & Hb2 & Hrun). injection Hrun as <- <-.
  apply bind_Ret in Hb2 as (rs2 & wb' & Hrun2 & Hb2). injection Hb2 as <- <-.
  apply run_test_account in Hrun1
    as (p1 & s1 & -> & Hp1 & Hs1 & Hty1 & Hfs1 & Hh1); [|exact Ht1].
  apply run_test_account in Hrun2
    as (p2 & s2 & -> & Hp2 & Hs2 & Hty2 & Hfs2 & Hh2); [|exact Ht2].
  exists p1, s1, p2, s2. subst t1 t2.
  assert (E1 : (if String.eqb (if shuffled d then "rhythm" else "melody") "melody"
                then (fst melody, snd melody) else (fst rhythm, snd rhythm)) = first).
  { subst first. destruct (shuffled d), melody, rhythm; reflexivity. }
  assert (E2 : (if String.eqb (if shuffled d then "melody" else "rhythm") "melody"
                then (fst melody, snd melody) else (fst rhythm, snd rhythm)) = second).
  { subst second. destruct (shuffled d), melody, rhythm; reflexivity. }
  rewrite E1 in Hp1, Hs1. rewrite E2 in Hp2, Hs2.
  split; [exact Hp1|]. split; [exact Hs1|]. split; [exact Hp2|]. split; [exact Hs2|].
  split; [exact Hty1|]. split; [exact Hty2|].
  rewrite Hfs2, Hfs1.
  rewrite (ledger_row_entries participant_info true (cur_date d) subject Hs Hd He).
  destruct (overwritten_files test (csv_header true)
              (overwritten practice (csv_header true) w)) as (-> & Hho & _).
  destruct (overwritten_files practice (csv_header true) w) as (-> & Hho' & _).
  pose proof (fun path =>
    two_ledgers practice test (csv_header true)
      (format_row "musical_ear_test," subject (cur_date d)) (files w) p1 s1 p2 s2 path
      (met_file_names_differ d subject)
      (header_phase _ _ _ Hp1) (header_phase _ _ _ Hs1)
      (header_phase _ _ _ Hp2) (header_phase _ _ _ Hs2)) as Hled.
  cbv zeta in Hled.
  split; [exact (proj1 (Hled "")) |]. split; [exact (proj1 (proj2 (Hled "")))|].
  split; [intros path; exact (proj2 (proj2 (Hled path)))|].
  congruence.
Qed.

Lemma met_session_completes (d : desk) (participant_info : gmap string string)
    (melody rhythm : list string * list string) (subject cur_date : string) (w : world) :
  participant_info !! "Subject_ID" = Some subject ->
  participant_info !! "cur_date" = Some cur_date ->
  participant_info !! "experiment" = Some "musical_ear_test" ->
  keywaits w <> [] ->
  sees_through (if shuffled d then [rhythm; melody] else [melody; rhythm]) 1
    (scripts w) (tail (keywaits w)) ->
  exists w', Met.session d participant_info melody rhythm w = (Ret tt, w').
Proof.
  intros Hs Hd He Hk Hsee. unfold Met.session. cbv zeta.
  rewrite !(getitem_step _ _ _ _ _ Hs).
  cbn [for_each].
  erewrite bind_step;
    [|erewrite bind_step by apply with_open_write_write;
      erewrite bind_step by apply with_open_write_write; reflexivity].
  set (w1 := overwritten _ _ (overwritten _ _ w)).
  assert (Hc : forall t, t = "melody" \/ t = "rhythm" ->
             configured t Met.instruction_texts participant_info true).
  { intros t Ht. eapply met_texts_configured; eassumption. }
  assert (Hintro : is_Some (Met.instruction_texts !! "general_intro")).
  { eexists. vm_compute. reflexivity. }
  assert (Hrun : exists rss w2,
            run_tests Met.instruction_texts
              (Met.practice_output_filename d subject) (Met.test_output_filename d subject)
              Met.base_image_path participant_info true
              (fst melody) (snd melody) (fst rhythm) (snd rhythm)
              (shuffle (shuffled d) ["melody"; "rhythm"]) w1 = (Ret rss, w2) /\
            keywaits w2 <> []).
  { unfold run_tests, shuffle.
    assert (Hfirst : forall t1 t2 first second,
              t1 = "melody" \/ t1 = "rhythm" -> t2 = "melody" \/ t2 = "rhythm" ->
              (if String.eqb t1 "melody" then (fst melody, snd melody)
               else (fst rhythm, snd rhythm)) = first ->
              (if String.eqb t2 "melody" then (fst melody, snd melody)
               else (fst rhythm, snd rhythm)) = second ->
              sees_through [first; second] 1 (scripts w) (tail (keywaits w)) ->
              exists rss w2,
                for_enumerate
                  (fun done i test =>
                     rs <- run_test Met.instruction_texts
                             (Met.practice_output_filename d subject)
                             (Met.test_output_filename d subject)
                             Met.base_image_path participant_info true
                             (fst melody) (snd melody) (fst rhythm) (snd rhythm) i test ;;
                     ret (done ++ [rs])%list)
                  0 [t1; t2] [] w1 = (Ret rss, w2) /\
                keywaits w2 <> []).
    { intros t1 t2 [ex1 te1] [ex2 te2] Ht1 Ht2 E1 E2 Hsee'. cbn [for_enumerate].
      destruct (run_test_seen_through Met.instruction_texts
                  (Met.practice_output_filename d subject)
                  (Met.test_output_filename d subject)
                  Met.base_image_path participant_info true
                  (fst melody) (snd melody) (fst rhythm) (snd rhythm)
                  0 t1 w1 [(ex2, te2)] 1%nat Ht1 Hintro
                  (Hc _ (or_introl eq_refl)) (Hc _ (or_intror eq_refl)) Hk)
        as (rs1 & wa & Hrun1 & Hsee1).
      { rewrite E1. exact Hsee'. }
      assert (Hka : keywaits wa <> []).
      { destruct Hsee1 as (_ & _ & _ & Hlen & _).
        destruct (keywaits wa); [simpl in Hlen; lia | done]. }
      destruct (run_test_seen_through Met.instruction_texts
                  (Met.practice_output_filename d subject)
                  (Met.test_output_filename d subject)
                  Met.base_image_path participant_info true
                  (fst melody) (snd melody) (fst rhythm) (snd rhythm)
                  (0 + 1) t2 wa [] 1%nat Ht2 Hintro
                  (Hc _ (or_introl eq_refl)) (Hc _ (or_intror eq_refl)) Hka)
        as (rs2 & wb & Hrun2 & Hsee2).
      { rewrite E2. exact Hsee1. }
      exists [rs1; rs2], wb.
      rewrite (bind_step _ _ _ _ _ (bind_step _ _ _ _ _ Hrun1)).
      rewrite (bind_step _ _ _ _ _ (bind_step _ _ _ _ _ Hrun2)).
      split; [reflexivity|].
      cbn [sees_through] in Hsee2. destruct (keywaits wb); [simpl in Hsee2; lia | done]. }
    destruct (shuffled d), melody as [mex mte], rhythm as [rex rte];
      eapply Hfirst; eauto. }
  destruct Hrun as (rss & w2 & Hrun & Hk2).
  rewrite (bind_step _ _ _ _ _ Hrun).
  erewrite getitem_step by (vm_compute; reflexivity).
  destruct (display_instructions_returns
              (default "" (Met.instruction_texts !! "end")) w2 Hk2) as [w' Hend].
  exists w'. exact Hend.
Qed.

Lemma check_paths_returns (creatable : string -> bool)
    (base_audio_path base_image_path results_path : string) (existing : gset string) :
  base_audio_path ∈ existing ->
  base_image_path ∈ existing \/ creatable base_image_path = true ->
  results_path ∈ existing \/ creatable results_path = true ->
  check_paths creatable base_audio_path base_image_path results_path existing =
  (None, {[results_path]} ∪ ({[base_image_path]} ∪ existing)).
Proof.
  intros Ha Hi Hr. unfold check_paths.
  rewrite (bool_decide_eq_true_2 _ Ha). cbn [negb].
  destruct (bool_decide_reflect (base_image_path ∈ existing)) as [Hie | Hie]; cbn [negb].
  - replace ({[base_image_path]} ∪ existing) with existing by set_solver.
    destruct (bool_decide_reflect (results_path ∈ existing)) as [Hre | Hre]; cbn [negb].
    + f_equal. set_solver.
    + rewrite mkdir_outcome by done. destruct Hr as [Hr | ->]; [done | reflexivity].
  - rewrite mkdir_outcome by done. destruct Hi as [Hi | ->]; [done|].
    destruct (bool_decide_reflect (results_path ∈ {[base_image_path]} ∪ existing))
      as [Hre | Hre]; cbn [negb].
    + f_equal. set_solver.
    + rewrite mkdir_outcome by done. destruct Hr as [Hr | ->]; [|reflexivity].
      set_solver.
Qed.

(** Start-up that goes through hands over to the session. *)
Lemma met_main_session (d : desk) (folders folders' : gset string) (w : world)
    (subject : string) (melody rhythm : list string * list string) :
  check_paths (creatable d) Met.base_audio_path Met.base_image_path Met.results_path
    folders = (None, folders') ->
  dialog d = Some subject ->
  load_audio_files Met.base_audio_path "melody" (listing d) = Ok melody ->
  load_audio_files Met.base_audio_path "rhythm" (listing d) = Ok rhythm ->
  exists participant_info,
    participant_info !! "Subject_ID" = Some subject /\
    participant_info !! "cur_date" = Some (cur_date d) /\
    participant_info !! "experiment" = Some "musical_ear_test" /\
    Met.main d (folders, w) =
    in_world (Met.session d participant_info melody rhythm) (folders', w).
Proof.
  intros Hcp Hdlg Hm Hr.
  destruct (get_participant_info_entries true (cur_date d) subject)
    as (participant_info & Hinfo & Hs & Hd & He).
  exists participant_info. split; [exact Hs|]. split; [exact Hd|]. split; [exact He|].
  unfold Met.main, pbind, on_folders, of_res, of_ending. cbn [fst snd].
  by rewrite Hcp, Hdlg, Hinfo, Hm, Hr.
Qed.

(** The sample session. *)
Lemma sample_desk_loads :
  load_audio_files Met.base_audio_path "melody" (listing sample_desk) =
    Ok (["audio/melody_example1_identical.wav"], ["audio/melody_test01_different.wav"]) /\
  load_audio_files Met.base_audio_path "rhythm" (listing sample_desk) =
    Ok (["audio/rhythm_example1_different.wav"], ["audio/rhythm_test01_identical.wav"]).
Proof. split; vm_compute; reflexivity. Qed.

Lemma sample_seen_through (example1 test1 example2 test2 : string) (closing : nat) :
  (closing <= 2)%nat ->
  sees_through [([example1], [test1]); ([example2], [test2])] closing
    (scripts sample_session_world) (tail (keywaits sample_session_world)).
Proof.
  intros Hc. cbn.
  split; [lia|].
  split; [apply Forall_cons; split; [left; vm_compute; discriminate | constructor]|].
  split; [apply Forall_cons; split; [left; vm_compute; discriminate | constructor]|].
  split; [lia|]. split; [lia|].
  split; [apply Forall_cons; split; [left; vm_compute; discriminate | constructor]|].
  split; [|lia].
  apply Forall_cons; split; [|constructor].
  right. exists 2, 2%nat. split; [reflexivity|]. split; [simpl; lia|].
  vm_compute. discriminate.
Qed.

Lemma sample_met_run :
  exists w',
    Met.main sample_desk ({["audio"]}, sample_session_world) =
    (Completes tt, ({["results"]} ∪ ({["pics"]} ∪ {["audio"]}), w')).
Proof.
  destruct sample_desk_loads as [Hm Hr].
  assert (Ha : Met.base_audio_path ∈ ({["audio"]} : gset string)) by set_solver.
  pose proof (check_paths_returns (creatable sample_desk) _ Met.base_image_path
                Met.results_path _ Ha (or_intror eq_refl) (or_intror eq_refl)) as Hcp.
  destruct (met_main_session sample_desk {["audio"]} _ sample_session_world "s01" _ _
              Hcp eq_refl Hm Hr)
    as (participant_info & Hs & Hd & He & ->).
  destruct (met_session_completes sample_desk participant_info
              (["audio/melody_example1_identical.wav"], ["audio/melody_test01_different.wav"])
              (["audio/rhythm_example1_different.wav"], ["audio/rhythm_test01_identical.wav"])
              _ _ sample_session_world Hs Hd He)
    as [w' Hrun].
  { discriminate. }
  { apply sample_seen_through. lia. }
  exists w'. unfold in_world. cbn [fst snd]. by rewrite Hrun.
Qed.

(** X14.  When [main] of [musical_ear.py] runs to its end, the two
    ledgers hold the header line followed by one row per trial: the
    practice ledger the rows of the practice trials of the first
    sub-test, then of the second; the test ledger those of the scored
    trials, in the same order.  The rows of a phase follow the order of
    the files, numbered from 1 again in each sub-test, and every row
    starts with [musical_ear_test], the subject id and the date of the
    dialog.  What the two paths held before is gone, no other file is
    touched, and no handle is left open. *)
Theorem met_main_ledgers (d : desk) (folders folders' : gset string) (w w' : world) :
  Met.main d (folders, w) = (Completes tt, (folders', w')) ->
  exists (subject : string) (melody rhythm : list string * list string)
         (p1 s1 p2 s2 : list Result.t),
    dialog d = Some subject /\
    load_audio_files "audio" "melody" (listing d) = Ok melody /\
    load_audio_files "audio" "rhythm" (listing d) = Ok rhythm /\
    let first := if shuffled d then rhythm else melody in
    let second := if shuffled d then melody else rhythm in
    let practice := Met.practice_output_filename d subject in
    let test := Met.test_output_filename d subject in
    let rows := rows "musical_ear_test," subject (cur_date d) in
    map header p1 = numbered "practice" (fst first) /\
    map header s1 = numbered "test" (snd first) /\
    map header p2 = numbered "practice" (fst second) /\
    map header s2 = numbered "test" (snd second) /\
    Forall (fun r => Result.type r = if shuffled d then "rhythm" else "melody")
      (p1 ++ s1)%list /\
    Forall (fun r => Result.type r = if shuffled d then "melody" else "rhythm")
      (p2 ++ s2)%list /\
    files w' !! practice = Some (csv_header true ++ rows (p1 ++ p2)%list) /\
    files w' !! test = Some (csv_header true ++ rows (s1 ++ s2)%list) /\
    (forall path, path <> practice -> path <> test -> files w' !! path = files w !! path) /\
    handles w' = handles w.
Proof.
  intros H. apply met_main_started in H as [(e' & [=] & _) | H].
  destruct H as (subject & participant_info & melody & rhythm &
                 _ & Hdlg & Hinfo & Hm & Hr & H).
  destruct (get_participant_info_entries true (cur_date d) subject)
    as (info & Hinfo' & Hs & Hd & He).
  rewrite Hdlg, Hinfo' in Hinfo. injection Hinfo as ->.
  apply in_world_ending in H as (_ & Hw' & H). cbn [fst snd] in H, Hw'.
  destruct (Met.session d participant_info melody rhythm w) as [[[] | e' |] w''] eqn:Hrun;
    try discriminate.
  cbn [snd] in Hw'. subst w''.
  exists subject, melody, rhythm.
  destruct (met_session_account d participant_info melody rhythm subject w w' Hs Hd He Hrun)
    as (p1 & s1 & p2 & s2 & Hacc).
  exists p1, s1, p2, s2. split; [exact Hdlg|]. split; [exact Hm|]. split; [exact Hr|].
  exact Hacc.
Qed.

Lemma met_main_ledgers_witness :
  exists (w' : world) (p1 s1 p2 s2 : list Result.t),
    Met.main sample_desk ({["audio"]}, sample_session_world) =
      (Completes tt, ({["results"]} ∪ ({["pics"]} ∪ {["audio"]}), w')) /\
    map header p1 = [(1, "practice", "audio/rhythm_example1_different.wav")] /\
    map header s1 = [(1, "test", "audio/rhythm_test01_identical.wav")] /\
    map header p2 = [(1, "practice", "audio/melody_example1_identical.wav")] /\
    map header s2 = [(1, "test", "audio/melody_test01_different.wav")] /\
    files w' !! "results/MET_practice_results_s01_20230506_100001.csv" =
      Some (csv_header true ++
            rows "musical_ear_test," "s01" "2023-05-06 10:00" (p1 ++ p2)%list) /\
    files w' !! "results/MET_test_results_s01_20230506_100002.csv" =
      Some (csv_header true ++
            rows "musical_ear_test," "s01" "2023-05-06 10:00" (s1 ++ s2)%list).
Proof.
  destruct sample_met_run as [w' Hrun]. destruct sample_desk_loads as [Hlm Hlr].
  destruct (met_main_ledgers sample_desk _ _ _ _ Hrun)
    as (subject & melody & rhythm & p1 & s1 & p2 & s2 & Hdlg & Hm & Hr & H).
  injection Hdlg as <-.
  change "audio" with Met.base_audio_path in Hm, Hr.
  rewrite Hlm in Hm. rewrite Hlr in Hr. injection Hm as <-. injection Hr as <-.
  destruct H as (Hp1 & Hs1 & Hp2 & Hs2 & _ & _ & Hfp & Hft & _).
  exists w', p1, s1, p2, s2. split; [exact Hrun|].
  split; [exact Hp1|]. split; [exact Hs1|]. split; [exact Hp2|]. split; [exact Hs2|].
  split; [exact Hfp | exact Hft].
Defined.

(** *** The session of [musical_ear_psd.py] *)

Lemma psd_texts_configured (test_type : string) (participant_info : gmap string string)
    (subject cur_date : string) :
  test_type = "melody" \/ test_type = "rhythm" ->
  participant_info !! "Subject_ID" = Some subject ->
  participant_info !! "cur_date" = Some cur_date ->
  configured test_type Psd.instruction_texts participant_info false.
Proof.
  intros Ht Hs Hd.
  assert (Hpf : is_Some (participant_fields participant_info false)).
  { unfold participant_fields. rewrite Hs, Hd. eauto. }
  destruct Ht as [-> | ->]; repeat split; try exact Hpf;
    eexists; vm_compute; reflexivity.
Qed.

Lemma for_each_write (path : string) (texts : list string) (w : world) :
  exists w',
    for_each (fs_write path) texts w = (Ret tt, w') /\
    files w' = (if texts is [] then files w
                else <[path := content (files w) path ++ String.concat "" texts]> (files w)) /\
    handles w' = handles w /\ scripts w' = scripts w /\ keywaits w' = keywaits w /\
    now w' = now w.
Proof.
  revert w. induction texts as [|text texts IH]; intros w; cbn [for_each].
  - exists w. by repeat split.
  - unfold bind at 1. unfold fs_write at 1.
    match goal with |- context [for_each _ texts ?w0] =>
      destruct (IH w0) as (w' & Hrun & Hfs & Hh & Hs & Hk & Hn) end.
    exists w'. split; [exact Hrun|]. world_simpl.
    split; [|by repeat split].
    rewrite Hfs. unfold content. destruct texts as [|text' texts'].
    + reflexivity.
    + rewrite lookup_insert_eq, insert_insert_eq, (concat_cons text). cbn [default id].
      by rewrite string_app_assoc.
Qed.

(** The questionnaire file after the [with] block of [main]. *)
Lemma with_open_write_each (path : string) (texts : list string) (w : world) :
  exists w',
    with_open_write path (for_each (fs_write path) texts) w = (Ret tt, w') /\
    files w' = <[path := String.concat "" texts]> (files w) /\
    handles w' = handles w /\ scripts w' = scripts w /\ keywaits w' = keywaits w /\
    now w' = now w.
Proof.
  unfold with_open_write, bind, fs_open_write.
  match goal with |- context [for_each _ texts ?w0] =>
    destruct (for_each_write path texts w0) as (w1 & -> & Hfs & Hh & Hs & Hk & Hn) end.
  unfold fs_close. eexists. split; [reflexivity|]. world_simpl.
  rewrite Hfs, Hh, Hs, Hk, Hn, remove_first_head.
  split; [|by repeat split].
  unfold content. destruct texts; [reflexivity|].
  by rewrite lookup_insert_eq, insert_insert_eq.
Qed.

Lemma psd_run_test_counted (practice_output_filename test_output_filename : string)
    (base_image_path : string) (participant_info : gmap string string)
    (melody_example_files melody_test_files rhythm_example_files rhythm_test_files
       : list string) (counts counts' : gmap string Z * gmap string Z) (i : Z)
    (test : string) (w w' : world) :
  counted counts ->
  Psd.run_test practice_output_filename test_output_filename base_image_path
    participant_info melody_example_files melody_test_files rhythm_example_files
    rhythm_test_files counts i test w = (Ret counts', w') ->
  counted counts'.
Proof.
  intros (H1 & H2 & H3 & H4) H. unfold Psd.run_test in H.
  destruct counts as [correct_responses number_trials]. cbn [fst snd] in *.
  apply bind_Ret in H as (u & w0 & _ & H).
  destruct (String.eqb test "melody").
  { apply bind_Ret in H as (rs & w1 & _ & H). injection H as <- _.
    unfold counted. cbn [fst snd]. rewrite !lookup_insert_is_Some. naive_solver. }
  destruct (String.eqb test "rhythm").
  { apply bind_Ret in H as (rs & w1 & _ & H). injection H as <- _.
    unfold counted. cbn [fst snd]. rewrite !lookup_insert_is_Some. naive_solver. }
  injection H as <- _. by repeat split.
Qed.

Lemma show_questionnaire_ending (replies : list reply) :
  match show_questionnaire questions replies with
  | Completes data =>
      Forall2 (recorded data) questions (take (length questions) replies)
  | Aborts e =>
      e = SystemExit /\
      exists k, (k < length questions)%nat /\ replies !! k = Some Cancel /\
        Forall accepted (take k replies)
  | Waits => (length replies < length questions)%nat /\ Forall accepted replies
  end.
Proof.
  unfold show_questionnaire.
  pose proof (questionnaire_loop_outcome questions questions_bool_or_text
                questions_distinct replies None ∅) as H.
  destruct (questionnaire_loop questions replies None ∅) as [data | e |]; [|exact H..].
  by destruct H as (_ & _ & H).
Qed.

(** The questionnaire of [musical_ear_psd.py], once answered, is
    written without an exception. *)
Lemma questionnaire_texts_written (replies : list reply) (data : gmap string answer)
    (participant_info : gmap string string) (subject cur_date : string) :
  show_questionnaire questions replies = Completes data ->
  participant_info !! "Subject_ID" = Some subject ->
  participant_info !! "cur_date" = Some cur_date ->
  exists responses,
    Forall2 (fun q response => data !! Question.label q = Some response)
      questions responses /\
    questionnaire_texts questions data participant_info =
      ((header_cells questions ++ [(subject ++ "," ++ cur_date)%string] ++
        map (fun response => ("," ++ cell_value response)%string) responses ++
        [newline])%list,
       None).
Proof.
  intros Hshow Hs Hd.
  pose proof (show_questionnaire_recorded _ _ _ questions_bool_or_text
                questions_distinct Hshow) as Hrec.
  destruct (answer_cells_recorded _ _ _ questions_bool_or_text Hrec)
    as (responses & Hall & Hcells).
  exists responses. split; [exact Hall|].
  unfold questionnaire_texts. by rewrite Hs, Hd, Hcells.
Qed.

Lemma psd_file_names (d : desk) (participant_info : gmap string string) (subject : string)
    (w : world) :
  participant_info !! "Subject_ID" = Some subject ->
  Psd.file_names d participant_info w =
  (Ret (Psd.practice_output_filename d subject, Psd.test_output_filename d subject,
        Psd.musicality_psd_filename d subject), w).
Proof.
  intros Hs. unfold Psd.file_names. by rewrite !(getitem_step _ _ _ _ _ Hs).
Qed.

(** What start-up has settled when the session of
    [musical_ear_psd.py] begins: the folders, the participant, the
    answers, the two catalogues, and the questionnaire file. *)
Lemma psd_main_started (d : desk) (s s' : gset string * world) (o : ending unit) :
  Psd.main d s = (o, s') ->
  (exists e, o = Aborts e /\ snd s' = snd s /\
     ((e = Exception no_audio_folder /\ (Psd.base_audio_path ∉ fst s) /\ fst s' = fst s) \/
      (exists path, e = OSError path /\
         (path = Psd.base_image_path \/ path = Psd.results_path) /\
         (path ∉ fst s') /\ creatable d path = false) \/
      (e = SystemExit /\
       (dialog d = None \/
        exists k, (k < length questions)%nat /\ replies d !! k = Some Cancel /\
          Forall accepted (take k (replies d)))) \/
      (exists e0, e = Uncaught e0 /\
         (load_audio_files Psd.base_audio_path "melody" (listing d) = Exn e0 \/
          load_audio_files Psd.base_audio_path "rhythm" (listing d) = Exn e0)))) \/
  (o = Waits /\ snd s' = snd s /\
   (length (replies d) < length questions)%nat /\ Forall accepted (replies d)) \/
  (exists subject participant_info data melody rhythm texts w1,
     check_paths (creatable d) Psd.base_audio_path Psd.base_image_path Psd.results_path
       (fst s) = (None, fst s') /\
     dialog d = Some subject /\
     participant_info !! "Subject_ID" = Some subject /\
     participant_info !! "cur_date" = Some (cur_date d) /\
     participant_info !! "experiment" = None /\
     show_questionnaire questions (replies d) = Completes data /\
     load_audio_files Psd.base_audio_path "melody" (listing d) = Ok melody /\
     load_audio_files Psd.base_audio_path "rhythm" (listing d) = Ok rhythm /\
     questionnaire_texts questions data participant_info = (texts, None) /\
     with_open_write (Psd.musicality_psd_filename d subject)
       (for_each (fs_write (Psd.musicality_psd_filename d subject)) texts) (snd s) =
       (Ret tt, w1) /\
     in_world (Psd.session d participant_info melody rhythm
                 (Psd.practice_output_filename d subject)
                 (Psd.test_output_filename d subject)) (fst s', w1) = (o, s')).
Proof.
  unfold Psd.main. destruct s as [folders w], s' as [folders' w']. cbn [fst snd].
  unfold pbind at 1, on_folders. cbn [fst snd].
  destruct (check_paths _ _ _ _ _) as [[e|] after] eqn:Ecp.
  { intros [= <- <- <-]. left. exists e. split; [reflexivity|]. split; [reflexivity|].
    apply check_paths_raised in Ecp as [(-> & Ha & ->) | (_ & path & -> & Hp & Hn & Hc)].
    - by left.
    - right; left. exists path. by repeat split. }
  destruct (dialog d) as [subject|] eqn:Edlg.
  2:{ unfold pbind at 1, of_ending, get_participant_info.
      intros [= <- <- <-]. left. exists SystemExit. split; [reflexivity|].
      split; [reflexivity|]. right; right; left. split; [reflexivity|]. by left. }
  destruct (get_participant_info_entries false (cur_date d) subject)
    as (participant_info & Hinfo & Hs & Hd & He).
  rewrite Hinfo. unfold pbind at 1, of_ending at 1.
  unfold pbind at 1, of_ending at 1.
  pose proof (show_questionnaire_ending (replies d)) as Hq.
  destruct (show_questionnaire questions (replies d)) as [data | e |] eqn:Eq.
  2:{ intros [= <- <- <-]. left. exists e. destruct Hq as (-> & Hk).
      split; [reflexivity|]. split; [reflexivity|]. right; right; left.
      split; [reflexivity|]. by right. }
  2:{ intros [= <- <- <-]. right; left. destruct Hq. by repeat split. }
  unfold pbind at 1, of_res, of_ending.
  destruct (load_audio_files _ "melody" _) as [melody|e] eqn:Elm.
  2:{ intros [= <- <- <-]. left. exists (Uncaught e).
      split; [reflexivity|]. split; [reflexivity|]. do 3 right.
      exists e. split; [reflexivity|]. left. first [exact Elm | reflexivity]. }
  unfold pbind at 1.
  destruct (load_audio_files _ "rhythm" _) as [rhythm|e] eqn:Elr.
  2:{ intros [= <- <- <-]. left. exists (Uncaught e).
      split; [reflexivity|]. split; [reflexivity|]. do 3 right.
      exists e. split; [reflexivity|]. right. first [exact Elr | reflexivity]. }
  unfold pbind at 1, in_world at 1. cbn [fst snd].
  rewrite (psd_file_names d participant_info subject w Hs).
  destruct (questionnaire_texts_written _ _ _ _ _ Eq Hs Hd) as (responses & _ & Htexts).
  rewrite Htexts.
  match goal with |- context [for_each _ ?texts] =>
    destruct (with_open_write_each (Psd.musicality_psd_filename d subject) texts w)
      as (w1 & Hw1 & _) end.
  unfold pbind at 1, in_world at 1. cbn [fst snd]. rewrite Hw1.
  unfold pbind at 1, of_raised, of_ending.
  intros H. right; right.
  exists subject, participant_info, data, melody, rhythm. eexists _, w1.
  apply in_world_ending in H as Hw. cbn [fst snd] in Hw. destruct Hw as (<- & _).
  by repeat split.
Qed.

Lemma correct_count_hits (practice scored : list Result.t) :
  Forall (fun r => Result.phase r = "practice") practice ->
  Forall (fun r => Result.phase r = "test") scored ->
  Forall (fun r => Result.accuracy r =
                     accuracy (Result.response r) (correct_answer (Result.stimulus r)))
    scored ->
  correct_count (practice ++ scored) = hits scored.
Proof.
  intros Hp Hs Ha. unfold correct_count, hits. rewrite List.filter_app.
  rewrite (filter_drop _ practice).
  2:{ eapply Forall_impl; [exact Hp|]. intros r ->. apply andb_false_r. }
  cbn [app]. do 2 f_equal. clear Hp.
  induction scored as [|r rs IH]; [reflexivity|].
  apply Forall_cons in Hs as [Hr Hs]. apply Forall_cons in Ha as [Har Ha].
  cbn [List.filter]. rewrite (IH Hs Ha), Hr, Har. unfold accuracy.
  destruct (String.eqb (Result.response r) (correct_answer (Result.stimulus r)));
    [reflexivity|].
  by destruct (String.eqb (Result.response r) "NA").
Qed.

Lemma hits_bounds (rs : list Result.t) : 0 <= hits rs <= Z.of_nat (length rs).
Proof.
  unfold hits. pose proof (List.filter_length_le
    (fun r => String.eqb (Result.response r) (correct_answer (Result.stimulus r))) rs).
  lia.
Qed.

Lemma getitem_int_Ret (d : gmap string Z) (key : string) (w w' : world) (v : Z) :
  getitem_int d key w = (Ret v, w') -> d !! key = Some v /\ w' = w.
Proof.
  unfold getitem_int. destruct (d !! key); intros H; inversion H; by subst.
Qed.

Section PsdTests.

Variable practice_output_filename test_output_filename : string.
Variable base_image_path : string.
Variable participant_info : gmap string string.
Variable melody_example_files melody_test_files : list string.
Variable rhythm_example_files rhythm_test_files : list string.

Local Abbreviation dest_of :=
  (output_filename practice_output_filename test_output_filename).
Local Abbreviation row_of := (ledger_row participant_info false).
Local Abbreviation run_test' :=
  (Psd.run_test practice_output_filename test_output_filename
     base_image_path participant_info
     melody_example_files melody_test_files rhythm_example_files rhythm_test_files).
Local Abbreviation files_of test :=
  (if String.eqb test "melody"
   then (melody_example_files, melody_test_files)
   else (rhythm_example_files, rhythm_test_files)).

Lemma psd_run_test_account (counts counts' : gmap string Z * gmap string Z) (i : Z)
    (test : string) (w w' : world) :
  test = "melody" \/ test = "rhythm" ->
  run_test' counts i test w = (Ret counts', w') ->
  exists practice scored,
    map header practice = numbered "practice" (fst (files_of test)) /\
    map header scored = numbered "test" (snd (files_of test)) /\
    Forall (fun r => Result.type r = test) (practice ++ scored)%list /\
    files w' = foldl (fun fs r => append_to fs (dest_of r) (row_of r)) (files w)
                 (practice ++ scored)%list /\
    handles w' = handles w /\
    counts' = (<[test := hits scored]> (fst counts),
               <[test ++ "_trials" := Z.of_nat (length (snd (files_of test)))]>
                 (snd counts)).
Proof.
  intros Ht H. unfold Psd.run_test in H. destruct counts as [correct_responses number_trials].
  apply bind_Ret in H as (u & w0 & Hpre & H).
  apply prelude_Ret in Hpre as (Hf0 & Hh0 & _).
  assert (Hsub : exists rs,
            musical_ear_test test Psd.instruction_texts practice_output_filename
              test_output_filename base_image_path participant_info false
              (fst (files_of test)) (snd (files_of test)) w0 = (Ret rs, w') /\
            counts' = (<[test := correct_count rs]> correct_responses,
                       <[test ++ "_trials" := Z.of_nat (length (snd (files_of test)))]>
                         number_trials)).
  { destruct Ht as [-> | ->]; cbn [String.eqb Ascii.eqb Bool.eqb fst snd] in *;
      apply bind_Ret in H as (rs & w1 & Hrun & H); injection H as <- <-; eauto. }
  destruct Hsub as (rs & Hsub & ->).
  apply subtest_account in Hsub
    as (practice & scored & -> & Hp & Hs & Hall & Hfs & Hh & _).
  exists practice, scored. rewrite <- Hf0, <- Hh0.
  split; [exact Hp|]. split; [exact Hs|].
  split; [eapply Forall_impl; [exact Hall|]; by intros r (Hty & _)|].
  split; [exact Hfs|]. split; [exact Hh|].
  cbn [fst snd]. rewrite (correct_count_hits practice scored); [reflexivity|..].
  - eapply header_phase, Hp.
  - eapply header_phase, Hs.
  - apply Forall_app in Hall as [_ Hall].
    eapply Forall_impl; [exact Hall|]. by intros r (_ & Ha & _).
Qed.

Lemma psd_run_test_seen_through (counts : gmap string Z * gmap string Z) (i : Z)
    (test : string) (w : world) (rest : list (list string * list string)) (closing : nat) :
  test = "melody" \/ test = "rhythm" ->
  configured "melody" Psd.instruction_texts participant_info false ->
  configured "rhythm" Psd.instruction_texts participant_info false ->
  keywaits w <> [] ->
  sees_through (files_of test :: rest) closing (scripts w)
    (if i =? 0 then tail (keywaits w) else keywaits w) ->
  exists counts' w',
    run_test' counts i test w = (Ret counts', w') /\
    sees_through rest closing (scripts w') (keywaits w').
Proof.
  intros Ht Hm Hr Hk Hsee. unfold Psd.run_test.
  destruct counts as [correct_responses number_trials].
  assert (Hi : is_Some (Psd.instruction_texts !! "general_intro")).
  { eexists. vm_compute. reflexivity. }
  destruct (prelude_returns Psd.instruction_texts i w Hi Hk) as [w0 Hpre].
  rewrite (bind_step _ _ _ _ _ Hpre).
  apply prelude_Ret in Hpre as (_ & _ & Hs0 & Hk0 & _). rewrite <- Hs0, <- Hk0 in Hsee.
  destruct Ht as [-> | ->]; cbn [String.eqb Ascii.eqb Bool.eqb] in *.
  - eapply subtest_seen_through in Hsee as (rs & w' & Hrun & Hsee'); [|exact Hm].
    rewrite (bind_step _ _ _ _ _ Hrun). eauto.
  - eapply subtest_seen_through in Hsee as (rs & w' & Hrun & Hsee'); [|exact Hr].
    rewrite (bind_step _ _ _ _ _ Hrun). eauto.
Qed.

End PsdTests.

Lemma psd_file_names_differ (d : desk) (subject : string) :
  Psd.practice_output_filename d subject <> Psd.test_output_filename d subject /\
  Psd.musicality_psd_filename d subject <> Psd.practice_output_filename d subject /\
  Psd.musicality_psd_filename d subject <> Psd.test_output_filename d subject.
Proof.
  unfold Psd.practice_output_filename, Psd.test_output_filename,
    Psd.musicality_psd_filename. cbn. repeat split; discriminate.
Qed.

(** What a session of [musical_ear_psd.py] that runs to its end has
    done. *)
Lemma psd_session_account (d : desk) (participant_info : gmap string string)
    (melody rhythm : list string * list string) (practice test subject : string)
    (w w' : world) :
  participant_info !! "Subject_ID" = Some subject ->
  participant_info !! "cur_date" = Some (cur_date d) ->
  participant_info !! "experiment" = None ->
  practice <> test ->
  Psd.session d participant_info melody rhythm practice test w = (Ret tt, w') ->
  let first := if shuffled d then rhythm else melody in
  let second := if shuffled d then melody else rhythm in
  let rows := rows "" subject (cur_date d) in
  exists (p1 s1 p2 s2 : list Result.t) (before : list (Z * event)) (t_result t_end : Z)
         (end_text : string),
    map header p1 = numbered "practice" (fst first) /\
    map header s1 = numbered "test" (snd first) /\
    map header p2 = numbered "practice" (fst second) /\
    map header s2 = numbered "test" (snd second) /\
    Forall (fun r => Result.type r = if shuffled d then "rhythm" else "melody")
      (p1 ++ s1)%list /\
    Forall (fun r => Result.type r = if shuffled d then "melody" else "rhythm")
      (p2 ++ s2)%list /\
    files w' !! practice = Some (csv_header false ++ rows (p1 ++ p2)%list) /\
    files w' !! test = Some (csv_header false ++ rows (s1 ++ s2)%list) /\
    (forall path, path <> practice -> path <> test -> files w' !! path = files w !! path) /\
    handles w' = handles w /\
    Psd.instruction_texts !! "end" = Some end_text /\
    trace w' =
      (before ++
       [(t_result,
         EvInstructions
           (Psd.result_text
              (hits (if shuffled d then s2 else s1)) (Z.of_nat (length (snd melody)))
              (hits (if shuffled d then s1 else s2)) (Z.of_nat (length (snd rhythm)))));
        (t_end, EvInstructions end_text)])%list.
Proof.
  intros Hs Hd He Hne H first second rows0.
  unfold Psd.session in H. cbv zeta in H.
  apply bind_Ret in H as (u & w1 & Hhead & H).
  cbn [for_each] in Hhead.
  rewrite (bind_step _ _ _ _ _ (with_open_write_write _ _ _)) in Hhead.
  rewrite (bind_step _ _ _ _ _ (with_open_write_write _ _ _)) in Hhead.
  unfold ret in Hhead. injection Hhead as _ <-.
  apply bind_Ret in H as (counts & w2 & Hrun & H).
  apply bind_Ret in H as (text & w2' & Htext & H).
  apply bind_Ret in H as (u' & w3 & Hshow & H).
  apply bind_Ret in H as (end_text & w3' & Hend & H).
  apply getitem_Ret in Hend as [Hend ->].
  apply display_instructions_Ret in Hshow as (dt1 & rest1 & _ & ->).
  apply display_instructions_Ret in H as (dt2 & rest2 & _ & ->).
  cbn [files handles trace now].
  assert (Htests : exists t1 t2,
            shuffle (shuffled d) ["melody"; "rhythm"] = [t1; t2] /\
            (t1 = "melody" \/ t1 = "rhythm") /\ (t2 = "melody" \/ t2 = "rhythm") /\
            t1 = (if shuffled d then "rhythm" else "melody") /\
            t2 = (if shuffled d then "melody" else "rhythm")).
  { unfold shuffle. destruct (shuffled d); eexists _, _; (split; [reflexivity|]); auto. }
  destruct Htests as (t1 & t2 & Hsh & Ht1 & Ht2 & Et1 & Et2). rewrite Hsh in Hrun.
  cbn [for_enumerate] in Hrun.
  apply bind_Ret in Hrun as (counts1 & wa & Hrun1 & Hrun).
  apply bind_Ret in Hrun as (counts2 & wb & Hrun2 & Hrun). injection Hrun as <- <-.
  apply psd_run_test_account in Hrun1
    as (p1 & s1 & Hp1 & Hs1 & Hty1 & Hfs1 & Hh1 & ->); [|exact Ht1].
  apply psd_run_test_account in Hrun2
    as (p2 & s2 & Hp2 & Hs2 & Hty2 & Hfs2 & Hh2 & ->); [|exact Ht2].
  cbn [fst snd] in Htext.
  exists p1, s1, p2, s2, (trace w2'), (now w2'), (now w2' + dt1), end_text. subst t1 t2.
  assert (E1 : (if String.eqb (if shuffled d then "rhythm" else "melody") "melody"
                then (fst melody, snd melody) else (fst rhythm, snd rhythm)) = first).
  { subst first. destruct (shuffled d), melody, rhythm; reflexivity. }
  assert (E2 : (if String.eqb (if shuffled d then "melody" else "rhythm") "melody"
                then (fst melody, snd melody) else (fst rhythm, snd rhythm)) = second).
  { subst second. destruct (shuffled d), melody, rhythm; reflexivity. }
  rewrite E1 in Hp1, Hs1, Htext. rewrite E2 in Hp2, Hs2, Htext.
  split; [exact Hp1|]. split; [exact Hs1|]. split; [exact Hp2|]. split; [exact Hs2|].
  split; [exact Hty1|]. split; [exact Hty2|].
  assert (Htext' : text = Psd.result_text
              (hits (if shuffled d then s2 else s1)) (Z.of_nat (length (snd melody)))
              (hits (if shuffled d then s1 else s2)) (Z.of_nat (length (snd rhythm))) /\
            w2' = wb).
  { unfold Psd.correct_responses_text in Htext.
    apply bind_Ret in Htext as (a & x1 & Ha & Htext). apply getitem_int_Ret in Ha as [Ha ->].
    apply bind_Ret in Htext as (b & x2 & Hb & Htext). apply getitem_int_Ret in Hb as [Hb ->].
    apply bind_Ret in Htext as (c & x3 & Hc & Htext). apply getitem_int_Ret in Hc as [Hc ->].
    apply bind_Ret in Htext as (e & x4 & Hx & Htext). apply getitem_int_Ret in Hx as [Hx ->].
    injection Htext as <- <-. split; [|reflexivity].
    subst first second. destruct (shuffled d); cbn [String.append] in *;
      repeat (rewrite lookup_insert_eq in Ha || rewrite lookup_insert_ne in Ha by discriminate);
      repeat (rewrite lookup_insert_eq in Hb || rewrite lookup_insert_ne in Hb by discriminate);
      repeat (rewrite lookup_insert_eq in Hc || rewrite lookup_insert_ne in Hc by discriminate);
      repeat (rewrite lookup_insert_eq in Hx || rewrite lookup_insert_ne in Hx by discriminate);
      congruence. }
  destruct Htext' as [-> ->].
  rewrite Hfs2, Hfs1.
  rewrite (ledger_row_entries participant_info false (cur_date d) subject Hs Hd He).
  destruct (overwritten_files test (csv_header false)
              (overwritten practice (csv_header false) w)) as (-> & Hho & _).
  destruct (overwritten_files practice (csv_header false) w) as (-> & Hho' & _).
  pose proof (fun path =>
    two_ledgers practice test (csv_header false)
      (format_row "" subject (cur_date d)) (files w) p1 s1 p2 s2 path Hne
      (header_phase _ _ _ Hp1) (header_phase _ _ _ Hs1)
      (header_phase _ _ _ Hp2) (header_phase _ _ _ Hs2)) as Hled.
  cbv zeta in Hled.
  split; [exact (proj1 (Hled "")) |]. split; [exact (proj1 (proj2 (Hled "")))|].
  split; [intros path; exact (proj2 (proj2 (Hled path)))|].
  split; [congruence|]. split; [exact Hend|].
  by rewrite <- app_assoc.
Qed.

Lemma correct_responses_text_returns (counts : gmap string Z * gmap string Z) (w : world) :
  counted counts -> exists text, Psd.correct_responses_text counts w = (Ret text, w).
Proof.
  intros ([a Ha] & [b Hb] & [c Hc] & [e He]). unfold Psd.correct_responses_text.
  destruct counts as [correct_responses number_trials]. cbn [fst snd] in *.
  unfold bind, getitem_int. rewrite Ha, Hb, Hc, He. eexists. reflexivity.
Qed.

Lemma psd_session_completes (d : desk) (participant_info : gmap string string)
    (melody rhythm : list string * list string)
    (practice test subject cur_date : string) (w : world) :
  participant_info !! "Subject_ID" = Some subject ->
  participant_info !! "cur_date" = Some cur_date ->
  keywaits w <> [] ->
  sees_through (if shuffled d then [rhythm; melody] else [melody; rhythm]) 2
    (scripts w) (tail (keywaits w)) ->
  exists w', Psd.session d participant_info melody rhythm practice test w = (Ret tt, w').
Proof.
  intros Hs Hd Hk Hsee. unfold Psd.session. cbv zeta.
  cbn [for_each].
  erewrite bind_step;
    [|erewrite bind_step by apply with_open_write_write;
      erewrite bind_step by apply with_open_write_write; reflexivity].
  set (w1 := overwritten _ _ (overwritten _ _ w)).
  set (init := (<["melody":=0]> (<["rhythm":=0]> ∅), <["melody_trials":=0]> (<["rhythm_trials":=0]> ∅))
               : gmap string Z * gmap string Z).
  assert (Hinit : counted init).
  { unfold counted, init. cbn [fst snd]. rewrite !lookup_insert_is_Some. naive_solver. }
  assert (Hc : forall t, t = "melody" \/ t = "rhythm" ->
             configured t Psd.instruction_texts participant_info false).
  { intros t Ht. eapply psd_texts_configured; eassumption. }
  assert (Hrun : exists counts w2,
            for_enumerate
              (Psd.run_test practice test Psd.base_image_path participant_info
                 (fst melody) (snd melody) (fst rhythm) (snd rhythm))
              0 (shuffle (shuffled d) ["melody"; "rhythm"]) init w1 = (Ret counts, w2) /\
            counted counts /\ (2 <= length (keywaits w2))%nat).
  { unfold shuffle.
    assert (Hfirst : forall t1 t2 first second,
              t1 = "melody" \/ t1 = "rhythm" -> t2 = "melody" \/ t2 = "rhythm" ->
              (if String.eqb t1 "melody" then (fst melody, snd melody)
               else (fst rhythm, snd rhythm)) = first ->
              (if String.eqb t2 "melody" then (fst melody, snd melody)
               else (fst rhythm, snd rhythm)) = second ->
              sees_through [first; second] 2 (scripts w) (tail (keywaits w)) ->
              exists counts w2,
                for_enumerate
                  (Psd.run_test practice test Psd.base_image_path participant_info
                     (fst melody) (snd melody) (fst rhythm) (snd rhythm))
                  0 [t1; t2] init w1 = (Ret counts, w2) /\
                counted counts /\ (2 <= length (keywaits w2))%nat).
    { intros t1 t2 [ex1 te1] [ex2 te2] Ht1 Ht2 E1 E2 Hsee'. cbn [for_enumerate].
      destruct (psd_run_test_seen_through practice test Psd.base_image_path
                  participant_info (fst melody) (snd melody) (fst rhythm) (snd rhythm)
                  init 0 t1 w1 [(ex2, te2)] 2%nat Ht1
                  (Hc _ (or_introl eq_refl)) (Hc _ (or_intror eq_refl)) Hk)
        as (counts1 & wa & Hrun1 & Hsee1).
      { rewrite E1. exact Hsee'. }
      assert (Hka : keywaits wa <> []).
      { destruct Hsee1 as (_ & _ & _ & Hlen & _).
        destruct (keywaits wa); [simpl in Hlen; lia | done]. }
      destruct (psd_run_test_seen_through practice test Psd.base_image_path
                  participant_info (fst melody) (snd melody) (fst rhythm) (snd rhythm)
                  counts1 (0 + 1) t2 wa [] 2%nat Ht2
                  (Hc _ (or_introl eq_refl)) (Hc _ (or_intror eq_refl)) Hka)
        as (counts2 & wb & Hrun2 & Hsee2).
      { rewrite E2. exact Hsee1. }
      exists counts2, wb.
      rewrite (bind_step _ _ _ _ _ Hrun1), (bind_step _ _ _ _ _ Hrun2).
      split; [reflexivity|]. split; [|exact Hsee2].
      eapply psd_run_test_counted; [|exact Hrun2].
      eapply psd_run_test_counted; [exact Hinit | exact Hrun1]. }
    destruct (shuffled d), melody as [mex mte], rhythm as [rex rte];
      eapply Hfirst; eauto. }
  destruct Hrun as (counts & w2 & Hrun & Hcounted & Hk2).
  rewrite (bind_step _ _ _ _ _ Hrun).
  destruct (correct_responses_text_returns counts w2 Hcounted) as [text Htext].
  rewrite (bind_step _ _ _ _ _ Htext).
  destruct (display_instructions_returns text w2) as [w3 Hshow].
  { destruct (keywaits w2); [simpl in Hk2; lia | done]. }
  rewrite (bind_step _ _ _ _ _ Hshow).
  erewrite getitem_step by (vm_compute; reflexivity).
  apply display_instructions_returns.
  apply display_instructions_Ret, instructed_frame in Hshow as (_ & Hk3 & _).
  rewrite Hk3. destruct (keywaits w2) as [|dt [|dt' kw]]; simpl in Hk2; [lia..|done].
Qed.

(** Start-up that goes through writes the questionnaire file and hands
    over to the session. *)
Lemma psd_main_session (d : desk) (folders folders' : gset string) (w : world)
    (subject : string) (data : gmap string answer)
    (melody rhythm : list string * list string) :
  check_paths (creatable d) Psd.base_audio_path Psd.base_image_path Psd.results_path
    folders = (None, folders') ->
  dialog d = Some subject ->
  show_questionnaire questions (replies d) = Completes data ->
  load_audio_files Psd.base_audio_path "melody" (listing d) = Ok melody ->
  load_audio_files Psd.base_audio_path "rhythm" (listing d) = Ok rhythm ->
  exists participant_info w1,
    participant_info !! "Subject_ID" = Some subject /\
    participant_info !! "cur_date" = Some (cur_date d) /\
    scripts w1 = scripts w /\ keywaits w1 = keywaits w /\
    Psd.main d (folders, w) =
    in_world (Psd.session d participant_info melody rhythm
                (Psd.practice_output_filename d subject)
                (Psd.test_output_filename d subject)) (folders', w1).
Proof.
  intros Hcp Hdlg Hq Hm Hr.
  destruct (get_participant_info_entries false (cur_date d) subject)
    as (participant_info & Hinfo & Hs & Hd & He).
  destruct (questionnaire_texts_written _ _ _ _ _ Hq Hs Hd) as (responses & _ & Htexts).
  match type of Htexts with _ = (?texts, _) =>
    destruct (with_open_write_each (Psd.musicality_psd_filename d subject) texts w)
      as (w1 & Hw1 & _ & _ & Hsc & Hkw & _) end.
  exists participant_info, w1. split; [exact Hs|]. split; [exact Hd|].
  split; [exact Hsc|]. split; [exact Hkw|].
  unfold Psd.main, pbind at 1, on_folders. cbn [fst snd]. rewrite Hcp.
  rewrite Hdlg, Hinfo. unfold pbind at 1, of_ending at 1.
  rewrite Hq. unfold pbind at 1, of_ending at 1.
  rewrite Hm. unfold pbind at 1, of_res at 1, of_ending at 1.
  rewrite Hr. unfold pbind at 1, of_res at 1, of_ending at 1.
  unfold pbind at 1, in_world at 1. cbn [fst snd].
  rewrite (psd_file_names d participant_info subject w Hs), Htexts.
  unfold pbind at 1, in_world at 1. cbn [fst snd]. rewrite Hw1.
  reflexivity.
Qed.

Lemma sample_desk_loads_psd :
  load_audio_files Psd.base_audio_path "melody" (listing sample_desk) =
    Ok (["psd_audio/melody_example1_identical.wav"],
        ["psd_audio/melody_test01_different.wav"]) /\
  load_audio_files Psd.base_audio_path "rhythm" (listing sample_desk) =
    Ok (["psd_audio/rhythm_example1_different.wav"],
        ["psd_audio/rhythm_test01_identical.wav"]).
Proof. split; vm_compute; reflexivity. Qed.

Lemma sample_psd_run :
  exists w',
    Psd.main sample_desk ({["psd_audio"]}, sample_session_world) =
    (Completes tt, ({["psd_results"]} ∪ ({["pics"]} ∪ {["psd_audio"]}), w')).
Proof.
  destruct sample_desk_loads_psd as [Hm Hr].
  destruct sample_questionnaire_completes as [data Hq].
  assert (Ha : Psd.base_audio_path ∈ ({["psd_audio"]} : gset string)) by set_solver.
  pose proof (check_paths_returns (creatable sample_desk) _ Psd.base_image_path
                Psd.results_path _ Ha (or_intror eq_refl) (or_intror eq_refl)) as Hcp.
  destruct (psd_main_session sample_desk {["psd_audio"]} _ sample_session_world "s01"
              data _ _ Hcp eq_refl Hq Hm Hr)
    as (participant_info & w1 & Hs & Hd & Hsc & Hkw & ->).
  destruct (psd_session_completes sample_desk participant_info
              (["psd_audio/melody_example1_identical.wav"],
               ["psd_audio/melody_test01_different.wav"])
              (["psd_audio/rhythm_example1_different.wav"],
               ["psd_audio/rhythm_test01_identical.wav"])
              (Psd.practice_output_filename sample_desk "s01")
              (Psd.test_output_filename sample_desk "s01") _ _ w1 Hs Hd)
    as [w' Hrun].
  { rewrite Hkw. discriminate. }
  { rewrite Hsc, Hkw. apply sample_seen_through. lia. }
  exists w'. unfold in_world. cbn [fst snd]. by rewrite Hrun.
Qed.

(** X17.  When [main] of [musical_ear_psd.py] runs to its end it
    leaves three files.  The questionnaire file holds two lines: the
    column names [Subject_ID], [Date] and the labels of the questions,
    then the subject id, the date and one value per answer.  The two
    ledgers hold their header line, which has no [experiment] column,
    followed by one row per trial: the practice ledger the rows of the
    practice trials of the first sub-test, then of the second; the test
    ledger those of the scored trials, in the same order; every row
    starts with the subject id and the date.  What the three paths held
    before is gone, no other file is touched, and no handle is left
    open. *)
Theorem psd_main_files (d : desk) (folders folders' : gset string) (w w' : world) :
  Psd.main d (folders, w) = (Completes tt, (folders', w')) ->
  exists (subject : string) (data : gmap string answer) (responses : list answer)
         (melody rhythm : list string * list string) (p1 s1 p2 s2 : list Result.t),
    dialog d = Some subject /\
    show_questionnaire questions (replies d) = Completes data /\
    Forall2 (fun q response => data !! Question.label q = Some response)
      questions responses /\
    load_audio_files "psd_audio" "melody" (listing d) = Ok melody /\
    load_audio_files "psd_audio" "rhythm" (listing d) = Ok rhythm /\
    let first := if shuffled d then rhythm else melody in
    let second := if shuffled d then melody else rhythm in
    let practice := Psd.practice_output_filename d subject in
    let test := Psd.test_output_filename d subject in
    let musicality := Psd.musicality_psd_filename d subject in
    let rows := rows "" subject (cur_date d) in
    map header p1 = numbered "practice" (fst first) /\
    map header s1 = numbered "test" (snd first) /\
    map header p2 = numbered "practice" (fst second) /\
    map header s2 = numbered "test" (snd second) /\
    files w' !! musicality =
      Some (("Subject_ID,Date" ++
             String.concat "" (map (fun v => "," ++ v) (map Question.label questions))) ++
            newline ++
            (subject ++ "," ++ cur_date d ++
             String.concat "" (map (fun v => "," ++ v) (map cell_value responses))) ++
            newline) /\
    files w' !! practice = Some (csv_header false ++ rows (p1 ++ p2)%list) /\
    files w' !! test = Some (csv_header false ++ rows (s1 ++ s2)%list) /\
    (forall path, path <> practice -> path <> test -> path <> musicality ->
       files w' !! path = files w !! path) /\
    handles w' = handles w.
Proof.
  intros H. apply psd_main_started in H as [(e' & [=] & _) | [([=] & _) | H]].
  destruct H as (subject & participant_info & data & melody & rhythm & texts & w1 &
                 _ & Hdlg & Hs & Hd & He & Hq & Hm & Hr & Htexts & Hw1 & H).
  cbn [fst snd] in *.
  apply in_world_ending in H as (_ & Hw' & H). cbn [fst snd] in H, Hw'.
  destruct (Psd.session d participant_info melody rhythm _ _ w1) as [[[] | e' |] w''] eqn:Hrun;
    try discriminate.
  cbn [snd] in Hw'. subst w''.
  destruct (questionnaire_texts_written _ _ _ _ _ Hq Hs Hd) as (responses & Hall & Htexts').
  rewrite Htexts' in Htexts. apply (f_equal fst) in Htexts. cbn [fst] in Htexts.
  subst texts.
  match type of Hw1 with with_open_write _ (for_each _ ?texts) _ = _ =>
    destruct (with_open_write_each (Psd.musicality_psd_filename d subject) texts w)
      as (w1' & Hw1' & Hfs1 & Hh1 & _) end.
  rewrite Hw1 in Hw1'. injection Hw1' as <-.
  destruct (psd_file_names_differ d subject) as (Hne & Hmp & Hmt).
  destruct (psd_session_account d participant_info melody rhythm _ _ subject w1 w'
              Hs Hd He Hne Hrun)
    as (p1 & s1 & p2 & s2 & before & t_result & t_end & end_text &
        Hp1 & Hs1 & Hp2 & Hs2 & _ & _ & Hfp & Hft & Hother & Hh & _).
  exists subject, data, responses, melody, rhythm, p1, s1, p2, s2.
  split; [exact Hdlg|]. split; [exact Hq|]. split; [exact Hall|].
  split; [exact Hm|]. split; [exact Hr|]. cbv zeta.
  split; [exact Hp1|]. split; [exact Hs1|]. split; [exact Hp2|]. split; [exact Hs2|].
  split.
  { rewrite Hother by done. rewrite Hfs1, lookup_insert_eq. f_equal.
    apply questionnaire_lines. }
  split; [exact Hfp|]. split; [exact Hft|].
  split; [|congruence].
  intros path H1 H2 H3. rewrite Hother by done. rewrite Hfs1. by apply lookup_insert_ne.
Qed.

Lemma psd_main_files_witness :
  exists (w' : world) (responses : list answer) (p1 s1 p2 s2 : list Result.t),
    Psd.main sample_desk ({["psd_audio"]}, sample_session_world) =
      (Completes tt, ({["psd_results"]} ∪ ({["pics"]} ∪ {["psd_audio"]}), w')) /\
    files w' !! "psd_results/musicality_PSD_s01_20230506_100003.csv" =
      Some (("Subject_ID,Date" ++
             String.concat "" (map (fun v => "," ++ v) (map Question.label questions))) ++
            newline ++
            ("s01" ++ "," ++ "2023-05-06 10:00" ++
             String.concat "" (map (fun v => "," ++ v) (map cell_value responses))) ++
            newline) /\
    files w' !! "psd_results/practice_results_s01_20230506_100001.csv" =
      Some (csv_header false ++ rows "" "s01" "2023-05-06 10:00" (p1 ++ p2)%list) /\
    files w' !! "psd_results/test_results_s01_20230506_100002.csv" =
      Some (csv_header false ++ rows "" "s01" "2023-05-06 10:00" (s1 ++ s2)%list).
Proof.
  destruct sample_psd_run as [w' Hrun].
  destruct (psd_main_files sample_desk _ _ _ _ Hrun)
    as (subject & data & responses & melody & rhythm & p1 & s1 & p2 & s2 &
        Hdlg & _ & _ & _ & _ & H).
  injection Hdlg as <-.
  destruct H as (_ & _ & _ & _ & Hfm & Hfp & Hft & _).
  exists w', responses, p1, s1, p2, s2. split; [exact Hrun|].
  split; [exact Hfm|]. split; [exact Hfp | exact Hft].
Defined.

(** X18.  The result screen of [musical_ear_psd.py].  When [main] runs
    to its end, the last two screens are the result screen and the end
    instruction.  The result screen gives, for the melody test and for
    the rhythm test whichever ran first, the number of scored trials
    answered with the ground truth of their stimulus, out of the number
    of test files: no practice trial counts, a window that ran out
    counts as wrong, and the count lies between 0 and the number of
    files.  The trials counted are those whose rows are in the test
    ledger. *)
Theorem psd_main_result_screen (d : desk) (folders folders' : gset string) (w w' : world) :
  Psd.main d (folders, w) = (Completes tt, (folders', w')) ->
  exists (subject : string) (melody rhythm : list string * list string)
         (scored_melody scored_rhythm : list Result.t)
         (before : list (Z * event)) (t_result t_end : Z) (end_text : string),
    dialog d = Some subject /\
    load_audio_files "psd_audio" "melody" (listing d) = Ok melody /\
    load_audio_files "psd_audio" "rhythm" (listing d) = Ok rhythm /\
    map header scored_melody = numbered "test" (snd melody) /\
    map header scored_rhythm = numbered "test" (snd rhythm) /\
    files w' !! Psd.test_output_filename d subject =
      Some (csv_header false ++
            rows "" subject (cur_date d)
              (if shuffled d then scored_rhythm ++ scored_melody
               else scored_melody ++ scored_rhythm)%list) /\
    Psd.instruction_texts !! "end" = Some end_text /\
    trace w' =
      (before ++
       [(t_result,
         EvInstructions
           (Psd.result_text
              (hits scored_melody) (Z.of_nat (length (snd melody)))
              (hits scored_rhythm) (Z.of_nat (length (snd rhythm)))));
        (t_end, EvInstructions end_text)])%list /\
    0 <= hits scored_melody <= Z.of_nat (length (snd melody)) /\
    0 <= hits scored_rhythm <= Z.of_nat (length (snd rhythm)).
Proof.
  intros H. apply psd_main_started in H as [(e' & [=] & _) | [([=] & _) | H]].
  destruct H as (subject & participant_info & data & melody & rhythm & texts & w1 &
                 _ & Hdlg & Hs & Hd & He & Hq & Hm & Hr & Htexts & Hw1 & H).
  cbn [fst snd] in *.
  apply in_world_ending in H as (_ & Hw' & H). cbn [fst snd] in H, Hw'.
  destruct (Psd.session d participant_info melody rhythm _ _ w1) as [[[] | e' |] w''] eqn:Hrun;
    try discriminate.
  cbn [snd] in Hw'. subst w''.
  destruct (psd_file_names_differ d subject) as (Hne & _).
  destruct (psd_session_account d participant_info melody rhythm _ _ subject w1 w'
              Hs Hd He Hne Hrun)
    as (p1 & s1 & p2 & s2 & before & t_result & t_end & end_text &
        _ & Hs1 & _ & Hs2 & _ & _ & _ & Hft & _ & _ & Hend & Htr).
  exists subject, melody, rhythm,
    (if shuffled d then s2 else s1), (if shuffled d then s1 else s2),
    before, t_result, t_end, end_text.
  split; [exact Hdlg|]. split; [exact Hm|]. split; [exact Hr|].
  assert (Hlen : forall l rs, map header rs = numbered "test" l -> length rs = length l).
  { intros l rs E. apply (f_equal length) in E. unfold numbered in E.
    by rewrite length_map, length_imap in E. }
  split; [by destruct (shuffled d)|]. split; [by destruct (shuffled d)|].
  split; [by destruct (shuffled d)|]. split; [exact Hend|]. split; [exact Htr|].
  split.
  - pose proof (hits_bounds (if shuffled d then s2 else s1)) as Hb.
    rewrite (Hlen (snd melody)) in Hb by (by destruct (shuffled d)). exact Hb.
  - pose proof (hits_bounds (if shuffled d then s1 else s2)) as Hb.
    rewrite (Hlen (snd rhythm)) in Hb by (by destruct (shuffled d)). exact Hb.
Qed.

Lemma psd_main_result_screen_witness :
  exists (w' : world) (scored_melody scored_rhythm : list Result.t)
         (before : list (Z * event)) (t_result t_end : Z) (end_text : string),
    Psd.main sample_desk ({["psd_audio"]}, sample_session_world) =
      (Completes tt, ({["psd_results"]} ∪ ({["pics"]} ∪ {["psd_audio"]}), w')) /\
    map header scored_melody = [(1, "test", "psd_audio/melody_test01_different.wav")] /\
    map header scored_rhythm = [(1, "test", "psd_audio/rhythm_test01_identical.wav")] /\
    trace w' =
      (before ++
       [(t_result,
         EvInstructions (Psd.result_text (hits scored_melody) 1 (hits scored_rhythm) 1));
        (t_end, EvInstructions end_text)])%list /\
    0 <= hits scored_melody <= 1 /\ 0 <= hits scored_rhythm <= 1.
Proof.
  destruct sample_psd_run as [w' Hrun]. destruct sample_desk_loads_psd as [Hlm Hlr].
  destruct (psd_main_result_screen sample_desk _ _ _ _ Hrun)
    as (subject & melody & rhythm & sm & sr & before & t_result & t_end & end_text &
        _ & Hm & Hr & H).
  change "psd_audio" with Psd.base_audio_path in Hm, Hr.
  rewrite Hlm in Hm. rewrite Hlr in Hr. injection Hm as <-. injection Hr as <-.
  destruct H as (Hsm & Hsr & _ & _ & Htr & Hbm & Hbr).
  exists w', sm, sr, before, t_result, t_end, end_text. split; [exact Hrun|].
  split; [exact Hsm|]. split; [exact Hsr|]. split; [exact Htr|].
  split; [exact Hbm | exact Hbr].
Defined.

(** * Worked examples *)

Example split_underscore :
  Py.split "audio/melody_test03_different.wav" "_" =
  ["audio/melody"; "test03"; "different.wav"].
Proof. reflexivity. Qed.

Example split_longer_separator :
  Py.split "a_test_testb_test" "_test" = ["a"; ""; "b"; ""].
Proof. reflexivity. Qed.

Example findall_digit_runs : Py.findall_digits "03_x12y" = ["03"; "12"].
Proof. reflexivity. Qed.

Example format_02d_values :
  map Py.format_02d [0; 7; 42; 123; -5] = ["00"; "07"; "42"; "123"; "-5"].
Proof. reflexivity. Qed.

Example insert_clamps :
  Py.insert [1; 2; 3] 7 9 = [1; 2; 3; 9] /\ Py.insert [1; 2; 3] (-1) 9 = [1; 2; 9; 3].
Proof. split; reflexivity. Qed.

(** Scenario A: [melody_test03_different.wav] answered "different". *)
Example scenario_different_answered :
  accuracy "no" (correct_answer "audio/melody_test03_different.wav") = 1.
Proof. reflexivity. Qed.

(** Scenario B: [rhythm_test07_identical.wav] with no key before the
    window closes. *)
Example scenario_identical_missed :
  accuracy "NA" (correct_answer "audio/rhythm_test07_identical.wav") = 99.
Proof. reflexivity. Qed.
